(** * Identifier allocation, repositories and HTTP boundary of the
      planning application, embedded from [server/storage.ts],
      [server/routes.ts] and [shared/schema.ts].

    The development follows the layering of the program:
    - [JS]: the JavaScript primitives the code relies on (strings,
      [parseInt], [padStart], truthiness, object spread);
    - [Pg]: the relational engine behind [db] and [pool] (tables, serial
      keys, NOT NULL and UNIQUE constraints, failing connections), with
      the query builder, which names columns by the properties of the
      schema, and the driver, which names them as the database does;
    - [MemStorage] and [DatabaseStorage]: the two implementations of the
      [IStorage] interface;
    - [Routes]: the handlers of the HTTP boundary, written once over the
      interface. *)

From Stdlib Require Import ZArith Ascii String List Lia QArith Qcanon.
From stdpp Require Import base option numbers gmap strings list.

Local Open Scope Z_scope.

(** ** JavaScript primitives *)

Module JS.

(** *** Strings *)

(** [s.startsWith(p)] *)
Definition startsWith (s p : string) : bool := String.prefix p s.

(** [s.substring(n)]: the string without its first [n] characters. *)
Fixpoint substring (n : nat) (s : string) : string :=
  match n, s with
  | O, _ => s
  | S n', String _ s' => substring n' s'
  | S _, EmptyString => EmptyString
  end.

Fixpoint repeat_char (c : ascii) (n : nat) : string :=
  match n with
  | O => EmptyString
  | S n' => String c (repeat_char c n')
  end.

(** [s.padStart(width, c)] for a one-character filler [c]: a minimum
    width, longer strings are returned unchanged. *)
Definition padStart (width : nat) (c : ascii) (s : string) : string :=
  repeat_char c (width - String.length s) +:+ s.

(** *** Numbers printed and parsed

    Integers are carried as [Z]; a JavaScript number holds every integer
    of magnitude below [2^53] exactly, and prints it in plain decimal. *)

Definition MAX_SAFE_INTEGER : Z := 2 ^ 53 - 1.

Definition digit_char (d : Z) : ascii := ascii_of_nat (Z.to_nat (48 + d)).

Fixpoint decimal_go (fuel : nat) (n : Z) (acc : string) : string :=
  match fuel with
  | O => acc
  | S fuel' =>
      let acc' := String (digit_char (n mod 10)) acc in
      if n <? 10 then acc' else decimal_go fuel' (n / 10) acc'
  end.

(** Decimal digits of a non-negative integer, most significant first. *)
Definition decimal (n : Z) : string :=
  decimal_go (S (Z.to_nat (Z.log2 n))) n EmptyString.

(** [String(n)], [n.toString()] and the interpolation of [n] in a
    template literal, for an integer [n]. *)
Definition toString (n : Z) : string :=
  if n <? 0 then String "-" (decimal (- n)) else decimal n.

(** White space skipped by [parseInt] (the code units below 256). *)
Definition is_space (c : ascii) : bool :=
  let n := nat_of_ascii c in
  ((9 <=? n) && (n <=? 13) || (n =? 32) || (n =? 160))%nat.

(** Value of [c] as a digit of the given radix. *)
Definition digit_of (radix : Z) (c : ascii) : option Z :=
  let n := Z.of_nat (nat_of_ascii c) in
  let d := if (48 <=? n) && (n <=? 57) then n - 48
           else if (97 <=? n) && (n <=? 122) then n - 87
           else if (65 <=? n) && (n <=? 90) then n - 55
           else radix in
  if d <? radix then Some d else None.

(** Longest prefix of digits, read in the given radix; [None] when the
    prefix is empty. *)
Fixpoint read_digits (radix : Z) (s : string) (acc : Z) (seen : bool) : option Z :=
  match s with
  | String c s' =>
      match digit_of radix c with
      | Some d => read_digits radix s' (acc * radix + d) true
      | None => if seen then Some acc else None
      end
  | EmptyString => if seen then Some acc else None
  end.

Fixpoint trim_start (s : string) : string :=
  match s with
  | String c s' => if is_space c then trim_start s' else s
  | EmptyString => s
  end.

(** [parseInt(s)] without a radix: leading white space, an optional sign,
    an optional [0x] (then radix 16), and the longest run of digits.
    [None] is [NaN]. *)
Definition parseInt (s : string) : option Z :=
  let s1 := trim_start s in
  let (sign, s2) :=
    match s1 with
    | String c r =>
        if Ascii.eqb c "-" then (-1, r)
        else if Ascii.eqb c "+" then (1, r)
        else (1, s1)
    | EmptyString => (1, s1)
    end in
  let (radix, s3) :=
    match s2 with
    | String c (String x r) =>
        if Ascii.eqb c "0" && (Ascii.eqb x "x" || Ascii.eqb x "X")
        then (16, r) else (10, s2)
    | _ => (10, s2)
    end in
  match read_digits radix s3 0 false with
  | Some n => Some (sign * n)
  | None => None
  end.

(** *** Values and objects *)

(** A [Date] is carried as its epoch time together with the two fields of
    the local calendar that the code reads from it. *)
Record Date : Type := mkDate {
  getTime : Z;
  getFullYear : Z;
  getMonth : Z;
}.

(** Values held by request bodies, records and rows.  A number is carried
    as the rational it denotes (integers through [VInt]); [VNaN] is the
    number [NaN]. *)
#[warnings="-register-all"]
Inductive value : Type :=
  | VUndefined
  | VNull
  | VBool (b : bool)
  | VNaN
  | VNum (x : Qc)
  | VStr (s : string)
  | VDate (d : Date)
  | VArray (xs : list value)
  | VObject (fields : gmap string value).

(** An object is a finite map from property names to values. *)
Abbreviation obj := (gmap string value).

Definition VInt (n : Z) : value := VNum (Qc_of_Z n).

(** Truthiness, as tested by [if], [!], [&&] and [||]. *)
Definition truthy (v : value) : bool :=
  match v with
  | VUndefined | VNull | VNaN => false
  | VBool b => b
  | VNum x => negb (bool_decide (x = Qc_of_Z 0))
  | VStr s => negb (String.eqb s EmptyString)
  | VDate _ | VArray _ | VObject _ => true
  end.

(** [a || b] *)
Definition or_else (a b : value) : value := if truthy a then a else b.

(** [v !== undefined] *)
Definition defined (v : value) : bool :=
  match v with VUndefined => false | _ => true end.

(** [v === s] for a string literal [s]. *)
Definition is_string (v : value) (s : string) : bool :=
  match v with VStr s' => String.eqb s' s | _ => false end.

(** [v === n] for an integer [n]. *)
Definition is_int (v : value) (n : Z) : bool :=
  match v with VNum x => bool_decide (x = Qc_of_Z n) | _ => false end.

(** The sum of two doubles is their exact sum rounded to a double.  Of
    the rounding the development uses only that it leaves its own results
    and zero as they are. *)
Class Rounding : Type := {
  round : Qc -> Qc;
  round_idem : forall x, round (round x) = round x;
  round_zero : round (Qc_of_Z 0) = Qc_of_Z 0;
}.

(** [a + b] on numbers.  The records of the schema hold numbers where the
    code adds; JavaScript concatenates or converts any other operand,
    which is not modelled: such an operand yields [NaN] here, and the
    statements about sums ask for numbers. *)
Definition add {R : Rounding} (a b : value) : value :=
  match a, b with
  | VNum x, VNum y => VNum (round (x + y))
  | _, _ => VNaN
  end.

(** [o.k]: a missing property reads as [undefined]. *)
Definition prop (o : obj) (k : string) : value := default VUndefined (o !! k).

(** [{...a, ...b}]: the properties of [b] win. *)
Definition spread (a b : obj) : obj := b ∪ a.

(** [new Date(v)] for what the records hold as dates, given the host's
    parser: a [Date] is copied, a text is parsed, [undefined] gives an
    invalid date ([None]).  JavaScript reads a number, [null] or a boolean
    as a time value and turns an array or an object into a text first;
    these readings are not modelled, and the statements about dates ask
    for a [Date], a text or nothing, or for a date that reads as valid
    here. *)
Definition new_Date (parse : string -> option Date) (v : value) : option Date :=
  match v with
  | VDate d => Some d
  | VStr s => parse s
  | _ => None
  end.

(** *** [Map<number, V>]: insertion-ordered, one entry per key *)

Section JSMap.
Context {V : Type}.

Fixpoint map_get (m : list (Z * V)) (k : Z) : option V :=
  match m with
  | [] => None
  | (k', v) :: m' => if Z.eqb k' k then Some v else map_get m' k
  end.

(** [m.set(k, v)]: an existing key keeps its position. *)
Fixpoint map_set (m : list (Z * V)) (k : Z) (v : V) : list (Z * V) :=
  match m with
  | [] => [(k, v)]
  | (k', v') :: m' =>
      if Z.eqb k' k then (k, v) :: m' else (k', v') :: map_set m' k v
  end.

(** [m.delete(k)]: the new map and whether an entry was removed. *)
Fixpoint map_delete (m : list (Z * V)) (k : Z) : list (Z * V) * bool :=
  match m with
  | [] => ([], false)
  | (k', v') :: m' =>
      if Z.eqb k' k then (m', true)
      else let (m'', b) := map_delete m' k in ((k', v') :: m'', b)
  end.

(** [Array.from(m.values())] *)
Definition map_values (m : list (Z * V)) : list V := List.map snd m.
End JSMap.

End JS.

Import JS.

(** ** Failures and the shape of an asynchronous method *)

(** What a rejected promise carries. *)
Inductive error : Type :=
  | ConnectionError
  | SequenceExhausted
  | NotNullViolation (column : string)
  | UniqueViolation (column : string)
  | QueryError (message : string)
  | TypeError (message : string).

Inductive result (A : Type) : Type :=
  | Ok (a : A)
  | Throw (e : error).
Arguments Ok {A} a.
Arguments Throw {A} e.

(** What a call reads from its host: the clock of the server process
    ([new Date()]), the clock of the database ([NOW()]), and the date
    parser behind [new Date(text)] ([None]: an invalid date). *)
Record Clock : Type := mkClock {
  jsNow : Date;
  pgNow : Date;
  parseDate : string -> option Date;
}.

(** An [async] method over a store [S]: it reads the clocks, may change
    the store, and either returns or throws. *)
Definition M (S A : Type) : Type := Clock -> S -> result A * S.

Definition ret {S A} (a : A) : M S A := fun _ s => (Ok a, s).

Definition throw {S A} (e : error) : M S A := fun _ s => (Throw e, s).

Definition bind {S A B} (m : M S A) (k : A -> M S B) : M S B :=
  fun c s =>
    match m c s with
    | (Ok a, s') => k a c s'
    | (Throw e, s') => (Throw e, s')
    end.

(** [try { m } catch (error) { h }] *)
Definition try_catch {S A} (m : M S A) (h : error -> M S A) : M S A :=
  fun c s =>
    match m c s with
    | (Ok a, s') => (Ok a, s')
    | (Throw e, s') => h e c s'
    end.

Definition clock {S} : M S Clock := fun c s => (Ok c, s).
Definition get_state {S} : M S S := fun _ s => (Ok s, s).
Definition put_state {S} (s : S) : M S unit := fun _ _ => (Ok tt, s).

Declare Scope async_scope.
Delimit Scope async_scope with async.
Notation "'let*' x ':=' m 'in' k" := (bind m (fun x => k))
  (at level 10, x name, m at level 100, k at level 200) : async_scope.
Notation "m ';;' k" := (bind m (fun _ => k))
  (at level 100, k at level 200, right associativity) : async_scope.
Local Open Scope async_scope.

(** ** The relational engine behind [db] and [pool] *)

Module Pg.

(** The tables of [shared/schema.ts]. *)
Inductive table_name : Type :=
  | customers | materials | workOrders | invoices | projects.

Inductive default_expr : Type :=
  | NoDefault                    (* the column defaults to NULL *)
  | DefaultSerial                (* serial: next value of the sequence *)
  | DefaultNow                   (* defaultNow() *)
  | DefaultConst (v : value).    (* default(v) *)

(** The column types the schema uses. *)
Inductive column_type : Type :=
  | Serial | Text | Integer | Real | Timestamp | Jsonb.

(** [orderNumber: text("order_number").notNull().unique()] is the column
    of property [orderNumber], named [order_number] in the database. *)
Record column : Type := mkColumn {
  col_key : string;              (* property name of the column *)
  col_name : string;             (* name of the column in the database *)
  col_type : column_type;
  col_notnull : bool;
  col_unique : bool;
  col_default : default_expr;
}.

Definition serial (k name : string) := mkColumn k name Serial true false DefaultSerial.
Definition text (k name : string) := mkColumn k name Text false false NoDefault.
Definition integer (k name : string) := mkColumn k name Integer false false NoDefault.
Definition real (k name : string) := mkColumn k name Real false false NoDefault.
Definition timestamp (k name : string) := mkColumn k name Timestamp false false NoDefault.
Definition jsonb (k name : string) := mkColumn k name Jsonb false false NoDefault.

Definition primaryKey (c : column) :=
  mkColumn (col_key c) (col_name c) (col_type c) true true (col_default c).
Definition notNull (c : column) :=
  mkColumn (col_key c) (col_name c) (col_type c) true (col_unique c) (col_default c).
Definition unique (c : column) :=
  mkColumn (col_key c) (col_name c) (col_type c) (col_notnull c) true (col_default c).
Definition withDefault (v : value) (c : column) :=
  mkColumn (col_key c) (col_name c) (col_type c) (col_notnull c) (col_unique c)
           (DefaultConst v).
Definition defaultNow (c : column) :=
  mkColumn (col_key c) (col_name c) (col_type c) (col_notnull c) (col_unique c)
           DefaultNow.

Definition schema (t : table_name) : list column :=
  match t with
  | customers =>
      [ primaryKey (serial "id" "id");
        notNull (text "customerNumber" "customer_number");
        notNull (text "name" "name");
        notNull (text "type" "type");
        notNull (text "street" "street");
        notNull (text "postalCode" "postal_code");
        notNull (text "city" "city");
        text "email" "email";
        text "phone" "phone";
        notNull (withDefault (VStr "Actief") (text "status" "status"));
        notNull (defaultNow (timestamp "createdAt" "created_at")) ]
  | materials =>
      [ primaryKey (serial "id" "id");
        unique (notNull (text "articleNumber" "article_number"));
        notNull (text "name" "name");
        text "brand" "brand";
        notNull (text "category" "category");
        notNull (real "price" "price");
        withDefault (VInt 0) (integer "stock" "stock");
        withDefault (VInt 0) (integer "minStock" "min_stock");
        text "supplier" "supplier";
        notNull (defaultNow (timestamp "createdAt" "created_at")) ]
  | workOrders =>
      [ primaryKey (serial "id" "id");
        unique (notNull (text "orderNumber" "order_number"));
        notNull (text "title" "title");
        text "description" "description";
        notNull (integer "customerId" "customer_id");
        notNull (timestamp "date" "date");
        notNull (withDefault (VStr "Ingepland") (text "status" "status"));
        withDefault (VInt 0) (real "laborHours" "labor_hours");
        text "notes" "notes";
        jsonb "materials" "materials";
        jsonb "photos" "photos";
        notNull (defaultNow (timestamp "createdAt" "created_at")) ]
  | invoices =>
      [ primaryKey (serial "id" "id");
        unique (notNull (text "invoiceNumber" "invoice_number"));
        notNull (integer "customerId" "customer_id");
        integer "workOrderId" "work_order_id";
        notNull (timestamp "date" "date");
        notNull (timestamp "dueDate" "due_date");
        notNull (real "amount" "amount");
        notNull (withDefault (VStr "Concept") (text "status" "status"));
        jsonb "items" "items";
        notNull (defaultNow (timestamp "createdAt" "created_at")) ]
  | projects =>
      [ primaryKey (serial "id" "id");
        notNull (text "title" "title");
        text "description" "description";
        notNull (integer "customerId" "customer_id");
        notNull (timestamp "startDate" "start_date");
        timestamp "endDate" "end_date";
        withDefault (VInt 0) (integer "progress" "progress");
        notNull (withDefault (VStr "Gepland") (text "status" "status"));
        jsonb "workOrders" "work_orders";
        notNull (defaultNow (timestamp "createdAt" "created_at")) ]
  end.

(** A table: its rows in insertion order, each held under the property
    names of the schema, and the last value handed out by the sequence of
    its serial key. *)
Record table : Type := mkTable {
  rows : list obj;
  last_serial : Z;
}.

Record Db : Type := mkDb {
  online : bool;                 (* false: every query is rejected *)
  t_customers : table;
  t_materials : table;
  t_workOrders : table;
  t_invoices : table;
  t_projects : table;
}.

Definition get_table (t : table_name) (db : Db) : table :=
  match t with
  | customers => t_customers db
  | materials => t_materials db
  | workOrders => t_workOrders db
  | invoices => t_invoices db
  | projects => t_projects db
  end.

Definition set_table (t : table_name) (x : table) (db : Db) : Db :=
  match t with
  | customers => mkDb (online db) x (t_materials db) (t_workOrders db) (t_invoices db) (t_projects db)
  | materials => mkDb (online db) (t_customers db) x (t_workOrders db) (t_invoices db) (t_projects db)
  | workOrders => mkDb (online db) (t_customers db) (t_materials db) x (t_invoices db) (t_projects db)
  | invoices => mkDb (online db) (t_customers db) (t_materials db) (t_workOrders db) x (t_projects db)
  | projects => mkDb (online db) (t_customers db) (t_materials db) (t_workOrders db) (t_invoices db) x
  end.

(** The largest value of an [integer] column and of a serial sequence. *)
Definition INT4_MAX : Z := 2147483647.

(** The key of a row, as a number ([0] if the row carries none). *)
Definition id_of (r : obj) : Qc :=
  match r !! "id" with Some (VNum x) => x | _ => Qc_of_Z 0 end.

(** [WHERE id = $id] *)
Definition has_id (id : Z) (r : obj) : bool := is_int (prop r "id") id.

(** Two values collide in a unique index; NULLs never do. *)
Definition same_key (a b : value) : bool :=
  match a, b with
  | VNum x, VNum y => bool_decide (x = y)
  | VStr x, VStr y => String.eqb x y
  | _, _ => false
  end.

Definition is_null (v : value) : bool :=
  match v with VNull | VUndefined => true | _ => false end.

(** The first NOT NULL column of [cols] that [r] leaves NULL. *)
Fixpoint null_violation (cols : list column) (r : obj) : option string :=
  match cols with
  | [] => None
  | c :: cols' =>
      if col_notnull c && is_null (prop r (col_key c))
      then Some (col_key c) else null_violation cols' r
  end.

(** The first unique column of [cols] on which [r] collides with a row
    of [others]. *)
Fixpoint unique_violation (cols : list column) (others : list obj) (r : obj)
  : option string :=
  match cols with
  | [] => None
  | c :: cols' =>
      if col_unique c
         && existsb (fun r' => same_key (prop r' (col_key c)) (prop r (col_key c))) others
      then Some (col_key c) else unique_violation cols' others r
  end.

(** The value an INSERT stores in column [c]: the given one, or the
    default of the column.  [next] is the next value of the sequence. *)
Definition column_value (c : column) (given : obj) (next : Z) (now : Date) : value :=
  match given !! col_key c with
  | Some v => v
  | None =>
      match col_default c with
      | NoDefault => VNull
      | DefaultSerial => VInt next
      | DefaultNow => VDate now
      | DefaultConst v => v
      end
  end.

(** The row an INSERT builds. *)
Fixpoint fill_defaults (cols : list column) (given : obj) (next : Z) (now : Date)
  : obj :=
  match cols with
  | [] => ∅
  | c :: cols' =>
      <[col_key c := column_value c given next now]>
        (fill_defaults cols' given next now)
  end.

(** Does the INSERT draw a value from the sequence? *)
Definition uses_serial (cols : list column) (given : obj) : bool :=
  existsb (fun c => match col_default c, given !! col_key c with
                    | DefaultSerial, None => true
                    | _, _ => false
                    end) cols.

(** [INSERT INTO t (columns of given) VALUES (...) RETURNING *].
    A value drawn from the sequence is consumed even when the statement
    fails afterwards.  The values are stored as they are given: the
    engine is that of values of the column types ([Spec.has_type]), and
    what a [real] column returns is the number given when a float4 keeps
    it ([Spec.kept_real]); the statements that depend on either say so. *)
Definition exec_insert (t : table_name) (given : obj) : M Db obj :=
  fun c db =>
    if negb (online db) then (Throw ConnectionError, db) else
    let tb := get_table t db in
    let draws := uses_serial (schema t) given in
    if draws && (INT4_MAX <=? last_serial tb) then (Throw SequenceExhausted, db) else
    let next := last_serial tb + 1 in
    let serial' := if draws then next else last_serial tb in
    let row := fill_defaults (schema t) given next (pgNow c) in
    let failed := set_table t (mkTable (rows tb) serial') db in
    match null_violation (schema t) row with
    | Some k => (Throw (NotNullViolation k), failed)
    | None =>
        match unique_violation (schema t) (rows tb) row with
        | Some k => (Throw (UniqueViolation k), failed)
        | None => (Ok row, set_table t (mkTable (rows tb ++ [row]) serial') db)
        end
    end.

(** The rows an UPDATE leaves: the assignments laid over every row with
    the given key. *)
Definition apply_update (id : Z) (assign : obj) (rs : list obj) : list obj :=
  List.map (fun r => if has_id id r then spread r assign else r) rs.

(** The columns a SET clause assigns. *)
Definition assigned (cols : list column) (assign : obj) : list column :=
  List.filter (fun c => bool_decide (is_Some (assign !! col_key c))) cols.

(** [UPDATE t SET assign WHERE id = $id RETURNING *].  The constraints
    are checked on the columns the statement assigns (the others held
    before), and only if some row has the key.  As for an INSERT, the
    values are stored as they are given. *)
Definition exec_update (t : table_name) (id : Z) (assign : obj) : M Db (list obj) :=
  fun c db =>
    if negb (online db) then (Throw ConnectionError, db) else
    let tb := get_table t db in
    let hit := List.filter (has_id id) (rows tb) in
    let others := List.filter (fun r => negb (has_id id r)) (rows tb) in
    let set := assigned (schema t) assign in
    match hit with
    | [] => (Ok [], db)
    | _ =>
        match null_violation set assign with
        | Some k => (Throw (NotNullViolation k), db)
        | None =>
            match unique_violation set others assign with
            | Some k => (Throw (UniqueViolation k), db)
            | None =>
                (Ok (List.map (fun r => spread r assign) hit),
                 set_table t (mkTable (apply_update id assign (rows tb))
                                      (last_serial tb)) db)
            end
        end
    end.

(** [DELETE FROM t WHERE id = $id RETURNING *] *)
Definition exec_delete (t : table_name) (id : Z) : M Db (list obj) :=
  fun c db =>
    if negb (online db) then (Throw ConnectionError, db) else
    let tb := get_table t db in
    (Ok (List.filter (has_id id) (rows tb)),
     set_table t (mkTable (List.filter (fun r => negb (has_id id r)) (rows tb))
                          (last_serial tb)) db).

(** [SELECT * FROM t WHERE id = $id] *)
Definition select_by_id (t : table_name) (id : Z) : M Db (list obj) :=
  fun c db =>
    if negb (online db) then (Throw ConnectionError, db)
    else (Ok (List.filter (has_id id) (rows (get_table t db))), db).

(** Insertion of a row in a list sorted by descending key. *)
Fixpoint insert_desc (r : obj) (sorted : list obj) : list obj :=
  match sorted with
  | [] => [r]
  | r' :: rest =>
      if bool_decide (id_of r' < id_of r)%Qc then r :: sorted
      else r' :: insert_desc r rest
  end.

Definition sort_desc (rs : list obj) : list obj :=
  List.fold_right insert_desc [] rs.

(** [SELECT * FROM t ORDER BY id DESC] *)
Definition select_all_desc (t : table_name) : M Db (list obj) :=
  fun c db =>
    if negb (online db) then (Throw ConnectionError, db)
    else (Ok (sort_desc (rows (get_table t db))), db).

(** The row of largest key. *)
Fixpoint latest (rs : list obj) : option obj :=
  match rs with
  | [] => None
  | r :: rest =>
      match latest rest with
      | Some r' => if bool_decide (id_of r' < id_of r)%Qc then Some r else Some r'
      | None => Some r
      end
  end.

(** [SELECT k FROM t ORDER BY id DESC LIMIT 1]: at most one row, holding
    the one selected column. *)
Definition select_latest (t : table_name) (k : string) : M Db (list obj) :=
  fun c db =>
    if negb (online db) then (Throw ConnectionError, db)
    else (Ok (match latest (rows (get_table t db)) with
              | Some r => [ {[ k := prop r k ]} ]
              | None => []
              end), db).

(** *** The query builder

    [db.insert(t).values(v)] and [db.update(t).set(v)] keep the
    properties of [v] that name a column and are not [undefined]. *)
Definition is_column (t : table_name) (k : string) : bool :=
  existsb (fun c => String.eqb (col_key c) k) (schema t).

Definition column_values (t : table_name) (v : obj) : obj :=
  filter (fun kv => is_column t kv.1 && defined kv.2 = true) v.

(** Before a value is sent, the builder maps it as its column asks
    ([mapToDriverValue]): a timestamp column calls [value.toISOString()],
    which only a [Date] has; [null] is passed as it is. *)
Definition encodes (c : column) (v : value) : bool :=
  match col_type c, v with
  | Timestamp, (VDate _ | VNull | VUndefined) => true
  | Timestamp, _ => false
  | _, _ => true
  end.

Definition encode (t : table_name) (v : obj) : M Db obj :=
  if forallb (fun c => encodes c (prop v (col_key c))) (schema t)
  then ret (column_values t v)
  else throw (TypeError "value.toISOString is not a function").

(** [const [row] = await db.insert(t).values(v).returning()]: the one
    row the statement inserted. *)
Definition insert_values (t : table_name) (v : obj) : M Db obj :=
  let* given := encode t v in exec_insert t given.

(** *** The driver

    [pool.query(text, values)] sends the statement as written. *)

(** A query parameter: the driver sends [undefined] as NULL. *)
Definition param (v : value) : value := if defined v then v else VNull.

(** A row as the driver returns it in [result.rows]: under the names of
    the columns in the database, where the query builder returns it under
    the property names of the schema. *)
Definition raw_row (t : table_name) (r : obj) : obj :=
  List.fold_right
    (fun c acc => match r !! col_key c with
                  | Some v => <[col_name c := v]> acc
                  | None => acc
                  end)
    ∅ (schema t).

(** [db.update(t).set(v).where(eq(t.id, id)).returning()]; the builder
    rejects a set without any column. *)
Definition update_set (t : table_name) (id : Z) (v : obj) : M Db (list obj) :=
  if bool_decide (column_values t v = ∅)
  then throw (QueryError "No values to set")
  else let* assign := encode t v in exec_update t id assign.

End Pg.

(** ** The storage interface *)

Module Storage.

Class IStorage (S : Type) : Type := {
  getAllCustomers : M S (list obj);
  getCustomer : Z -> M S (option obj);
  createCustomer : obj -> M S obj;
  updateCustomer : Z -> obj -> M S (option obj);
  deleteCustomer : Z -> M S bool;

  getAllMaterials : M S (list obj);
  getMaterial : Z -> M S (option obj);
  createMaterial : obj -> M S obj;
  updateMaterial : Z -> obj -> M S (option obj);
  deleteMaterial : Z -> M S bool;

  getAllWorkOrders : M S (list obj);
  getWorkOrder : Z -> M S (option obj);
  createWorkOrder : obj -> M S obj;
  updateWorkOrder : Z -> obj -> M S (option obj);
  deleteWorkOrder : Z -> M S bool;

  getAllInvoices : M S (list obj);
  getInvoice : Z -> M S (option obj);
  createInvoice : obj -> M S obj;
  updateInvoice : Z -> obj -> M S (option obj);
  deleteInvoice : Z -> M S bool;

  getAllProjects : M S (list obj);
  getProject : Z -> M S (option obj);
  createProject : obj -> M S obj;
  updateProject : Z -> obj -> M S (option obj);
  deleteProject : Z -> M S bool;
}.

End Storage.

(** ** [class MemStorage implements IStorage] *)

Module MemStorage.

Record t : Type := mk {
  customers : list (Z * obj);
  materials : list (Z * obj);
  workOrders : list (Z * obj);
  invoices : list (Z * obj);
  projects : list (Z * obj);
  customerIdCounter : Z;
  materialIdCounter : Z;
  workOrderIdCounter : Z;
  invoiceIdCounter : Z;
  projectIdCounter : Z;
}.

(** The store the constructor builds. *)
Definition new : t := mk [] [] [] [] [] 1 1 1 1 1.

Definition with_customers (m : list (Z * obj)) (n : Z) (s : t) : t :=
  mk m (materials s) (workOrders s) (invoices s) (projects s)
     n (materialIdCounter s) (workOrderIdCounter s) (invoiceIdCounter s) (projectIdCounter s).
Definition with_materials (m : list (Z * obj)) (n : Z) (s : t) : t :=
  mk (customers s) m (workOrders s) (invoices s) (projects s)
     (customerIdCounter s) n (workOrderIdCounter s) (invoiceIdCounter s) (projectIdCounter s).
Definition with_workOrders (m : list (Z * obj)) (n : Z) (s : t) : t :=
  mk (customers s) (materials s) m (invoices s) (projects s)
     (customerIdCounter s) (materialIdCounter s) n (invoiceIdCounter s) (projectIdCounter s).
Definition with_invoices (m : list (Z * obj)) (n : Z) (s : t) : t :=
  mk (customers s) (materials s) (workOrders s) m (projects s)
     (customerIdCounter s) (materialIdCounter s) (workOrderIdCounter s) n (projectIdCounter s).
Definition with_projects (m : list (Z * obj)) (n : Z) (s : t) : t :=
  mk (customers s) (materials s) (workOrders s) (invoices s) m
     (customerIdCounter s) (materialIdCounter s) (workOrderIdCounter s) (invoiceIdCounter s) n.

(** The body shared by the five [update] methods: look the record up,
    lay the given properties over it, store and return the merge. *)
Definition merge_into (m : list (Z * obj)) (id : Z) (data : obj)
  : option (obj * list (Z * obj)) :=
  match map_get m id with
  | None => None
  | Some existing =>
      let updated := spread existing data in
      Some (updated, map_set m id updated)
  end.

(** *** Customers *)

Definition getAllCustomers : M t (list obj) :=
  fun _ s => (Ok (map_values (customers s)), s).

Definition getCustomer (id : Z) : M t (option obj) :=
  fun _ s => (Ok (map_get (customers s) id), s).

Definition createCustomer (insertCustomer : obj) : M t obj :=
  fun c s =>
    let id := customerIdCounter s in
    let now := jsNow c in
    let customerNumber := "KL-" +:+ padStart 5 "0" (toString id) in
    let customer : obj :=
      <["status" := or_else (prop insertCustomer "status") (VStr "Actief")]>
      (<["phone" := or_else (prop insertCustomer "phone") VNull]>
      (<["email" := or_else (prop insertCustomer "email") VNull]>
      (<["createdAt" := VDate now]>
      (<["customerNumber" := VStr customerNumber]>
      (<["id" := VInt id]> insertCustomer))))) in
    (Ok customer, with_customers (map_set (customers s) id customer) (id + 1) s).

Definition updateCustomer (id : Z) (customerData : obj) : M t (option obj) :=
  fun _ s =>
    match merge_into (customers s) id customerData with
    | None => (Ok None, s)
    | Some (updated, m) => (Ok (Some updated), with_customers m (customerIdCounter s) s)
    end.

Definition deleteCustomer (id : Z) : M t bool :=
  fun _ s =>
    let (m, removed) := map_delete (customers s) id in
    (Ok removed, with_customers m (customerIdCounter s) s).

(** *** Materials *)

Definition getAllMaterials : M t (list obj) :=
  fun _ s => (Ok (map_values (materials s)), s).

Definition getMaterial (id : Z) : M t (option obj) :=
  fun _ s => (Ok (map_get (materials s) id), s).

Definition createMaterial (insertMaterial : obj) : M t obj :=
  fun c s =>
    let id := materialIdCounter s in
    let now := jsNow c in
    let articleNumber := "ART-" +:+ padStart 5 "0" (toString id) in
    let material : obj :=
      <["supplier" := or_else (prop insertMaterial "supplier") VNull]>
      (<["minStock" := or_else (prop insertMaterial "minStock") VNull]>
      (<["stock" := or_else (prop insertMaterial "stock") VNull]>
      (<["brand" := or_else (prop insertMaterial "brand") VNull]>
      (<["createdAt" := VDate now]>
      (<["articleNumber" := VStr articleNumber]>
      (<["id" := VInt id]> insertMaterial)))))) in
    (Ok material, with_materials (map_set (materials s) id material) (id + 1) s).

Definition updateMaterial (id : Z) (materialData : obj) : M t (option obj) :=
  fun _ s =>
    match merge_into (materials s) id materialData with
    | None => (Ok None, s)
    | Some (updated, m) => (Ok (Some updated), with_materials m (materialIdCounter s) s)
    end.

Definition deleteMaterial (id : Z) : M t bool :=
  fun _ s =>
    let (m, removed) := map_delete (materials s) id in
    (Ok removed, with_materials m (materialIdCounter s) s).

(** *** Work orders *)

Definition getAllWorkOrders : M t (list obj) :=
  fun _ s => (Ok (map_values (workOrders s)), s).

Definition getWorkOrder (id : Z) : M t (option obj) :=
  fun _ s => (Ok (map_get (workOrders s) id), s).

Definition createWorkOrder (insertWorkOrder : obj) : M t obj :=
  fun c s =>
    let id := workOrderIdCounter s in
    let now := jsNow c in
    let orderNumber :=
      "WB-" +:+ toString (getFullYear (jsNow c)) +:+ "-" +:+ padStart 4 "0" (toString id) in
    let workOrder : obj :=
      <["materials" := or_else (prop insertWorkOrder "materials") (VArray [])]>
      (<["notes" := or_else (prop insertWorkOrder "notes") VNull]>
      (<["laborHours" := or_else (prop insertWorkOrder "laborHours") VNull]>
      (<["description" := or_else (prop insertWorkOrder "description") VNull]>
      (<["status" := or_else (prop insertWorkOrder "status") (VStr "Ingepland")]>
      (<["createdAt" := VDate now]>
      (<["orderNumber" := VStr orderNumber]>
      (<["id" := VInt id]> insertWorkOrder))))))) in
    (Ok workOrder, with_workOrders (map_set (workOrders s) id workOrder) (id + 1) s).

Definition updateWorkOrder (id : Z) (workOrderData : obj) : M t (option obj) :=
  fun _ s =>
    match merge_into (workOrders s) id workOrderData with
    | None => (Ok None, s)
    | Some (updated, m) => (Ok (Some updated), with_workOrders m (workOrderIdCounter s) s)
    end.

Definition deleteWorkOrder (id : Z) : M t bool :=
  fun _ s =>
    let (m, removed) := map_delete (workOrders s) id in
    (Ok removed, with_workOrders m (workOrderIdCounter s) s).

(** *** Invoices *)

Definition getAllInvoices : M t (list obj) :=
  fun _ s => (Ok (map_values (invoices s)), s).

Definition getInvoice (id : Z) : M t (option obj) :=
  fun _ s => (Ok (map_get (invoices s) id), s).

Definition createInvoice (insertInvoice : obj) : M t obj :=
  fun c s =>
    let id := invoiceIdCounter s in
    let now := jsNow c in
    let invoiceNumber :=
      "F-" +:+ toString (getFullYear (jsNow c)) +:+ "-" +:+ padStart 4 "0" (toString id) in
    let invoice : obj :=
      <["items" := or_else (prop insertInvoice "items") (VArray [])]>
      (<["workOrderId" := or_else (prop insertInvoice "workOrderId") VNull]>
      (<["status" := or_else (prop insertInvoice "status") (VStr "Concept")]>
      (<["createdAt" := VDate now]>
      (<["invoiceNumber" := VStr invoiceNumber]>
      (<["id" := VInt id]> insertInvoice))))) in
    (Ok invoice, with_invoices (map_set (invoices s) id invoice) (id + 1) s).

Definition updateInvoice (id : Z) (invoiceData : obj) : M t (option obj) :=
  fun _ s =>
    match merge_into (invoices s) id invoiceData with
    | None => (Ok None, s)
    | Some (updated, m) => (Ok (Some updated), with_invoices m (invoiceIdCounter s) s)
    end.

Definition deleteInvoice (id : Z) : M t bool :=
  fun _ s =>
    let (m, removed) := map_delete (invoices s) id in
    (Ok removed, with_invoices m (invoiceIdCounter s) s).

(** *** Projects *)

Definition getAllProjects : M t (list obj) :=
  fun _ s => (Ok (map_values (projects s)), s).

Definition getProject (id : Z) : M t (option obj) :=
  fun _ s => (Ok (map_get (projects s) id), s).

Definition createProject (insertProject : obj) : M t obj :=
  fun c s =>
    let id := projectIdCounter s in
    let now := jsNow c in
    let project : obj :=
      <["workOrders" := or_else (prop insertProject "workOrders") (VArray [])]>
      (<["progress" := or_else (prop insertProject "progress") (VInt 0)]>
      (<["endDate" := or_else (prop insertProject "endDate") VNull]>
      (<["description" := or_else (prop insertProject "description") VNull]>
      (<["status" := or_else (prop insertProject "status") (VStr "Gepland")]>
      (<["createdAt" := VDate now]>
      (<["id" := VInt id]> insertProject)))))) in
    (Ok project, with_projects (map_set (projects s) id project) (id + 1) s).

Definition updateProject (id : Z) (projectData : obj) : M t (option obj) :=
  fun _ s =>
    match merge_into (projects s) id projectData with
    | None => (Ok None, s)
    | Some (updated, m) => (Ok (Some updated), with_projects m (projectIdCounter s) s)
    end.

Definition deleteProject (id : Z) : M t bool :=
  fun _ s =>
    let (m, removed) := map_delete (projects s) id in
    (Ok removed, with_projects m (projectIdCounter s) s).

#[export] Instance storage : Storage.IStorage t := {|
  Storage.getAllCustomers := getAllCustomers;
  Storage.getCustomer := getCustomer;
  Storage.createCustomer := createCustomer;
  Storage.updateCustomer := updateCustomer;
  Storage.deleteCustomer := deleteCustomer;
  Storage.getAllMaterials := getAllMaterials;
  Storage.getMaterial := getMaterial;
  Storage.createMaterial := createMaterial;
  Storage.updateMaterial := updateMaterial;
  Storage.deleteMaterial := deleteMaterial;
  Storage.getAllWorkOrders := getAllWorkOrders;
  Storage.getWorkOrder := getWorkOrder;
  Storage.createWorkOrder := createWorkOrder;
  Storage.updateWorkOrder := updateWorkOrder;
  Storage.deleteWorkOrder := deleteWorkOrder;
  Storage.getAllInvoices := getAllInvoices;
  Storage.getInvoice := getInvoice;
  Storage.createInvoice := createInvoice;
  Storage.updateInvoice := updateInvoice;
  Storage.deleteInvoice := deleteInvoice;
  Storage.getAllProjects := getAllProjects;
  Storage.getProject := getProject;
  Storage.createProject := createProject;
  Storage.updateProject := updateProject;
  Storage.deleteProject := deleteProject;
|}.

End MemStorage.

(** ** [class DatabaseStorage implements IStorage] *)

Module DatabaseStorage.
Import Pg.

(** [catch (error) { console.error(...); throw error; }] *)
Definition rethrow {A} (e : error) : M Db A := throw e.

(** *** The bodies shared by the methods of every table *)

(** [try { return await db.select().from(t).orderBy(desc(t.id)); }
     catch { return []; }] *)
Definition select_all (t : table_name) : M Db (list obj) :=
  try_catch (select_all_desc t) (fun _ => ret []).

(** [try { const result = await db.select().from(t).where(eq(t.id, id));
           return result[0]; } catch { return undefined; }] *)
Definition select_one (t : table_name) (id : Z) : M Db (option obj) :=
  try_catch (let* result := select_by_id t id in ret (head result))
            (fun _ => ret None).

(** [try { const [row] = await db.update(t).set(data).where(eq(t.id, id))
           .returning(); return row; } catch { return undefined; }] *)
Definition update_one (t : table_name) (id : Z) (data : obj) : M Db (option obj) :=
  try_catch (let* updated := update_set t id data in ret (head updated))
            (fun _ => ret None).

(** [try { const result = await db.delete(t).where(eq(t.id, id))
           .returning(); return result.length > 0; } catch { return false; }] *)
Definition delete_one (t : table_name) (id : Z) : M Db bool :=
  try_catch (let* result := exec_delete t id in
             ret (0 <? Z.of_nat (List.length result)))
            (fun _ => ret false).

(** The steps of the four [generate...Number] methods after the lookup
    of the latest record: [result] is what the lookup returned, [key] the
    code property, [first] the first suffix of a scope.  The number is
    carried as an integer, which is what [parseInt] and [number + 1]
    compute up to [MAX_SAFE_INTEGER]; the statements about the numbers of
    codes keep below it. *)
Definition next_code (prefix first : string) (width : nat) (key : string)
    (result : list obj) : M Db string :=
  match result with
  | [] => ret (prefix +:+ first)
  | row :: _ =>
      match prop row key with
      | VStr latestNumber =>
          if truthy (VStr latestNumber) && startsWith latestNumber prefix then
            match parseInt (substring (String.length prefix) latestNumber) with
            | Some number =>
                ret (prefix +:+ padStart width "0" (toString (number + 1)))
            | None => ret (prefix +:+ first)
            end
          else ret (prefix +:+ first)
      | latestNumber =>
          if truthy latestNumber
          then throw (TypeError "latestNumber.startsWith is not a function")
          else ret (prefix +:+ first)
      end
  end.

(** *** Customers *)

Definition getAllCustomers : M Db (list obj) := select_all customers.
Definition getCustomer (id : Z) : M Db (option obj) := select_one customers id.

Definition generateCustomerNumber : M Db string :=
  try_catch
    (let* result := select_latest customers "customerNumber" in
     let* c := clock in
     let year := getFullYear (jsNow c) in
     let prefix := "KL-" +:+ toString year +:+ "-" in
     next_code prefix "0001" 4 "customerNumber" result)
    (fun _ =>
     let* c := clock in
     ret ("KL-" +:+ toString (getFullYear (jsNow c)) +:+ "-0001")).

Definition createCustomer (insertCustomer : obj) : M Db obj :=
  try_catch
    (let* customerNumber := generateCustomerNumber in
     insert_values customers
       (<["customerNumber" := VStr customerNumber]> insertCustomer))
    rethrow.

Definition updateCustomer (id : Z) (customerData : obj) : M Db (option obj) :=
  update_one customers id customerData.
Definition deleteCustomer (id : Z) : M Db bool := delete_one customers id.

(** *** Materials *)

Definition getAllMaterials : M Db (list obj) := select_all materials.
Definition getMaterial (id : Z) : M Db (option obj) := select_one materials id.

Definition generateArticleNumber : M Db string :=
  try_catch
    (let* result := select_latest materials "articleNumber" in
     let prefix := "ART-" in
     next_code prefix "000001" 6 "articleNumber" result)
    (fun _ => ret "ART-000001").

Definition createMaterial (insertMaterial : obj) : M Db obj :=
  try_catch
    (let* articleNumber := generateArticleNumber in
     insert_values materials
       (<["articleNumber" := VStr articleNumber]> insertMaterial))
    rethrow.

Definition updateMaterial (id : Z) (materialData : obj) : M Db (option obj) :=
  update_one materials id materialData.
Definition deleteMaterial (id : Z) : M Db bool := delete_one materials id.

(** *** Work orders *)

Definition getAllWorkOrders : M Db (list obj) := select_all workOrders.
Definition getWorkOrder (id : Z) : M Db (option obj) := select_one workOrders id.

Definition generateOrderNumber : M Db string :=
  try_catch
    (let* result := select_latest workOrders "orderNumber" in
     let* c := clock in
     let year := getFullYear (jsNow c) in
     let prefix := "WB-" +:+ toString year +:+ "-" in
     next_code prefix "0001" 4 "orderNumber" result)
    (fun _ =>
     let* c := clock in
     ret ("WB-" +:+ toString (getFullYear (jsNow c)) +:+ "-0001")).

(** The statement is written by hand and sent through [pool.query]: nine
    columns are listed, [date] is [NOW()], and [photos], [id] and
    [created_at] take their defaults.  The [materials] parameter is the
    JSON text of an array, which the [jsonb] column gives back as the
    array.  The method returns [result.rows[0]], the row as the driver
    hands it over. *)
Definition createWorkOrder (insertWorkOrder : obj) : M Db obj :=
  try_catch
    (let* orderNumber := generateOrderNumber in
     let data := <["orderNumber" := VStr orderNumber]> insertWorkOrder in
     let materialsJson := or_else (prop data "materials") (VArray []) in
     let* c := clock in
     let* workOrder := exec_insert workOrders
       (<["orderNumber" := VStr orderNumber]>
       (<["title" := param (prop data "title")]>
       (<["description" := param (prop data "description")]>
       (<["customerId" := param (prop data "customerId")]>
       (<["date" := VDate (pgNow c)]>
       (<["status" := or_else (prop data "status") (VStr "Ingepland")]>
       (<["laborHours" := or_else (prop data "laborHours") (VInt 0)]>
       (<["notes" := or_else (prop data "notes") (VStr EmptyString)]>
       (<["materials" := materialsJson]> ∅))))))))) in
     ret (raw_row workOrders workOrder))
    rethrow.

(** [if (data.k !== undefined) { updateParts.push(...); values.push(v); }] *)
Definition push_if_defined (k : string) (v : value) (assign : obj) : obj :=
  if defined v then <[k := v]> assign else assign.

(** The SET clause [updateWorkOrder] builds, from the eight properties
    it looks at. *)
Definition updateParts (data : obj) (date : value) : obj :=
  push_if_defined "date" date
  (push_if_defined "materials" (prop data "materials")
  (push_if_defined "notes" (prop data "notes")
  (push_if_defined "laborHours" (prop data "laborHours")
  (push_if_defined "status" (prop data "status")
  (push_if_defined "customerId" (prop data "customerId")
  (push_if_defined "description" (prop data "description")
  (push_if_defined "title" (prop data "title") ∅))))))).

Definition updateWorkOrder (id : Z) (workOrderData : obj) : M Db (option obj) :=
  try_catch
    (let data := workOrderData in
     let* existing := getWorkOrder id in
     match existing with
     | None => ret None
     | Some existingWorkOrder =>
         let* c := clock in
         let* date :=
           match prop data "date" with
           | VStr text =>
               match parseDate c text with
               | Some d => ret (VDate d)
               | None => throw (QueryError "invalid input syntax for type timestamp")
               end
           | v => ret v
           end in
         let assign := updateParts data date in
         if bool_decide (assign = ∅) then ret (Some existingWorkOrder)
         else
           let* result := exec_update workOrders id assign in
           ret (raw_row workOrders <$> head result)
     end)
    (fun _ => ret None).

Definition deleteWorkOrder (id : Z) : M Db bool := delete_one workOrders id.

(** *** Invoices *)

Definition getAllInvoices : M Db (list obj) := select_all invoices.
Definition getInvoice (id : Z) : M Db (option obj) := select_one invoices id.

Definition generateInvoiceNumber : M Db string :=
  try_catch
    (let* result := select_latest invoices "invoiceNumber" in
     let* c := clock in
     let year := getFullYear (jsNow c) in
     let prefix := "F-" +:+ toString year +:+ "-" in
     next_code prefix "0001" 4 "invoiceNumber" result)
    (fun _ =>
     let* c := clock in
     ret ("F-" +:+ toString (getFullYear (jsNow c)) +:+ "-0001")).

Definition createInvoice (insertInvoice : obj) : M Db obj :=
  try_catch
    (let* invoiceNumber := generateInvoiceNumber in
     insert_values invoices
       (<["invoiceNumber" := VStr invoiceNumber]> insertInvoice))
    rethrow.

Definition updateInvoice (id : Z) (invoiceData : obj) : M Db (option obj) :=
  update_one invoices id invoiceData.
Definition deleteInvoice (id : Z) : M Db bool := delete_one invoices id.

(** *** Projects *)

Definition getAllProjects : M Db (list obj) := select_all projects.
Definition getProject (id : Z) : M Db (option obj) := select_one projects id.

Definition createProject (insertProject : obj) : M Db obj :=
  try_catch (insert_values projects insertProject) rethrow.

Definition updateProject (id : Z) (projectData : obj) : M Db (option obj) :=
  update_one projects id projectData.
Definition deleteProject (id : Z) : M Db bool := delete_one projects id.

#[export] Instance storage : Storage.IStorage Db := {|
  Storage.getAllCustomers := getAllCustomers;
  Storage.getCustomer := getCustomer;
  Storage.createCustomer := createCustomer;
  Storage.updateCustomer := updateCustomer;
  Storage.deleteCustomer := deleteCustomer;
  Storage.getAllMaterials := getAllMaterials;
  Storage.getMaterial := getMaterial;
  Storage.createMaterial := createMaterial;
  Storage.updateMaterial := updateMaterial;
  Storage.deleteMaterial := deleteMaterial;
  Storage.getAllWorkOrders := getAllWorkOrders;
  Storage.getWorkOrder := getWorkOrder;
  Storage.createWorkOrder := createWorkOrder;
  Storage.updateWorkOrder := updateWorkOrder;
  Storage.deleteWorkOrder := deleteWorkOrder;
  Storage.getAllInvoices := getAllInvoices;
  Storage.getInvoice := getInvoice;
  Storage.createInvoice := createInvoice;
  Storage.updateInvoice := updateInvoice;
  Storage.deleteInvoice := deleteInvoice;
  Storage.getAllProjects := getAllProjects;
  Storage.getProject := getProject;
  Storage.createProject := createProject;
  Storage.updateProject := updateProject;
  Storage.deleteProject := deleteProject;
|}.

End DatabaseStorage.

(** ** The HTTP boundary ([registerRoutes]) *)

Module Routes.

Record response : Type := mkResponse {
  status : Z;
  body : value;                  (* [VUndefined]: no body *)
}.

(** [res.status(code).json({ message })] *)
Definition message (code : Z) (text : string) : response :=
  mkResponse code (VObject {[ "message" := VStr text ]}).

(** [res.json(v)] and [res.status(code).json(v)] *)
Definition json (code : Z) (v : value) : response := mkResponse code v.

(** *** The dashboard folds, on the collections already fetched *)

Definition monthNames : list string :=
  ["Jan"; "Feb"; "Mrt"; "Apr"; "Mei"; "Jun"; "Jul"; "Aug"; "Sep"; "Okt"; "Nov"; "Dec"].

(** The predicate of the [filter] inside [monthlyRevenue]. *)
Definition billed_in (c : Clock) (currentYear month : Z) (inv : obj) : bool :=
  match new_Date (parseDate c) (prop inv "date") with
  | Some invDate =>
      (getMonth invDate =? month)
      && (getFullYear invDate =? currentYear)
      && negb (is_string (prop inv "status") "Concept")
  | None => false
  end.

(** [.reduce((sum, inv) => sum + (inv.amount || 0), 0)] *)
Definition total {R : Rounding} (invs : list obj) : value :=
  fold_left (fun sum inv => add sum (or_else (prop inv "amount") (VInt 0)))
            invs (VInt 0).

Definition monthlyRevenue {R : Rounding} (c : Clock) (invoices : list obj)
  : list value :=
  let currentYear := getFullYear (jsNow c) in
  List.map
    (fun month : nat =>
       let amount :=
         total (List.filter (billed_in c currentYear (Z.of_nat month)) invoices) in
       VObject (<["month" := VStr (nth month monthNames EmptyString)]>
                (<["amount" := amount]> ∅)))
    (seq 0 12).

(** [xs.filter(x => x.status === s).length] *)
Definition count_status (s : string) (xs : list obj) : Z :=
  Z.of_nat (List.length (List.filter (fun x => is_string (prop x "status") s) xs)).

Definition workOrdersByStatus (workOrders : list obj) : obj :=
  <["nieuw" := VInt (count_status "Nieuw" workOrders)]>
  (<["inBehandeling" := VInt (count_status "In behandeling" workOrders)]>
  (<["voltooid" := VInt (count_status "Voltooid" workOrders)]> ∅)).

Definition invoicesByStatus (invoices : list obj) : obj :=
  <["concept" := VInt (count_status "Concept" invoices)]>
  (<["verzonden" := VInt (count_status "Verzonden" invoices)]>
  (<["betaald" := VInt (count_status "Betaald" invoices)]>
  (<["teLaat" := VInt (count_status "Te laat" invoices)]> ∅))).

(** [v !== null] *)
Definition not_null (v : value) : bool :=
  match v with VNull => false | _ => true end.

(** [a <= b] on numbers (the stock columns hold numbers or NULL).  The
    conversions JavaScript applies to other operands are not modelled; the
    statements about low stock compare numbers. *)
Definition le (a b : value) : bool :=
  match a, b with
  | VNum x, VNum y => bool_decide (x <= y)%Qc
  | _, _ => false
  end.

Definition lowStockMaterials (materials : list obj) : list obj :=
  take 5 (List.filter
            (fun m => not_null (prop m "stock") && not_null (prop m "minStock")
                      && le (prop m "stock") (prop m "minStock"))
            materials).

(** [new Date(x.date).getTime()], [None] for the [NaN] of an invalid
    date. *)
Definition time_of (c : Clock) (x : obj) : option Z :=
  getTime <$> new_Date (parseDate c) (prop x "date").

(** The sort of the engine is stable, so with valid dates throughout its
    result is that of inserting the invoices one by one, each behind the
    ones dated no earlier.  With an invalid date the comparator returns
    [NaN] and the order is whatever the engine's algorithm makes of it;
    the statements about the recent invoices ask for valid dates. *)
Fixpoint insert_recent (c : Clock) (x : obj) (sorted : list obj) : list obj :=
  match sorted with
  | [] => [x]
  | y :: rest =>
      match time_of c x, time_of c y with
      | Some tx, Some ty =>
          if ty <? tx then x :: sorted else y :: insert_recent c x rest
      | _, _ => y :: insert_recent c x rest
      end
  end.

(** [[...invoices].sort((a, b) => time(b) - time(a)).slice(0, 5)] *)
Definition recentInvoices (c : Clock) (invoices : list obj) : list obj :=
  take 5 (fold_left (fun sorted x => insert_recent c x sorted) invoices []).

Definition stats {R : Rounding} (c : Clock)
    (workOrders customers materials invoices : list obj) : value :=
  VObject
    (<["totalWorkOrders" := VInt (Z.of_nat (List.length workOrders))]>
    (<["totalCustomers" := VInt (Z.of_nat (List.length customers))]>
    (<["totalMaterials" := VInt (Z.of_nat (List.length materials))]>
    (<["totalInvoices" := VInt (Z.of_nat (List.length invoices))]>
    (<["workOrdersByStatus" := VObject (workOrdersByStatus workOrders)]>
    (<["invoicesByStatus" := VObject (invoicesByStatus invoices)]>
    (<["recentInvoices" := VArray (VObject <$> recentInvoices c invoices)]>
    (<["lowStockMaterials" := VArray (VObject <$> lowStockMaterials materials)]>
    (<["monthlyRevenue" := VArray (monthlyRevenue c invoices)]> ∅))))))))).

Section Handlers.
Context {S : Type} {storage : Storage.IStorage S} {R : Rounding}.


(** *** The five handlers every collection has

    [id] is [parseInt(req.params.id)], for a path that carries a number;
    [body] is [req.body], passed on as it came. *)

Definition list_handler (getAll : M S (list obj)) (failed : string) : M S response :=
  try_catch
    (let* all := getAll in ret (json 200 (VArray (VObject <$> all))))
    (fun _ => ret (message 500 failed)).

Definition get_handler (get : Z -> M S (option obj)) (missing failed : string)
    (id : Z) : M S response :=
  try_catch
    (let* found := get id in
     match found with
     | None => ret (message 404 missing)
     | Some x => ret (json 200 (VObject x))
     end)
    (fun _ => ret (message 500 failed)).

Definition post_handler (create : obj -> M S obj) (failed : string)
    (body : obj) : M S response :=
  try_catch
    (let* created := create body in ret (json 201 (VObject created)))
    (fun _ => ret (message 500 failed)).

Definition put_handler (update : Z -> obj -> M S (option obj))
    (missing failed : string) (id : Z) (body : obj) : M S response :=
  try_catch
    (let* updated := update id body in
     match updated with
     | None => ret (message 404 missing)
     | Some x => ret (json 200 (VObject x))
     end)
    (fun _ => ret (message 500 failed)).

Definition delete_handler (delete : Z -> M S bool) (missing failed : string)
    (id : Z) : M S response :=
  try_catch
    (let* success := delete id in
     if success then ret (mkResponse 204 VUndefined)
     else ret (message 404 missing))
    (fun _ => ret (message 500 failed)).

Definition get_customers := list_handler Storage.getAllCustomers "Error fetching customers".
Definition get_customer := get_handler Storage.getCustomer "Customer not found" "Error fetching customer".
Definition post_customer := post_handler Storage.createCustomer "Error creating customer".
Definition put_customer := put_handler Storage.updateCustomer "Customer not found" "Error updating customer".
Definition delete_customer := delete_handler Storage.deleteCustomer "Customer not found" "Error deleting customer".

Definition get_workorders := list_handler Storage.getAllWorkOrders "Error fetching work orders".
Definition get_workorder := get_handler Storage.getWorkOrder "Work order not found" "Error fetching work order".
Definition post_workorder := post_handler Storage.createWorkOrder "Error creating work order".
Definition put_workorder := put_handler Storage.updateWorkOrder "Work order not found" "Error updating work order".
Definition delete_workorder := delete_handler Storage.deleteWorkOrder "Work order not found" "Error deleting work order".

Definition get_materials := list_handler Storage.getAllMaterials "Error fetching materials".
Definition get_material := get_handler Storage.getMaterial "Material not found" "Error fetching material".
Definition post_material := post_handler Storage.createMaterial "Error creating material".
Definition put_material := put_handler Storage.updateMaterial "Material not found" "Error updating material".
Definition delete_material := delete_handler Storage.deleteMaterial "Material not found" "Error deleting material".

Definition get_invoices := list_handler Storage.getAllInvoices "Error fetching invoices".
Definition get_invoice := get_handler Storage.getInvoice "Invoice not found" "Error fetching invoice".
Definition post_invoice := post_handler Storage.createInvoice "Error creating invoice".
Definition put_invoice := put_handler Storage.updateInvoice "Invoice not found" "Error updating invoice".
Definition delete_invoice := delete_handler Storage.deleteInvoice "Invoice not found" "Error deleting invoice".

Definition get_projects := list_handler Storage.getAllProjects "Error fetching projects".
Definition get_project := get_handler Storage.getProject "Project not found" "Error fetching project".
Definition post_project := post_handler Storage.createProject "Error creating project".
Definition put_project := put_handler Storage.updateProject "Project not found" "Error updating project".
Definition delete_project := delete_handler Storage.deleteProject "Project not found" "Error deleting project".


(** The object literal [{ status: "Voltooid", notes, laborHours, photos }]:
    all four properties are present, holding [undefined] where the
    request body had none. *)
Definition completion (notes laborHours photos : value) : obj :=
  <["status" := VStr "Voltooid"]>
  (<["notes" := notes]>
  (<["laborHours" := laborHours]>
  (<["photos" := photos]> ∅))).

(** [app.put("/api/workorders/:id/complete", ...)] *)
Definition put_workorder_complete (id : Z) (body : obj) : M S response :=
  try_catch
    (let notes := prop body "notes" in
     let laborHours := prop body "laborHours" in
     let photos := prop body "photos" in
     if negb (defined laborHours) then ret (message 400 "Labor hours are required")
     else
       let* updatedWorkOrder :=
         Storage.updateWorkOrder id (completion notes laborHours photos) in
       match updatedWorkOrder with
       | None => ret (message 404 "Work order not found")
       | Some x => ret (json 200 (VObject x))
       end)
    (fun _ => ret (message 500 "Error completing work order")).

End Handlers.

End Routes.

(** ** Vocabulary of the statements *)

Module Spec.

(** Calls made one after the other, each with the clocks it reads. *)
Fixpoint run {S A B : Type} (f : A -> M S B) (calls : list (Clock * A)) (s : S)
  : list (result B) * S :=
  match calls with
  | [] => ([], s)
  | (c, a) :: rest =>
      let (r, s') := f a c s in
      let (rs, s'') := run f rest s' in
      (r :: rs, s'')
  end.

(** The property [key] of what a call returned. *)
Definition returned (key : string) (r : result obj) : result value :=
  match r with
  | Ok x => Ok (prop x key)
  | Throw e => Throw e
  end.

(** What a call resolved to, if it did not throw. *)
Definition resolved {A : Type} (r : result A) : option A :=
  match r with
  | Ok a => Some a
  | Throw _ => None
  end.

(** [f 1], ..., [f n] *)
Definition upto {A : Type} (n : nat) (f : Z -> A) : list A :=
  List.map (fun i => f (Z.of_nat i)) (seq 1 n).

(** The code of number [k] in a yearly scope: [KL-2025-0007]. *)
Definition year_code (prefix : string) (year k : Z) : string :=
  prefix +:+ toString year +:+ "-" +:+ padStart 4 "0" (toString k).

(** The code of number [k] in the scope of the articles: [ART-000007]. *)
Definition article_code (k : Z) : string :=
  "ART-" +:+ padStart 6 "0" (toString k).

(** The number a code ends with: what follows its last hyphen, read as
    [parseInt] does. *)
Fixpoint after_last_hyphen (s : string) : string :=
  match s with
  | EmptyString => EmptyString
  | String c s' =>
      if existsb (Ascii.eqb "-") (list_ascii_of_string s') then after_last_hyphen s'
      else if Ascii.eqb c "-" then s' else s
  end.

Definition suffix_number (code : value) : option Z :=
  match code with
  | VStr s => parseInt (after_last_hyphen s)
  | _ => None
  end.

(** *** Reading the latest code *)

(** The code of the most recently created record of a table (the record
    of largest key); [undefined] for an empty table. *)
Definition latest_code (t : Pg.table_name) (key : string) (db : Pg.Db) : value :=
  match Pg.latest (Pg.rows (Pg.get_table t db)) with
  | Some r => prop r key
  | None => VUndefined
  end.

(** The number a code carries in the scope of [prefix]: the code is a
    string, starts with [prefix], and what follows reads as a number. *)
Definition parsed (prefix : string) (code : value) : option Z :=
  match code with
  | VStr s =>
      if startsWith s prefix
      then parseInt (substring (String.length prefix) s) else None
  | _ => None
  end.

(** The number that follows the latest code; 1 when it does not parse. *)
Definition next_number (prefix : string) (latest : value) : Z :=
  match parsed prefix latest with
  | Some n => n + 1
  | None => 1
  end.

(** *** Fixed patterns of codes *)

Definition is_digit (c : ascii) : bool :=
  match digit_of 10 c with Some _ => true | None => false end.

Fixpoint all_digits (s : string) : bool :=
  match s with
  | EmptyString => true
  | String c s' => is_digit c && all_digits s'
  end.

Inductive piece : Type :=
  | Lit (text : string)          (* the text itself *)
  | Digits (n : nat).            (* exactly [n] decimal digits *)

Fixpoint eat_lit (text s : string) : option string :=
  match text, s with
  | EmptyString, _ => Some s
  | String a text', String b s' => if Ascii.eqb a b then eat_lit text' s' else None
  | String _ _, EmptyString => None
  end.

Fixpoint eat_digits (n : nat) (s : string) : option string :=
  match n, s with
  | O, _ => Some s
  | S n', String c s' => if is_digit c then eat_digits n' s' else None
  | S _, EmptyString => None
  end.

(** Does the whole of [s] read as the pieces, in order? *)
Fixpoint matches (pattern : list piece) (s : string) : bool :=
  match pattern with
  | [] => String.eqb s EmptyString
  | Lit text :: rest =>
      match eat_lit text s with Some s' => matches rest s' | None => false end
  | Digits n :: rest =>
      match eat_digits n s with Some s' => matches rest s' | None => false end
  end.

Definition matches_value (pattern : list piece) (v : value) : bool :=
  match v with VStr s => matches pattern s | _ => false end.

(** [KL-YYYY-dddd], [WB-YYYY-dddd], [F-YYYY-dddd] and [ART-dddddd]. *)
Definition yearly (prefix : string) : list piece :=
  [Lit prefix; Digits 4; Lit "-"; Digits 4].
Definition article : list piece := [Lit "ART-"; Digits 6].

(** *** Drafts of the insert types *)

(** A value of the type of a column, as the insert types promise and the
    database accepts and returns: a text without the NUL character for
    [text], an integer of 32 bits for [integer], a number within the range
    of a float4 for [real] (which the column may round), a [Date] of a
    year of four digits for [timestamp], a value of a JSON document for
    [jsonb]; [null] and [undefined] where the property may be left out. *)
Definition is_int4 (x : Qc) : bool :=
  (Qden x =? 1)%positive && (- Pg.INT4_MAX - 1 <=? Qnum x) && (Qnum x <=? Pg.INT4_MAX).

(** The magnitudes of a [real] column, which holds a float4: the largest
    finite one, [(2^24 - 1) * 2^104], and the smallest above zero,
    [2^-149].  The database refuses a number it would have to store as an
    infinity, or as zero without being zero. *)
Definition REAL_MAX : Qc := Qc_of_Z ((2 ^ 24 - 1) * 2 ^ 104).
Definition REAL_MIN : Qc := Q2Qc (1 # Z.to_pos (2 ^ 149)).

Definition in_real_range (x : Qc) : bool :=
  bool_decide (x = Qc_of_Z 0)
  || bool_decide (REAL_MIN <= x)%Qc && bool_decide (x <= REAL_MAX)%Qc
  || bool_decide (- REAL_MAX <= x)%Qc && bool_decide (x <= - REAL_MIN)%Qc.

(** The text holds no NUL character, which the database refuses. *)
Definition no_nul (s : string) : bool :=
  negb (existsb (Ascii.eqb Ascii.zero) (list_ascii_of_string s)).

(** The times of the years 1000 to 9999, from [1000-01-01T00:00:00.000Z]
    to [9999-12-31T23:59:59.999Z]: their ISO text, which is what the
    query builder sends for a [Date], has a year of four digits, which
    the database reads and the builder reads back alike. *)
Definition in_timestamp_range (d : Date) : bool :=
  (-30610224000000 <=? getTime d) && (getTime d <=? 253402300799999).

(** A value of a JSON document, as [JSON.parse] builds it from a request
    body: [null], a boolean, a number, a text, or an array or an object
    of such values, no text or property name holding NUL.  A [jsonb]
    column accepts such a value and returns it as it was. *)
Fixpoint is_json (v : value) : bool :=
  match v with
  | VNull | VBool _ | VNum _ => true
  | VStr s => no_nul s
  | VArray xs => forallb is_json xs
  | VObject fields =>
      map_fold (fun k x acc => no_nul k && is_json x && acc) true fields
  | VUndefined | VNaN | VDate _ => false
  end.

Definition has_type (ty : Pg.column_type) (v : value) : bool :=
  match ty, v with
  | _, (VNull | VUndefined) => true
  | Pg.Text, VStr s => no_nul s
  | (Pg.Serial | Pg.Integer), VNum x => is_int4 x
  | Pg.Real, VNum x => in_real_range x
  | Pg.Timestamp, VDate d => in_timestamp_range d
  | Pg.Jsonb, v => is_json v
  | _, _ => false
  end.

(** [x / 10^e] *)
Definition scaled (x : Qc) (e : Z) : Qc :=
  if e <? 0 then (x * Qc_of_Z (10 ^ (- e)))%Qc else (x / Qc_of_Z (10 ^ e))%Qc.

(** A number that a [real] column returns as it was given: zero, or a
    number of at most six significant decimal digits ([m * 10^e] with
    [|m| < 10^6]) of a magnitude between [10^-37] and [3.4 * 10^38].  A
    float4 keeps six decimal digits; a number of more digits comes back
    rounded (1234567.89 as 1234567.9). *)
Definition six_digits (x : Qc) : bool :=
  bool_decide (x = Qc_of_Z 0)
  || existsb (fun e => let m := scaled x e in
                       (Qden m =? 1)%positive && (Z.abs (Qnum m) <? 10 ^ 6))
             (List.map (fun i => Z.of_nat i - 42) (seq 0 76))
     && (bool_decide (Q2Qc (1 # Z.to_pos (10 ^ 37)) <= x)%Qc
         && bool_decide (x <= Qc_of_Z (34 * 10 ^ 37))%Qc
         || bool_decide (- Qc_of_Z (34 * 10 ^ 37) <= x)%Qc
            && bool_decide (x <= - Q2Qc (1 # Z.to_pos (10 ^ 37)))%Qc).

(** The value comes back from a [real] column as it went in. *)
Definition kept_real (v : value) : bool :=
  match v with
  | VNull | VUndefined => true
  | VNum x => six_digits x
  | _ => false
  end.

(** Does the draft [d] give column [c] what its constraint asks: a value
    where the column has no default, anything but NULL where it has. *)
Definition supplies (d : obj) (c : Pg.column) : bool :=
  match Pg.col_default c with
  | Pg.NoDefault => negb (Pg.is_null (prop d (Pg.col_key c)))
  | _ => Routes.not_null (prop d (Pg.col_key c))
  end.

(** A draft of the insert type of table [t]: no [id], every property of
    the type of its column, and every NOT NULL column supplied, the
    generated code [key] apart. *)
Definition draft_ok (t : Pg.table_name) (key : string) (d : obj) : bool :=
  negb (defined (prop d "id"))
  && forallb (fun c => has_type (Pg.col_type c) (prop d (Pg.col_key c))) (Pg.schema t)
  && forallb (fun c => negb (Pg.col_notnull c)
                       || String.eqb (Pg.col_key c) key
                       || supplies d c)
             (Pg.schema t).

(** *** Revenue of a month *)






(** *** The methods of a class, by its table *)

Definition code_key (t : Pg.table_name) : string :=
  match t with
  | Pg.customers => "customerNumber"
  | Pg.materials => "articleNumber"
  | Pg.workOrders => "orderNumber"
  | Pg.invoices => "invoiceNumber"
  | Pg.projects => EmptyString            (* projects carry no code *)
  end.

Section Methods.
Context {S : Type} {storage : Storage.IStorage S}.

Definition getAll (t : Pg.table_name) : M S (list obj) :=
  match t with
  | Pg.customers => Storage.getAllCustomers
  | Pg.materials => Storage.getAllMaterials
  | Pg.workOrders => Storage.getAllWorkOrders
  | Pg.invoices => Storage.getAllInvoices
  | Pg.projects => Storage.getAllProjects
  end.

Definition get (t : Pg.table_name) : Z -> M S (option obj) :=
  match t with
  | Pg.customers => Storage.getCustomer
  | Pg.materials => Storage.getMaterial
  | Pg.workOrders => Storage.getWorkOrder
  | Pg.invoices => Storage.getInvoice
  | Pg.projects => Storage.getProject
  end.

Definition create (t : Pg.table_name) : obj -> M S obj :=
  match t with
  | Pg.customers => Storage.createCustomer
  | Pg.materials => Storage.createMaterial
  | Pg.workOrders => Storage.createWorkOrder
  | Pg.invoices => Storage.createInvoice
  | Pg.projects => Storage.createProject
  end.

Definition update (t : Pg.table_name) : Z -> obj -> M S (option obj) :=
  match t with
  | Pg.customers => Storage.updateCustomer
  | Pg.materials => Storage.updateMaterial
  | Pg.workOrders => Storage.updateWorkOrder
  | Pg.invoices => Storage.updateInvoice
  | Pg.projects => Storage.updateProject
  end.

Definition delete (t : Pg.table_name) : Z -> M S bool :=
  match t with
  | Pg.customers => Storage.deleteCustomer
  | Pg.materials => Storage.deleteMaterial
  | Pg.workOrders => Storage.deleteWorkOrder
  | Pg.invoices => Storage.deleteInvoice
  | Pg.projects => Storage.deleteProject
  end.

(** The handlers of [/api/<class>/:id] and [/api/<class>]. *)
Definition get_route (t : Pg.table_name) : Z -> M S Routes.response :=
  match t with
  | Pg.customers => Routes.get_customer
  | Pg.materials => Routes.get_material
  | Pg.workOrders => Routes.get_workorder
  | Pg.invoices => Routes.get_invoice
  | Pg.projects => Routes.get_project
  end.

Definition list_route (t : Pg.table_name) : M S Routes.response :=
  match t with
  | Pg.customers => Routes.get_customers
  | Pg.materials => Routes.get_materials
  | Pg.workOrders => Routes.get_workorders
  | Pg.invoices => Routes.get_invoices
  | Pg.projects => Routes.get_projects
  end.

Definition post_route (t : Pg.table_name) : obj -> M S Routes.response :=
  match t with
  | Pg.customers => Routes.post_customer
  | Pg.materials => Routes.post_material
  | Pg.workOrders => Routes.post_workorder
  | Pg.invoices => Routes.post_invoice
  | Pg.projects => Routes.post_project
  end.

Definition put_route (t : Pg.table_name) : Z -> obj -> M S Routes.response :=
  match t with
  | Pg.customers => Routes.put_customer
  | Pg.materials => Routes.put_material
  | Pg.workOrders => Routes.put_workorder
  | Pg.invoices => Routes.put_invoice
  | Pg.projects => Routes.put_project
  end.

Definition delete_route (t : Pg.table_name) : Z -> M S Routes.response :=
  match t with
  | Pg.customers => Routes.delete_customer
  | Pg.materials => Routes.delete_material
  | Pg.workOrders => Routes.delete_workorder
  | Pg.invoices => Routes.delete_invoice
  | Pg.projects => Routes.delete_project
  end.
End Methods.

(** The records MemStorage holds of a class. *)
Definition records (t : Pg.table_name) (s : MemStorage.t) : list (Z * obj) :=
  match t with
  | Pg.customers => MemStorage.customers s
  | Pg.materials => MemStorage.materials s
  | Pg.workOrders => MemStorage.workOrders s
  | Pg.invoices => MemStorage.invoices s
  | Pg.projects => MemStorage.projects s
  end.

(** What the hand-written INSERT of work orders needs of a draft: a title
    and a customer, and the seven properties it reads of the types of
    their columns. *)
Definition workOrder_draft_ok (d : obj) : bool :=
  negb (Pg.is_null (prop d "title")) && negb (Pg.is_null (prop d "customerId"))
  && forallb (fun c => has_type (Pg.col_type c) (prop d (Pg.col_key c)))
       (List.filter
          (fun c => existsb (String.eqb (Pg.col_key c))
                      ["title"; "description"; "customerId"; "status"; "laborHours";
                       "notes"; "materials"])
          (Pg.schema Pg.workOrders)).

(** *** Numbered scopes *)

(** The rows hold the codes [code 1 .. code k] under the keys
    [s0 + 1 .. s0 + k], the latest row the last of them. *)
Definition numbered (key : string) (code : Z -> string) (s0 k : Z)
    (rs : list obj) : Prop :=
  (forall r, r ∈ rs ->
     exists j, 1 <= j <= k /\ r !! "id" = Some (VInt (s0 + j))
               /\ prop r key = VStr (code j))
  /\ match rs with
     | [] => k = 0
     | _ => exists r, Pg.latest rs = Some r /\ prop r key = VStr (code k)
     end.

(** A reachable database whose table [t] is a numbered scope and whose
    sequence stands at its last key. *)
Definition scope_inv (t : Pg.table_name) (key : string) (code : Z -> string)
    (s0 k : Z) (db : Pg.Db) : Prop :=
  Pg.online db = true
  /\ Pg.last_serial (Pg.get_table t db) = s0 + k
  /\ numbered key code s0 k (Pg.rows (Pg.get_table t db)).

(** *** The hand-written statements of work orders, named *)

(** The columns [createWorkOrder] lists, for a draft [d] and a generated
    number. *)
Definition listed (d : obj) (orderNumber : string) (c : Clock) : obj :=
  let data := <["orderNumber" := VStr orderNumber]> d in
  <["orderNumber" := VStr orderNumber]>
  (<["title" := Pg.param (prop data "title")]>
  (<["description" := Pg.param (prop data "description")]>
  (<["customerId" := Pg.param (prop data "customerId")]>
  (<["date" := VDate (pgNow c)]>
  (<["status" := or_else (prop data "status") (VStr "Ingepland")]>
  (<["laborHours" := or_else (prop data "laborHours") (VInt 0)]>
  (<["notes" := or_else (prop data "notes") (VStr EmptyString)]>
  (<["materials" := or_else (prop data "materials") (VArray [])]> ∅)))))))).

(** The date [updateWorkOrder] passes to the statement, when the text
    converts. *)
Definition date_param (c : Clock) (data : obj) : option value :=
  match prop data "date" with
  | VStr text => VDate <$> parseDate c text
  | v => Some v
  end.

Definition date_query (c : Clock) (data : obj) : M Pg.Db value :=
  match prop data "date" with
  | VStr text =>
      match parseDate c text with
      | Some d => ret (VDate d)
      | None => throw (QueryError "invalid input syntax for type timestamp")
      end
  | v => ret v
  end.

(** *** Completion *)

(** What a completed work order is expected to show. *)
Definition evidence (r : obj) : value * value * value * value :=
  (prop r "status", prop r "notes", prop r "laborHours", prop r "photos").

(** The same database, out of reach. *)
Definition unreachable (db : Pg.Db) : Pg.Db :=
  Pg.mkDb false (Pg.t_customers db) (Pg.t_materials db) (Pg.t_workOrders db)
          (Pg.t_invoices db) (Pg.t_projects db).

End Spec.

(** ** Sample data *)

Module Samples.
Import Pg.

(** A clock in June 2025 whose parser accepts no text. *)
Definition at_2025 : Clock :=
  mkClock (mkDate 1750000000000 2025 5) (mkDate 1750000000000 2025 5) (fun _ => None).

(** Drafts as the forms of the client send them, without a code. *)
Definition boiler : obj :=
  <["title" := VStr "Ketel vervangen"]> (<["customerId" := VInt 1]> ∅).

Definition jansen : obj :=
  <["name" := VStr "Jansen"]> (<["type" := VStr "Particulier"]>
  (<["street" := VStr "Dorpsstraat 1"]> (<["postalCode" := VStr "1234 AB"]>
  (<["city" := VStr "Utrecht"]> ∅)))).

Definition pipe : obj :=
  <["name" := VStr "Koperen buis 15 mm"]> (<["category" := VStr "Leidingen"]>
  (<["price" := VNum (Q2Qc (25 # 2))]> ∅)).

Definition bill : obj :=
  <["customerId" := VInt 1]> (<["date" := VDate (jsNow at_2025)]>
  (<["dueDate" := VDate (jsNow at_2025)]> (<["amount" := VInt 250]> ∅))).

Definition dated_1999 : obj := <["date" := VDate (mkDate 915148800000 1999 0)]> boiler.

(** A database without rows. *)
Definition empty_db : Db :=
  mkDb true (mkTable [] 0) (mkTable [] 0) (mkTable [] 0) (mkTable [] 0) (mkTable [] 0).

(** A store that held one work order, since deleted. *)
Definition emptied : MemStorage.t :=
  (MemStorage.deleteWorkOrder 1 at_2025
     (MemStorage.createWorkOrder boiler at_2025 MemStorage.new).2).2.

(** A database whose latest customer of 2025 holds number 9999. *)
Definition full_year : Db :=
  mkDb true
       (mkTable [ <["id" := VInt 9999]>
                  (<["customerNumber" := VStr "KL-2025-9999"]> jansen) ] 9999)
       (mkTable [] 0) (mkTable [] 0) (mkTable [] 0) (mkTable [] 0).

(** A database whose only customer carries the given code. *)
Definition with_latest_code (code : value) : Db :=
  mkDb true
       (mkTable [ <["id" := VInt 7]> (<["customerNumber" := code]> jansen) ] 7)
       (mkTable [] 0) (mkTable [] 0) (mkTable [] 0) (mkTable [] 0).

(** A store and a database holding customer 1, and two update payloads:
    one that carries a code and one that does not. *)
Definition one_customer : MemStorage.t :=
  (MemStorage.createCustomer jansen at_2025 MemStorage.new).2.

Definition one_customer_db : Db :=
  (DatabaseStorage.createCustomer jansen at_2025 empty_db).2.

Definition renumber : obj := <["customerNumber" := VStr "KL-2030-0042"]> ∅.

Definition rename : obj := <["name" := VStr "Jansen BV"]> ∅.

(** A database and a store holding work order 1, and the request of an
    operator who worked three and a half hours and took one photo. *)
Definition one_workorder_db : Db :=
  (DatabaseStorage.createWorkOrder boiler at_2025 empty_db).2.

Definition one_workorder : MemStorage.t :=
  (MemStorage.createWorkOrder boiler at_2025 MemStorage.new).2.

Definition finished : obj :=
  <["notes" := VStr "klaar"]>
  (<["laborHours" := VNum (Q2Qc (7 # 2))]>
  (<["photos" := VArray [VStr "data:image/jpeg;base64,/9j/4AAQ"]]> ∅)).

(** Completion requests without hours, and with zero hours and no photo. *)
Definition no_hours : obj := <["notes" := VStr "klaar"]> ∅.

Definition zero_hours_no_photos : obj :=
  <["notes" := VStr "klaar"]> (<["laborHours" := VInt 0]> (<["photos" := VArray []]> ∅)).

(** One work order in each state of the life cycle. *)
Definition with_status (s : string) : obj := <["status" := VStr s]> boiler.

Definition one_of_each : list obj :=
  [with_status "Ingepland"; with_status "In uitvoering"; with_status "Voltooid";
   with_status "Geannuleerd"].

(** Invoices of 2025: three of January, one of April.  Their amounts
    are whole numbers, which add up without rounding. *)
Definition whole_sums : Rounding :=
  {| round := fun x => x;
     round_idem := fun x => eq_refl;
     round_zero := eq_refl |}.

Definition in_month (month : Z) (status : string) (amount : Z) : obj :=
  <["date" := VDate (mkDate 0 2025 month)]>
  (<["status" := VStr status]> (<["amount" := VInt amount]> ∅)).

Definition books : list obj :=
  [in_month 0 "Betaald" 100; in_month 0 "Concept" 1000; in_month 0 "Verzonden" 50;
   in_month 3 "Te laat" 70].

End Samples.

(** ** Histories of calls *)

Module Calls.
Import Pg.

Definition same_table (a b : table_name) : bool :=
  match a, b with
  | customers, customers | materials, materials | workOrders, workOrders
  | invoices, invoices | projects, projects => true
  | _, _ => false
  end.

(** A call of the interface that may change the store. *)
Inductive call : Type :=
  | Create (t : table_name) (d : obj)
  | Update (t : table_name) (id : Z) (data : obj)
  | Delete (t : table_name) (id : Z).

Section Perform.
Context {S : Type} {storage : Storage.IStorage S}.

(** The store a call leaves. *)
Definition perform (k : call) (c : Clock) (s : S) : S :=
  match k with
  | Create t d => (Spec.create t d c s).2
  | Update t id data => (Spec.update t id data c s).2
  | Delete t id => (Spec.delete t id c s).2
  end.

(** The store a history of calls leaves, each call with its clocks. *)
Definition after (calls : list (Clock * call)) (s : S) : S :=
  fold_left (fun s call => perform call.2 call.1 s) calls s.
End Perform.

(** How many calls of the history create a record of class [t]. *)
Definition creates (t : table_name) (calls : list (Clock * call)) : nat :=
  length (List.filter (fun call => match call.2 with
                                   | Create t' _ => same_table t' t
                                   | _ => false
                                   end) calls).

(** The id counter MemStorage keeps for a class. *)
Definition counter (t : table_name) (s : MemStorage.t) : Z :=
  match t with
  | customers => MemStorage.customerIdCounter s
  | materials => MemStorage.materialIdCounter s
  | workOrders => MemStorage.workOrderIdCounter s
  | invoices => MemStorage.invoiceIdCounter s
  | projects => MemStorage.projectIdCounter s
  end.

(** The keys under which MemStorage holds the records of a class, in
    the order of the map. *)
Definition keys (t : table_name) (s : MemStorage.t) : list Z :=
  fst <$> Spec.records t s.

(** The keys of every class are distinct and were handed out by its
    counter, which started at 1. *)
Definition keyed (s : MemStorage.t) : Prop :=
  forall t, 1 <= counter t s
            /\ NoDup (keys t s)
            /\ Forall (fun k => 1 <= k < counter t s) (keys t s).

End Calls.

From Stdlib Require Import Sorting.Sorted.

(** ** What DatabaseStorage hands back *)

Module Views.
Import Pg.

(** The record [create] returns for the row it stored: the row as the
    builder names it, and for a work order the row of the driver. *)
Definition shown (t : table_name) (row : obj) : obj :=
  match t with
  | workOrders => raw_row workOrders row
  | _ => row
  end.

(** The property under which that record holds its code. *)
Definition shown_key (t : table_name) : string :=
  match t with
  | workOrders => "order_number"
  | _ => Spec.code_key t
  end.

(** The prefix the generator of a class looks for in year [y], the
    width of its numbers, and the code of number [n]. *)
Definition code_prefix (t : table_name) (y : Z) : string :=
  match t with
  | customers => "KL-" +:+ toString y +:+ "-"
  | materials => "ART-"
  | workOrders => "WB-" +:+ toString y +:+ "-"
  | invoices => "F-" +:+ toString y +:+ "-"
  | projects => EmptyString
  end.

Definition code_width (t : table_name) : nat :=
  match t with
  | materials => 6
  | _ => 4
  end.

Definition code (t : table_name) (y n : Z) : string :=
  code_prefix t y +:+ padStart (code_width t) "0" (toString n).

(** The rows of a table. *)
Definition rows_of (t : table_name) (db : Db) : list obj := rows (get_table t db).

(** The draft with the generated code laid over it (projects carry no
    code), and the columns the INSERT of a create lists for it. *)
Definition coded (t : table_name) (d : obj) (code : string) : obj :=
  match t with
  | projects => d
  | _ => <[Spec.code_key t := VStr code]> d
  end.

Definition given_of (t : table_name) (d : obj) (code : string) (c : Clock) : obj :=
  match t with
  | workOrders => Spec.listed d code c
  | _ => column_values t (coded t d code)
  end.

(** The properties a draft has to bring for the INSERT of its class to
    pass the NOT NULL constraints: the columns without a default, the
    generated code apart, and for a work order those of them that the
    hand-written statement takes from the draft. *)
Definition required (t : table_name) : list string :=
  match t with
  | workOrders => ["title"; "customerId"]
  | _ =>
      col_key <$>
        List.filter
          (fun c => col_notnull c
                    && negb (String.eqb (col_key c) (Spec.code_key t))
                    && match col_default c with NoDefault => true | _ => false end)
          (schema t)
  end.

(** The properties of a class held in [timestamp] columns that are NOT
    NULL and have no default. *)
Definition dated (t : table_name) : list string :=
  match t with
  | workOrders => []
  | _ =>
      col_key <$>
        List.filter
          (fun c => col_notnull c
                    && match col_type c with Timestamp => true | _ => false end
                    && match col_default c with NoDefault => true | _ => false end)
          (schema t)
  end.

(** The eight properties [updateWorkOrder] of DatabaseStorage looks at. *)
Definition eight : list string :=
  ["title"; "description"; "customerId"; "status"; "laborHours"; "notes"; "materials";
   "date"].

(** The classes whose code column is UNIQUE. *)
Definition unique_code (t : table_name) : bool :=
  existsb (fun c => String.eqb (col_key c) (Spec.code_key t) && col_unique c) (schema t).

Definition is_date (v : value) : bool :=
  match v with VDate _ => true | _ => false end.

(** The test of the filter inside [lowStockMaterials]. *)
Definition low_stock (m : obj) : bool :=
  Routes.not_null (prop m "stock") && Routes.not_null (prop m "minStock")
  && Routes.le (prop m "stock") (prop m "minStock").

(** The states the buckets of [invoicesByStatus] test for. *)
Definition invoice_states : list string := ["Concept"; "Verzonden"; "Betaald"; "Te laat"].

Definition in_states (states : list string) (x : obj) : bool :=
  existsb (is_string (prop x "status")) states.


(** Invoice [a] is dated no earlier than invoice [b], both dates being
    valid. *)
Definition not_older (c : Clock) (a b : obj) : Prop :=
  match Routes.time_of c a, Routes.time_of c b with
  | Some ta, Some tb => tb <= ta
  | _, _ => False
  end.

(** A payload whose properties are of the types of their columns, as the
    insert types promise and the database accepts; properties may be left
    out. *)
Definition typed (t : table_name) (d : obj) : bool :=
  forallb (fun c => Spec.has_type (col_type c) (prop d (col_key c))) (schema t).

(** The numbers the payload gives to [real] columns are numbers such a
    column returns as they were given. *)
Definition exact_reals (t : table_name) (d : obj) : bool :=
  forallb (fun c => match col_type c with
                    | Real => Spec.kept_real (prop d (col_key c))
                    | _ => true
                    end) (schema t).

End Views.

(** ** Users

    The user methods of the two stores read and write the users alone:
    the map and the counter of MemStorage, the table [users] of the
    database. *)

Module Users.
Import Pg.

(** [users] of [shared/schema.ts]. *)
Definition users : list column :=
  [ primaryKey (serial "id" "id");
    unique (notNull (text "username" "username"));
    notNull (text "fullName" "full_name");
    text "email" "email";
    notNull (text "password" "password");
    notNull (withDefault (VStr "monteur") (text "role" "role"));
    text "phone" "phone";
    notNull (defaultNow (timestamp "createdAt" "created_at")) ].

(** *** [MemStorage] *)

Module Mem.

Record t : Type := mk {
  users : list (Z * obj);
  userIdCounter : Z;
}.

(** The admin the constructor stores, with its hard-coded password. *)
Definition adminUser (adminId : Z) (now : Date) : obj :=
  <["id" := VInt adminId]>
  (<["username" := VStr "admin"]>
  (<["email" := VStr "admin@spartec.nl"]>
  (<["fullName" := VStr "Admin User"]>
  (<["phone" := VStr "06-12345678"]>
  (<["password" := VStr "c7ad44cbad762a5da0a452f9e854fdc1e0e7a52a38015f23f3eab1d80b931dd472634dfac71cd34ebc35d16ab7fb8a90c81f975113d6c7538dc69dd8de9077ec.e5e9fa1ba31ecd1ae84f75caaa474f3a"]>
  (<["role" := VStr "beheerder"]>
  (<["createdAt" := VDate now]> ∅))))))).

(** The users part of the constructor: the counter starts at 1 and the
    admin takes the first id. *)
Definition constructor (c : Clock) : t :=
  let userIdCounter := 1 in
  let adminId := userIdCounter in
  let userIdCounter := userIdCounter + 1 in
  mk (map_set [] adminId (adminUser adminId (jsNow c))) userIdCounter.

Definition getUser (id : Z) : M t (option obj) :=
  fun _ s => (Ok (map_get (users s) id), s).

Definition getUserByUsername (username : string) : M t (option obj) :=
  fun _ s =>
    (Ok (List.find (fun user => is_string (prop user "username") username)
                   (map_values (users s))), s).

Definition createUser (insertUser : obj) : M t obj :=
  fun c s =>
    let id := userIdCounter s in
    let now := jsNow c in
    let user : obj :=
      <["phone" := or_else (prop insertUser "phone") VNull]>
      (<["email" := or_else (prop insertUser "email") VNull]>
      (<["createdAt" := VDate now]>
      (<["role" := or_else (prop insertUser "role") (VStr "monteur")]>
      (<["id" := VInt id]> insertUser)))) in
    (Ok user, mk (map_set (users s) id user) (id + 1)).

(** The store after a history of [createUser] calls, the only method of
    the interface that writes users. *)
Definition after (history : list (Clock * obj)) (s : t) : t :=
  fold_left (fun s call => (createUser call.2 call.1 s).2) history s.

End Mem.

(** *** [DatabaseStorage] *)

Module Db.

(** The table [users] and whether the database can be reached. *)
Record t : Type := mk {
  online : bool;
  table : Pg.table;
}.

(** [INSERT INTO users (columns of given) VALUES (...) RETURNING *], as
    [Pg.exec_insert] runs it on the tables of the records. *)
Definition exec_insert (given : obj) : M t obj :=
  fun c db =>
    if negb (online db) then (Throw ConnectionError, db) else
    let tb := table db in
    let draws := uses_serial users given in
    if draws && (INT4_MAX <=? last_serial tb) then (Throw SequenceExhausted, db) else
    let next := last_serial tb + 1 in
    let serial' := if draws then next else last_serial tb in
    let row := fill_defaults users given next (pgNow c) in
    let failed := mk (online db) (mkTable (rows tb) serial') in
    match null_violation users row with
    | Some k => (Throw (NotNullViolation k), failed)
    | None =>
        match unique_violation users (rows tb) row with
        | Some k => (Throw (UniqueViolation k), failed)
        | None => (Ok row, mk (online db) (mkTable (rows tb ++ [row]) serial'))
        end
    end.

(** [SELECT * FROM users WHERE id = $id] *)
Definition select_by_id (id : Z) : M t (list obj) :=
  fun c db =>
    if negb (online db) then (Throw ConnectionError, db)
    else (Ok (List.filter (has_id id) (rows (table db))), db).

(** A row of [users] as the driver returns it. *)
Definition raw_row (r : obj) : obj :=
  List.fold_right
    (fun c acc => match r !! col_key c with
                  | Some v => <[col_name c := v]> acc
                  | None => acc
                  end)
    ∅ users.

(** The values the builder sends for a draft, and the mapping that a
    timestamp column asks for. *)
Definition is_column (k : string) : bool :=
  existsb (fun c => String.eqb (col_key c) k) users.

Definition column_values (v : obj) : obj :=
  filter (fun kv => is_column kv.1 && defined kv.2 = true) v.

Definition encode (v : obj) : M t obj :=
  if forallb (fun c => encodes c (prop v (col_key c))) users
  then ret (column_values v)
  else throw (TypeError "value.toISOString is not a function").

Definition insert_values (v : obj) : M t obj :=
  let* given := encode v in exec_insert given.

Section Host.
(** [LOWER] as the database computes it, and [hashPassword] of
    [server/auth], which salts and hashes a password. *)
Variable lower : string -> string.
Variable hashPassword : string -> string.

(** [WHERE LOWER(username) = LOWER($1)] *)
Definition matches (username : string) (r : obj) : bool :=
  match prop r "username" with
  | VStr u => String.eqb (lower u) (lower username)
  | _ => false
  end.

(** [pool.query("SELECT * FROM users WHERE LOWER(username) = LOWER($1)",
    [username])]: the rows in the order of the table, which no statement
    of the storage updates or deletes. *)
Definition select_by_username (username : string) : M t (list obj) :=
  fun c db =>
    if negb (online db) then (Throw ConnectionError, db)
    else (Ok (raw_row <$> List.filter (matches username) (rows (table db))), db).

Definition getUser (id : Z) : M t (option obj) :=
  try_catch (let* result := select_by_id id in ret (head result))
            (fun _ => ret None).

Definition getUserByUsername (username : string) : M t (option obj) :=
  try_catch
    (let* result := select_by_username username in
     match result with
     | [] => ret None
     | user :: _ => ret (Some user)
     end)
    (fun _ => ret None).

Definition createUser (insertUser : obj) : M t obj :=
  try_catch (insert_values insertUser) (fun error => throw error).

(** The draft of the admin that [initializeDatabase] creates. *)
Definition admin : obj :=
  <["username" := VStr "admin"]>
  (<["fullName" := VStr "Admin User"]>
  (<["email" := VStr "admin@spar-tec.nl"]>
  (<["phone" := VStr "06-12345678"]>
  (<["password" := VStr (hashPassword "admin123")]>
  (<["role" := VStr "beheerder"]> ∅))))).

Definition initializeDatabase : M t unit :=
  try_catch
    (let* adminUser := getUserByUsername "admin" in
     match adminUser with
     | None => let* _ := createUser admin in ret tt
     | Some _ => ret tt
     end)
    (fun _ => ret tt).
End Host.

End Db.

End Users.

(** ** More sample data *)

Module Cases.
Import Pg Samples.

(** A clock in March of the year after [at_2025]. *)
Definition at_2026 : Clock :=
  mkClock (mkDate 1773000000000 2026 2) (mkDate 1773000000000 2026 2) (fun _ => None).



(** [LOWER] on the letters A to Z, and a hash that is not one. *)
Definition ascii_lower (s : string) : string :=
  string_of_list_ascii
    (List.map (fun a => let n := nat_of_ascii a in
                        if ((65 <=? n) && (n <=? 90))%nat then ascii_of_nat (n + 32) else a)
              (list_ascii_of_string s)).

Definition hashed (password : string) : string := "scrypt:" +:+ password.

(** A database of users without rows. *)
Definition no_users : Users.Db.t := Users.Db.mk true (Pg.mkTable [] 0).


(** An update of a work order that carries photos alone. *)
Definition only_photos : obj :=
  <["photos" := VArray [VStr "data:image/jpeg;base64,/9j/4AAQ"]]> ∅.

(** A customer that brings its own id, the next of the sequence. *)
Definition numbered_1 : obj := <["id" := VInt 1]> jansen.

(** Two invoices, the newer of which was renumbered to 0000. *)
Definition renumbered : Db :=
  (DatabaseStorage.updateInvoice 2 (<["invoiceNumber" := VStr "F-2025-0000"]> ∅) at_2025
     (DatabaseStorage.createInvoice bill at_2025
        (DatabaseStorage.createInvoice bill at_2025 empty_db).2).2).2.

Definition first_invoice : obj := default ∅ (head (rows (t_invoices renumbered))).

(** A request body without properties. *)
Definition nothing : obj := ∅.

(** An invoice as a JSON body carries it: the dates are texts. *)
Definition bill_json : obj :=
  <["customerId" := VInt 1]> (<["date" := VStr "2025-06-15T00:00:00.000Z"]>
  (<["dueDate" := VStr "2025-07-15T00:00:00.000Z"]> (<["amount" := VInt 250]> ∅))).

(** A material that is out of stock. *)
Definition sold_out : obj :=
  <["stock" := VInt 0]> (<["minStock" := VInt 5]> pipe).

(** An invoice that was credited, a state no bucket tests for. *)
Definition credited : obj := in_month 1 "Gecrediteerd" 10.


(** An update that carries another id. *)
Definition moved : obj := <["id" := VInt 7]> rename.

(** An update of a material that carries another id and a price of four
    digits. *)
Definition repriced : obj := <["id" := VInt 7]> (<["price" := VNum (Q2Qc (1395 # 100))]> ∅).

(** A database holding material 1. *)
Definition one_material_db : Db :=
  (DatabaseStorage.createMaterial pipe at_2025 empty_db).2.

(** Three invoices, listed neither oldest nor newest first. *)
Definition dated_at (ms : Z) : obj := <["date" := VDate (mkDate ms 2025 0)]> ∅.

Definition unordered : list obj := [dated_at 10; dated_at 30; dated_at 20].

(** An update that asks for the number of the first invoice. *)
Definition taken_number : obj := <["invoiceNumber" := VStr "F-2025-0001"]> ∅.

End Cases.

(** * Facts about the JavaScript primitives *)

Module JSFacts.
Import JS Spec Samples.

Lemma append_cons (x : ascii) (a b : string) :
  String x a +:+ b = String x (a +:+ b).
Proof. reflexivity. Qed.

Lemma append_nil (b : string) : EmptyString +:+ b = b.
Proof. reflexivity. Qed.

Ltac sappend := rewrite ?append_cons, ?append_nil.

Lemma append_assoc (a b c : string) : (a +:+ b) +:+ c = a +:+ (b +:+ c).
Proof. induction a as [|x a IH]; sappend; [reflexivity | f_equal; exact IH]. Qed.

Lemma append_empty_r (a : string) : a +:+ EmptyString = a.
Proof. induction a as [|x a IH]; sappend; [reflexivity | f_equal; exact IH]. Qed.

Lemma length_append (a b : string) :
  String.length (a +:+ b) = (String.length a + String.length b)%nat.
Proof.
  induction a as [|x a IH]; sappend; simpl; [reflexivity | f_equal; exact IH].
Qed.

Lemma startsWith_append (p s : string) : startsWith (p +:+ s) p = true.
Proof.
  unfold startsWith. induction p as [|x p IH]; sappend; simpl.
  - now destruct s.
  - destruct (ascii_dec x x) as [_|n]; [exact IH | now destruct n].
Qed.

Lemma substring_append (p s : string) : substring (String.length p) (p +:+ s) = s.
Proof. induction p as [|x p IH]; sappend; simpl; [reflexivity | exact IH]. Qed.

Lemma digit_of_digit_char (d : Z) :
  0 <= d < 10 -> digit_of 10 (digit_char d) = Some d.
Proof.
  intros H.
  assert (d = 0 \/ d = 1 \/ d = 2 \/ d = 3 \/ d = 4 \/ d = 5 \/ d = 6 \/ d = 7
          \/ d = 8 \/ d = 9) as Hd by lia.
  repeat (destruct Hd as [-> | Hd]; [reflexivity |]). now subst.
Qed.

Lemma is_digit_digit_char (d : Z) : 0 <= d < 10 -> is_digit (digit_char d) = true.
Proof. intros H. unfold is_digit. now rewrite digit_of_digit_char. Qed.

Lemma decimal_go_acc (fuel : nat) : forall n acc,
  decimal_go fuel n acc = decimal_go fuel n EmptyString +:+ acc.
Proof.
  induction fuel as [|fuel IH]; intros n acc; simpl; [reflexivity |].
  destruct (n <? 10); [reflexivity |].
  rewrite (IH _ (String _ acc)), (IH _ (String _ EmptyString)).
  now rewrite append_assoc.
Qed.

(** Reading back the digits that [decimal_go] printed. *)
Lemma read_decimal_go (fuel : nat) : forall n rest a seen,
  (0 < fuel)%nat -> 0 <= n < 10 ^ Z.of_nat fuel ->
  read_digits 10 (decimal_go fuel n EmptyString +:+ rest) a seen
  = read_digits 10 rest
      (a * 10 ^ Z.of_nat (String.length (decimal_go fuel n EmptyString)) + n) true.
Proof.
  induction fuel as [|fuel IH]; intros n rest a seen Hf Hn.
  - lia.
  - simpl decimal_go. destruct (Z.ltb_spec n 10) as [Hlt | Hge].
    + sappend. simpl. rewrite Z.mod_small by lia.
      rewrite digit_of_digit_char by lia. f_equal; lia.
    + rewrite decimal_go_acc, append_assoc.
      assert (0 <= n / 10 < 10 ^ Z.of_nat fuel) as Hq.
      { split; [apply Z.div_pos; lia |].
        apply Z.div_lt_upper_bound; [lia |].
        rewrite Nat2Z.inj_succ, Z.pow_succ_r in Hn by lia. lia. }
      assert (0 < fuel)%nat as Hf'.
      { destruct fuel; [|lia]. simpl in Hq.
        assert (1 <= n / 10) by (apply Z.div_le_lower_bound; lia). lia. }
      rewrite IH by assumption. sappend. simpl read_digits.
      rewrite digit_of_digit_char by (apply Z.mod_pos_bound; lia).
      f_equal. rewrite length_append. simpl String.length.
      rewrite Nat2Z.inj_add. change (Z.of_nat 1) with 1.
      rewrite Z.pow_add_r by lia.
      pose proof (Z.div_mod n 10 ltac:(lia)). lia.
Qed.

Lemma decimal_fuel (n : Z) : 0 <= n -> n < 10 ^ Z.of_nat (S (Z.to_nat (Z.log2 n))).
Proof.
  intros Hn. rewrite Nat2Z.inj_succ, Z2Nat.id by apply Z.log2_nonneg.
  destruct (Z.eq_dec n 0) as [-> | Hne]; [reflexivity |].
  pose proof (Z.log2_spec n ltac:(lia)) as [_ Hup].
  eapply Z.lt_le_trans; [exact Hup |].
  apply Z.pow_le_mono_l. lia.
Qed.

Lemma read_decimal (n : Z) (rest : string) (a : Z) (seen : bool) :
  0 <= n ->
  read_digits 10 (decimal n +:+ rest) a seen
  = read_digits 10 rest (a * 10 ^ Z.of_nat (String.length (decimal n)) + n) true.
Proof.
  intros Hn. unfold decimal. apply read_decimal_go; [lia |]. split; [lia |].
  now apply decimal_fuel.
Qed.

Lemma read_zeros (k : nat) : forall rest seen,
  read_digits 10 (repeat_char "0" k +:+ rest) 0 seen
  = read_digits 10 rest 0 (if k is O then seen else true).
Proof.
  induction k as [|k IH]; intros rest seen; simpl repeat_char; sappend;
    [reflexivity |].
  simpl read_digits. change (digit_of 10 "0") with (Some 0).
  change (0 * 10 + 0) with 0. rewrite IH. now destruct k.
Qed.

Lemma all_digits_append (a b : string) :
  all_digits (a +:+ b) = all_digits a && all_digits b.
Proof.
  induction a as [|x a IH]; sappend; simpl; [reflexivity |].
  now rewrite IH, andb_assoc.
Qed.

Lemma all_digits_decimal_go (fuel : nat) : forall n acc,
  0 <= n -> all_digits acc = true -> all_digits (decimal_go fuel n acc) = true.
Proof.
  induction fuel as [|fuel IH]; intros n acc Hn Hacc; simpl; [exact Hacc |].
  assert (all_digits (String (digit_char (n mod 10)) acc) = true) as H.
  { simpl. rewrite Hacc, is_digit_digit_char; [reflexivity |].
    apply Z.mod_pos_bound. lia. }
  destruct (n <? 10); [exact H |].
  apply IH; [apply Z.div_pos; lia | exact H].
Qed.

Lemma all_digits_decimal (n : Z) : 0 <= n -> all_digits (decimal n) = true.
Proof. intros Hn. now apply all_digits_decimal_go. Qed.

Lemma all_digits_repeat_zero (k : nat) : all_digits (repeat_char "0" k) = true.
Proof. induction k as [|k IH]; simpl; [reflexivity | exact IH]. Qed.

Lemma all_digits_padStart (w : nat) (s : string) :
  all_digits s = true -> all_digits (padStart w "0" s) = true.
Proof.
  intros H. unfold padStart. now rewrite all_digits_append, all_digits_repeat_zero, H.
Qed.

Lemma decimal_nonempty (n : Z) : decimal n <> EmptyString.
Proof.
  unfold decimal. simpl. destruct (n <? 10); [discriminate |].
  rewrite decimal_go_acc. now destruct (decimal_go _ _ _).
Qed.

(** [parseInt] of a string that starts with a decimal digit and has no
    [x] in second place reads the digits in radix 10. *)
Lemma parseInt_digits (s : string) :
  all_digits s = true -> parseInt s = read_digits 10 s 0 false.
Proof.
  destruct s as [|c s]; [reflexivity |]. simpl all_digits.
  intros [Hc Hs]%andb_prop. unfold parseInt.
  assert (is_space c = false /\ Ascii.eqb c "-" = false
          /\ Ascii.eqb c "+" = false) as (Hsp & Hm & Hp).
  { destruct c as [[] [] [] [] [] [] [] []]; try discriminate Hc; repeat split. }
  cbn [trim_start]. rewrite Hsp, Hm, Hp.
  assert (match s with
          | String x r => if Ascii.eqb c "0" && (Ascii.eqb x "x" || Ascii.eqb x "X")
                          then (16, r) else (10, String c s)
          | EmptyString => (10, String c s)
          end = (10, String c s)) as ->.
  { destruct s as [|x r]; [reflexivity |]. simpl in Hs.
    apply andb_prop in Hs as [Hx _].
    assert (Ascii.eqb x "x" = false /\ Ascii.eqb x "X" = false) as [-> ->].
    { destruct x as [[] [] [] [] [] [] [] []]; try discriminate Hx; split; reflexivity. }
    now rewrite andb_false_r. }
  destruct (read_digits 10 (String c s) 0 false) as [n|]; [|reflexivity].
  f_equal. lia.
Qed.

(** Round trip: the suffix the generator prints parses back. *)
Lemma parseInt_padStart (w : nat) (n : Z) :
  0 <= n -> parseInt (padStart w "0" (toString n)) = Some n.
Proof.
  intros Hn. unfold toString. destruct (Z.ltb_spec n 0) as [? | _]; [lia |].
  rewrite parseInt_digits by (apply all_digits_padStart, all_digits_decimal, Hn).
  unfold padStart. rewrite read_zeros.
  pose proof (read_decimal n EmptyString 0
                (if (w - String.length (decimal n))%nat is O then false else true) Hn)
    as H.
  rewrite append_empty_r in H. rewrite H. reflexivity.
Qed.

(** The primitives on the inputs the generators meet. *)

Example parseInt_0001 : parseInt "0001" = Some 1.
Proof. reflexivity. Qed.

Example parseInt_trailing : parseInt "12abc" = Some 12.
Proof. reflexivity. Qed.

Example parseInt_nan : parseInt "abc" = None.
Proof. reflexivity. Qed.

Example parseInt_empty : parseInt EmptyString = None.
Proof. reflexivity. Qed.

Example parseInt_hex : parseInt "0x1f" = Some 31.
Proof. reflexivity. Qed.

Example parseInt_negative : parseInt " -7" = Some (-7).
Proof. reflexivity. Qed.

Example toString_2025 : toString 2025 = "2025".
Proof. reflexivity. Qed.

Example padStart_7 : padStart 4 "0" (toString 7) = "0007".
Proof. reflexivity. Qed.

Example padStart_wide : padStart 4 "0" (toString 10000) = "10000".
Proof. reflexivity. Qed.

End JSFacts.

(** * Facts about the relational engine *)

Module PgFacts.
Import JS Pg Samples.

Lemma get_set_table (t : table_name) (x : table) (db : Db) :
  get_table t (set_table t x db) = x.
Proof. now destruct t. Qed.

Lemma online_set_table (t : table_name) (x : table) (db : Db) :
  online (set_table t x db) = online db.
Proof. now destruct t. Qed.

Lemma column_values_lookup (t : table_name) (v : obj) (k : string) :
  column_values t v !! k
  = match v !! k with
    | Some x => if is_column t k && defined x then Some x else None
    | None => None
    end.
Proof.
  unfold column_values. rewrite map_lookup_filter.
  destruct (v !! k) as [x|]; simpl; [|reflexivity].
  destruct (is_column t k && defined x) eqn:E.
  - rewrite option_guard_True by reflexivity. reflexivity.
  - rewrite option_guard_False by discriminate. reflexivity.
Qed.

Lemma fill_defaults_lookup (cols : list column) given next now (c : column) :
  NoDup (col_key <$> cols) -> c ∈ cols ->
  fill_defaults cols given next now !! col_key c
  = Some (column_value c given next now).
Proof.
  induction cols as [|c0 cols IH]; intros Hnd Hin.
  - inversion Hin.
  - simpl. apply NoDup_cons in Hnd as [Hc0 Hnd].
    apply elem_of_cons in Hin as [-> | Hin].
    + apply lookup_insert_eq.
    + rewrite lookup_insert_ne; [now apply IH |].
      intros E. apply Hc0. rewrite E. apply list_elem_of_fmap. eauto.
Qed.

Lemma fill_defaults_prop (cols : list column) given next now (c : column) :
  NoDup (col_key <$> cols) -> c ∈ cols ->
  prop (fill_defaults cols given next now) (col_key c)
  = column_value c given next now.
Proof. intros. unfold prop. now rewrite fill_defaults_lookup. Qed.

Lemma null_violation_None (cols : list column) (r : obj) :
  (forall c, c ∈ cols -> col_notnull c = true -> is_null (prop r (col_key c)) = false) ->
  null_violation cols r = None.
Proof.
  induction cols as [|c cols IH]; intros H; simpl; [reflexivity |].
  destruct (col_notnull c) eqn:E; simpl.
  - rewrite (H c); [| apply list_elem_of_here | exact E].
    apply IH. intros c' Hin. apply H. now apply list_elem_of_further.
  - apply IH. intros c' Hin. apply H. now apply list_elem_of_further.
Qed.

Lemma unique_violation_None (cols : list column) (others : list obj) (r : obj) :
  (forall c r', c ∈ cols -> col_unique c = true -> r' ∈ others ->
                same_key (prop r' (col_key c)) (prop r (col_key c)) = false) ->
  unique_violation cols others r = None.
Proof.
  induction cols as [|c cols IH]; intros H; simpl; [reflexivity |].
  assert (col_unique c
          && existsb (fun r' => same_key (prop r' (col_key c)) (prop r (col_key c))) others
          = false) as ->.
  { destruct (col_unique c) eqn:E; [simpl | reflexivity].
    apply not_true_is_false. intros [r' [Hin Hk]]%existsb_exists.
    rewrite (H c r') in Hk; [discriminate | apply list_elem_of_here | exact E |].
    now apply list_elem_of_In. }
  apply IH. intros c' r' Hin. apply H. now apply list_elem_of_further.
Qed.

Lemma latest_snoc (rs : list obj) (r : obj) :
  (forall r', r' ∈ rs -> (id_of r' < id_of r)%Qc) -> latest (rs ++ [r]) = Some r.
Proof.
  induction rs as [|r0 rs IH]; intros H; simpl; [reflexivity |].
  rewrite IH by (intros r' Hin; apply H; now apply list_elem_of_further).
  rewrite bool_decide_eq_false_2; [reflexivity |].
  apply Qcle_not_lt, Qclt_le_weak, H, list_elem_of_here.
Qed.

Lemma schema_keys_NoDup (t : table_name) : NoDup (col_key <$> schema t).
Proof. destruct t; apply (bool_decide_unpack _); vm_compute; exact I. Qed.

Lemma schema_names_NoDup (t : table_name) : NoDup (col_name <$> schema t).
Proof. destruct t; apply (bool_decide_unpack _); vm_compute; exact I. Qed.

Lemma raw_fold_fresh (cols : list column) (r : obj) (n : string) :
  n ∉ col_name <$> cols ->
  List.fold_right
    (fun c (acc : obj) => match r !! col_key c with
                          | Some v => <[col_name c := v]> acc
                          | None => acc
                          end) ∅ cols !! n = None.
Proof.
  induction cols as [|c1 cols IH]; intros Hn; [apply lookup_empty |].
  rewrite fmap_cons in Hn. apply not_elem_of_cons in Hn as [Hne Hn]. simpl.
  destruct (r !! col_key c1); [rewrite lookup_insert_ne by congruence |]; auto.
Qed.

Lemma raw_fold_lookup (cols : list column) (r : obj) (c : column) :
  NoDup (col_name <$> cols) -> c ∈ cols ->
  List.fold_right
    (fun c (acc : obj) => match r !! col_key c with
                          | Some v => <[col_name c := v]> acc
                          | None => acc
                          end) ∅ cols !! col_name c = r !! col_key c.
Proof.
  induction cols as [|c0 cols IH]; intros Hnd Hin; [inversion Hin |].
  rewrite fmap_cons in Hnd. apply NoDup_cons in Hnd as [Hfresh Hnd].
  simpl. apply elem_of_cons in Hin as [-> | Hin].
  - destruct (r !! col_key c0) as [v|]; [apply lookup_insert_eq |].
    now apply raw_fold_fresh.
  - assert (col_name c0 <> col_name c) as Hne.
    { intros E. apply Hfresh. rewrite E. now apply list_elem_of_fmap_2. }
    destruct (r !! col_key c0); [rewrite lookup_insert_ne by exact Hne |]; auto.
Qed.

(** The driver's row holds, under the name of a column, what the row
    holds under its property. *)
Lemma raw_row_lookup (t : table_name) (r : obj) (c : column) :
  c ∈ schema t -> raw_row t r !! col_name c = r !! col_key c.
Proof. intros Hin. apply raw_fold_lookup; [apply schema_names_NoDup | exact Hin]. Qed.

Lemma raw_row_prop (t : table_name) (r : obj) (c : column) :
  c ∈ schema t -> prop (raw_row t r) (col_name c) = prop r (col_key c).
Proof. intros H. unfold prop. now rewrite raw_row_lookup. Qed.

Lemma uses_serial_no_id (t : table_name) (given : obj) :
  given !! "id" = None -> uses_serial (schema t) given = true.
Proof. intros H. destruct t; simpl; now rewrite H. Qed.

(** An INSERT that passes the checks appends the row it built. *)
Lemma exec_insert_ok (t : table_name) (given : obj) (c : Clock) (db : Db) :
  let tb := get_table t db in
  let next := last_serial tb + 1 in
  let row := fill_defaults (schema t) given next (pgNow c) in
  online db = true ->
  given !! "id" = None ->
  last_serial tb < INT4_MAX ->
  null_violation (schema t) row = None ->
  unique_violation (schema t) (rows tb) row = None ->
  exec_insert t given c db
  = (Ok row, set_table t (mkTable (rows tb ++ [row]) next) db).
Proof.
  intros tb next row Hon Hid Hmax Hnull Huniq. unfold exec_insert.
  rewrite Hon. simpl negb. cbv iota.
  rewrite uses_serial_no_id by exact Hid. simpl andb.
  fold tb. destruct (Z.leb_spec INT4_MAX (last_serial tb)) as [? | _]; [lia |].
  fold next. fold row. now rewrite Hnull, Huniq.
Qed.

End PgFacts.

(** * Creating records in the database *)

Module MonadFacts.

Lemma bind_ok {S A B} (m : M S A) (k : A -> M S B) c s a s' :
  m c s = (Ok a, s') -> bind m k c s = k a c s'.
Proof. intros H. unfold bind. now rewrite H. Qed.

Lemma bind_throw {S A B} (m : M S A) (k : A -> M S B) c s e s' :
  m c s = (Throw e, s') -> bind m k c s = (Throw e, s').
Proof. intros H. unfold bind. now rewrite H. Qed.

Lemma try_catch_ok {S A} (m : M S A) h c s a s' :
  m c s = (Ok a, s') -> try_catch m h c s = (Ok a, s').
Proof. intros H. unfold try_catch. now rewrite H. Qed.

Lemma try_catch_throw {S A} (m : M S A) h c s e s' :
  m c s = (Throw e, s') -> try_catch m h c s = h e c s'.
Proof. intros H. unfold try_catch. now rewrite H. Qed.

End MonadFacts.

Module CreateFacts.
Import JS Pg Spec JSFacts PgFacts MonadFacts Samples.

Lemma year_code_split (p : string) (y k : Z) :
  year_code p y k = (p +:+ toString y +:+ "-") +:+ padStart 4 "0" (toString k).
Proof. unfold year_code. now rewrite !append_assoc. Qed.

Lemma append_not_empty (p s : string) : p <> EmptyString -> p +:+ s <> EmptyString.
Proof. destruct p; [congruence | discriminate]. Qed.

(** The generator after a record numbered [k]. *)
Lemma next_code_next (prefix first : string) (w : nat) (key : string)
    (row : obj) (rest : list obj) (k : Z) (c : Clock) (db : Db) :
  prefix <> EmptyString -> 0 <= k ->
  prop row key = VStr (prefix +:+ padStart w "0" (toString k)) ->
  DatabaseStorage.next_code prefix first w key (row :: rest) c db
  = (Ok (prefix +:+ padStart w "0" (toString (k + 1))), db).
Proof.
  intros Hp Hk Hrow. unfold DatabaseStorage.next_code. rewrite Hrow.
  unfold truthy. rewrite (proj2 (String.eqb_neq _ _)) by now apply append_not_empty.
  rewrite startsWith_append. simpl andb. cbv iota.
  rewrite substring_append, parseInt_padStart by exact Hk. reflexivity.
Qed.

Lemma select_latest_online (t : table_name) (k : string) (c : Clock) (db : Db) :
  online db = true ->
  select_latest t k c db
  = (Ok (match latest (rows (get_table t db)) with
         | Some r => [ {[ k := prop r k ]} ]
         | None => []
         end), db).
Proof. intros H. unfold select_latest. now rewrite H. Qed.

Lemma prop_singleton (k : string) (v : value) : prop ({[ k := v ]} : obj) k = v.
Proof. unfold prop. now rewrite lookup_singleton_eq. Qed.

(** *** Facts of the schema *)

Lemma schema_has_id (t : table_name) : primaryKey (serial "id" "id") ∈ schema t.
Proof. destruct t; apply list_elem_of_here. Qed.

Lemma schema_defaults_not_null (t : table_name) (c : column) (v : value) :
  c ∈ schema t -> col_default c = DefaultConst v -> is_null v = false.
Proof.
  intros Hin Hd. destruct t; simpl in Hin;
    repeat (apply elem_of_cons in Hin as [-> | Hin];
            [simpl in Hd; first [discriminate Hd | injection Hd as <-; reflexivity] |]);
    inversion Hin.
Qed.

Lemma schema_is_column (t : table_name) (c : column) :
  c ∈ schema t -> is_column t (col_key c) = true.
Proof.
  intros Hin. unfold is_column. apply existsb_exists. exists c.
  split; [now apply list_elem_of_In | apply String.eqb_refl].
Qed.

Lemma same_key_column (cols : list column) (a b : column) :
  NoDup (col_key <$> cols) -> a ∈ cols -> b ∈ cols -> col_key a = col_key b -> a = b.
Proof.
  induction cols as [|c cols IH]; intros Hnd Ha Hb E; [inversion Ha |].
  simpl in Hnd. apply NoDup_cons in Hnd as [Hc Hnd].
  apply elem_of_cons in Ha as [-> | Ha]; apply elem_of_cons in Hb as [-> | Hb].
  - reflexivity.
  - destruct Hc. rewrite E. now apply list_elem_of_fmap_2.
  - destruct Hc. rewrite <- E. now apply list_elem_of_fmap_2.
  - now apply IH.
Qed.


(** *** A draft of the insert type passes the builder and the NOT NULL
    checks *)

Lemma draft_parts (t : table_name) (key : string) (d : obj) :
  draft_ok t key d = true ->
  defined (prop d "id") = false
  /\ (forall c, c ∈ schema t -> has_type (col_type c) (prop d (col_key c)) = true)
  /\ (forall c, c ∈ schema t -> col_notnull c = true -> col_key c <> key ->
                supplies d c = true).
Proof.
  unfold draft_ok. intros [[Hid Hty]%andb_prop Hsup]%andb_prop.
  apply negb_true_iff in Hid. rewrite forallb_forall in Hty, Hsup.
  split; [exact Hid | split].
  - intros c Hin. now apply Hty, list_elem_of_In.
  - intros c Hin Hnn Hk. specialize (Hsup c (proj1 (list_elem_of_In _ _) Hin)).
    rewrite Hnn in Hsup. simpl in Hsup.
    now rewrite (proj2 (String.eqb_neq _ _) Hk) in Hsup.
Qed.

Lemma has_type_encodes (c : column) (v : value) :
  has_type (col_type c) v = true -> encodes c v = true.
Proof. unfold encodes. now destruct (col_type c), v. Qed.

Section Insert.
Variables (t : table_name) (key : string).
Hypothesis key_column : is_column t key = true.
Hypothesis key_not_id : key <> "id".
Hypothesis key_text : forall c, c ∈ schema t -> col_key c = key -> col_type c = Text.
Hypothesis unique_columns :
  forall c, c ∈ schema t -> col_unique c = true -> col_key c = "id" \/ col_key c = key.

Variables (d : obj) (code : string).
Hypothesis draft : draft_ok t key d = true.

Local Abbreviation given := (column_values t (<[key := VStr code]> d)).

Lemma given_key : given !! key = Some (VStr code).
Proof.
  rewrite column_values_lookup, lookup_insert_eq.
  now rewrite key_column.
Qed.

Lemma given_other (k : string) :
  k <> key ->
  given !! k = match d !! k with
               | Some x => if is_column t k && defined x then Some x else None
               | None => None
               end.
Proof.
  intros Hk. rewrite column_values_lookup.
  now rewrite lookup_insert_ne by congruence.
Qed.

Lemma given_id : given !! "id" = None.
Proof.
  rewrite given_other by congruence.
  destruct (draft_parts t key d draft) as (Hid & _). unfold prop in Hid.
  destruct (d !! "id") as [x|]; [|reflexivity]. simpl in Hid.
  rewrite Hid. now rewrite andb_false_r.
Qed.

Lemma draft_supplies (c : column) :
  c ∈ schema t -> col_notnull c = true -> col_key c <> key -> supplies d c = true.
Proof. destruct (draft_parts t key d draft) as (_ & _ & H). exact (H c). Qed.

(** The builder maps every value of the draft, and the code. *)
Lemma draft_encode (c : Clock) (db : Db) :
  encode t (<[key := VStr code]> d) c db = (Ok given, db).
Proof.
  unfold encode. rewrite (proj2 (forallb_forall _ _)); [reflexivity |].
  intros c0 Hin%list_elem_of_In.
  destruct (String.eqb_spec (col_key c0) key) as [E | Hk].
  - unfold encodes. rewrite (key_text c0 Hin E). reflexivity.
  - unfold prop. rewrite lookup_insert_ne by congruence.
    apply has_type_encodes.
    destruct (draft_parts t key d draft) as (_ & H & _). exact (H c0 Hin).
Qed.

Lemma column_value_not_null (c : column) next now :
  c ∈ schema t -> col_notnull c = true ->
  is_null (column_value c given next now) = false.
Proof.
  intros Hin Hnn. unfold column_value.
  destruct (String.eqb_spec (col_key c) key) as [E | Hk].
  { rewrite E, given_key. reflexivity. }
  rewrite given_other by exact Hk.
  rewrite (schema_is_column t c Hin). simpl andb.
  pose proof (draft_supplies c Hin Hnn Hk) as Hs. unfold supplies, prop in Hs.
  destruct (d !! col_key c) as [x|] eqn:Ed; simpl in Hs.
  - destruct (defined x) eqn:Edef.
    + destruct (col_default c); destruct x; simpl in *; congruence.
    + destruct x; try discriminate Edef.
      destruct (col_default c) eqn:Edf; try reflexivity; try discriminate Hs.
      now apply (schema_defaults_not_null t c).
  - destruct (col_default c) eqn:Edf; try reflexivity; try discriminate Hs.
    now apply (schema_defaults_not_null t c).
Qed.

Lemma insert_values_ok (c : Clock) (db : Db) :
  let tb := get_table t db in
  let next := last_serial tb + 1 in
  online db = true ->
  last_serial tb < INT4_MAX ->
  (forall r', r' ∈ rows tb ->
              same_key (prop r' "id") (VInt next) = false
              /\ same_key (prop r' key) (VStr code) = false) ->
  exists row,
    insert_values t (<[key := VStr code]> d) c db
    = (Ok row, set_table t (mkTable (rows tb ++ [row]) next) db)
    /\ row !! "id" = Some (VInt next)
    /\ prop row key = VStr code.
Proof.
  intros tb next Hon Hmax Hfresh.
  set (row := fill_defaults (schema t) given next (pgNow c)).
  assert (row !! "id" = Some (VInt next)) as Hid.
  { unfold row.
    rewrite (fill_defaults_lookup _ _ _ _ (primaryKey (serial "id" "id")))
      by (apply schema_keys_NoDup || apply schema_has_id).
    unfold column_value. simpl col_key. now rewrite given_id. }
  assert (prop row key = VStr code) as Hkey.
  { pose proof key_column as Hcol.
    apply existsb_exists in Hcol as [ck [Hck Ek]].
    apply String.eqb_eq in Ek. apply list_elem_of_In in Hck.
    assert (prop row (col_key ck) = VStr code) as H; [| now rewrite Ek in H].
    unfold row.
    rewrite fill_defaults_prop by (apply schema_keys_NoDup || exact Hck).
    unfold column_value. now rewrite Ek, given_key. }
  exists row. split; [| now split].
  unfold insert_values. rewrite (bind_ok _ _ _ _ _ _ (draft_encode c db)).
  apply exec_insert_ok; fold tb; fold next; try assumption.
  - apply given_id.
  - apply null_violation_None. intros c0 Hin Hnn. fold row.
    unfold row. rewrite fill_defaults_prop by (apply schema_keys_NoDup || assumption).
    now apply column_value_not_null.
  - fold row. apply unique_violation_None. intros c0 r' Hin Hu Hr'.
    destruct (Hfresh r' Hr') as [Hfid Hfkey].
    destruct (unique_columns c0 Hin Hu) as [E | E]; rewrite E.
    + unfold prop at 2. now rewrite Hid.
    + now rewrite Hkey.
Qed.
End Insert.

(** *** A scope numbered from 1 *)

Lemma padded_inj (w : nat) (i j : Z) :
  0 <= i -> 0 <= j ->
  padStart w "0" (toString i) = padStart w "0" (toString j) -> i = j.
Proof.
  intros Hi Hj E. apply (f_equal parseInt) in E.
  rewrite !parseInt_padStart in E by assumption. congruence.
Qed.

Lemma year_code_inj (p : string) (y i j : Z) :
  0 <= i -> 0 <= j -> year_code p y i = year_code p y j -> i = j.
Proof.
  intros Hi Hj E. rewrite !year_code_split in E.
  apply String.app_inj in E. now apply (padded_inj 4).
Qed.

Lemma year_code_first (p : string) (y : Z) :
  (p +:+ toString y +:+ "-") +:+ "0001" = year_code p y 1.
Proof. now rewrite year_code_split. Qed.

Section Scope.
Variables (t : table_name) (key : string) (code : Z -> string).
Hypothesis code_inj : forall i j, 0 <= i -> 0 <= j -> code i = code j -> i = j.

Lemma numbered_fresh (s0 k : Z) (rs : list obj) (r' : obj) :
  0 <= k -> numbered key code s0 k rs -> r' ∈ rs ->
  same_key (prop r' "id") (VInt (s0 + k + 1)) = false
  /\ same_key (prop r' key) (VStr (code (k + 1))) = false.
Proof.
  intros Hk [Hall _] Hin. destruct (Hall r' Hin) as (j & Hj & Hid & Hcode).
  unfold prop at 1. rewrite Hid, Hcode. simpl. split.
  - apply bool_decide_eq_false_2. intros E%Z2Qc_inj. lia.
  - apply String.eqb_neq. intros E. apply code_inj in E; lia.
Qed.

Lemma numbered_snoc (s0 k : Z) (rs : list obj) (row : obj) :
  0 <= k -> numbered key code s0 k rs ->
  row !! "id" = Some (VInt (s0 + k + 1)) ->
  prop row key = VStr (code (k + 1)) ->
  numbered key code s0 (k + 1) (rs ++ [row]).
Proof.
  intros Hk [Hall _] Hid Hcode. split.
  - intros r [Hin | ->%list_elem_of_singleton]%elem_of_app.
    + destruct (Hall r Hin) as (j & Hj & ? & ?). exists j.
      split; [lia | now split].
    + exists (k + 1). split; [lia | split; [| exact Hcode]].
      rewrite Hid. now replace (s0 + (k + 1)) with (s0 + k + 1) by lia.
  - assert (latest (rs ++ [row]) = Some row) as Hl.
    { apply latest_snoc. intros r' Hin.
      destruct (Hall r' Hin) as (j & Hj & Hid' & _).
      unfold id_of. rewrite Hid, Hid'. unfold VInt.
      apply (proj1 (Z2Qc_inj_lt _ _)). lia. }
    destruct (rs ++ [row]) eqn:E; [now destruct rs |].
    exists row. now split.
Qed.

(** What the lookup of the generators finds in a numbered scope. *)
Lemma numbered_latest (s0 k : Z) (rs : list obj) :
  numbered key code s0 k rs ->
  (k = 0 /\ latest rs = None)
  \/ (exists r, latest rs = Some r /\ prop r key = VStr (code k)).
Proof.
  intros [_ H]. destruct rs; [left; now split | right; exact H].
Qed.

Hypothesis key_column : is_column t key = true.
Hypothesis key_not_id : key <> "id".
Hypothesis key_text : forall c, c ∈ schema t -> col_key c = key -> col_type c = Text.
Hypothesis unique_columns :
  forall c, c ∈ schema t -> col_unique c = true -> col_key c = "id" \/ col_key c = key.

(** One more record: the generator hands out [code (k + 1)] and the
    builder inserts the draft under it. *)
Lemma create_step (gen : M Db string) (d : obj) (c : Clock) (db : Db) (s0 k : Z) :
  0 <= k -> s0 + k < INT4_MAX ->
  draft_ok t key d = true ->
  scope_inv t key code s0 k db ->
  gen c db = (Ok (code (k + 1)), db) ->
  exists row db',
    try_catch (bind gen (fun n => insert_values t (<[key := VStr n]> d)))
              DatabaseStorage.rethrow c db
    = (Ok row, db')
    /\ prop row key = VStr (code (k + 1))
    /\ scope_inv t key code s0 (k + 1) db'.
Proof.
  intros Hk Hmax Hd (Hon & Hser & Hnum) Hgen.
  destruct (insert_values_ok t key key_column key_not_id key_text unique_columns
              d (code (k + 1)) Hd c db Hon) as (row & Hins & Hid & Hcode).
  { rewrite Hser. exact Hmax. }
  { intros r' Hin. rewrite Hser. now apply (numbered_fresh s0 k (rows (get_table t db))). }
  eexists row, _. split; [| split].
  - apply try_catch_ok. rewrite (bind_ok _ _ _ _ _ _ Hgen). exact Hins.
  - exact Hcode.
  - split; [| split].
    + now rewrite online_set_table.
    + rewrite get_set_table. simpl. lia.
    + rewrite get_set_table. simpl. apply numbered_snoc; auto.
      now rewrite Hid, Hser.
Qed.
End Scope.

(** *** The generators in a numbered scope *)

Section Generators.
Variables (c : Clock) (db : Db) (s0 k : Z).
Hypothesis k_nonneg : 0 <= k.
Local Abbreviation y := (getFullYear (jsNow c)).

Lemma yearly_generator (t : table_name) (key p : string) (h : error -> M Db string) :
  p <> EmptyString ->
  scope_inv t key (year_code p y) s0 k db ->
  try_catch
    (bind (select_latest t key) (fun result =>
     bind clock (fun c =>
       let year := getFullYear (jsNow c) in
       let prefix := p +:+ toString year +:+ "-" in
       DatabaseStorage.next_code prefix "0001" 4 key result)))
    h c db
  = (Ok (year_code p y (k + 1)), db).
Proof.
  intros Hp (Hon & _ & Hnum). apply try_catch_ok.
  rewrite (bind_ok _ _ _ _ _ _ (select_latest_online t key c db Hon)).
  unfold bind at 1, clock. cbv beta iota.
  destruct (numbered_latest key (year_code p y) s0 k _ Hnum)
    as [[-> ->] | (r & -> & Hr)].
  - simpl. unfold ret. now rewrite year_code_first.
  - rewrite year_code_split.
    apply next_code_next; [now apply append_not_empty | exact k_nonneg |].
    now rewrite prop_singleton, Hr, year_code_split.
Qed.

Lemma generateCustomerNumber_numbered :
  scope_inv customers "customerNumber" (year_code "KL-" y) s0 k db ->
  DatabaseStorage.generateCustomerNumber c db = (Ok (year_code "KL-" y (k + 1)), db).
Proof. now apply yearly_generator. Qed.

Lemma generateOrderNumber_numbered :
  scope_inv workOrders "orderNumber" (year_code "WB-" y) s0 k db ->
  DatabaseStorage.generateOrderNumber c db = (Ok (year_code "WB-" y (k + 1)), db).
Proof. now apply yearly_generator. Qed.

Lemma generateInvoiceNumber_numbered :
  scope_inv invoices "invoiceNumber" (year_code "F-" y) s0 k db ->
  DatabaseStorage.generateInvoiceNumber c db = (Ok (year_code "F-" y (k + 1)), db).
Proof. now apply yearly_generator. Qed.
End Generators.

(** The code of a class is a text column. *)
Lemma code_column_text (t : table_name) (c : column) :
  c ∈ schema t -> col_key c = code_key t -> col_type c = Text.
Proof.
  intros Hin Hk. destruct t; simpl in Hin, Hk;
    repeat (apply elem_of_cons in Hin as [-> | Hin];
            [first [discriminate Hk | reflexivity] |]);
    inversion Hin.
Qed.

Lemma customers_unique (c : column) :
  c ∈ schema customers -> col_unique c = true ->
  col_key c = "id" \/ col_key c = "customerNumber".
Proof.
  intros Hin Hu. simpl in Hin.
  repeat (apply elem_of_cons in Hin as [-> | Hin];
          [first [discriminate Hu | now left | now right] |]).
  inversion Hin.
Qed.

Lemma invoices_unique (c : column) :
  c ∈ schema invoices -> col_unique c = true ->
  col_key c = "id" \/ col_key c = "invoiceNumber".
Proof.
  intros Hin Hu. simpl in Hin.
  repeat (apply elem_of_cons in Hin as [-> | Hin];
          [first [discriminate Hu | now left | now right] |]).
  inversion Hin.
Qed.

Lemma workOrders_unique (c : column) :
  c ∈ schema workOrders -> col_unique c = true ->
  col_key c = "id" \/ col_key c = "orderNumber".
Proof.
  intros Hin Hu. simpl in Hin.
  repeat (apply elem_of_cons in Hin as [-> | Hin];
          [first [discriminate Hu | now left | now right] |]).
  inversion Hin.
Qed.

Lemma materials_unique (c : column) :
  c ∈ schema materials -> col_unique c = true ->
  col_key c = "id" \/ col_key c = "articleNumber".
Proof.
  intros Hin Hu. simpl in Hin.
  repeat (apply elem_of_cons in Hin as [-> | Hin];
          [first [discriminate Hu | now left | now right] |]).
  inversion Hin.
Qed.

Lemma createCustomer_step (d : obj) (c : Clock) (db : Db) (s0 k : Z) :
  let code := year_code "KL-" (getFullYear (jsNow c)) in
  0 <= k -> s0 + k < INT4_MAX ->
  draft_ok customers "customerNumber" d = true ->
  scope_inv customers "customerNumber" code s0 k db ->
  exists row db',
    DatabaseStorage.createCustomer d c db = (Ok row, db')
    /\ prop row "customerNumber" = VStr (code (k + 1))
    /\ scope_inv customers "customerNumber" code s0 (k + 1) db'.
Proof.
  intros code Hk Hmax Hd Hinv. unfold DatabaseStorage.createCustomer.
  apply (create_step customers "customerNumber" code (year_code_inj _ _)
           eq_refl ltac:(discriminate) (code_column_text customers) customers_unique); auto.
  now apply (generateCustomerNumber_numbered c db s0 k).
Qed.

Lemma createInvoice_step (d : obj) (c : Clock) (db : Db) (s0 k : Z) :
  let code := year_code "F-" (getFullYear (jsNow c)) in
  0 <= k -> s0 + k < INT4_MAX ->
  draft_ok invoices "invoiceNumber" d = true ->
  scope_inv invoices "invoiceNumber" code s0 k db ->
  exists row db',
    DatabaseStorage.createInvoice d c db = (Ok row, db')
    /\ prop row "invoiceNumber" = VStr (code (k + 1))
    /\ scope_inv invoices "invoiceNumber" code s0 (k + 1) db'.
Proof.
  intros code Hk Hmax Hd Hinv. unfold DatabaseStorage.createInvoice.
  apply (create_step invoices "invoiceNumber" code (year_code_inj _ _)
           eq_refl ltac:(discriminate) (code_column_text invoices) invoices_unique); auto.
  now apply (generateInvoiceNumber_numbered c db s0 k).
Qed.

(** *** The hand-written INSERT of work orders *)

Ltac map_lookup :=
  repeat first [ rewrite lookup_insert_eq
               | rewrite lookup_insert_ne by discriminate
               | rewrite lookup_empty ].

Lemma createWorkOrder_unfold (d : obj) :
  DatabaseStorage.createWorkOrder d
  = try_catch
      (bind DatabaseStorage.generateOrderNumber (fun orderNumber =>
       bind clock (fun c =>
       bind (exec_insert workOrders (listed d orderNumber c)) (fun workOrder =>
         ret (raw_row workOrders workOrder)))))
      DatabaseStorage.rethrow.
Proof. reflexivity. Qed.

(** Where the driver's row of a work order holds its number and date. *)
Lemma raw_workOrder (r : obj) :
  prop (raw_row workOrders r) "order_number" = prop r "orderNumber"
  /\ prop (raw_row workOrders r) "date" = prop r "date"
  /\ prop (raw_row workOrders r) "orderNumber" = VUndefined.
Proof.
  split; [| split].
  - apply (raw_row_prop workOrders r (unique (notNull (text "orderNumber" "order_number")))).
    simpl. apply list_elem_of_further, list_elem_of_here.
  - apply (raw_row_prop workOrders r (notNull (timestamp "date" "date"))).
    simpl. do 5 apply list_elem_of_further. apply list_elem_of_here.
  - unfold prop, raw_row. rewrite raw_fold_fresh; [reflexivity |].
    apply (bool_decide_unpack _). vm_compute. exact I.
Qed.

Lemma prop_insert_ne (o : obj) (k k' : string) (v : value) :
  k <> k' -> prop (<[k := v]> o) k' = prop o k'.
Proof. intros H. unfold prop. now rewrite lookup_insert_ne. Qed.

Lemma prop_insert_eq (o : obj) (k : string) (v : value) : prop (<[k := v]> o) k = v.
Proof. unfold prop. now rewrite lookup_insert_eq. Qed.

Lemma is_null_param (v : value) : is_null (param v) = is_null v.
Proof. now destruct v. Qed.

Lemma is_null_or_else (a b : value) : is_null b = false -> is_null (or_else a b) = false.
Proof.
  intros H. unfold or_else. destruct (truthy a) eqn:E; [| exact H].
  now destruct a.
Qed.

Lemma listed_row (d : obj) (code : string) (c : Clock) (next : Z) :
  let row := fill_defaults (schema workOrders) (listed d code c) next (pgNow c) in
  row !! "id" = Some (VInt next)
  /\ prop row "orderNumber" = VStr code
  /\ prop row "date" = VDate (pgNow c)
  /\ prop row "photos" = VNull.
Proof.
  unfold prop. simpl. unfold column_value, listed. simpl col_key. simpl col_default.
  map_lookup. now repeat split.
Qed.

Lemma listed_not_null (d : obj) (code : string) (c : Clock) (next : Z) :
  workOrder_draft_ok d = true ->
  null_violation (schema workOrders)
    (fill_defaults (schema workOrders) (listed d code c) next (pgNow c)) = None.
Proof.
  intros [[Ht Hc]%andb_prop _]%andb_prop. apply negb_true_iff in Ht, Hc.
  apply null_violation_None. intros c0 Hin Hnn.
  rewrite fill_defaults_prop by (apply schema_keys_NoDup || exact Hin).
  simpl in Hin.
  repeat (apply elem_of_cons in Hin as [-> | Hin];
    [ first [ discriminate Hnn
            | unfold column_value, listed; simpl col_key; simpl col_default; map_lookup;
              rewrite ?is_null_param, ?prop_insert_ne by discriminate;
              first [ reflexivity | assumption | now apply is_null_or_else ] ] |]).
  inversion Hin.
Qed.

Lemma createWorkOrder_step (d : obj) (c : Clock) (db : Db) (s0 k : Z) :
  let code := year_code "WB-" (getFullYear (jsNow c)) in
  0 <= k -> s0 + k < INT4_MAX ->
  workOrder_draft_ok d = true ->
  scope_inv workOrders "orderNumber" code s0 k db ->
  exists row db',
    DatabaseStorage.createWorkOrder d c db = (Ok row, db')
    /\ prop row "order_number" = VStr (code (k + 1))
    /\ scope_inv workOrders "orderNumber" code s0 (k + 1) db'.
Proof.
  intros code Hk Hmax Hd Hinv. pose proof Hinv as (Hon & Hser & Hnum).
  rewrite createWorkOrder_unfold.
  pose proof (generateOrderNumber_numbered c db s0 k Hk Hinv) as Hgen. fold code in Hgen.
  set (tb := get_table workOrders db).
  set (row := fill_defaults (schema workOrders) (listed d (code (k + 1)) c)
                            (last_serial tb + 1) (pgNow c)).
  destruct (listed_row d (code (k + 1)) c (last_serial tb + 1)) as (Hid & Hcode & _).
  fold row in Hid, Hcode.
  exists (raw_row workOrders row),
    (set_table workOrders (mkTable (rows tb ++ [row]) (last_serial tb + 1)) db).
  split; [| split].
  - apply try_catch_ok. rewrite (bind_ok _ _ _ _ _ _ Hgen).
    unfold bind at 1, clock. cbv beta iota.
    rewrite (bind_ok _ _ _ _ row (set_table workOrders
               (mkTable (rows tb ++ [row]) (last_serial tb + 1)) db)); [reflexivity |].
    apply exec_insert_ok; fold tb; fold row.
    + exact Hon.
    + unfold listed. now map_lookup.
    + unfold tb. rewrite Hser. exact Hmax.
    + now apply listed_not_null.
    + apply unique_violation_None. intros c0 r' Hin Hu Hr'.
      destruct (numbered_fresh "orderNumber" code (year_code_inj _ _) s0 k _ r' Hk Hnum Hr')
        as [Hfid Hfkey].
      destruct (workOrders_unique c0 Hin Hu) as [E | E]; rewrite E.
      * unfold prop at 2. rewrite Hid. unfold tb. now rewrite Hser.
      * now rewrite Hcode.
  - now rewrite (proj1 (raw_workOrder row)).
  - split; [| split].
    + now rewrite online_set_table.
    + rewrite get_set_table. simpl. unfold tb. lia.
    + rewrite get_set_table. simpl. apply numbered_snoc; auto.
      rewrite Hid. unfold tb. now rewrite Hser.
Qed.

End CreateFacts.

(** * Sequences of creations *)

Module RunFacts.
Import JS Spec JSFacts MonadFacts CreateFacts Samples.

(** Records created one after the other take the numbers that follow. *)
Lemma run_numbered {S : Type} (create : obj -> M S obj) (key : string)
    (code : Z -> string) (ok : Clock * obj -> Prop) (inv : Z -> S -> Prop)
    (limit : Z) :
  (forall k c d s, 0 <= k -> k < limit -> ok (c, d) -> inv k s ->
     exists row s', create d c s = (Ok row, s')
                    /\ prop row key = VStr (code (k + 1)) /\ inv (k + 1) s') ->
  forall calls k s,
    0 <= k -> k + Z.of_nat (length calls) <= limit -> Forall ok calls -> inv k s ->
    returned key <$> (run create calls s).1
    = List.map (fun i => Ok (VStr (code (k + Z.of_nat i)))) (seq 1 (length calls)).
Proof.
  intros Hstep calls. induction calls as [|[c d] calls IH]; intros k s Hk Hlim Hok Hinv.
  - reflexivity.
  - simpl length in *. apply Forall_cons in Hok as [Hcd Hok].
    destruct (Hstep k c d s Hk ltac:(lia) Hcd Hinv) as (row & s' & Hrun & Hcode & Hinv').
    simpl run. rewrite Hrun.
    specialize (IH (k + 1) s' ltac:(lia) ltac:(lia) Hok Hinv').
    destruct (run create calls s') as [rs s''] eqn:Er.
    cbn [fst] in IH |- *. rewrite fmap_cons, IH. cbn [returned List.map seq].
    rewrite Hcode. change (Z.of_nat 1) with 1. f_equal.
    rewrite <- (seq_shift (length calls) 1), List.map_map.
    apply List.map_ext. intros i. do 3 f_equal. lia.
Qed.

Lemma upto_shift {A} (n : nat) (f : Z -> A) :
  List.map (fun i => f (0 + Z.of_nat i)) (seq 1 n) = upto n f.
Proof. reflexivity. Qed.

End RunFacts.

Module MemFacts.
Import JS Spec JSFacts MonadFacts CreateFacts Samples.

Lemma createWorkOrder_code (d : obj) (c : Clock) (s : MemStorage.t) :
  exists row s',
    MemStorage.createWorkOrder d c s = (Ok row, s')
    /\ prop row "orderNumber"
       = VStr (year_code "WB-" (getFullYear (jsNow c)) (MemStorage.workOrderIdCounter s))
    /\ MemStorage.workOrderIdCounter s' = MemStorage.workOrderIdCounter s + 1.
Proof.
  eexists _, _. split; [reflexivity |]. split; [| reflexivity].
  now rewrite !prop_insert_ne, prop_insert_eq by discriminate.
Qed.

Lemma createInvoice_code (d : obj) (c : Clock) (s : MemStorage.t) :
  exists row s',
    MemStorage.createInvoice d c s = (Ok row, s')
    /\ prop row "invoiceNumber"
       = VStr (year_code "F-" (getFullYear (jsNow c)) (MemStorage.invoiceIdCounter s))
    /\ MemStorage.invoiceIdCounter s' = MemStorage.invoiceIdCounter s + 1.
Proof.
  eexists _, _. split; [reflexivity |]. split; [| reflexivity].
  now rewrite !prop_insert_ne, prop_insert_eq by discriminate.
Qed.

Lemma createCustomer_code (d : obj) (c : Clock) (s : MemStorage.t) :
  exists row s',
    MemStorage.createCustomer d c s = (Ok row, s')
    /\ prop row "customerNumber"
       = VStr ("KL-" +:+ padStart 5 "0" (toString (MemStorage.customerIdCounter s)))
    /\ MemStorage.customerIdCounter s' = MemStorage.customerIdCounter s + 1.
Proof.
  eexists _, _. split; [reflexivity |]. split; [| reflexivity].
  now rewrite !prop_insert_ne, prop_insert_eq by discriminate.
Qed.

Lemma createMaterial_code (d : obj) (c : Clock) (s : MemStorage.t) :
  exists row s',
    MemStorage.createMaterial d c s = (Ok row, s')
    /\ prop row "articleNumber"
       = VStr ("ART-" +:+ padStart 5 "0" (toString (MemStorage.materialIdCounter s)))
    /\ MemStorage.materialIdCounter s' = MemStorage.materialIdCounter s + 1.
Proof.
  eexists _, _. split; [reflexivity |]. split; [| reflexivity].
  now rewrite !prop_insert_ne, prop_insert_eq by discriminate.
Qed.

(** *** The number a code ends with *)

Lemma no_hyphen_digits (s : string) :
  all_digits s = true -> existsb (Ascii.eqb "-") (list_ascii_of_string s) = false.
Proof.
  induction s as [|x s IH]; simpl; [reflexivity |].
  intros [Hx Hs]%andb_prop. rewrite (IH Hs), orb_false_r.
  destruct x as [[] [] [] [] [] [] [] []]; try discriminate Hx; reflexivity.
Qed.

Lemma hyphen_in_append (a s : string) :
  existsb (Ascii.eqb "-") (list_ascii_of_string (a +:+ String "-" s)) = true.
Proof.
  induction a as [|x a IH]; sappend; simpl; [reflexivity |].
  rewrite IH. apply orb_true_r.
Qed.

Lemma after_last_hyphen_digits (a s : string) :
  all_digits s = true -> after_last_hyphen (a +:+ String "-" s) = s.
Proof.
  intros Hs. induction a as [|x a IH]; sappend; simpl.
  - now rewrite no_hyphen_digits.
  - now rewrite hyphen_in_append.
Qed.

Lemma suffix_number_padded (a : string) (w : nat) (k : Z) :
  0 <= k ->
  suffix_number (VStr (a +:+ String "-" (padStart w "0" (toString k)))) = Some k.
Proof.
  intros Hk. unfold suffix_number. rewrite after_last_hyphen_digits.
  - now apply parseInt_padStart.
  - apply all_digits_padStart. unfold toString.
    destruct (Z.ltb_spec k 0); [lia |]. now apply all_digits_decimal.
Qed.

End MemFacts.

Module C1.
Import JS Pg Spec Calls JSFacts PgFacts MonadFacts CreateFacts RunFacts MemFacts Samples.

(** A call that creates no record of class [t] leaves the id counter
    MemStorage keeps for the class as it is. *)
Lemma counter_kept (k : call) (c : Clock) (s : MemStorage.t) (t : table_name) :
  match k with Create t' _ => same_table t' t | _ => false end = false ->
  counter t (perform (storage := MemStorage.storage) k c s) = counter t s.
Proof.
  destruct k as [t' d | t' id data | t' id]; intros H.
  - destruct t', t; try discriminate H; reflexivity.
  - destruct t', t; cbn;
      unfold MemStorage.updateCustomer, MemStorage.updateMaterial,
        MemStorage.updateWorkOrder, MemStorage.updateInvoice, MemStorage.updateProject,
        MemStorage.merge_into;
      match goal with |- context [map_get ?m id] => destruct (map_get m id) end;
      reflexivity.
  - destruct t', t; cbn;
      unfold MemStorage.deleteCustomer, MemStorage.deleteMaterial,
        MemStorage.deleteWorkOrder, MemStorage.deleteInvoice, MemStorage.deleteProject;
      try match goal with |- context [map_delete ?m id] => destruct (map_delete m id) end;
      reflexivity.
Qed.

(** Until the first record of a class is created, the counter of the
    class stands where it stood. *)
Lemma counter_untouched (history : list (Clock * call)) (s : MemStorage.t)
    (t : table_name) :
  creates t history = 0%nat ->
  counter t (after (storage := MemStorage.storage) history s) = counter t s.
Proof.
  revert s. induction history as [|[c k] history IH]; intros s H; [reflexivity |].
  unfold creates in H. cbn [List.filter snd] in H.
  destruct (match k with Create t' _ => same_table t' t | _ => false end) eqn:E;
    [discriminate H |].
  unfold after. cbn [fold_left fst snd].
  change (counter t (after (storage := MemStorage.storage) history
                       (perform (storage := MemStorage.storage) k c s)) = counter t s).
  rewrite (IH _ H). now apply counter_kept.
Qed.

Lemma scope_inv_empty (t : table_name) (key : string) (code : Z -> string) (db : Db) :
  online db = true -> rows (get_table t db) = [] ->
  scope_inv t key code (last_serial (get_table t db)) 0 db.
Proof.
  intros Hon Hrows. split; [exact Hon |]. split; [lia |].
  rewrite Hrows. split; [| reflexivity]. intros r Hr. inversion Hr.
Qed.

Lemma Forall_and {A} (P Q : A -> Prop) (l : list A) :
  Forall P l -> Forall Q l -> Forall (fun x => P x /\ Q x) l.
Proof. intros HP HQ. induction HP; inversion HQ; subst; constructor; auto. Qed.

Lemma fmap_map_ext {A B C} (f : A -> B) (g : B -> C) (h : A -> C) (l : list A) :
  (forall i, g (f i) = h i) -> g <$> List.map f l = List.map h l.
Proof.
  intros H. induction l as [|x l IH]; [reflexivity |].
  cbn [List.map]. rewrite fmap_cons, IH, H. reflexivity.
Qed.

Lemma returned_through (key : string) (g : value -> option Z)
    (rs : list (result obj)) (vs : list value) :
  returned key <$> rs = Ok <$> vs ->
  (fun r => match r with
            | Ok x => g (prop x key)
            | Throw _ => None
            end) <$> rs = g <$> vs.
Proof.
  revert vs. induction rs as [|r rs IH]; intros [|v vs] H;
    try discriminate H; [reflexivity |].
  rewrite !fmap_cons in H. injection H as Hr Hrs.
  rewrite !fmap_cons, (IH vs Hrs). f_equal.
  destruct r; simpl in Hr; congruence.
Qed.

(** C1 (as amended). Records created one after the other within one
    calendar year get the numbers 1, 2, ..., N in order of creation:
    in DatabaseStorage starting from an empty table (customers, work
    orders, invoices), in MemStorage starting from any store whose id
    counter of the class stands at 1, as it does in every store that
    calls of the interface make of the constructor's until the first
    record of the class is created, whatever the store holds of other
    classes; there codes follow the id counter.  The suffix of the k-th code reads
    k, so every code is new and larger than the ones before.  The work
    order that DatabaseStorage returns is the row of the driver, which
    holds the code under [order_number]. *)
Theorem sequential_codes (y : Z) (calls : list (Clock * obj)) :
  let n := length calls in
  Forall (fun call => getFullYear (jsNow call.1) = y) calls ->
  (forall db,
     online db = true -> rows (t_customers db) = [] ->
     last_serial (t_customers db) + Z.of_nat n <= INT4_MAX ->
     Forall (fun call => draft_ok customers "customerNumber" call.2 = true) calls ->
     returned "customerNumber" <$> (run DatabaseStorage.createCustomer calls db).1
     = upto n (fun k => Ok (VStr (year_code "KL-" y k))))
  /\ (forall db,
     online db = true -> rows (t_workOrders db) = [] ->
     last_serial (t_workOrders db) + Z.of_nat n <= INT4_MAX ->
     Forall (fun call => workOrder_draft_ok call.2 = true) calls ->
     returned "order_number" <$> (run DatabaseStorage.createWorkOrder calls db).1
     = upto n (fun k => Ok (VStr (year_code "WB-" y k))))
  /\ (forall db,
     online db = true -> rows (t_invoices db) = [] ->
     last_serial (t_invoices db) + Z.of_nat n <= INT4_MAX ->
     Forall (fun call => draft_ok invoices "invoiceNumber" call.2 = true) calls ->
     returned "invoiceNumber" <$> (run DatabaseStorage.createInvoice calls db).1
     = upto n (fun k => Ok (VStr (year_code "F-" y k))))
  /\ (forall s,
      Z.of_nat n <= MAX_SAFE_INTEGER ->
      (MemStorage.workOrderIdCounter s = 1 ->
       returned "orderNumber" <$> (run MemStorage.createWorkOrder calls s).1
       = upto n (fun k => Ok (VStr (year_code "WB-" y k))))
      /\ (MemStorage.invoiceIdCounter s = 1 ->
          returned "invoiceNumber" <$> (run MemStorage.createInvoice calls s).1
          = upto n (fun k => Ok (VStr (year_code "F-" y k))))
      /\ (MemStorage.customerIdCounter s = 1 ->
          (fun r => match r with
                    | Ok x => suffix_number (prop x "customerNumber")
                    | Throw _ => None
                    end) <$> (run MemStorage.createCustomer calls s).1
          = upto n Some))
  /\ (forall (history : list (Clock * call)) (t : table_name),
      creates t history = 0%nat ->
      counter t (after (storage := MemStorage.storage) history MemStorage.new) = 1)
  /\ (forall prefix k,
      0 <= k <= MAX_SAFE_INTEGER ->
      suffix_number (VStr (year_code prefix y k)) = Some k).
Proof.
  intros n Hyear. repeat split.
  - intros db Hon Hrows Hmax Hd.
    rewrite <- upto_shift.
    apply (run_numbered DatabaseStorage.createCustomer "customerNumber"
             (year_code "KL-" y)
             (fun call => getFullYear (jsNow call.1) = y
                          /\ draft_ok customers "customerNumber" call.2 = true)
             (scope_inv customers "customerNumber" (year_code "KL-" y)
                        (last_serial (t_customers db)))
             (INT4_MAX - last_serial (t_customers db))).
    + intros k c d s Hk Hlim [Hy Hok] Hinv. simpl in Hy, Hok. subst y.
      apply createCustomer_step; auto. lia.
    + lia.
    + fold n. lia.
    + now apply Forall_and.
    + now apply (scope_inv_empty customers).
  - intros db Hon Hrows Hmax Hd.
    rewrite <- upto_shift.
    apply (run_numbered DatabaseStorage.createWorkOrder "order_number"
             (year_code "WB-" y)
             (fun call => getFullYear (jsNow call.1) = y
                          /\ workOrder_draft_ok call.2 = true)
             (scope_inv workOrders "orderNumber" (year_code "WB-" y)
                        (last_serial (t_workOrders db)))
             (INT4_MAX - last_serial (t_workOrders db))).
    + intros k c d s Hk Hlim [Hy Hok] Hinv. simpl in Hy, Hok. subst y.
      apply createWorkOrder_step; auto. lia.
    + lia.
    + fold n. lia.
    + now apply Forall_and.
    + now apply (scope_inv_empty workOrders).
  - intros db Hon Hrows Hmax Hd.
    rewrite <- upto_shift.
    apply (run_numbered DatabaseStorage.createInvoice "invoiceNumber"
             (year_code "F-" y)
             (fun call => getFullYear (jsNow call.1) = y
                          /\ draft_ok invoices "invoiceNumber" call.2 = true)
             (scope_inv invoices "invoiceNumber" (year_code "F-" y)
                        (last_serial (t_invoices db)))
             (INT4_MAX - last_serial (t_invoices db))).
    + intros k c d s Hk Hlim [Hy Hok] Hinv. simpl in Hy, Hok. subst y.
      apply createInvoice_step; auto. lia.
    + lia.
    + fold n. lia.
    + now apply Forall_and.
    + now apply (scope_inv_empty invoices).
  - intros Hfirst. rewrite <- upto_shift.
    apply (run_numbered MemStorage.createWorkOrder "orderNumber" (year_code "WB-" y)
             (fun call => getFullYear (jsNow call.1) = y)
             (fun k s => MemStorage.workOrderIdCounter s = k + 1)
             MAX_SAFE_INTEGER); auto; try lia.
    intros k c d s0 Hk Hlim Hy Hinv. simpl in Hy. subst y.
    destruct (createWorkOrder_code d c s0) as (row & s' & -> & Hcode & Hcount).
    exists row, s'. rewrite Hcode, Hcount, Hinv. repeat split.
  - intros Hfirst. rewrite <- upto_shift.
    apply (run_numbered MemStorage.createInvoice "invoiceNumber" (year_code "F-" y)
             (fun call => getFullYear (jsNow call.1) = y)
             (fun k s => MemStorage.invoiceIdCounter s = k + 1)
             MAX_SAFE_INTEGER); auto; try lia.
    intros k c d s0 Hk Hlim Hy Hinv. simpl in Hy. subst y.
    destruct (createInvoice_code d c s0) as (row & s' & -> & Hcode & Hcount).
    exists row, s'. rewrite Hcode, Hcount, Hinv. repeat split.
  - intros Hfirst.
    assert (returned "customerNumber"
              <$> (run MemStorage.createCustomer calls s).1
            = List.map (fun i => Ok (VStr ("KL" +:+ String "-"
                                       (padStart 5 "0" (toString (0 + Z.of_nat i))))))
                       (seq 1 n)) as Hcodes.
    { apply (run_numbered MemStorage.createCustomer "customerNumber"
               (fun k => "KL" +:+ String "-" (padStart 5 "0" (toString k)))
               (fun _ => True)
               (fun k s => MemStorage.customerIdCounter s = k + 1)
               MAX_SAFE_INTEGER); auto; try lia.
      - intros k c d s0 Hk Hlim _ Hinv.
        destruct (createCustomer_code d c s0) as (row & s' & -> & Hcode & Hcount).
        exists row, s'. rewrite Hcode, Hcount, Hinv. repeat split.
      - clear. induction calls; constructor; auto. }
    rewrite (returned_through "customerNumber" suffix_number _
               (List.map (fun i => VStr ("KL" +:+ String "-"
                                    (padStart 5 "0" (toString (0 + Z.of_nat i)))))
                         (seq 1 n))).
    + unfold upto. apply fmap_map_ext. intros i.
      apply (suffix_number_padded "KL" 5). lia.
    + rewrite Hcodes. symmetry. now apply fmap_map_ext.
  - intros history t Hnone. rewrite (counter_untouched history _ t Hnone).
    now destruct t.
  - intros prefix k [Hk _]. unfold year_code.
    rewrite <- (append_assoc prefix (toString y)).
    now apply (suffix_number_padded (prefix +:+ toString y) 4).
Qed.

Lemma sequential_codes_witness :
  returned "customerNumber"
    <$> (run DatabaseStorage.createCustomer [(at_2025, jansen); (at_2025, jansen)] empty_db).1
  = [Ok (VStr "KL-2025-0001"); Ok (VStr "KL-2025-0002")]
  /\ returned "order_number"
       <$> (run DatabaseStorage.createWorkOrder [(at_2025, boiler); (at_2025, boiler)] empty_db).1
     = [Ok (VStr "WB-2025-0001"); Ok (VStr "WB-2025-0002")]
  /\ returned "invoiceNumber"
       <$> (run DatabaseStorage.createInvoice [(at_2025, bill); (at_2025, bill)] empty_db).1
     = [Ok (VStr "F-2025-0001"); Ok (VStr "F-2025-0002")]
  /\ MemStorage.customers one_customer <> []
  /\ returned "orderNumber"
       <$> (run MemStorage.createWorkOrder [(at_2025, boiler); (at_2025, boiler)] one_customer).1
     = [Ok (VStr "WB-2025-0001"); Ok (VStr "WB-2025-0002")].
Proof.
  split; [| split; [| split; [| split; [discriminate |]]]].
  - destruct (sequential_codes 2025 [(at_2025, jansen); (at_2025, jansen)])
      as (H & _); [repeat constructor |].
    apply H.
    + reflexivity.
    + reflexivity.
    + vm_compute. discriminate.
    + repeat (constructor; [vm_compute; reflexivity |]). constructor.
  - destruct (sequential_codes 2025 [(at_2025, boiler); (at_2025, boiler)])
      as (_ & H & _); [repeat constructor |].
    apply H.
    + reflexivity.
    + reflexivity.
    + vm_compute. discriminate.
    + repeat (constructor; [vm_compute; reflexivity |]). constructor.
  - destruct (sequential_codes 2025 [(at_2025, bill); (at_2025, bill)])
      as (_ & _ & H & _); [repeat constructor |].
    apply H.
    + reflexivity.
    + reflexivity.
    + vm_compute. discriminate.
    + repeat (constructor; [vm_compute; reflexivity |]). constructor.
  - destruct (sequential_codes 2025 [(at_2025, boiler); (at_2025, boiler)])
      as (_ & _ & _ & H & _); [repeat constructor |].
    destruct (H one_customer) as (Hw & _); [vm_compute; discriminate |].
    apply Hw. reflexivity.
Defined.

(** C1 fails as stated: a MemStorage without any work order need not
    start at 0001.  The counter of ids is not reset by deletions. *)
Lemma emptied_store_counterexample :
  MemStorage.workOrders emptied = []
  /\ returned "orderNumber"
       <$> (run MemStorage.createWorkOrder [(at_2025, boiler)] emptied).1
     = [Ok (VStr "WB-2025-0002")]
  /\ returned "orderNumber"
       <$> (run MemStorage.createWorkOrder [(at_2025, boiler)] emptied).1
     <> upto 1 (fun k => Ok (VStr (year_code "WB-" 2025 k))).
Proof.
  split; [reflexivity |]. split; [reflexivity |]. discriminate.
Qed.

End C1.

(** * The shape of generated codes *)

Module GeneratorFacts.
Import JS Pg Spec JSFacts PgFacts MonadFacts CreateFacts Samples.

(** What [next_code] returns on the single row of the lookup, or throws. *)
Lemma next_code_spec (prefix first : string) (w : nat) (key : string)
    (result : list obj) (c : Clock) (db : Db) :
  prefix <> EmptyString ->
  first = padStart w "0" (toString 1) ->
  let latest := match result with row :: _ => prop row key | [] => VUndefined end in
  DatabaseStorage.next_code prefix first w key result c db
  = (Ok (prefix +:+ padStart w "0" (toString (next_number prefix latest))), db)
  \/ (exists e, DatabaseStorage.next_code prefix first w key result c db = (Throw e, db)
                /\ parsed prefix latest = None).
Proof.
  intros Hp -> latest. unfold DatabaseStorage.next_code.
  destruct result as [|row rest]; [now left |]. subst latest.
  unfold next_number, parsed.
  destruct (prop row key) as [| |b| |x|s|dt|xs|fs];
    try (now left); try (right; eexists; split; reflexivity).
  - destruct b; [right; eexists; split; reflexivity | now left].
  - destruct (truthy (VNum x));
      [right; eexists; split; reflexivity | now left].
  - destruct (startsWith s prefix) eqn:Es.
    + assert (truthy (VStr s) = true) as ->.
      { destruct s; [| reflexivity]. now destruct prefix. }
      simpl andb. cbv iota. left.
      now destruct (parseInt _).
    + rewrite andb_false_r. now left.
Qed.

Section Yearly.
Variables (t : table_name) (key p : string).
Hypothesis p_not_empty : p <> EmptyString.

(** The generator of a yearly scope never throws and leaves the
    database as it is; offline it restarts the scope. *)
Lemma yearly_generator_spec (c : Clock) (db : Db) :
  let y := getFullYear (jsNow c) in
  let prefix := p +:+ toString y +:+ "-" in
  exists n,
    try_catch
      (bind (select_latest t key) (fun result =>
       bind clock (fun c =>
         let year := getFullYear (jsNow c) in
         let prefix := p +:+ toString year +:+ "-" in
         DatabaseStorage.next_code prefix "0001" 4 key result)))
      (fun _ => bind clock (fun c =>
         ret (p +:+ toString (getFullYear (jsNow c)) +:+ "-0001")))
      c db
    = (Ok (year_code p y n), db)
    /\ (online db = true -> n = next_number prefix (latest_code t key db))
    /\ (parsed prefix (latest_code t key db) = None -> n = 1).
Proof.
  intros y prefix. unfold try_catch, bind at 1, select_latest.
  assert (p +:+ toString y +:+ "-0001" = year_code p y 1) as Hfirst.
  { unfold year_code. reflexivity. }
  destruct (online db) eqn:Hon; simpl negb; cbv iota.
  2:{ exists 1. unfold bind, clock, ret. fold y. rewrite Hfirst.
      split; [reflexivity | split; [discriminate | reflexivity]]. }
  unfold bind at 1, clock. cbv beta iota. fold y. fold prefix.
  set (result := match latest (rows (get_table t db)) with
                 | Some r => [ {[ key := prop r key ]} ]
                 | None => []
                 end).
  assert (match result with row :: _ => prop row key | [] => VUndefined end
          = latest_code t key db) as Hlatest.
  { unfold result, latest_code. destruct (latest _); [| reflexivity].
    apply prop_singleton. }
  destruct (next_code_spec prefix "0001" 4 key result c db) as [H | (e & H & Hnone)];
    try reflexivity.
  { now apply append_not_empty. }
  - rewrite H, Hlatest. exists (next_number prefix (latest_code t key db)).
    split; [now rewrite year_code_split | split; [reflexivity |]].
    intros Hn. unfold next_number. now rewrite Hn.
  - rewrite H. exists 1. unfold bind, clock, ret. fold y. rewrite Hfirst.
    split; [reflexivity | split; [| reflexivity]].
    intros _. unfold next_number. now rewrite <- Hlatest, Hnone.
Qed.
End Yearly.

Lemma generateArticleNumber_spec (c : Clock) (db : Db) :
  exists n,
    DatabaseStorage.generateArticleNumber c db = (Ok (article_code n), db)
    /\ (online db = true ->
        n = next_number "ART-" (latest_code materials "articleNumber" db))
    /\ (parsed "ART-" (latest_code materials "articleNumber" db) = None -> n = 1).
Proof.
  unfold DatabaseStorage.generateArticleNumber, try_catch, bind at 1, select_latest.
  destruct (online db) eqn:Hon; simpl negb; cbv iota.
  2:{ exists 1. unfold ret.
      split; [reflexivity | split; [discriminate | reflexivity]]. }
  set (result := match latest (rows (get_table materials db)) with
                 | Some r => [ {[ "articleNumber" := prop r "articleNumber" ]} ]
                 | None => []
                 end).
  assert (match result with row :: _ => prop row "articleNumber" | [] => VUndefined end
          = latest_code materials "articleNumber" db) as Hlatest.
  { unfold result, latest_code. destruct (latest _); [| reflexivity].
    apply prop_singleton. }
  destruct (next_code_spec "ART-" "000001" 6 "articleNumber" result c db)
    as [H | (e & H & Hnone)]; try reflexivity; try discriminate.
  - rewrite H, Hlatest.
    exists (next_number "ART-" (latest_code materials "articleNumber" db)).
    split; [reflexivity | split; [reflexivity |]].
    intros Hn. unfold next_number. now rewrite Hn.
  - rewrite H. exists 1. unfold ret.
    split; [reflexivity | split; [| reflexivity]].
    intros _. unfold next_number. now rewrite <- Hlatest, Hnone.
Qed.

(** No generator throws. *)
Lemma generators_total (c : Clock) (db : Db) :
  (exists code, DatabaseStorage.generateCustomerNumber c db = (Ok code, db))
  /\ (exists code, DatabaseStorage.generateArticleNumber c db = (Ok code, db))
  /\ (exists code, DatabaseStorage.generateOrderNumber c db = (Ok code, db))
  /\ (exists code, DatabaseStorage.generateInvoiceNumber c db = (Ok code, db)).
Proof.
  destruct (yearly_generator_spec customers "customerNumber" "KL-" ltac:(discriminate) c db)
    as (n1 & H1 & _).
  destruct (generateArticleNumber_spec c db) as (n2 & H2 & _).
  destruct (yearly_generator_spec workOrders "orderNumber" "WB-" ltac:(discriminate) c db)
    as (n3 & H3 & _).
  destruct (yearly_generator_spec invoices "invoiceNumber" "F-" ltac:(discriminate) c db)
    as (n4 & H4 & _).
  repeat split; eexists; eassumption.
Qed.

End GeneratorFacts.

Module PatternFacts.
Import JS Pg Spec JSFacts PgFacts MonadFacts CreateFacts Samples.

Lemma eat_lit_append (p r : string) : eat_lit p (p +:+ r) = Some r.
Proof.
  induction p as [|x p IH]; sappend; simpl; [reflexivity |].
  now rewrite Ascii.eqb_refl.
Qed.

Lemma eat_digits_append (ds r : string) :
  all_digits ds = true -> eat_digits (String.length ds) (ds +:+ r) = Some r.
Proof.
  induction ds as [|x ds IH]; sappend; simpl; [reflexivity |].
  intros [-> Hds]%andb_prop. now apply IH.
Qed.

Lemma length_repeat_char (c : ascii) (n : nat) : String.length (repeat_char c n) = n.
Proof. induction n as [|n IH]; simpl; [reflexivity | now rewrite IH]. Qed.

Lemma length_padStart (w : nat) (c : ascii) (s : string) :
  String.length (padStart w c s) = Nat.max w (String.length s).
Proof. unfold padStart. rewrite length_append, length_repeat_char. lia. Qed.

Lemma length_decimal_go (fuel : nat) : forall n (k : nat),
  (0 < fuel)%nat -> 0 <= n < 10 ^ Z.of_nat fuel -> (1 <= k)%nat ->
  (n < 10 ^ Z.of_nat k -> (String.length (decimal_go fuel n EmptyString) <= k)%nat)
  /\ (10 ^ (Z.of_nat k - 1) <= n -> (k <= String.length (decimal_go fuel n EmptyString))%nat).
Proof.
  induction fuel as [|fuel IH]; intros n k Hf Hn Hk; [lia |].
  simpl decimal_go. destruct (Z.ltb_spec n 10) as [Hlt | Hge].
  - simpl. split; [lia |]. intros Hlow.
    destruct (Nat.le_gt_cases k 1) as [? | Hk2]; [assumption |].
    assert (10 ^ 1 <= 10 ^ (Z.of_nat k - 1)) by (apply Z.pow_le_mono_r; lia).
    lia.
  - rewrite decimal_go_acc, length_append. simpl String.length.
    assert (0 <= n / 10 < 10 ^ Z.of_nat fuel) as Hq.
    { split; [apply Z.div_pos; lia |].
      apply Z.div_lt_upper_bound; [lia |].
      rewrite Nat2Z.inj_succ, Z.pow_succ_r in Hn by lia. lia. }
    assert (0 < fuel)%nat as Hf'.
    { destruct fuel; [|lia]. simpl in Hq.
      assert (1 <= n / 10) by (apply Z.div_le_lower_bound; lia). lia. }
    split.
    + intros Hup. destruct k as [|[|k]]; [lia | simpl in Hup; lia |].
      destruct (IH (n / 10) (Datatypes.S k) Hf' Hq ltac:(lia)) as [Hle _].
      assert (n / 10 < 10 ^ Z.of_nat (Datatypes.S k)).
      { apply Z.div_lt_upper_bound; [lia |].
        rewrite (Nat2Z.inj_succ (Datatypes.S k)), Z.pow_succ_r in Hup by lia. lia. }
      specialize (Hle ltac:(assumption)). lia.
    + intros Hlow. destruct k as [|[|k]]; [lia | lia |].
      destruct (IH (n / 10) (Datatypes.S k) Hf' Hq ltac:(lia)) as [_ Hge'].
      assert (10 ^ (Z.of_nat (Datatypes.S k) - 1) <= n / 10).
      { apply Z.div_le_lower_bound; [lia |].
        replace (Z.of_nat (Datatypes.S (Datatypes.S k)) - 1)
          with (Z.succ (Z.of_nat (Datatypes.S k) - 1)) in Hlow by lia.
        rewrite Z.pow_succ_r in Hlow by lia. lia. }
      specialize (Hge' ltac:(assumption)). lia.
Qed.

Lemma length_decimal_le (n : Z) (k : nat) :
  0 <= n < 10 ^ Z.of_nat k -> (1 <= k)%nat -> (String.length (decimal n) <= k)%nat.
Proof.
  intros [Hn Hup] Hk. unfold decimal.
  apply (length_decimal_go _ n k); try lia. split; [lia | now apply decimal_fuel].
Qed.

Lemma length_decimal_eq (n : Z) (k : nat) :
  10 ^ (Z.of_nat k - 1) <= n < 10 ^ Z.of_nat k -> (1 <= k)%nat ->
  String.length (decimal n) = k.
Proof.
  intros [Hlow Hup] Hk.
  assert (0 <= n) by (pose proof (Z.pow_nonneg 10 (Z.of_nat k - 1)); lia).
  apply Nat.le_antisymm; [apply length_decimal_le; lia |].
  unfold decimal. apply (length_decimal_go _ n k); try lia.
  split; [lia | now apply decimal_fuel].
Qed.

Lemma toString_nonneg (n : Z) : 0 <= n -> toString n = decimal n.
Proof. intros H. unfold toString. destruct (Z.ltb_spec n 0); [lia | reflexivity]. Qed.

(** A number of at most [w] digits, padded, is [w] digits. *)
Lemma padded_digits (w : nat) (n : Z) (r : string) :
  (1 <= w)%nat -> 0 <= n < 10 ^ Z.of_nat w ->
  eat_digits w (padStart w "0" (toString n) +:+ r) = Some r.
Proof.
  intros Hw Hn. rewrite toString_nonneg by lia.
  pose proof (length_decimal_le n w Hn Hw) as Hlen.
  replace w with (String.length (padStart w "0" (decimal n))) at 1
    by (rewrite length_padStart; lia).
  apply eat_digits_append, all_digits_padStart, all_digits_decimal. lia.
Qed.

(** A yearly code matches its pattern when the year has four digits and
    the number at most four. *)
Lemma yearly_matches (p : string) (y n : Z) :
  1000 <= y <= 9999 -> 0 <= n <= 9999 ->
  matches (yearly p) (year_code p y n) = true.
Proof.
  intros Hy Hn. unfold yearly, year_code. cbn [matches].
  rewrite eat_lit_append.
  rewrite toString_nonneg by lia.
  replace 4%nat with (String.length (decimal y)) at 1
    by (apply length_decimal_eq; simpl; lia).
  rewrite eat_digits_append by (apply all_digits_decimal; lia).
  rewrite (eat_lit_append "-").
  rewrite <- (append_empty_r (padStart 4 "0" (toString n))).
  rewrite padded_digits by (simpl; lia). reflexivity.
Qed.

Lemma article_matches (n : Z) :
  0 <= n <= 999999 -> matches article (article_code n) = true.
Proof.
  intros Hn. unfold article, article_code. cbn [matches].
  rewrite (eat_lit_append "ART-").
  rewrite <- (append_empty_r (padStart 6 "0" (toString n))).
  rewrite padded_digits by (simpl; lia). reflexivity.
Qed.

End PatternFacts.

Module CreatedFacts.
Import JS Pg Spec JSFacts PgFacts MonadFacts CreateFacts GeneratorFacts Samples.

(** What follows from a create that returned. *)

Lemma exec_insert_inv (t : table_name) (given : obj) (c : Clock) (db db' : Db) (row : obj) :
  exec_insert t given c db = (Ok row, db') ->
  online db = true
  /\ row = fill_defaults (schema t) given (last_serial (get_table t db) + 1) (pgNow c)
  /\ rows (get_table t db') = rows (get_table t db) ++ [row].
Proof.
  unfold exec_insert. destruct (online db); [| discriminate]. simpl negb. cbv iota.
  destruct (_ && _); [discriminate |].
  destruct (null_violation _ _); [discriminate |].
  destruct (unique_violation _ _ _); [discriminate |].
  intros [= <- <-]. now rewrite get_set_table.
Qed.

Lemma insert_values_inv (t : table_name) (v : obj) (c : Clock) (db db' : Db) (row : obj) :
  insert_values t v c db = (Ok row, db') ->
  exec_insert t (column_values t v) c db = (Ok row, db').
Proof.
  unfold insert_values, bind, encode.
  destruct (forallb _ _); [auto | discriminate].
Qed.

Lemma insert_values_code (t : table_name) (key : string) (d : obj) (code : string)
    (c : Clock) (db db' : Db) (row : obj) :
  is_column t key = true ->
  insert_values t (<[key := VStr code]> d) c db = (Ok row, db') ->
  prop row key = VStr code.
Proof.
  intros Hcol [_ [-> _]]%insert_values_inv%exec_insert_inv.
  apply existsb_exists in Hcol as [ck [Hck Ek]].
  apply String.eqb_eq in Ek. apply list_elem_of_In in Hck.
  set (given := column_values t _).
  assert (given !! key = Some (VStr code)) as Hgiven.
  { unfold given. rewrite column_values_lookup, lookup_insert_eq.
    rewrite <- Ek, (schema_is_column t ck Hck). reflexivity. }
  rewrite <- Ek.
  rewrite fill_defaults_prop by (apply schema_keys_NoDup || exact Hck).
  unfold column_value. now rewrite Ek, Hgiven.
Qed.

(** What a [create] that generates a code and then stores returned. *)
Lemma created_after {A} (gen : M Db A) (k : A -> M Db obj) (a : A)
    (c : Clock) (db db' : Db) (row : obj) :
  gen c db = (Ok a, db) ->
  try_catch (bind gen k) DatabaseStorage.rethrow c db = (Ok row, db') ->
  k a c db = (Ok row, db').
Proof.
  intros Hgen. unfold try_catch. rewrite (bind_ok _ _ _ _ _ _ Hgen).
  destruct (k a c db) as [[r|e] s]; [auto | discriminate].
Qed.

(** A work order that was returned is the driver's view of the row the
    INSERT built and appended. *)
Lemma createWorkOrder_inv (d : obj) (c : Clock) (db db' : Db) (row : obj) :
  DatabaseStorage.createWorkOrder d c db = (Ok row, db') ->
  exists code stored,
    DatabaseStorage.generateOrderNumber c db = (Ok code, db)
    /\ online db = true
    /\ stored = fill_defaults (schema workOrders) (listed d code c)
                              (last_serial (get_table workOrders db) + 1) (pgNow c)
    /\ rows (get_table workOrders db') = rows (get_table workOrders db) ++ [stored]
    /\ row = raw_row workOrders stored.
Proof.
  intros Hcreate.
  destruct (generators_total c db) as (_ & _ & (code & Hgen) & _).
  rewrite createWorkOrder_unfold in Hcreate.
  pose proof (created_after _ _ _ _ _ _ _ Hgen Hcreate) as Hins.
  unfold bind at 1, clock in Hins. cbv beta iota in Hins.
  unfold bind in Hins.
  destruct (exec_insert workOrders (listed d code c) c db) as [[stored|e] db1] eqn:E;
    [| discriminate Hins].
  unfold ret in Hins. injection Hins as <- <-.
  apply exec_insert_inv in E as (Hon & Hrow & Hrows).
  now exists code, stored.
Qed.

End CreatedFacts.

Module C2.
Import JS Pg Spec JSFacts PgFacts MonadFacts CreateFacts GeneratorFacts PatternFacts MemFacts CreatedFacts C1 Samples.

(** C2 fails as stated: the suffix is padded to four digits at least,
    not cut to four. *)
Lemma five_digit_suffix_counterexample :
  returned "customerNumber" (DatabaseStorage.createCustomer jansen at_2025 full_year).1
  = Ok (VStr "KL-2025-10000")
  /\ matches_value (yearly "KL-") (VStr "KL-2025-10000") = false.
Proof. split; reflexivity. Qed.

(** The customer and material creates of MemStorage print the id counter
    in five digits after the bare prefix, where the database prints a
    year and four digits, or six digits. *)
Example mem_codes_without_year :
  returned "customerNumber" (MemStorage.createCustomer jansen at_2025 MemStorage.new).1
  = Ok (VStr "KL-00001")
  /\ returned "articleNumber" (MemStorage.createMaterial jansen at_2025 MemStorage.new).1
     = Ok (VStr "ART-00001")
  /\ matches_value (yearly "KL-") (VStr "KL-00001") = false
  /\ matches_value article (VStr "ART-00001") = false.
Proof. repeat split; reflexivity. Qed.

(** The work order that DatabaseStorage returns is the row of the driver:
    its number sits under [order_number], the name of the column, and it
    has no property [orderNumber]; the stored row, as the query builder
    reads it, and the work order of MemStorage have. *)
Example work_order_under_column_names :
  returned "order_number" (DatabaseStorage.createWorkOrder boiler at_2025 empty_db).1
  = Ok (VStr "WB-2025-0001")
  /\ returned "orderNumber" (DatabaseStorage.createWorkOrder boiler at_2025 empty_db).1
     = Ok VUndefined
  /\ List.map (fun r => prop r "orderNumber")
       <$> resolved (DatabaseStorage.getAllWorkOrders at_2025 one_workorder_db).1
     = Some [VStr "WB-2025-0001"]
  /\ returned "orderNumber" (MemStorage.createWorkOrder boiler at_2025 MemStorage.new).1
     = Ok (VStr "WB-2025-0001").
Proof. repeat split; reflexivity. Qed.

(** C2 (as amended). A record returned by a create of DatabaseStorage,
    or by the work-order and invoice creates of MemStorage, carries the
    code made of the prefix of its class, the year, and the number that
    follows the latest code (the id counter in MemStorage), padded with
    zeros to four characters at least (six for articles, without year);
    this for numbers that a double holds exactly.  The work order of
    DatabaseStorage holds it under [order_number].  The code matches the
    fixed pattern of its class when the year has four digits and the
    number lies between 0 and 9999 (999999 for articles). *)
Theorem generated_code_patterns (d : obj) (c : Clock) :
  let y := getFullYear (jsNow c) in
  1000 <= y <= 9999 ->
  (forall db row db',
     DatabaseStorage.createCustomer d c db = (Ok row, db') ->
     let n := next_number ("KL-" +:+ toString y +:+ "-")
                          (latest_code customers "customerNumber" db) in
     (Z.abs n <= MAX_SAFE_INTEGER ->
      prop row "customerNumber" = VStr (year_code "KL-" y n))
     /\ (0 <= n <= 9999 ->
         matches_value (yearly "KL-") (prop row "customerNumber") = true))
  /\ (forall db row db',
     DatabaseStorage.createWorkOrder d c db = (Ok row, db') ->
     let n := next_number ("WB-" +:+ toString y +:+ "-")
                          (latest_code workOrders "orderNumber" db) in
     (Z.abs n <= MAX_SAFE_INTEGER ->
      prop row "order_number" = VStr (year_code "WB-" y n))
     /\ (0 <= n <= 9999 ->
         matches_value (yearly "WB-") (prop row "order_number") = true))
  /\ (forall db row db',
     DatabaseStorage.createInvoice d c db = (Ok row, db') ->
     let n := next_number ("F-" +:+ toString y +:+ "-")
                          (latest_code invoices "invoiceNumber" db) in
     (Z.abs n <= MAX_SAFE_INTEGER ->
      prop row "invoiceNumber" = VStr (year_code "F-" y n))
     /\ (0 <= n <= 9999 ->
         matches_value (yearly "F-") (prop row "invoiceNumber") = true))
  /\ (forall db row db',
     DatabaseStorage.createMaterial d c db = (Ok row, db') ->
     let n := next_number "ART-" (latest_code materials "articleNumber" db) in
     (Z.abs n <= MAX_SAFE_INTEGER ->
      prop row "articleNumber" = VStr (article_code n))
     /\ (0 <= n <= 999999 ->
         matches_value article (prop row "articleNumber") = true))
  /\ (forall s row s',
     MemStorage.createWorkOrder d c s = (Ok row, s') ->
     let n := MemStorage.workOrderIdCounter s in
     (Z.abs n <= MAX_SAFE_INTEGER ->
      prop row "orderNumber" = VStr (year_code "WB-" y n))
     /\ (0 <= n <= 9999 ->
         matches_value (yearly "WB-") (prop row "orderNumber") = true))
  /\ (forall s row s',
     MemStorage.createInvoice d c s = (Ok row, s') ->
     let n := MemStorage.invoiceIdCounter s in
     (Z.abs n <= MAX_SAFE_INTEGER ->
      prop row "invoiceNumber" = VStr (year_code "F-" y n))
     /\ (0 <= n <= 9999 ->
         matches_value (yearly "F-") (prop row "invoiceNumber") = true)).
Proof.
  intros y Hy.
  assert (forall p n code, code = VStr (year_code p y n) ->
            (Z.abs n <= MAX_SAFE_INTEGER -> code = VStr (year_code p y n))
            /\ (0 <= n <= 9999 -> matches_value (yearly p) code = true)) as Hyear.
  { intros p n code ->. split; [reflexivity |]. intros Hn. now apply yearly_matches. }
  split; [| split; [| split; [| split; [| split]]]].
  - intros db row db' Hcreate n. apply Hyear.
    destruct (yearly_generator_spec customers "customerNumber" "KL-" ltac:(discriminate) c db)
      as (m & Hgen & Hm & _).
    pose proof (created_after _ _ _ _ _ _ _ Hgen Hcreate) as Hins. cbv beta in Hins.
    pose proof Hins as [Hon _]%insert_values_inv%exec_insert_inv.
    rewrite (insert_values_code customers "customerNumber" _ _ _ _ _ _ eq_refl Hins).
    now rewrite (Hm Hon).
  - intros db row db' Hcreate n. apply Hyear.
    destruct (yearly_generator_spec workOrders "orderNumber" "WB-" ltac:(discriminate) c db)
      as (m & Hgen & Hm & _).
    destruct (createWorkOrder_inv d c db db' row Hcreate)
      as (code & stored & Hgen' & Hon & -> & _ & ->).
    change (DatabaseStorage.generateOrderNumber c db) with
      (try_catch
         (bind (select_latest workOrders "orderNumber") (fun result =>
          bind clock (fun c =>
            let year := getFullYear (jsNow c) in
            let prefix := "WB-" +:+ toString year +:+ "-" in
            DatabaseStorage.next_code prefix "0001" 4 "orderNumber" result)))
         (fun _ => bind clock (fun c =>
            ret ("WB-" +:+ toString (getFullYear (jsNow c)) +:+ "-0001"))) c db)
      in Hgen'.
    rewrite (proj1 (raw_workOrder _)).
    destruct (listed_row d code c (last_serial (get_table workOrders db) + 1))
      as (_ & -> & _).
    rewrite Hgen in Hgen'. injection Hgen' as <-.
    now rewrite (Hm Hon).
  - intros db row db' Hcreate n. apply Hyear.
    destruct (yearly_generator_spec invoices "invoiceNumber" "F-" ltac:(discriminate) c db)
      as (m & Hgen & Hm & _).
    pose proof (created_after _ _ _ _ _ _ _ Hgen Hcreate) as Hins. cbv beta in Hins.
    pose proof Hins as [Hon _]%insert_values_inv%exec_insert_inv.
    rewrite (insert_values_code invoices "invoiceNumber" _ _ _ _ _ _ eq_refl Hins).
    now rewrite (Hm Hon).
  - intros db row db' Hcreate n.
    destruct (generateArticleNumber_spec c db) as (m & Hgen & Hm & _).
    pose proof (created_after _ _ _ _ _ _ _ Hgen Hcreate) as Hins. cbv beta in Hins.
    pose proof Hins as [Hon _]%insert_values_inv%exec_insert_inv.
    rewrite (insert_values_code materials "articleNumber" _ _ _ _ _ _ eq_refl Hins).
    rewrite (Hm Hon). fold n. split; [reflexivity |].
    intros Hn. now apply article_matches.
  - intros s row s' Hcreate n. apply Hyear.
    destruct (createWorkOrder_code d c s) as (row0 & s0 & Hc & Hcode & _).
    rewrite Hc in Hcreate. injection Hcreate as <- <-. exact Hcode.
  - intros s row s' Hcreate n. apply Hyear.
    destruct (createInvoice_code d c s) as (row0 & s0 & Hc & Hcode & _).
    rewrite Hc in Hcreate. injection Hcreate as <- <-. exact Hcode.
Qed.

Lemma generated_code_patterns_witness :
  (exists row, (DatabaseStorage.createCustomer jansen at_2025 empty_db).1 = Ok row
               /\ prop row "customerNumber" = VStr "KL-2025-0001"
               /\ matches_value (yearly "KL-") (prop row "customerNumber") = true)
  /\ (exists row, (DatabaseStorage.createMaterial pipe at_2025 empty_db).1 = Ok row
                  /\ prop row "articleNumber" = VStr "ART-000001"
                  /\ matches_value article (prop row "articleNumber") = true)
  /\ (exists row, (DatabaseStorage.createWorkOrder boiler at_2025 empty_db).1 = Ok row
                  /\ prop row "order_number" = VStr "WB-2025-0001"
                  /\ matches_value (yearly "WB-") (prop row "order_number") = true)
  /\ (exists row, (MemStorage.createInvoice bill at_2025 MemStorage.new).1 = Ok row
                  /\ prop row "invoiceNumber" = VStr "F-2025-0001"
                  /\ matches_value (yearly "F-") (prop row "invoiceNumber") = true).
Proof.
  assert (1000 <= getFullYear (jsNow at_2025) <= 9999) as Hy by (split; discriminate).
  split; [| split; [| split]].
  - assert (exists row db', DatabaseStorage.createCustomer jansen at_2025 empty_db = (Ok row, db'))
      as (row & db' & E) by (do 2 eexists; reflexivity).
    destruct (generated_code_patterns jansen at_2025 Hy) as (H & _).
    destruct (H empty_db row db' E) as [Hcode Hm].
    exists row. split; [now rewrite E | split].
    + apply Hcode. discriminate.
    + apply Hm. split; discriminate.
  - assert (exists row db', DatabaseStorage.createMaterial pipe at_2025 empty_db = (Ok row, db'))
      as (row & db' & E) by (do 2 eexists; reflexivity).
    destruct (generated_code_patterns pipe at_2025 Hy) as (_ & _ & _ & H & _).
    destruct (H empty_db row db' E) as [Hcode Hm].
    exists row. split; [now rewrite E | split].
    + apply Hcode. discriminate.
    + apply Hm. split; discriminate.
  - assert (exists row db', DatabaseStorage.createWorkOrder boiler at_2025 empty_db = (Ok row, db'))
      as (row & db' & E) by (do 2 eexists; reflexivity).
    destruct (generated_code_patterns boiler at_2025 Hy) as (_ & H & _).
    destruct (H empty_db row db' E) as [Hcode Hm].
    exists row. split; [now rewrite E | split].
    + apply Hcode. discriminate.
    + apply Hm. split; discriminate.
  - assert (exists row s', MemStorage.createInvoice bill at_2025 MemStorage.new = (Ok row, s'))
      as (row & s' & E) by (do 2 eexists; reflexivity).
    destruct (generated_code_patterns bill at_2025 Hy) as (_ & _ & _ & _ & _ & H).
    destruct (H MemStorage.new row s' E) as [Hcode Hm].
    exists row. split; [now rewrite E | split].
    + apply Hcode. discriminate.
    + apply Hm. split; discriminate.
Defined.

End C2.

(** * Updates *)

Module UpdateFacts.
Import JS Pg Spec JSFacts PgFacts MonadFacts CreateFacts Samples.

(** *** [Map] *)

Lemma map_get_set_eq {V} (m : list (Z * V)) (k : Z) (v : V) :
  map_get (map_set m k v) k = Some v.
Proof.
  induction m as [|[k' v'] m IH]; simpl.
  - now rewrite Z.eqb_refl.
  - destruct (Z.eqb_spec k' k) as [-> | Hne]; simpl.
    + now rewrite Z.eqb_refl.
    + now rewrite (proj2 (Z.eqb_neq k' k) Hne).
Qed.

Lemma map_delete_missing {V} (m : list (Z * V)) (k : Z) :
  map_get m k = None -> map_delete m k = (m, false).
Proof.
  induction m as [|[k' v'] m IH]; simpl; [reflexivity |].
  destruct (Z.eqb k' k); [discriminate |]. intros H. now rewrite (IH H).
Qed.

(** Replacing the value of a key by one that [f] cannot tell from the
    old one leaves the image of the map under [f] as it was. *)
Lemma map_set_same {V B} (f : V -> B) (m : list (Z * V)) (k : Z) (e v : V) :
  map_get m k = Some e -> f v = f e ->
  (fun kv => f kv.2) <$> map_set m k v = (fun kv => f kv.2) <$> m.
Proof.
  intros Hget Hf. induction m as [|[k' v'] m IH]; [discriminate |].
  simpl in Hget |- *. destruct (Z.eqb k' k).
  - injection Hget as ->. rewrite !fmap_cons. simpl. now rewrite Hf.
  - rewrite !fmap_cons. now rewrite IH.
Qed.

Lemma prop_spread_absent (e data : obj) (k : string) :
  data !! k = None -> prop (spread e data) k = prop e k.
Proof. intros H. unfold prop, spread. now rewrite lookup_union_r. Qed.

Lemma prop_spread_present (e data : obj) (k : string) (v : value) :
  data !! k = Some v -> prop (spread e data) k = v.
Proof.
  intros H. unfold prop, spread. now rewrite (lookup_union_Some_l _ _ _ _ H).
Qed.

(** *** The update methods of MemStorage *)

Lemma mem_update_spec (t : table_name) (id : Z) (data : obj) (c : Clock)
    (s : MemStorage.t) :
  exists s',
    update (storage := MemStorage.storage) t id data c s
    = (Ok ((fun e => spread e data) <$> map_get (records t s) id), s')
    /\ records t s'
       = match map_get (records t s) id with
         | Some e => map_set (records t s) id (spread e data)
         | None => records t s
         end.
Proof.
  destruct t; simpl;
    unfold MemStorage.updateCustomer, MemStorage.updateMaterial, MemStorage.updateWorkOrder,
      MemStorage.updateInvoice, MemStorage.updateProject, MemStorage.merge_into;
    match goal with |- context [map_get ?m id] => destruct (map_get m id) end;
    eexists; split; reflexivity.
Qed.

(** *** UPDATE statements *)

Lemma exec_update_cases (t : table_name) (id : Z) (assign : obj) (c : Clock) (db : Db) :
  (exists e, exec_update t id assign c db = (Throw e, db))
  \/ (exec_update t id assign c db = (Ok [], db)
      /\ online db = true
      /\ List.filter (has_id id) (rows (get_table t db)) = [])
  \/ (exists r hit,
        List.filter (has_id id) (rows (get_table t db)) = r :: hit
        /\ online db = true
        /\ exec_update t id assign c db
           = (Ok (spread r assign :: List.map (fun r => spread r assign) hit),
              set_table t (mkTable (apply_update id assign (rows (get_table t db)))
                                   (last_serial (get_table t db))) db)).
Proof.
  unfold exec_update. destruct (online db); simpl negb; cbv iota; [| left; eauto].
  destruct (List.filter (has_id id) (rows (get_table t db))) as [|r hit] eqn:E.
  - right. left. auto.
  - destruct (null_violation _ _); [left; eauto |].
    destruct (unique_violation _ _ _); [left; eauto |].
    right. right. exists r, hit. auto.
Qed.

Lemma apply_update_untouched (id : Z) (assign : obj) (k : string) (rs : list obj) :
  assign !! k = None ->
  (fun r => prop r k) <$> apply_update id assign rs = (fun r => prop r k) <$> rs.
Proof.
  intros H. induction rs as [|r rs IH]; [reflexivity |].
  unfold apply_update in *. cbn [List.map]. rewrite !fmap_cons, IH. f_equal.
  destruct (has_id id r); [now apply prop_spread_absent | reflexivity].
Qed.

(** An UPDATE that does not assign a column leaves it as it was, in
    every row, whatever the outcome. *)
Lemma exec_update_untouched (t : table_name) (id : Z) (assign : obj) (k : string)
    (c : Clock) (db : Db) :
  assign !! k = None ->
  (fun r => prop r k) <$> rows (get_table t (exec_update t id assign c db).2)
  = (fun r => prop r k) <$> rows (get_table t db).
Proof.
  intros H.
  destruct (exec_update_cases t id assign c db)
    as [[e ->] | [[-> _] | (r & hit & _ & _ & ->)]]; try reflexivity.
  cbn [snd]. rewrite get_set_table. cbn [rows]. now apply apply_update_untouched.
Qed.

Lemma push_if_defined_ne (k k' : string) (v : value) (a : obj) :
  k <> k' -> DatabaseStorage.push_if_defined k v a !! k' = a !! k'.
Proof.
  intros H. unfold DatabaseStorage.push_if_defined.
  destruct (defined v); [now rewrite lookup_insert_ne | reflexivity].
Qed.

Lemma push_if_defined_eq (k : string) (v : value) (a : obj) :
  defined v = true -> DatabaseStorage.push_if_defined k v a !! k = Some v.
Proof.
  intros H. unfold DatabaseStorage.push_if_defined. rewrite H. apply lookup_insert_eq.
Qed.

(** The SET clause of [updateWorkOrder] never names the order number,
    the photos or the key. *)
Lemma updateParts_untouched (data : obj) (date : value) (k : string) :
  k = "orderNumber" \/ k = "photos" \/ k = "id" \/ k = "createdAt" ->
  DatabaseStorage.updateParts data date !! k = None.
Proof.
  intros H. unfold DatabaseStorage.updateParts.
  rewrite !push_if_defined_ne, lookup_empty; [reflexivity | ..];
    intros E; subst k; destruct H as [H | [H | [H | H]]]; discriminate H.
Qed.

(** *** The update methods of DatabaseStorage *)

Lemma select_by_id_online (t : table_name) (id : Z) (c : Clock) (db : Db) :
  online db = true ->
  select_by_id t id c db = (Ok (List.filter (has_id id) (rows (get_table t db))), db).
Proof. intros H. unfold select_by_id. now rewrite H. Qed.

Lemma select_by_id_offline (t : table_name) (id : Z) (c : Clock) (db : Db) :
  online db = false -> select_by_id t id c db = (Throw ConnectionError, db).
Proof. intros H. unfold select_by_id. now rewrite H. Qed.

Lemma select_one_spec (t : table_name) (id : Z) (c : Clock) (db : Db) :
  DatabaseStorage.select_one t id c db
  = (Ok (if online db then head (List.filter (has_id id) (rows (get_table t db)))
         else None), db).
Proof.
  unfold DatabaseStorage.select_one, try_catch, bind, select_by_id.
  now destruct (online db).
Qed.

(** The outcomes of the update written with the query builder: nothing
    found or a failure, both reported as [undefined] with the database
    unchanged, or the first row with the key, updated. *)
Lemma update_one_cases (t : table_name) (id : Z) (data : obj) (c : Clock) (db : Db) :
  DatabaseStorage.update_one t id data c db = (Ok None, db)
  \/ (exists r hit,
        List.filter (has_id id) (rows (get_table t db)) = r :: hit
        /\ online db = true
        /\ DatabaseStorage.update_one t id data c db
           = (Ok (Some (spread r (column_values t data))),
              set_table t (mkTable (apply_update id (column_values t data)
                                                 (rows (get_table t db)))
                                   (last_serial (get_table t db))) db)).
Proof.
  unfold DatabaseStorage.update_one, update_set.
  destruct (bool_decide (column_values t data = ∅)); [now left |].
  assert (encode t data c db = (Ok (column_values t data), db)
          \/ exists e, encode t data c db = (Throw e, db)) as [Henc | [e Henc]].
  { unfold encode. destruct (forallb _ _); [now left | right; eauto]. }
  2:{ left. now rewrite (try_catch_throw _ _ _ _ _ _
                          (bind_throw _ _ _ _ _ _ (bind_throw _ _ _ _ _ _ Henc))). }
  pose proof (bind_ok _ (fun assign => exec_update t id assign) _ _ _ _ Henc) as Hb.
  cbv beta in Hb.
  destruct (exec_update_cases t id (column_values t data) c db)
    as [[e He] | [[He _] | (r & hit & Hhit & Hon & He)]]; rewrite He in Hb.
  - left. now rewrite (try_catch_throw _ _ _ _ _ _ (bind_throw _ _ _ _ _ _ Hb)).
  - left. apply try_catch_ok. now rewrite (bind_ok _ _ _ _ _ _ Hb).
  - right. exists r, hit. split; [exact Hhit | split; [exact Hon |]].
    apply try_catch_ok. now rewrite (bind_ok _ _ _ _ _ _ Hb).
Qed.

Lemma date_query_spec (c c' : Clock) (data : obj) (db : Db) :
  date_query c data c' db
  = match date_param c data with
    | Some date => (Ok date, db)
    | None => (Throw (QueryError "invalid input syntax for type timestamp"), db)
    end.
Proof.
  unfold date_query, date_param.
  destruct (prop data "date"); try reflexivity.
  now destruct (parseDate c s).
Qed.

Lemma updateWorkOrder_unfold (id : Z) (data : obj) :
  DatabaseStorage.updateWorkOrder id data
  = try_catch
      (bind (DatabaseStorage.select_one workOrders id) (fun existing =>
         match existing with
         | None => ret None
         | Some existingWorkOrder =>
             bind clock (fun c =>
             bind (date_query c data) (fun date =>
               let assign := DatabaseStorage.updateParts data date in
               if bool_decide (assign = ∅) then ret (Some existingWorkOrder)
               else bind (exec_update workOrders id assign)
                         (fun result => ret (raw_row workOrders <$> head result))))
         end))
      (fun _ => ret None).
Proof. reflexivity. Qed.

Lemma updateWorkOrder_eval (id : Z) (data : obj) (c : Clock) (db : Db) :
  DatabaseStorage.updateWorkOrder id data c db
  = if online db then
      match List.filter (has_id id) (rows (get_table workOrders db)) with
      | [] => (Ok None, db)
      | r :: _ =>
          match date_param c data with
          | None => (Ok None, db)
          | Some date =>
              if bool_decide (DatabaseStorage.updateParts data date = ∅)
              then (Ok (Some r), db)
              else
                match exec_update workOrders id (DatabaseStorage.updateParts data date) c db with
                | (Ok result, db') => (Ok (raw_row workOrders <$> head result), db')
                | (Throw _, db') => (Ok None, db')
                end
          end
      end
    else (Ok None, db).
Proof.
  rewrite updateWorkOrder_unfold. unfold try_catch.
  rewrite (bind_ok _ _ _ _ _ _ (select_one_spec workOrders id c db)).
  destruct (online db) eqn:Hon; [| reflexivity].
  destruct (List.filter (has_id id) (rows (get_table workOrders db)))
    as [|r hit] eqn:Ehit; [reflexivity |].
  cbn [head]. unfold bind at 1, clock. cbv beta iota.
  unfold bind at 1. rewrite date_query_spec.
  destruct (date_param c data) as [date|] eqn:Edate; [| reflexivity].
  cbv zeta.
  destruct (bool_decide (DatabaseStorage.updateParts data date = ∅)); [reflexivity |].
  unfold bind.
  now destruct (exec_update workOrders id (DatabaseStorage.updateParts data date) c db)
    as [[result|e] db'].
Qed.

Lemma updateWorkOrder_cases (id : Z) (data : obj) (c : Clock) (db : Db) :
  DatabaseStorage.updateWorkOrder id data c db = (Ok None, db)
  \/ (exists r hit,
        List.filter (has_id id) (rows (get_table workOrders db)) = r :: hit
        /\ online db = true
        /\ DatabaseStorage.updateWorkOrder id data c db = (Ok (Some r), db))
  \/ (exists r hit date,
        List.filter (has_id id) (rows (get_table workOrders db)) = r :: hit
        /\ online db = true
        /\ date_param c data = Some date
        /\ DatabaseStorage.updateWorkOrder id data c db
           = (Ok (Some (raw_row workOrders
                          (spread r (DatabaseStorage.updateParts data date)))),
              set_table workOrders
                (mkTable (apply_update id (DatabaseStorage.updateParts data date)
                                       (rows (get_table workOrders db)))
                         (last_serial (get_table workOrders db))) db)).
Proof.
  rewrite !updateWorkOrder_eval.
  destruct (online db) eqn:Hon; [| now left].
  destruct (List.filter (has_id id) (rows (get_table workOrders db)))
    as [|r hit] eqn:Ehit; [now left |].
  destruct (date_param c data) as [date|] eqn:Edate; [| now left].
  destruct (bool_decide (DatabaseStorage.updateParts data date = ∅)).
  { right. left. exists r, hit. split; [reflexivity | split; reflexivity]. }
  destruct (exec_update_cases workOrders id (DatabaseStorage.updateParts data date) c db)
    as [[e He] | [[He _] | (r0 & hit0 & Hhit & _ & He)]]; rewrite He.
  - now left.
  - now left.
  - right. right. rewrite Ehit in Hhit.
    injection Hhit as <- <-. exists r, hit, date.
    split; [reflexivity | split; [reflexivity | split; reflexivity]].
Qed.

End UpdateFacts.

Module C3.
Import JS Pg Spec JSFacts PgFacts MonadFacts CreateFacts UpdateFacts C1 Samples.

Lemma db_update_untouched (t : table_name) (id : Z) (data : obj) (k : string)
    (c : Clock) (db : Db) :
  (t = workOrders /\ (k = "orderNumber" \/ k = "photos" \/ k = "id" \/ k = "createdAt"))
  \/ (t <> workOrders /\ column_values t data !! k = None) ->
  (fun r => prop r k)
    <$> rows (get_table t (update (storage := DatabaseStorage.storage) t id data c db).2)
  = (fun r => prop r k) <$> rows (get_table t db).
Proof.
  intros [[-> Hk] | [Ht Hk]].
  - cbn [update Storage.updateWorkOrder DatabaseStorage.storage].
    destruct (updateWorkOrder_cases id data c db)
      as [-> | [(r & hit & _ & _ & ->) | (r & hit & date & _ & _ & _ & ->)]];
      try reflexivity.
    cbn [snd]. rewrite get_set_table. cbn [rows].
    now apply apply_update_untouched, updateParts_untouched.
  - assert (update (storage := DatabaseStorage.storage) t id data
            = DatabaseStorage.update_one t id data) as ->.
    { now destruct t. }
    destruct (update_one_cases t id data c db) as [-> | (r & hit & _ & _ & ->)];
      [reflexivity |].
    cbn [snd]. rewrite get_set_table. cbn [rows].
    now apply apply_update_untouched.
Qed.

Lemma column_values_undefined (t : table_name) (data : obj) (k : string) :
  defined (prop data k) = false -> column_values t data !! k = None.
Proof.
  intros H. rewrite column_values_lookup. unfold prop in H.
  destruct (data !! k) as [x|]; [| reflexivity]. simpl in H.
  now rewrite H, andb_false_r.
Qed.

(** C3 fails as stated: a payload that carries a customer number
    replaces the stored one, in both stores. *)
Lemma update_overwrites_code_counterexample :
  (returned "customerNumber" (MemStorage.createCustomer jansen at_2025 MemStorage.new).1
   = Ok (VStr "KL-00001")
   /\ (fun kv => prop kv.2 "customerNumber")
        <$> MemStorage.customers (MemStorage.updateCustomer 1 renumber at_2025 one_customer).2
      = [VStr "KL-2030-0042"])
  /\ (returned "customerNumber" (DatabaseStorage.createCustomer jansen at_2025 empty_db).1
      = Ok (VStr "KL-2025-0001")
      /\ (fun r => prop r "customerNumber")
           <$> rows (t_customers
                       (DatabaseStorage.updateCustomer 1 renumber at_2025 one_customer_db).2)
         = [VStr "KL-2030-0042"]).
Proof. repeat split; reflexivity. Qed.

(** C3 (as amended). An update leaves the code of every record of the
    class as it was when the payload carries no code property (in
    DatabaseStorage: none but [undefined]), and [updateWorkOrder] of
    DatabaseStorage leaves the order numbers as they were whatever the
    payload.  In the other update methods a code property of the payload
    is stored like any other property: the record returned carries the
    code of the payload (in DatabaseStorage: a string, as the column is
    text). *)
Theorem update_keeps_code (t : table_name) (id : Z) (data : obj) (c : Clock) :
  let key := code_key t in
  (forall s,
     data !! key = None ->
     (fun kv => prop kv.2 key)
       <$> records t (update (storage := MemStorage.storage) t id data c s).2
     = (fun kv => prop kv.2 key) <$> records t s)
  /\ (forall db,
     defined (prop data key) = false ->
     (fun r => prop r key)
       <$> rows (get_table t (update (storage := DatabaseStorage.storage) t id data c db).2)
     = (fun r => prop r key) <$> rows (get_table t db))
  /\ (forall db,
     (fun r => prop r "orderNumber")
       <$> rows (t_workOrders (DatabaseStorage.updateWorkOrder id data c db).2)
     = (fun r => prop r "orderNumber") <$> rows (t_workOrders db))
  /\ (forall s v x,
     data !! key = Some v ->
     (update (storage := MemStorage.storage) t id data c s).1 = Ok (Some x) ->
     prop x key = v)
  /\ (forall db x code,
     t <> workOrders -> is_column t key = true -> prop data key = VStr code ->
     (update (storage := DatabaseStorage.storage) t id data c db).1 = Ok (Some x) ->
     prop x key = VStr code).
Proof.
  intros key. split; [| split; [| split; [| split]]].
  - intros s Hnone.
    destruct (mem_update_spec t id data c s) as (s' & -> & Hrec). cbn [snd].
    rewrite Hrec. destruct (map_get (records t s) id) as [e|] eqn:Eget; [| reflexivity].
    apply (map_set_same (fun o => prop o key) _ _ e); [exact Eget |].
    now apply prop_spread_absent.
  - intros db Hundef. apply db_update_untouched.
    assert (t = workOrders \/ t <> workOrders) as [-> | Ht]
      by (destruct t; (now left) || (right; discriminate)).
    all: [> left | right].
    + split; [reflexivity | now left].
    + split; [exact Ht | now apply column_values_undefined].
  - intros db. apply (db_update_untouched workOrders id data "orderNumber" c db).
    left. split; [reflexivity | now left].
  - intros s v x Hsome Hres.
    destruct (mem_update_spec t id data c s) as (s' & Hupd & _).
    rewrite Hupd in Hres. cbn [fst] in Hres.
    destruct (map_get (records t s) id) as [e|]; [| discriminate].
    injection Hres as <-. now apply prop_spread_present.
  - intros db x code Ht Hcol Hcode Hres. rewrite <- Hcode.
    assert (defined (prop data key) = true) as Hdef by now rewrite Hcode.
    assert (update (storage := DatabaseStorage.storage) t id data
            = DatabaseStorage.update_one t id data) as Hu by now destruct t.
    rewrite Hu in Hres.
    destruct (update_one_cases t id data c db) as [H | (r & hit & _ & _ & H)];
      rewrite H in Hres; [discriminate |].
    injection Hres as <-. unfold prop in Hdef. unfold prop at 2.
    destruct (data !! key) as [v|] eqn:Ev; [| discriminate].
    apply prop_spread_present. rewrite column_values_lookup, Ev, Hcol.
    simpl in Hdef |- *. now rewrite Hdef.
Qed.

Lemma update_keeps_code_witness :
  (fun kv => prop kv.2 "customerNumber")
    <$> MemStorage.customers (MemStorage.updateCustomer 1 rename at_2025 one_customer).2
  = [VStr "KL-00001"]
  /\ (fun r => prop r "customerNumber")
       <$> rows (t_customers (DatabaseStorage.updateCustomer 1 rename at_2025 one_customer_db).2)
     = [VStr "KL-2025-0001"]
  /\ (exists x,
       (MemStorage.updateCustomer 1 renumber at_2025 one_customer).1 = Ok (Some x)
       /\ prop x "customerNumber" = VStr "KL-2030-0042")
  /\ (exists x,
       (DatabaseStorage.updateCustomer 1 renumber at_2025 one_customer_db).1 = Ok (Some x)
       /\ prop x "customerNumber" = VStr "KL-2030-0042").
Proof.
  destruct (update_keeps_code customers 1 rename at_2025) as (Hmem & Hdb & _).
  destruct (update_keeps_code customers 1 renumber at_2025)
    as (_ & _ & _ & Hset & Hset').
  split; [| split; [| split]].
  - exact (Hmem one_customer eq_refl).
  - exact (Hdb one_customer_db eq_refl).
  - assert (exists x, (MemStorage.updateCustomer 1 renumber at_2025 one_customer).1
                      = Ok (Some x)) as [x E] by (eexists; reflexivity).
    exists x. split; [exact E |].
    exact (Hset one_customer (VStr "KL-2030-0042") x eq_refl E).
  - assert (exists x, (DatabaseStorage.updateCustomer 1 renumber at_2025 one_customer_db).1
                      = Ok (Some x)) as [x E] by (eexists; reflexivity).
    exists x. split; [exact E |].
    exact (Hset' one_customer_db x "KL-2030-0042" ltac:(discriminate) eq_refl eq_refl E).
Defined.

End C3.

(** * Completing a work order *)

Module CompleteFacts.
Import JS Pg Spec JSFacts PgFacts MonadFacts CreateFacts UpdateFacts C1 Samples.

Lemma completion_parts (notes laborHours photos : value) :
  DatabaseStorage.updateParts (Routes.completion notes laborHours photos) VUndefined
  = DatabaseStorage.push_if_defined "notes" notes
      (DatabaseStorage.push_if_defined "laborHours" laborHours
         (<["status" := VStr "Voltooid"]> ∅)).
Proof. reflexivity. Qed.

Lemma completion_date (c : Clock) (notes laborHours photos : value) :
  date_param c (Routes.completion notes laborHours photos) = Some VUndefined.
Proof. reflexivity. Qed.

Lemma completion_lookup (notes laborHours : value) (k : string) :
  k <> "notes" -> k <> "laborHours" -> k <> "status" ->
  DatabaseStorage.push_if_defined "notes" notes
    (DatabaseStorage.push_if_defined "laborHours" laborHours
       (<["status" := VStr "Voltooid"]> ∅)) !! k = None.
Proof.
  intros H1 H2 H3.
  rewrite !push_if_defined_ne, lookup_insert_ne, lookup_empty by congruence.
  reflexivity.
Qed.

Lemma completion_status (notes laborHours : value) :
  DatabaseStorage.push_if_defined "notes" notes
    (DatabaseStorage.push_if_defined "laborHours" laborHours
       (<["status" := VStr "Voltooid"]> ∅)) !! "status" = Some (VStr "Voltooid").
Proof. now rewrite !push_if_defined_ne, lookup_insert_eq by discriminate. Qed.

Lemma elem_of_assigned (cols : list column) (assign : obj) (c : column) :
  c ∈ assigned cols assign -> c ∈ cols /\ is_Some (assign !! col_key c).
Proof.
  unfold assigned. rewrite list_elem_of_In, filter_In, <- list_elem_of_In.
  intros [Hin Hb]. split; [exact Hin |]. now apply bool_decide_eq_true in Hb.
Qed.

(** The statement of a completion passes the checks. *)
Lemma completion_checks (notes laborHours : value) (others : list obj) :
  let assign :=
    DatabaseStorage.push_if_defined "notes" notes
      (DatabaseStorage.push_if_defined "laborHours" laborHours
         (<["status" := VStr "Voltooid"]> ∅)) in
  null_violation (assigned (schema workOrders) assign) assign = None
  /\ unique_violation (assigned (schema workOrders) assign) others assign = None.
Proof.
  intros assign. split.
  - apply null_violation_None. intros c [Hin [v Hv]]%elem_of_assigned Hnn.
    simpl in Hin.
    repeat (apply elem_of_cons in Hin as [-> | Hin];
      [ first [ discriminate Hnn
              | unfold assign in Hv; rewrite completion_lookup in Hv by discriminate;
                discriminate Hv
              | unfold prop, assign; now rewrite completion_status ] |]).
    inversion Hin.
  - apply unique_violation_None. intros c r' [Hin [v Hv]]%elem_of_assigned Hu _.
    simpl in Hin.
    repeat (apply elem_of_cons in Hin as [-> | Hin];
      [ first [ discriminate Hu
              | unfold assign in Hv; rewrite completion_lookup in Hv by discriminate;
                discriminate Hv ] |]).
    inversion Hin.
Qed.

Lemma exec_update_ok (t : table_name) (id : Z) (assign : obj) (c : Clock) (db : Db)
    (r : obj) (hit : list obj) :
  online db = true ->
  List.filter (has_id id) (rows (get_table t db)) = r :: hit ->
  null_violation (assigned (schema t) assign) assign = None ->
  (forall others, unique_violation (assigned (schema t) assign) others assign = None) ->
  exec_update t id assign c db
  = (Ok (spread r assign :: List.map (fun r => spread r assign) hit),
     set_table t (mkTable (apply_update id assign (rows (get_table t db)))
                          (last_serial (get_table t db))) db).
Proof.
  intros Hon Hhit Hnull Huniq. unfold exec_update.
  now rewrite Hon, Hhit, Hnull, Huniq.
Qed.

(** What [updateWorkOrder] of DatabaseStorage does with a completion
    that carries labor hours. *)
Lemma complete_db (id : Z) (notes laborHours photos : value) (c : Clock) (db : Db) :
  defined laborHours = true ->
  let assign :=
    DatabaseStorage.push_if_defined "notes" notes
      (<["laborHours" := laborHours]> (<["status" := VStr "Voltooid"]> ∅)) in
  DatabaseStorage.updateWorkOrder id (Routes.completion notes laborHours photos) c db
  = if online db then
      match List.filter (has_id id) (rows (get_table workOrders db)) with
      | [] => (Ok None, db)
      | r :: _ =>
          (Ok (Some (raw_row workOrders (spread r assign))),
           set_table workOrders
             (mkTable (apply_update id assign (rows (get_table workOrders db)))
                      (last_serial (get_table workOrders db))) db)
      end
    else (Ok None, db).
Proof.
  intros Hlh assign. rewrite updateWorkOrder_eval.
  destruct (online db) eqn:Hon; [| reflexivity].
  destruct (List.filter (has_id id) (rows (get_table workOrders db)))
    as [|r hit] eqn:Ehit; [reflexivity |].
  rewrite completion_date, completion_parts.
  assert (DatabaseStorage.push_if_defined "notes" notes
            (DatabaseStorage.push_if_defined "laborHours" laborHours
               (<["status" := VStr "Voltooid"]> ∅)) = assign) as Hassign.
  { unfold assign, DatabaseStorage.push_if_defined at 2. now rewrite Hlh. }
  destruct (completion_checks notes laborHours []) as [Hnull _].
  rewrite (exec_update_ok workOrders id _ c db r hit Hon Ehit Hnull
             (fun others => proj2 (completion_checks notes laborHours others))).
  rewrite Hassign.
  rewrite bool_decide_eq_false_2; [reflexivity |].
  unfold assign, DatabaseStorage.push_if_defined.
  destruct (defined notes); apply insert_non_empty.
Qed.

(** The handler, step by step, over any storage. *)
Lemma put_workorder_complete_eval {S} {storage : Storage.IStorage S}
    (id : Z) (body : obj) (c : Clock) (s : S) :
  Routes.put_workorder_complete id body c s
  = if defined (prop body "laborHours") then
      match Storage.updateWorkOrder id
              (Routes.completion (prop body "notes") (prop body "laborHours")
                                 (prop body "photos")) c s with
      | (Ok (Some x), s') => (Ok (Routes.json 200 (VObject x)), s')
      | (Ok None, s') => (Ok (Routes.message 404 "Work order not found"), s')
      | (Throw _, s') => (Ok (Routes.message 500 "Error completing work order"), s')
      end
    else (Ok (Routes.message 400 "Labor hours are required"), s).
Proof.
  unfold Routes.put_workorder_complete, try_catch.
  destruct (defined (prop body "laborHours")); [| reflexivity].
  cbn [negb]. unfold bind.
  now destruct (Storage.updateWorkOrder id _ c s) as [[[x|]|e] s'].
Qed.

End CompleteFacts.

Module C4.
Import JS Pg Spec JSFacts PgFacts MonadFacts CreateFacts UpdateFacts CompleteFacts C1 Samples.

(** The photos column of DatabaseStorage is out of reach of every
    completion. *)
Lemma complete_keeps_photos_column (id : Z) (body : obj) (c : Clock) (db : Db) :
  (fun r => prop r "photos")
    <$> rows (t_workOrders
                (Routes.put_workorder_complete (storage := DatabaseStorage.storage)
                   id body c db).2)
  = (fun r => prop r "photos") <$> rows (t_workOrders db).
Proof.
  rewrite put_workorder_complete_eval.
  destruct (defined (prop body "laborHours")); [| reflexivity].
  pose proof (C3.db_update_untouched workOrders id
                (Routes.completion (prop body "notes") (prop body "laborHours")
                                   (prop body "photos")) "photos" c db) as H.
  cbn [update Storage.updateWorkOrder DatabaseStorage.storage] in H |- *.
  destruct (DatabaseStorage.updateWorkOrder id _ c db) as [[[x|]|e] db'];
    cbn [snd] in H |- *; apply H; left; split; auto.
Qed.

(** C4 on the code: no completion changes the photos of a work order in
    DatabaseStorage.  The completion of work order 1 with one photo
    answers 200 in both stores and sets status, notes and labor hours;
    MemStorage stores the photo, DatabaseStorage leaves the column
    NULL. *)
Theorem complete_drops_photos :
  (forall id body c db,
     (fun r => prop r "photos")
       <$> rows (t_workOrders
                   (Routes.put_workorder_complete (storage := DatabaseStorage.storage)
                      id body c db).2)
     = (fun r => prop r "photos") <$> rows (t_workOrders db))
  /\ (let db := Routes.put_workorder_complete (storage := DatabaseStorage.storage)
                  1 finished at_2025 one_workorder_db in
      Routes.status <$> resolved db.1 = Some 200
      /\ evidence <$> rows (t_workOrders db.2)
         = [(VStr "Voltooid", VStr "klaar", VNum (Q2Qc (7 # 2)), VNull)])
  /\ (let mem := Routes.put_workorder_complete (storage := MemStorage.storage)
                   1 finished at_2025 one_workorder in
      Routes.status <$> resolved mem.1 = Some 200
      /\ (fun kv => evidence kv.2) <$> MemStorage.workOrders mem.2
         = [(VStr "Voltooid", VStr "klaar", VNum (Q2Qc (7 # 2)),
             VArray [VStr "data:image/jpeg;base64,/9j/4AAQ"])]).
Proof.
  split; [exact complete_keeps_photos_column |].
  vm_compute. repeat split; reflexivity.
Qed.

End C4.

Module C5.
Import JS Pg Spec JSFacts PgFacts MonadFacts CreateFacts UpdateFacts CompleteFacts C1 C4 Samples.

(** C5 fails as stated: with the database out of reach the completion of
    an existing work order is answered 404. *)
Lemma complete_unreachable_counterexample :
  has_id 1 <$> rows (t_workOrders (unreachable one_workorder_db)) = [true]
  /\ defined (prop finished "laborHours") = true
  /\ Routes.status
       <$> resolved (Routes.put_workorder_complete (storage := DatabaseStorage.storage)
                       1 finished at_2025 (unreachable one_workorder_db)).1
     = Some 404.
Proof. vm_compute. repeat split; reflexivity. Qed.

(** C5 (as amended). The completion never throws.  It is rejected with
    400 exactly when the request has no labor hours (zero is a value).
    A request with labor hours is answered 404 when no work order has the
    id, and 200 with the updated record otherwise, whatever the photos.
    In DatabaseStorage this holds for hours that are null or a number
    within the range of the [real] column and notes that are a text or
    null, as the columns accept them, and there the answer is 404 as well
    when the database cannot be reached; the record of the answer carries
    the hours as they were given when the column keeps them, as it does a
    number of at most six significant digits. *)
Theorem complete_outcomes (id : Z) (body : obj) (c : Clock) :
  let laborHours := prop body "laborHours" in
  let data := Routes.completion (prop body "notes") laborHours (prop body "photos") in
  (forall (S : Type) (storage : Storage.IStorage S) (s : S),
     defined laborHours = false ->
     Routes.put_workorder_complete id body c s
     = (Ok (Routes.message 400 "Labor hours are required"), s))
  /\ (forall s,
     defined laborHours = true ->
     (Routes.put_workorder_complete (storage := MemStorage.storage) id body c s).1
     = Ok (match map_get (MemStorage.workOrders s) id with
           | None => Routes.message 404 "Work order not found"
           | Some existing => Routes.json 200 (VObject (spread existing data))
           end))
  /\ (forall db,
     defined laborHours = true ->
     has_type Real laborHours = true -> has_type Text (prop body "notes") = true ->
     Routes.status
       <$> resolved (Routes.put_workorder_complete (storage := DatabaseStorage.storage)
                       id body c db).1
     = Some (if online db then
               match List.filter (has_id id) (rows (t_workOrders db)) with
               | [] => 404
               | _ :: _ => 200
               end
             else 404)
     /\ (kept_real laborHours = true ->
         exists assign,
           (Routes.put_workorder_complete (storage := DatabaseStorage.storage)
              id body c db).1
           = Ok (if online db then
                   match List.filter (has_id id) (rows (t_workOrders db)) with
                   | [] => Routes.message 404 "Work order not found"
                   | r :: _ =>
                       Routes.json 200 (VObject (raw_row workOrders (spread r assign)))
                   end
                 else Routes.message 404 "Work order not found")
           /\ assign !! "status" = Some (VStr "Voltooid")
           /\ assign !! "laborHours" = Some laborHours))
  /\ (forall (S : Type) (storage : Storage.IStorage S) (s : S),
     exists response s', Routes.put_workorder_complete id body c s = (Ok response, s')).
Proof.
  intros laborHours data. split; [| split; [| split]].
  - intros S storage s Hlh. rewrite put_workorder_complete_eval.
    fold laborHours. now rewrite Hlh.
  - intros s Hlh. rewrite put_workorder_complete_eval. fold laborHours. rewrite Hlh.
    fold data. cbn [Storage.updateWorkOrder MemStorage.storage].
    unfold MemStorage.updateWorkOrder, MemStorage.merge_into.
    now destruct (map_get (MemStorage.workOrders s) id).
  - intros db Hlh _ _.
    assert (exists assign,
              (Routes.put_workorder_complete (storage := DatabaseStorage.storage)
                 id body c db).1
              = Ok (if online db then
                      match List.filter (has_id id) (rows (t_workOrders db)) with
                      | [] => Routes.message 404 "Work order not found"
                      | r :: _ =>
                          Routes.json 200 (VObject (raw_row workOrders (spread r assign)))
                      end
                    else Routes.message 404 "Work order not found")
              /\ assign !! "status" = Some (VStr "Voltooid")
              /\ assign !! "laborHours" = Some laborHours) as (assign & Heq & Hst & Hh).
    { eexists. split; [| split].
      + rewrite put_workorder_complete_eval. fold laborHours. rewrite Hlh.
        cbn [Storage.updateWorkOrder DatabaseStorage.storage].
        rewrite (complete_db id _ laborHours _ c db Hlh).
        destruct (online db); [| reflexivity].
        change (get_table workOrders db) with (t_workOrders db).
        destruct (List.filter (has_id id) (rows (t_workOrders db))); reflexivity.
      + now rewrite push_if_defined_ne, lookup_insert_ne, lookup_insert_eq by discriminate.
      + now rewrite push_if_defined_ne, lookup_insert_eq by discriminate. }
    split.
    + rewrite Heq. destruct (online db); [| reflexivity].
      now destruct (List.filter (has_id id) (rows (t_workOrders db))).
    + intros _. exists assign. split; [exact Heq | split; [exact Hst | exact Hh]].
  - intros S storage s. rewrite put_workorder_complete_eval.
    destruct (defined (prop body "laborHours")); [| eauto].
    destruct (Storage.updateWorkOrder id _ c s) as [[[x|]|e] s']; eauto.
Qed.

Lemma complete_outcomes_witness :
  Routes.status
    <$> resolved (Routes.put_workorder_complete (storage := DatabaseStorage.storage)
                    1 no_hours at_2025 one_workorder_db).1 = Some 400
  /\ Routes.status
       <$> resolved (Routes.put_workorder_complete (storage := MemStorage.storage)
                       1 zero_hours_no_photos at_2025 one_workorder).1 = Some 200
  /\ Routes.status
       <$> resolved (Routes.put_workorder_complete (storage := MemStorage.storage)
                       2 zero_hours_no_photos at_2025 one_workorder).1 = Some 404
  /\ Routes.status
       <$> resolved (Routes.put_workorder_complete (storage := DatabaseStorage.storage)
                       1 zero_hours_no_photos at_2025 one_workorder_db).1 = Some 200
  /\ (exists r assign,
       (Routes.put_workorder_complete (storage := DatabaseStorage.storage)
          1 finished at_2025 one_workorder_db).1
       = Ok (Routes.json 200 (VObject (raw_row workOrders (spread r assign))))
       /\ assign !! "laborHours" = Some (VNum (Q2Qc (7 # 2)))).
Proof.
  split; [| split; [| split; [| split]]].
  - destruct (complete_outcomes 1 no_hours at_2025) as (H & _).
    now rewrite (H Db DatabaseStorage.storage one_workorder_db eq_refl).
  - destruct (complete_outcomes 1 zero_hours_no_photos at_2025) as (_ & H & _).
    now rewrite (H one_workorder eq_refl).
  - destruct (complete_outcomes 2 zero_hours_no_photos at_2025) as (_ & H & _).
    now rewrite (H one_workorder eq_refl).
  - destruct (complete_outcomes 1 zero_hours_no_photos at_2025) as (_ & _ & H & _).
    assert (has_type Real (prop zero_hours_no_photos "laborHours") = true) as Hty
      by (vm_compute; reflexivity).
    destruct (H one_workorder_db eq_refl Hty eq_refl) as [Hstatus _].
    rewrite Hstatus. reflexivity.
  - destruct (complete_outcomes 1 finished at_2025) as (_ & _ & H & _).
    assert (has_type Real (prop finished "laborHours") = true) as Hty
      by (vm_compute; reflexivity).
    assert (kept_real (prop finished "laborHours") = true) as Hkept
      by (vm_compute; reflexivity).
    assert (defined (prop finished "laborHours") = true) as Hdef
      by (vm_compute; reflexivity).
    assert (has_type Text (prop finished "notes") = true) as Hnotes
      by (vm_compute; reflexivity).
    destruct (H one_workorder_db Hdef Hty Hnotes) as [_ Hbody].
    destruct (Hbody Hkept) as (assign & Heq & _ & Hhours).
    eexists _, assign. split; [rewrite Heq; reflexivity | exact Hhours].
Defined.

End C5.

(** * Fallbacks, absent records and failures *)

Module C6.
Import JS Pg Spec JSFacts PgFacts MonadFacts CreateFacts GeneratorFacts C1 Samples.

(** C6. Each of the four generators returns a code and leaves the
    database as it is, whatever the state of the database; when the code
    of the most recently created record does not parse in the scope (it
    is no string, does not start with the prefix of the scope, or is
    followed by no number), and when the table is empty, the code is the
    first of the scope. *)
Theorem generator_falls_back (c : Clock) (db : Db) :
  let y := toString (getFullYear (jsNow c)) in
  (exists code,
     DatabaseStorage.generateCustomerNumber c db = (Ok code, db)
     /\ (parsed ("KL-" +:+ y +:+ "-") (latest_code customers "customerNumber" db) = None ->
         code = "KL-" +:+ y +:+ "-0001"))
  /\ (exists code,
     DatabaseStorage.generateArticleNumber c db = (Ok code, db)
     /\ (parsed "ART-" (latest_code materials "articleNumber" db) = None ->
         code = "ART-000001"))
  /\ (exists code,
     DatabaseStorage.generateOrderNumber c db = (Ok code, db)
     /\ (parsed ("WB-" +:+ y +:+ "-") (latest_code workOrders "orderNumber" db) = None ->
         code = "WB-" +:+ y +:+ "-0001"))
  /\ (exists code,
     DatabaseStorage.generateInvoiceNumber c db = (Ok code, db)
     /\ (parsed ("F-" +:+ y +:+ "-") (latest_code invoices "invoiceNumber" db) = None ->
         code = "F-" +:+ y +:+ "-0001")).
Proof.
  intros y. split; [| split; [| split]].
  - destruct (yearly_generator_spec customers "customerNumber" "KL-" ltac:(discriminate) c db)
      as (n & Hgen & _ & Hfirst).
    eexists. split; [exact Hgen |]. intros Hp. now rewrite (Hfirst Hp).
  - destruct (generateArticleNumber_spec c db) as (n & Hgen & _ & Hfirst).
    eexists. split; [exact Hgen |]. intros Hp. now rewrite (Hfirst Hp).
  - destruct (yearly_generator_spec workOrders "orderNumber" "WB-" ltac:(discriminate) c db)
      as (n & Hgen & _ & Hfirst).
    eexists. split; [exact Hgen |]. intros Hp. now rewrite (Hfirst Hp).
  - destruct (yearly_generator_spec invoices "invoiceNumber" "F-" ltac:(discriminate) c db)
      as (n & Hgen & _ & Hfirst).
    eexists. split; [exact Hgen |]. intros Hp. now rewrite (Hfirst Hp).
Qed.

Lemma generator_falls_back_witness :
  DatabaseStorage.generateCustomerNumber at_2025 (with_latest_code (VStr "KL-2024-0312"))
  = (Ok "KL-2025-0001", with_latest_code (VStr "KL-2024-0312"))
  /\ DatabaseStorage.generateCustomerNumber at_2025 (with_latest_code (VStr EmptyString))
     = (Ok "KL-2025-0001", with_latest_code (VStr EmptyString))
  /\ DatabaseStorage.generateCustomerNumber at_2025 (with_latest_code (VStr "KL-2025-abc"))
     = (Ok "KL-2025-0001", with_latest_code (VStr "KL-2025-abc")).
Proof.
  split; [| split].
  - destruct (generator_falls_back at_2025 (with_latest_code (VStr "KL-2024-0312")))
      as ((code & Hgen & Hfirst) & _).
    now rewrite Hgen, (Hfirst eq_refl).
  - destruct (generator_falls_back at_2025 (with_latest_code (VStr EmptyString)))
      as ((code & Hgen & Hfirst) & _).
    now rewrite Hgen, (Hfirst eq_refl).
  - destruct (generator_falls_back at_2025 (with_latest_code (VStr "KL-2025-abc")))
      as ((code & Hgen & Hfirst) & _).
    now rewrite Hgen, (Hfirst eq_refl).
Defined.

End C6.

Module C7.
Import JS Pg Spec JSFacts PgFacts MonadFacts CreateFacts GeneratorFacts UpdateFacts C1 C3 C5 Samples.

Lemma mem_get_spec (t : table_name) (id : Z) (c : Clock) (s : MemStorage.t) :
  get (storage := MemStorage.storage) t id c s = (Ok (map_get (records t s) id), s).
Proof. now destruct t. Qed.

Lemma with_same (s : MemStorage.t) :
  MemStorage.with_customers (MemStorage.customers s) (MemStorage.customerIdCounter s) s = s
  /\ MemStorage.with_materials (MemStorage.materials s) (MemStorage.materialIdCounter s) s = s
  /\ MemStorage.with_workOrders (MemStorage.workOrders s) (MemStorage.workOrderIdCounter s) s = s
  /\ MemStorage.with_invoices (MemStorage.invoices s) (MemStorage.invoiceIdCounter s) s = s
  /\ MemStorage.with_projects (MemStorage.projects s) (MemStorage.projectIdCounter s) s = s.
Proof. now destruct s. Qed.

Lemma mem_delete_missing (t : table_name) (id : Z) (c : Clock) (s : MemStorage.t) :
  map_get (records t s) id = None ->
  delete (storage := MemStorage.storage) t id c s = (Ok false, s).
Proof.
  intros H. destruct (with_same s) as (H1 & H2 & H3 & H4 & H5).
  destruct t; simpl in *;
    unfold MemStorage.deleteCustomer, MemStorage.deleteMaterial,
      MemStorage.deleteWorkOrder, MemStorage.deleteInvoice, MemStorage.deleteProject;
    rewrite (map_delete_missing _ _ H); congruence.
Qed.

Lemma mem_update_missing (t : table_name) (id : Z) (data : obj) (c : Clock)
    (s : MemStorage.t) :
  map_get (records t s) id = None ->
  update (storage := MemStorage.storage) t id data c s = (Ok None, s).
Proof.
  intros H.
  destruct t; simpl in *;
    unfold MemStorage.updateCustomer, MemStorage.updateMaterial,
      MemStorage.updateWorkOrder, MemStorage.updateInvoice, MemStorage.updateProject,
      MemStorage.merge_into;
    now rewrite H.
Qed.

Lemma db_get_spec (t : table_name) (id : Z) (c : Clock) (db : Db) :
  get (storage := DatabaseStorage.storage) t id c db
  = (Ok (if online db then head (List.filter (has_id id) (rows (get_table t db)))
         else None), db).
Proof. destruct t; apply select_one_spec. Qed.

Lemma set_table_same (t : table_name) (db : Db) :
  set_table t (mkTable (rows (get_table t db)) (last_serial (get_table t db))) db = db.
Proof. destruct db as [o [] [] [] [] []]. now destruct t. Qed.

Lemma filter_none_all {A} (f : A -> bool) (l : list A) :
  List.filter f l = [] -> List.filter (fun x => negb (f x)) l = l.
Proof.
  induction l as [|x l IH]; [reflexivity |]. simpl.
  destruct (f x); [discriminate |]. intros H. simpl. now rewrite IH.
Qed.

Lemma delete_one_spec (t : table_name) (id : Z) (c : Clock) (db : Db) :
  exists db',
    DatabaseStorage.delete_one t id c db
    = (Ok (if online db
           then 0 <? Z.of_nat (length (List.filter (has_id id) (rows (get_table t db))))
           else false), db')
    /\ (online db = false -> db' = db)
    /\ (List.filter (has_id id) (rows (get_table t db)) = [] -> db' = db).
Proof.
  unfold DatabaseStorage.delete_one, try_catch, bind, exec_delete.
  destruct (online db); simpl negb; cbv iota.
  - eexists. split; [reflexivity |]. split; [discriminate |].
    intros H. rewrite (filter_none_all _ _ H). apply set_table_same.
  - eexists. split; [reflexivity |]. auto.
Qed.

Lemma db_delete_is (t : table_name) (id : Z) :
  delete (storage := DatabaseStorage.storage) t id = DatabaseStorage.delete_one t id.
Proof. now destruct t. Qed.

(** No update of DatabaseStorage throws; nothing found and nothing
    reachable both come back as [undefined], the database untouched. *)
Lemma db_update_absent (t : table_name) (id : Z) (data : obj) (c : Clock) (db : Db) :
  (exists r db', update (storage := DatabaseStorage.storage) t id data c db = (Ok r, db'))
  /\ (online db = false \/ List.filter (has_id id) (rows (get_table t db)) = [] ->
      update (storage := DatabaseStorage.storage) t id data c db = (Ok None, db)).
Proof.
  assert (t = workOrders \/ update (storage := DatabaseStorage.storage) t id data
                            = DatabaseStorage.update_one t id data) as [-> | ->]
    by (destruct t; auto).
  - cbn [update Storage.updateWorkOrder DatabaseStorage.storage].
    destruct (updateWorkOrder_cases id data c db)
      as [H | [(r & hit & Hhit & Hon & H) | (r & hit & date & Hhit & Hon & _ & H)]];
      rewrite H; (split; [eauto |]); intros [Hoff | Hnone]; congruence.
  - destruct (update_one_cases t id data c db) as [H | (r & hit & Hhit & Hon & H)];
      rewrite H; (split; [eauto |]); intros [Hoff | Hnone]; congruence.
Qed.

Lemma exec_insert_offline (t : table_name) (given : obj) (c : Clock) (db : Db) :
  online db = false -> exec_insert t given c db = (Throw ConnectionError, db).
Proof. intros H. unfold exec_insert. now rewrite H. Qed.

Lemma insert_values_offline (t : table_name) (v : obj) (c : Clock) (db : Db) :
  online db = false -> exists e, insert_values t v c db = (Throw e, db).
Proof.
  intros H. unfold insert_values, bind, encode.
  destruct (forallb _ _); [| now eexists].
  unfold ret. rewrite exec_insert_offline by exact H. now eexists.
Qed.

(** Out of reach, every create throws, the generators having fallen back. *)
Lemma db_create_offline (t : table_name) (d : obj) (c : Clock) (db : Db) :
  online db = false ->
  exists e, create (storage := DatabaseStorage.storage) t d c db = (Throw e, db).
Proof.
  intros Hoff.
  destruct (generators_total c db) as ((k1 & Hk) & (k2 & Ha) & (k3 & Hw) & (k4 & Hi)).
  destruct t; cbn [create Storage.createCustomer Storage.createMaterial
                   Storage.createWorkOrder Storage.createInvoice Storage.createProject
                   DatabaseStorage.storage].
  - unfold DatabaseStorage.createCustomer, try_catch.
    rewrite (bind_ok _ _ _ _ _ _ Hk).
    destruct (insert_values_offline customers (<["customerNumber" := VStr k1]> d) c db Hoff)
      as [e ->]. now exists e.
  - unfold DatabaseStorage.createMaterial, try_catch.
    rewrite (bind_ok _ _ _ _ _ _ Ha).
    destruct (insert_values_offline materials (<["articleNumber" := VStr k2]> d) c db Hoff)
      as [e ->]. now exists e.
  - rewrite createWorkOrder_unfold. unfold try_catch.
    rewrite (bind_ok _ _ _ _ _ _ Hw). unfold bind, clock.
    rewrite exec_insert_offline by exact Hoff. now eexists.
  - unfold DatabaseStorage.createInvoice, try_catch.
    rewrite (bind_ok _ _ _ _ _ _ Hi).
    destruct (insert_values_offline invoices (<["invoiceNumber" := VStr k4]> d) c db Hoff)
      as [e ->]. now exists e.
  - unfold DatabaseStorage.createProject, try_catch.
    destruct (insert_values_offline projects d c db Hoff) as [e ->]. now exists e.
Qed.

Lemma db_getAll_offline (t : table_name) (c : Clock) (db : Db) :
  online db = false ->
  getAll (storage := DatabaseStorage.storage) t c db = (Ok [], db).
Proof.
  intros H. destruct t; cbn; unfold DatabaseStorage.getAllCustomers,
    DatabaseStorage.getAllMaterials, DatabaseStorage.getAllWorkOrders,
    DatabaseStorage.getAllInvoices, DatabaseStorage.getAllProjects,
    DatabaseStorage.select_all, try_catch, select_all_desc; now rewrite H.
Qed.

(** *** The handlers, step by step *)

Section HandlerSteps.
Context {S : Type} {storage : Storage.IStorage S}.

Lemma get_route_eval (t : table_name) (id : Z) (c : Clock) (s : S) :
  Routes.status <$> resolved (get_route t id c s).1
  = Some match (get t id c s).1 with
         | Ok (Some _) => 200
         | Ok None => 404
         | Throw _ => 500
         end.
Proof.
  destruct t; cbn [get_route get];
    unfold Routes.get_customer, Routes.get_material, Routes.get_workorder,
      Routes.get_invoice, Routes.get_project, Routes.get_handler, try_catch, bind;
    match goal with |- context [?m id c s] => destruct (m id c s) as [[[x|]|e] s'] end;
    reflexivity.
Qed.

Lemma put_route_eval (t : table_name) (id : Z) (data : obj) (c : Clock) (s : S) :
  Routes.status <$> resolved (put_route t id data c s).1
  = Some match (update t id data c s).1 with
         | Ok (Some _) => 200
         | Ok None => 404
         | Throw _ => 500
         end.
Proof.
  destruct t; cbn [put_route update];
    unfold Routes.put_customer, Routes.put_material, Routes.put_workorder,
      Routes.put_invoice, Routes.put_project, Routes.put_handler, try_catch, bind;
    match goal with
    | |- context [?m id data c s] => destruct (m id data c s) as [[[x|]|e] s']
    end;
    reflexivity.
Qed.

Lemma delete_route_eval (t : table_name) (id : Z) (c : Clock) (s : S) :
  Routes.status <$> resolved (delete_route t id c s).1
  = Some match (delete t id c s).1 with
         | Ok true => 204
         | Ok false => 404
         | Throw _ => 500
         end.
Proof.
  destruct t; cbn [delete_route delete];
    unfold Routes.delete_customer, Routes.delete_material, Routes.delete_workorder,
      Routes.delete_invoice, Routes.delete_project, Routes.delete_handler, try_catch, bind;
    match goal with |- context [?m id c s] => destruct (m id c s) as [[[|]|e] s'] end;
    reflexivity.
Qed.

Lemma post_route_eval (t : table_name) (d : obj) (c : Clock) (s : S) :
  Routes.status <$> resolved (post_route t d c s).1
  = Some match (create t d c s).1 with
         | Ok _ => 201
         | Throw _ => 500
         end.
Proof.
  destruct t; cbn [post_route create];
    unfold Routes.post_customer, Routes.post_material, Routes.post_workorder,
      Routes.post_invoice, Routes.post_project, Routes.post_handler, try_catch, bind;
    match goal with |- context [?m d c s] => destruct (m d c s) as [[x|e] s'] end;
    reflexivity.
Qed.

Lemma list_route_eval (t : table_name) (c : Clock) (s : S) :
  resolved (list_route t c s).1
  = Some match (getAll t c s).1 with
         | Ok all => Routes.json 200 (VArray (VObject <$> all))
         | Throw _ =>
             Routes.message 500
               match t with
               | customers => "Error fetching customers"
               | materials => "Error fetching materials"
               | workOrders => "Error fetching work orders"
               | invoices => "Error fetching invoices"
               | projects => "Error fetching projects"
               end
         end.
Proof.
  destruct t; cbn [list_route getAll];
    unfold Routes.get_customers, Routes.get_materials, Routes.get_workorders,
      Routes.get_invoices, Routes.get_projects, Routes.list_handler, try_catch, bind;
    match goal with |- context [?m c s] => destruct (m c s) as [[x|e] s'] end;
    reflexivity.
Qed.
End HandlerSteps.

(** C7 fails as stated: with the database out of reach, the update of an
    existing customer resolves to [undefined] and is answered 404. *)
Lemma failure_answered_404_counterexample :
  has_id 1 <$> rows (t_customers (unreachable one_customer_db)) = [true]
  /\ (DatabaseStorage.updateCustomer 1 rename at_2025 (unreachable one_customer_db)).1
     = Ok None
  /\ Routes.status
       <$> resolved (Routes.put_customer (storage := DatabaseStorage.storage)
                       1 rename at_2025 (unreachable one_customer_db)).1
     = Some 404.
Proof. vm_compute. repeat split; reflexivity. Qed.

(** C7 (as amended). Reading, updating and deleting never throw, in
    either store, and on an id that no record has they return the absent
    value ([undefined], [false]) and leave the store as it is.  A failure
    of the database propagates from the create methods only, which the
    HTTP boundary answers with 500; the read, update and delete methods
    of DatabaseStorage catch it and return the absent value (the empty
    list for a listing), which the boundary answers with 404 (200 and an
    empty list for a listing). *)
Theorem absent_and_failures (t : table_name) (id : Z) (data : obj) (c : Clock) :
  (forall s,
     (exists r s', get (storage := MemStorage.storage) t id c s = (Ok r, s'))
     /\ (exists r s', update (storage := MemStorage.storage) t id data c s = (Ok r, s'))
     /\ (exists r s', delete (storage := MemStorage.storage) t id c s = (Ok r, s'))
     /\ (map_get (records t s) id = None ->
         get (storage := MemStorage.storage) t id c s = (Ok None, s)
         /\ update (storage := MemStorage.storage) t id data c s = (Ok None, s)
         /\ delete (storage := MemStorage.storage) t id c s = (Ok false, s)))
  /\ (forall db,
     (exists r db', get (storage := DatabaseStorage.storage) t id c db = (Ok r, db'))
     /\ (exists r db', update (storage := DatabaseStorage.storage) t id data c db = (Ok r, db'))
     /\ (exists r db', delete (storage := DatabaseStorage.storage) t id c db = (Ok r, db'))
     /\ (List.filter (has_id id) (rows (get_table t db)) = [] ->
         get (storage := DatabaseStorage.storage) t id c db = (Ok None, db)
         /\ update (storage := DatabaseStorage.storage) t id data c db = (Ok None, db)
         /\ delete (storage := DatabaseStorage.storage) t id c db = (Ok false, db)))
  /\ (forall db,
     online db = false ->
     (get (storage := DatabaseStorage.storage) t id c db = (Ok None, db)
      /\ update (storage := DatabaseStorage.storage) t id data c db = (Ok None, db)
      /\ delete (storage := DatabaseStorage.storage) t id c db = (Ok false, db)
      /\ getAll (storage := DatabaseStorage.storage) t c db = (Ok [], db)
      /\ exists e, create (storage := DatabaseStorage.storage) t data c db
                   = (Throw e, db))
     /\ (Routes.status
           <$> resolved (get_route (storage := DatabaseStorage.storage) t id c db).1
         = Some 404
         /\ Routes.status
              <$> resolved (put_route (storage := DatabaseStorage.storage) t id data c db).1
            = Some 404
         /\ Routes.status
              <$> resolved (delete_route (storage := DatabaseStorage.storage) t id c db).1
            = Some 404
         /\ resolved (list_route (storage := DatabaseStorage.storage) t c db).1
            = Some (Routes.json 200 (VArray []))
         /\ Routes.status
              <$> resolved (post_route (storage := DatabaseStorage.storage) t data c db).1
            = Some 500)).
Proof.
  split; [| split].
  - intros s. split; [| split; [| split]].
    + rewrite mem_get_spec. eauto.
    + destruct (mem_update_spec t id data c s) as (s' & -> & _). eauto.
    + destruct t; cbn;
        unfold MemStorage.deleteCustomer, MemStorage.deleteMaterial,
          MemStorage.deleteWorkOrder, MemStorage.deleteInvoice, MemStorage.deleteProject;
        match goal with |- context [map_delete ?m id] => destruct (map_delete m id) end;
        eauto.
    + intros Hnone. split; [| split].
      * now rewrite mem_get_spec, Hnone.
      * now apply mem_update_missing.
      * now apply mem_delete_missing.
  - intros db. destruct (db_update_absent t id data c db) as [Hok Habsent].
    destruct (delete_one_spec t id c db) as (db' & Hdel & _ & Hsame).
    split; [| split; [| split]].
    + rewrite db_get_spec. eauto.
    + exact Hok.
    + rewrite db_delete_is, Hdel. eauto.
    + intros Hnone. split; [| split].
      * rewrite db_get_spec, Hnone. now destruct (online db).
      * apply Habsent. now right.
      * rewrite db_delete_is, Hdel, Hnone, (Hsame Hnone). now destruct (online db).
  - intros db Hoff. destruct (db_update_absent t id data c db) as [_ Habsent].
    destruct (delete_one_spec t id c db) as (db' & Hdel & Hsame & _).
    assert (get (storage := DatabaseStorage.storage) t id c db = (Ok None, db)) as Hget
      by (now rewrite db_get_spec, Hoff).
    assert (update (storage := DatabaseStorage.storage) t id data c db = (Ok None, db))
      as Hupd by (apply Habsent; now left).
    assert (delete (storage := DatabaseStorage.storage) t id c db = (Ok false, db))
      as Hdelete by (now rewrite db_delete_is, Hdel, Hoff, (Hsame Hoff)).
    split.
    + split; [exact Hget | split; [exact Hupd | split; [exact Hdelete | split]]].
      * now apply db_getAll_offline.
      * now apply db_create_offline.
    + split; [| split; [| split; [| split]]].
      * now rewrite get_route_eval, Hget.
      * now rewrite put_route_eval, Hupd.
      * now rewrite delete_route_eval, Hdelete.
      * now rewrite list_route_eval, (db_getAll_offline t c db Hoff).
      * destruct (db_create_offline t data c db Hoff) as [e He].
        now rewrite post_route_eval, He.
Qed.

Lemma absent_and_failures_witness :
  MemStorage.getCustomer 2 at_2025 one_customer = (Ok None, one_customer)
  /\ DatabaseStorage.deleteCustomer 2 at_2025 one_customer_db = (Ok false, one_customer_db)
  /\ (exists e, DatabaseStorage.createCustomer jansen at_2025 (unreachable one_customer_db)
                = (Throw e, unreachable one_customer_db))
  /\ Routes.status
       <$> resolved (Routes.post_customer (storage := DatabaseStorage.storage)
                       jansen at_2025 (unreachable one_customer_db)).1
     = Some 500.
Proof.
  destruct (absent_and_failures customers 2 jansen at_2025) as (Hmem & Hdb & Hoff).
  destruct (Hmem one_customer) as (_ & _ & _ & Hm).
  destruct (Hdb one_customer_db) as (_ & _ & _ & Hd).
  destruct (Hoff (unreachable one_customer_db) eq_refl)
    as ((_ & _ & _ & _ & Hcreate) & (_ & _ & _ & _ & Hpost)).
  split; [| split; [| split]].
  - exact (proj1 (Hm eq_refl)).
  - exact (proj2 (proj2 (Hd eq_refl))).
  - exact Hcreate.
  - exact Hpost.
Defined.

End C7.

(** * The dashboard and the date of a work order *)

Module C8.
Import JS Pg Spec C1 Samples.

(** C8 on the code: a work order that is planned, in progress or
    cancelled is counted in no bucket of [workOrdersByStatus], whose
    buckets [nieuw] and [inBehandeling] test for states no work order
    takes.  Of four work orders, one in each state, the dashboard counts
    four in total and one in its buckets. *)
Theorem status_buckets_miss_states :
  (forall (wo : obj) (rest : list obj) (s : string),
     prop wo "status" = VStr s ->
     s = "Ingepland" \/ s = "In uitvoering" \/ s = "Geannuleerd" ->
     Routes.workOrdersByStatus (wo :: rest) = Routes.workOrdersByStatus rest)
  /\ (let stats := Routes.stats (R := whole_sums) at_2025 one_of_each [] [] [] in
      match stats with
      | VObject o =>
          prop o "totalWorkOrders" = VInt 4
          /\ prop o "workOrdersByStatus"
             = VObject (<["nieuw" := VInt 0]> (<["inBehandeling" := VInt 0]>
                        (<["voltooid" := VInt 1]> ∅)))
      | _ => False
      end)
  /\ Routes.count_status "Nieuw" one_of_each
     + Routes.count_status "In behandeling" one_of_each
     + Routes.count_status "Voltooid" one_of_each = 1.
Proof.
  split; [| split; [| reflexivity]].
  - intros wo rest s Hs Hstate.
    unfold Routes.workOrdersByStatus, Routes.count_status. cbn [List.filter].
    rewrite Hs. now destruct Hstate as [-> | [-> | ->]].
  - cbv zeta. unfold Routes.stats. unfold prop.
    rewrite lookup_insert_eq.
    do 4 rewrite lookup_insert_ne by discriminate. rewrite lookup_insert_eq.
    split; reflexivity.
Qed.

Lemma status_buckets_miss_states_witness :
  Routes.workOrdersByStatus [with_status "Ingepland"; with_status "Voltooid"]
  = Routes.workOrdersByStatus [with_status "Voltooid"].
Proof.
  apply (proj1 status_buckets_miss_states (with_status "Ingepland")
               [with_status "Voltooid"] "Ingepland" eq_refl).
  now left.
Defined.

End C8.

Module C9.
Import JS Pg Spec C1 Samples.

Local Open Scope Qc_scope.









End C9.

Module C10.
Import JS Pg Spec JSFacts PgFacts MonadFacts CreateFacts CreatedFacts C1 Samples.

Lemma listed_ignores_date (d : obj) (v : value) (code : string) (c : Clock) :
  listed (<["date" := v]> d) code c = listed d code c.
Proof.
  unfold listed. now rewrite !(prop_insert_ne _ "orderNumber"),
    !(prop_insert_ne _ "date") by discriminate.
Qed.

(** C10. When [createWorkOrder] of DatabaseStorage returns a work order,
    one row was appended to the table: it carries the time of the
    database as its date, and the work order returned is that row as the
    driver hands it over, with the same date.  The date of the draft plays
    no part in the call.  On a reachable database without work orders the
    call does return one, for every draft with a title and a customer. *)
Theorem created_date_is_now (d : obj) (c : Clock) (db : Db) :
  (forall row db',
     DatabaseStorage.createWorkOrder d c db = (Ok row, db') ->
     exists stored,
       rows (t_workOrders db') = rows (t_workOrders db) ++ [stored]
       /\ prop stored "date" = VDate (pgNow c)
       /\ row = raw_row workOrders stored
       /\ prop row "date" = VDate (pgNow c))
  /\ (forall v,
     DatabaseStorage.createWorkOrder (<["date" := v]> d) c db
     = DatabaseStorage.createWorkOrder d c db)
  /\ (online db = true -> rows (t_workOrders db) = [] ->
      last_serial (t_workOrders db) < INT4_MAX ->
      workOrder_draft_ok d = true ->
      exists row db', DatabaseStorage.createWorkOrder d c db = (Ok row, db')).
Proof.
  split; [| split].
  - intros row db' Hcreate.
    destruct (createWorkOrder_inv d c db db' row Hcreate)
      as (code & stored & _ & _ & Hstored & Hrows & ->).
    assert (prop stored "date" = VDate (pgNow c)) as Hdate.
    { rewrite Hstored.
      now destruct (listed_row d code c (last_serial (get_table workOrders db) + 1))
        as (_ & _ & Hdate & _). }
    exists stored. split; [exact Hrows | split; [exact Hdate | split; [reflexivity |]]].
    destruct (raw_workOrder stored) as (_ & -> & _). exact Hdate.
  - intros v. rewrite !createWorkOrder_unfold. unfold try_catch, bind.
    destruct (DatabaseStorage.generateOrderNumber c db) as [[code|e] db1];
      [| reflexivity].
    unfold clock. now rewrite listed_ignores_date.
  - intros Hon Hrows Hmax Hd.
    destruct (createWorkOrder_step d c db (last_serial (t_workOrders db)) 0)
      as (row & db' & Hcreate & _); [lia | lia | exact Hd | | eauto].
    now apply (scope_inv_empty workOrders).
Qed.

Lemma created_date_is_now_witness :
  returned "date" (DatabaseStorage.createWorkOrder dated_1999 at_2025 empty_db).1
  = Ok (VDate (pgNow at_2025)).
Proof.
  destruct (DatabaseStorage.createWorkOrder dated_1999 at_2025 empty_db)
    as [[row|e] db'] eqn:E; [| discriminate E].
  destruct (created_date_is_now dated_1999 at_2025 empty_db) as (H & _ & _).
  destruct (H row db' E) as (stored & _ & _ & _ & Hdate).
  cbn [fst returned]. now rewrite Hdate.
Defined.

End C10.

(** * The records of MemStorage *)

Module MapFacts.
Import JS.

Section JSMap.
Context {V : Type}.
Implicit Types (m : list (Z * V)) (k : Z) (v : V).

Lemma map_get_set_ne m k k' v :
  k' <> k -> map_get (map_set m k v) k' = map_get m k'.
Proof.
  intros Hne. induction m as [|[k0 v0] m IH]; simpl.
  - now rewrite (proj2 (Z.eqb_neq k k')) by congruence.
  - destruct (Z.eqb_spec k0 k) as [-> | Hk0]; simpl.
    + now rewrite (proj2 (Z.eqb_neq k k')) by congruence.
    + now rewrite IH.
Qed.

Lemma map_get_None m k : map_get m k = None <-> k ∉ (fst <$> m).
Proof.
  induction m as [|[k0 v0] m IH]; simpl.
  - split; [intros _; apply not_elem_of_nil | reflexivity].
  - rewrite ?fmap_cons, not_elem_of_cons. simpl.
    destruct (Z.eqb_spec k0 k) as [-> | Hk0].
    + split; [discriminate | intros [H _]; congruence].
    + rewrite IH. split; [intros H; split; [congruence | exact H] | now intros [_ H]].
Qed.

Lemma map_set_absent m k v : map_get m k = None -> map_set m k v = m ++ [(k, v)].
Proof.
  induction m as [|[k0 v0] m IH]; simpl; [reflexivity |].
  destruct (Z.eqb k0 k); [discriminate |]. intros H. now rewrite IH.
Qed.

Lemma map_set_keys m k v :
  is_Some (map_get m k) -> fst <$> map_set m k v = fst <$> m.
Proof.
  induction m as [|[k0 v0] m IH]; simpl; [now intros [? ?] |].
  destruct (Z.eqb_spec k0 k) as [-> | Hk0]; [reflexivity |].
  intros H. rewrite ?fmap_cons. simpl. now rewrite IH.
Qed.

Lemma map_delete_removed m k :
  (map_delete m k).2 = bool_decide (is_Some (map_get m k)).
Proof.
  induction m as [|[k0 v0] m IH]; cbn [map_delete map_get snd].
  - symmetry. apply bool_decide_eq_false_2. now intros [? ?].
  - destruct (Z.eqb k0 k).
    + symmetry. now apply bool_decide_eq_true_2.
    + destruct (map_delete m k). exact IH.
Qed.

Lemma map_delete_get_ne m k k' :
  k' <> k -> map_get (map_delete m k).1 k' = map_get m k'.
Proof.
  intros Hne. induction m as [|[k0 v0] m IH]; simpl; [reflexivity |].
  destruct (Z.eqb_spec k0 k) as [-> | Hk0]; simpl.
  - now rewrite (proj2 (Z.eqb_neq k k')) by congruence.
  - destruct (map_delete m k) as [m' b]. simpl in *. now rewrite IH.
Qed.

Lemma filter_other_keys (l : list Z) k :
  k ∉ l -> List.filter (fun k' => negb (k' =? k)) l = l.
Proof.
  induction l as [|k1 l IH]; [reflexivity |].
  intros [Hk1 Hl]%not_elem_of_cons. simpl.
  rewrite (proj2 (Z.eqb_neq k1 k)) by congruence. simpl. now rewrite IH.
Qed.

Lemma map_delete_keys m k :
  NoDup (fst <$> m) ->
  fst <$> (map_delete m k).1 = List.filter (fun k' => negb (k' =? k)) (fst <$> m).
Proof.
  induction m as [|[k0 v0] m IH]; simpl; [reflexivity |].
  rewrite ?fmap_cons. simpl. intros [Hnew Hnd]%NoDup_cons.
  destruct (Z.eqb_spec k0 k) as [-> | Hk0]; simpl.
  - now rewrite filter_other_keys.
  - specialize (IH Hnd). destruct (map_delete m k) as [m' b].
    rewrite ?fmap_cons. simpl in *. now f_equal.
Qed.

Lemma map_delete_get_eq m k :
  NoDup (fst <$> m) -> map_get (map_delete m k).1 k = None.
Proof.
  intros Hnd. apply map_get_None. rewrite (map_delete_keys m k Hnd).
  intros [_ H]%list_elem_of_In%filter_In. now rewrite Z.eqb_refl in H.
Qed.

Lemma map_delete_values m k :
  map_get m k = None -> (map_delete m k).1 = m.
Proof. intros H. now rewrite (UpdateFacts.map_delete_missing m k H). Qed.
End JSMap.

End MapFacts.

Module MemStoreFacts.
Import JS Pg Spec Calls MapFacts JSFacts CreateFacts UpdateFacts C7.

Local Abbreviation mem := MemStorage.storage.

Lemma same_table_eq (a b : table_name) : same_table a b = true <-> a = b.
Proof. destruct a, b; simpl; split; congruence. Qed.

Lemma same_table_refl (t : table_name) : same_table t t = true.
Proof. now destruct t. Qed.

Lemma mem_getAll_spec (t : table_name) (c : Clock) (s : MemStorage.t) :
  getAll (storage := mem) t c s = (Ok (map_values (records t s)), s).
Proof. now destruct t. Qed.

(** What a create does to the store: the record is set under the
    counter of its class, which moves on by one; the other classes are
    left alone. *)
Lemma mem_create_spec (t : table_name) (d : obj) (c : Clock) (s : MemStorage.t) :
  exists r s',
    create (storage := mem) t d c s = (Ok r, s')
    /\ prop r "id" = VInt (counter t s)
    /\ records t s' = map_set (records t s) (counter t s) r
    /\ counter t s' = counter t s + 1
    /\ (forall t', same_table t' t = false ->
          records t' s' = records t' s /\ counter t' s' = counter t' s).
Proof.
  destruct t; (eexists _, _; split; [reflexivity |]; split;
    [now rewrite !prop_insert_ne, prop_insert_eq by discriminate |];
    split; [reflexivity |]; split; [reflexivity |];
    intros t' Ht'; destruct t'; try discriminate Ht'; split; reflexivity).
Qed.

Lemma mem_update_frame (t : table_name) (id : Z) (data : obj) (c : Clock)
    (s : MemStorage.t) :
  let s' := (update (storage := mem) t id data c s).2 in
  (forall t', counter t' s' = counter t' s)
  /\ (forall t', same_table t' t = false -> records t' s' = records t' s).
Proof.
  destruct t; simpl;
    unfold MemStorage.updateCustomer, MemStorage.updateMaterial, MemStorage.updateWorkOrder,
      MemStorage.updateInvoice, MemStorage.updateProject, MemStorage.merge_into;
    match goal with |- context [map_get ?m id] => destruct (map_get m id) end;
    (split; intros t'; [| intros Ht']); destruct t'; try discriminate Ht'; reflexivity.
Qed.

Lemma mem_delete_spec (t : table_name) (id : Z) (c : Clock) (s : MemStorage.t) :
  exists s',
    delete (storage := mem) t id c s = (Ok (map_delete (records t s) id).2, s')
    /\ records t s' = (map_delete (records t s) id).1
    /\ (forall t', counter t' s' = counter t' s)
    /\ (forall t', same_table t' t = false -> records t' s' = records t' s).
Proof.
  destruct t; simpl;
    unfold MemStorage.deleteCustomer, MemStorage.deleteMaterial, MemStorage.deleteWorkOrder,
      MemStorage.deleteInvoice, MemStorage.deleteProject;
    match goal with |- context [map_delete ?m id] => destruct (map_delete m id) end;
    (eexists; split; [reflexivity |]; split; [reflexivity |];
     split; intros t'; [| intros Ht']; destruct t'; try discriminate Ht'; reflexivity).
Qed.

Lemma NoDup_List_filter {A} (f : A -> bool) (l : list A) :
  NoDup l -> NoDup (List.filter f l).
Proof.
  induction 1 as [|x l Hx Hl IH]; simpl; [constructor |].
  destruct (f x); [| exact IH]. constructor; [| exact IH].
  intros [Hin _]%list_elem_of_In%filter_In. now apply Hx, list_elem_of_In.
Qed.

Lemma Forall_List_filter {A} (P : A -> Prop) (f : A -> bool) (l : list A) :
  Forall P l -> Forall P (List.filter f l).
Proof.
  induction 1 as [|x l Hx Hl IH]; simpl; [constructor |].
  destruct (f x); [constructor |]; assumption.
Qed.

Lemma keyed_new : keyed MemStorage.new.
Proof. intros t. destruct t; (split; [simpl; lia | split; constructor]). Qed.

Lemma keyed_absent (s : MemStorage.t) (t : table_name) :
  keyed s -> map_get (records t s) (counter t s) = None.
Proof.
  intros H. apply map_get_None. intros Hin.
  destruct (H t) as (_ & _ & Hall). rewrite Forall_forall in Hall.
  specialize (Hall _ Hin). simpl in Hall. lia.
Qed.

Lemma keyed_perform (k : call) (c : Clock) (s : MemStorage.t) :
  keyed s -> keyed (perform (storage := mem) k c s).
Proof.
  intros H t0. destruct (H t0) as (Hone & Hnd & Hall).
  destruct k as [t d | t id data | t id]; simpl.
  - destruct (mem_create_spec t d c s) as (r & s' & E & _ & Hrec & Hcnt & Hother).
    rewrite E. simpl. destruct (same_table t0 t) eqn:Et.
    + apply same_table_eq in Et as ->. unfold keys. rewrite Hrec, Hcnt.
      rewrite (map_set_absent _ _ _ (keyed_absent s t H)), fmap_app. simpl.
      split; [lia | split].
      * apply NoDup_app. split; [exact Hnd | split; [| apply NoDup_singleton]].
        intros k Hk ->%list_elem_of_singleton.
        rewrite Forall_forall in Hall. specialize (Hall _ Hk). simpl in Hall. lia.
      * apply Forall_app. split.
        -- eapply Forall_impl; [exact Hall |]. simpl. intros; lia.
        -- apply Forall_singleton. lia.
    + destruct (Hother t0 Et) as [Hr Hc]. unfold keys. now rewrite Hr, Hc.
  - destruct (mem_update_frame t id data c s) as [Hc Hr].
    destruct (mem_update_spec t id data c s) as (s' & E & Hrec).
    rewrite E in Hc, Hr |- *. simpl in *. rewrite Hc. unfold keys.
    destruct (same_table t0 t) eqn:Et.
    + apply same_table_eq in Et as ->. rewrite Hrec.
      destruct (map_get (records t s) id) as [e|] eqn:Eg; [| easy].
      rewrite map_set_keys by (rewrite Eg; eauto). easy.
    + now rewrite (Hr t0 Et).
  - destruct (mem_delete_spec t id c s) as (s' & E & Hrec & Hc & Hr).
    rewrite E. simpl. rewrite Hc. unfold keys.
    destruct (same_table t0 t) eqn:Et.
    + apply same_table_eq in Et as ->. rewrite Hrec, map_delete_keys by exact Hnd.
      split; [exact Hone | split].
      * now apply NoDup_List_filter.
      * now apply Forall_List_filter.
    + now rewrite (Hr t0 Et).
Qed.

Lemma counter_perform (k : call) (c : Clock) (s : MemStorage.t) (t : table_name) :
  counter t (perform (storage := mem) k c s)
  = counter t s + match k with
                  | Create t' _ => if same_table t' t then 1 else 0
                  | _ => 0
                  end.
Proof.
  destruct k as [t' d | t' id data | t' id]; simpl.
  - destruct (mem_create_spec t' d c s) as (r & s' & E & _ & _ & Hcnt & Hother).
    rewrite E. simpl. destruct (same_table t' t) eqn:Et.
    + now apply same_table_eq in Et as ->.
    + assert (same_table t t' = false) as Et'
        by (destruct t, t'; try reflexivity; discriminate Et).
      rewrite (proj2 (Hother t Et')). lia.
  - destruct (mem_update_frame t' id data c s) as [Hc _]. rewrite Hc. lia.
  - destruct (mem_delete_spec t' id c s) as (s' & E & _ & Hc & _).
    rewrite E. simpl. rewrite Hc. lia.
Qed.

(** Every store a history leads to, from a keyed one, is keyed, and its
    counters have moved by the number of creates. *)
Lemma keyed_after (history : list (Clock * call)) (s : MemStorage.t) :
  keyed s ->
  keyed (after (storage := mem) history s)
  /\ forall t, counter t (after (storage := mem) history s)
               = counter t s + Z.of_nat (creates t history).
Proof.
  revert s. induction history as [|[c k] history IH]; intros s H.
  - split; [exact H | intros t; unfold creates; simpl; lia].
  - destruct (IH _ (keyed_perform k c s H)) as [Hk Hc]. split; [exact Hk |].
    intros t. unfold after in Hc |- *. simpl fold_left. rewrite Hc, counter_perform.
    unfold creates. simpl List.filter.
    destruct k as [t' d | |]; simpl; try lia.
    destruct (same_table t' t); simpl length; lia.
Qed.

End MemStoreFacts.

Module MemRecords.
Import JS Pg Spec Calls MapFacts MemStoreFacts JSFacts CreateFacts UpdateFacts C7 Samples Cases.

Local Abbreviation mem := MemStorage.storage.

(** X1. In MemStorage a create of any class always returns: the record
    carries the counter of its class as [id] and the time of the call as
    [createdAt], [get] under that id returns this very record afterwards,
    and every other id reads as it did before. *)
Theorem mem_create_then_get (t : table_name) (d : obj) (c c' : Clock) (s : MemStorage.t) :
  exists r s',
    create (storage := mem) t d c s = (Ok r, s')
    /\ prop r "id" = VInt (counter t s)
    /\ prop r "createdAt" = VDate (jsNow c)
    /\ get (storage := mem) t (counter t s) c' s' = (Ok (Some r), s')
    /\ (forall id, id <> counter t s ->
          get (storage := mem) t id c' s' = (Ok (map_get (records t s) id), s')).
Proof.
  destruct (mem_create_spec t d c s) as (r & s' & E & Hid & Hrec & _).
  exists r, s'. split; [exact E |]. split; [exact Hid |]. split; [| split].
  - destruct t; injection E as <- _;
      now rewrite !prop_insert_ne, prop_insert_eq by discriminate.
  - now rewrite mem_get_spec, Hrec, map_get_set_eq.
  - intros id Hne. now rewrite mem_get_spec, Hrec, map_get_set_ne.
Qed.

(** X2. MemStorage never hands out an id twice.  After any history of
    creates, updates and deletes on the store of the constructor, the keys
    of a class are distinct and below its counter, the counter stands at
    one more than the number of creates of the class, and the next create
    returns a record under that id, listed after all the others. *)
Theorem mem_ids_never_reused (history : list (Clock * call)) (t : table_name)
    (d : obj) (c : Clock) :
  let s := after (storage := mem) history MemStorage.new in
  let n := 1 + Z.of_nat (creates t history) in
  NoDup (keys t s)
  /\ Forall (fun k => 1 <= k < n) (keys t s)
  /\ exists r s',
       create (storage := mem) t d c s = (Ok r, s')
       /\ prop r "id" = VInt n
       /\ records t s' = records t s ++ [(n, r)]
       /\ (getAll (storage := mem) t c s').1
          = Ok (map_values (records t s) ++ [r]).
Proof.
  intros s n.
  destruct (keyed_after history MemStorage.new keyed_new) as [Hk Hc].
  fold s in Hk, Hc.
  assert (counter t s = n) as Hn by (rewrite Hc; now destruct t).
  destruct (Hk t) as (_ & Hnd & Hall). rewrite Hn in Hall.
  split; [exact Hnd |]. split; [exact Hall |].
  destruct (mem_create_spec t d c s) as (r & s' & E & Hid & Hrec & _).
  rewrite Hn in Hid, Hrec. exists r, s'.
  assert (records t s' = records t s ++ [(n, r)]) as Hrec'.
  { rewrite Hrec. apply map_set_absent. rewrite <- Hn. now apply keyed_absent. }
  split; [exact E |]. split; [exact Hid |]. split; [exact Hrec' |].
  rewrite mem_getAll_spec, Hrec'. unfold map_values. now rewrite map_app.
Qed.

(** X3. MemStorage, after any history: a delete tells whether the id
    held a record, leaves the id without one (a second delete returns
    [false]), leaves every other id and the counter as they were, and
    removes exactly that key from the listing. *)
Theorem mem_delete_then_get (history : list (Clock * call)) (t : table_name)
    (id : Z) (c c' : Clock) :
  let s := after (storage := mem) history MemStorage.new in
  exists s',
    delete (storage := mem) t id c s
    = (Ok (bool_decide (is_Some (map_get (records t s) id))), s')
    /\ get (storage := mem) t id c' s' = (Ok None, s')
    /\ delete (storage := mem) t id c' s' = (Ok false, s')
    /\ (forall id', id' <> id ->
          get (storage := mem) t id' c' s' = (Ok (map_get (records t s) id'), s'))
    /\ keys t s' = List.filter (fun k => negb (k =? id)) (keys t s)
    /\ counter t s' = counter t s.
Proof.
  intros s.
  destruct (keyed_after history MemStorage.new keyed_new) as [Hk _]. fold s in Hk.
  destruct (Hk t) as (_ & Hnd & _).
  destruct (mem_delete_spec t id c s) as (s' & E & Hrec & Hc & _).
  exists s'. rewrite <- map_delete_removed.
  assert (map_get (records t s') id = None) as Hgone
    by (rewrite Hrec; now apply map_delete_get_eq).
  split; [exact E |]. split; [| split; [| split; [| split]]].
  - now rewrite mem_get_spec, Hgone.
  - now apply mem_delete_missing.
  - intros id' Hne. now rewrite mem_get_spec, Hrec, map_delete_get_ne.
  - unfold keys. rewrite Hrec. now apply map_delete_keys.
  - apply Hc.
Qed.

(** X4. MemStorage updates in place: the update of a record that exists
    returns the record with the given properties laid over it, which is
    what [get] returns afterwards; the keys of the class and their order
    stay as they were, and so does every other record.  An [id] in the
    payload changes the property of the record, not the key that holds
    it. *)
Theorem mem_update_in_place (t : table_name) (id : Z) (data e : obj) (c c' : Clock)
    (s : MemStorage.t) :
  map_get (records t s) id = Some e ->
  exists s',
    update (storage := mem) t id data c s = (Ok (Some (spread e data)), s')
    /\ get (storage := mem) t id c' s' = (Ok (Some (spread e data)), s')
    /\ keys t s' = keys t s
    /\ (forall id', id' <> id ->
          get (storage := mem) t id' c' s' = (Ok (map_get (records t s) id'), s'))
    /\ (forall v, data !! "id" = Some v -> prop (spread e data) "id" = v).
Proof.
  intros He. destruct (mem_update_spec t id data c s) as (s' & E & Hrec).
  rewrite He in E, Hrec. simpl in E. exists s'.
  split; [exact E |]. split; [| split; [| split]].
  - now rewrite mem_get_spec, Hrec, map_get_set_eq.
  - unfold keys. rewrite Hrec. apply map_set_keys. rewrite He. eauto.
  - intros id' Hne. now rewrite mem_get_spec, Hrec, map_get_set_ne.
  - intros v Hv. now apply prop_spread_present.
Qed.

Lemma mem_update_in_place_witness :
  exists e s',
    map_get (MemStorage.customers one_customer) 1 = Some e
    /\ MemStorage.updateCustomer 1 moved at_2025 one_customer
       = (Ok (Some (spread e moved)), s')
    /\ prop (spread e moved) "id" = VInt 7
    /\ keys customers s' = [1].
Proof.
  assert (exists e, map_get (records customers one_customer) 1 = Some e) as [e He]
    by (eexists; reflexivity).
  destruct (mem_update_in_place customers 1 moved e at_2025 at_2025 one_customer He)
    as (s' & Hu & _ & Hk & _ & Hid).
  exists e, s'. split; [exact He |]. split; [exact Hu |]. split.
  - exact (Hid (VInt 7) eq_refl).
  - rewrite Hk. reflexivity.
Defined.

End MemRecords.

(** * The rows of DatabaseStorage *)

Module DbFacts.
Import JS Pg Spec Calls Views JSFacts PgFacts MonadFacts CreateFacts GeneratorFacts
  CreatedFacts UpdateFacts C7.

Local Abbreviation dbs := DatabaseStorage.storage.

Lemma is_int_same_key (v : value) (n : Z) : is_int v n = same_key v (VInt n).
Proof. now destruct v. Qed.

(** A row answers to one key. *)
Lemma has_id_unique (id id' : Z) (r : obj) :
  has_id id r = true -> has_id id' r = true -> id = id'.
Proof.
  unfold has_id, is_int. destruct (prop r "id"); try discriminate.
  intros H1%bool_decide_eq_true H2%bool_decide_eq_true.
  apply Z2Qc_inj. congruence.
Qed.

Lemma VInt_inj (a b : Z) : VInt a = VInt b -> a = b.
Proof.
  intros H.
  apply (f_equal (fun v => match v with VNum x => x | _ => Qc_of_Z 0 end)) in H.
  unfold VInt in H. cbv beta iota in H. now apply Z2Qc_inj.
Qed.

Lemma has_id_prop (n : Z) (r : obj) : prop r "id" = VInt n -> has_id n r = true.
Proof. unfold has_id. intros ->. simpl. now apply bool_decide_eq_true_2. Qed.

Lemma filter_all_false {A} (f : A -> bool) (l : list A) :
  (forall x, x ∈ l -> f x = false) -> List.filter f l = [].
Proof.
  induction l as [|x l IH]; intros H; [reflexivity |]. simpl.
  rewrite (H x) by apply list_elem_of_here.
  apply IH. intros y Hy. apply H. now apply list_elem_of_further.
Qed.

Lemma filter_all_true {A} (f : A -> bool) (l : list A) :
  (forall x, x ∈ l -> f x = true) -> List.filter f l = l.
Proof.
  induction l as [|x l IH]; intros H; [reflexivity |]. simpl.
  rewrite (H x) by apply list_elem_of_here.
  f_equal. apply IH. intros y Hy. apply H. now apply list_elem_of_further.
Qed.

Lemma filter_nonempty {A} (f : A -> bool) (l : list A) :
  (0 <? Z.of_nat (length (List.filter f l))) = existsb f l.
Proof.
  induction l as [|x l IH]; [reflexivity |]. simpl.
  destruct (f x); [reflexivity | exact IH].
Qed.

Lemma filter_other_id (id id' : Z) (rs : list obj) :
  id' <> id ->
  List.filter (has_id id') (List.filter (fun r => negb (has_id id r)) rs)
  = List.filter (has_id id') rs.
Proof.
  intros Hne. induction rs as [|r rs IH]; [reflexivity |]. simpl.
  destruct (has_id id r) eqn:E; simpl.
  - destruct (has_id id' r) eqn:E'; [| exact IH].
    destruct Hne. exact (has_id_unique id' id r E' E).
  - destruct (has_id id' r); [now rewrite IH | exact IH].
Qed.

(** Everything an INSERT that returned has checked and done. *)
Lemma exec_insert_checked (t : table_name) (given : obj) (c : Clock) (db db' : Db)
    (row : obj) :
  exec_insert t given c db = (Ok row, db') ->
  let tb := get_table t db in
  online db = true
  /\ row = fill_defaults (schema t) given (last_serial tb + 1) (pgNow c)
  /\ null_violation (schema t) row = None
  /\ unique_violation (schema t) (rows tb) row = None
  /\ db' = set_table t (mkTable (rows tb ++ [row])
                                (if uses_serial (schema t) given
                                 then last_serial tb + 1 else last_serial tb)) db.
Proof.
  unfold exec_insert. destruct (online db); [| discriminate]. simpl negb. cbv iota.
  destruct (_ && _); [discriminate |].
  destruct (null_violation _ _) eqn:En; [discriminate |].
  destruct (unique_violation _ _ _) eqn:Eu; [discriminate |].
  intros [= <- <-]. now repeat split.
Qed.

(** The primary key is checked first: a row that was stored shares its
    key with no row that was there. *)
Lemma unique_violation_id (t : table_name) (rs : list obj) (row : obj) (n : Z) :
  unique_violation (schema t) rs row = None ->
  prop row "id" = VInt n ->
  forall r, r ∈ rs -> has_id n r = false.
Proof.
  intros Hu Hid r Hr. unfold has_id. rewrite is_int_same_key, <- Hid.
  assert (existsb (fun r' => same_key (prop r' "id") (prop row "id")) rs = false) as He.
  { destruct t; simpl in Hu;
      destruct (existsb _ rs) eqn:E; first [discriminate Hu | reflexivity]. }
  apply not_true_is_false. intros Hk.
  assert (existsb (fun r' => same_key (prop r' "id") (prop row "id")) rs = true);
    [| congruence].
  apply existsb_exists. exists r. split; [now apply list_elem_of_In | exact Hk].
Qed.

Lemma shown_id (t : table_name) (row : obj) : prop (shown t row) "id" = prop row "id".
Proof.
  destruct t; try reflexivity.
  apply (raw_row_prop workOrders row (primaryKey (serial "id" "id"))).
  apply schema_has_id.
Qed.

Lemma code_yearly (t : table_name) (p : string) (y n : Z) :
  code_prefix t y = p +:+ toString y +:+ "-" -> code_width t = 4%nat ->
  year_code p y n = code t y n.
Proof. intros Hp Hw. unfold code. now rewrite Hp, Hw, year_code_split. Qed.

(** What a create written with the query builder did, when it returned. *)
Lemma built_inv (t : table_name) (key : string) (gen : M Db string) (code0 : string)
    (d : obj) (c : Clock) (db db' : Db) (r : obj) :
  is_column t key = true -> key <> "id" ->
  gen c db = (Ok code0, db) ->
  try_catch (bind gen (fun n => insert_values t (<[key := VStr n]> d)))
            DatabaseStorage.rethrow c db = (Ok r, db') ->
  exists given,
    exec_insert t given c db = (Ok r, db')
    /\ prop r key = VStr code0
    /\ given !! "id" = column_values t d !! "id".
Proof.
  intros Hcol Hk Hgen Hcreate.
  pose proof (created_after _ _ _ _ _ _ _ Hgen Hcreate) as Hins. cbv beta in Hins.
  exists (column_values t (<[key := VStr code0]> d)).
  split; [now apply insert_values_inv |].
  split; [now apply (insert_values_code t key d code0 c db db') |].
  rewrite !column_values_lookup. now rewrite lookup_insert_ne by congruence.
Qed.

(** What a create of DatabaseStorage did, when it returned: one INSERT,
    whose row it hands back, under the code that follows the latest. *)
Lemma db_create_inv (t : table_name) (d : obj) (c : Clock) (db db' : Db) (r : obj) :
  create (storage := dbs) t d c db = (Ok r, db') ->
  let y := getFullYear (jsNow c) in
  exists given row,
    exec_insert t given c db = (Ok row, db')
    /\ r = shown t row
    /\ given !! "id" = match t with
                       | workOrders => None
                       | _ => column_values t d !! "id"
                       end
    /\ (t <> projects ->
        prop row (code_key t)
        = VStr (code t y (next_number (code_prefix t y)
                                      (latest_code t (code_key t) db)))).
Proof.
  intros Hcreate y. destruct t;
    cbn [create Storage.createCustomer Storage.createMaterial Storage.createWorkOrder
         Storage.createInvoice Storage.createProject DatabaseStorage.storage] in Hcreate.
  - destruct (yearly_generator_spec customers "customerNumber" "KL-" ltac:(discriminate) c db)
      as (n & Hgen & Hn & _).
    destruct (built_inv customers "customerNumber" _ _ d c db db' r eq_refl
                ltac:(discriminate) Hgen Hcreate) as (given & Hins & Hcode & Hid).
    exists given, r. split; [exact Hins |]. split; [reflexivity |]. split; [exact Hid |].
    intros _. apply exec_insert_checked in Hins as (Hon & _). cbn [code_key].
    rewrite Hcode, (Hn Hon). f_equal. now apply code_yearly.
  - destruct (generateArticleNumber_spec c db) as (n & Hgen & Hn & _).
    destruct (built_inv materials "articleNumber" _ _ d c db db' r eq_refl
                ltac:(discriminate) Hgen Hcreate) as (given & Hins & Hcode & Hid).
    exists given, r. split; [exact Hins |]. split; [reflexivity |]. split; [exact Hid |].
    intros _. apply exec_insert_checked in Hins as (Hon & _). cbn [code_key].
    now rewrite Hcode, (Hn Hon).
  - destruct (yearly_generator_spec workOrders "orderNumber" "WB-" ltac:(discriminate) c db)
      as (n & Hgen & Hn & _).
    change (DatabaseStorage.generateOrderNumber c db = (Ok (year_code "WB-" y n), db))
      in Hgen.
    rewrite createWorkOrder_unfold in Hcreate.
    pose proof (created_after _ _ _ _ _ _ _ Hgen Hcreate) as Hins.
    unfold bind at 1, clock in Hins. cbv beta iota in Hins. unfold bind in Hins.
    destruct (exec_insert workOrders (listed d (year_code "WB-" y n) c) c db)
      as [[stored|e] db1] eqn:E; [| discriminate Hins].
    unfold ret in Hins. injection Hins as <- <-.
    exists (listed d (year_code "WB-" y n) c), stored.
    split; [exact E |]. split; [reflexivity |].
    split; [unfold listed; now map_lookup |].
    intros _. apply exec_insert_checked in E as (Hon & -> & _). cbn [code_key].
    rewrite (proj1 (proj2 (listed_row d _ c _))), (Hn Hon). f_equal.
    now apply code_yearly.
  - destruct (yearly_generator_spec invoices "invoiceNumber" "F-" ltac:(discriminate) c db)
      as (n & Hgen & Hn & _).
    destruct (built_inv invoices "invoiceNumber" _ _ d c db db' r eq_refl
                ltac:(discriminate) Hgen Hcreate) as (given & Hins & Hcode & Hid).
    exists given, r. split; [exact Hins |]. split; [reflexivity |]. split; [exact Hid |].
    intros _. apply exec_insert_checked in Hins as (Hon & _). cbn [code_key].
    rewrite Hcode, (Hn Hon). f_equal. now apply code_yearly.
  - unfold DatabaseStorage.createProject, try_catch in Hcreate.
    destruct (insert_values projects d c db) as [[row|e] db1] eqn:E; [| discriminate].
    injection Hcreate as <- <-. apply insert_values_inv in E.
    exists (column_values projects d), row.
    split; [exact E |]. split; [reflexivity |]. split; [reflexivity |]. congruence.
Qed.


Lemma shown_code (t : table_name) (row : obj) :
  t <> projects -> prop (shown t row) (shown_key t) = prop row (code_key t).
Proof.
  intros Ht. destruct t; try reflexivity; try congruence.
  apply (proj1 (raw_workOrder row)).
Qed.

Lemma no_given_id (t : table_name) (d : obj) :
  prop d "id" = VUndefined -> column_values t d !! "id" = None.
Proof.
  unfold prop. intros H. rewrite column_values_lookup.
  destruct (d !! "id") as [x|]; [| reflexivity]. simpl in H. subst x.
  now rewrite andb_false_r.
Qed.

Lemma serial_id (t : table_name) (given : obj) (next : Z) (now : Date) :
  given !! "id" = None ->
  prop (fill_defaults (schema t) given next now) "id" = VInt next.
Proof.
  intros H.
  rewrite (fill_defaults_prop _ _ _ _ (primaryKey (serial "id" "id")))
    by (apply schema_keys_NoDup || apply schema_has_id).
  unfold column_value. simpl col_key. now rewrite H.
Qed.

Lemma serial_id_of (t : table_name) (given : obj) (next : Z) (now : Date) :
  given !! "id" = None ->
  id_of (fill_defaults (schema t) given next now) = Qc_of_Z next.
Proof.
  intros H. unfold id_of.
  rewrite (fill_defaults_lookup _ _ _ _ (primaryKey (serial "id" "id")))
    by (apply schema_keys_NoDup || apply schema_has_id).
  unfold column_value. simpl col_key. now rewrite H.
Qed.

(** The row behind a record that a create returned with key [n]. *)
Lemma db_created_row (t : table_name) (d : obj) (c : Clock) (db db' : Db) (r : obj)
    (n : Z) :
  create (storage := dbs) t d c db = (Ok r, db') ->
  prop r "id" = VInt n ->
  exists row,
    r = shown t row
    /\ prop row "id" = VInt n
    /\ online db = true /\ online db' = true
    /\ rows_of t db' = rows_of t db ++ [row]
    /\ (forall r0, r0 ∈ rows_of t db -> has_id n r0 = false)
    /\ List.filter (has_id n) (rows_of t db') = [row]
    /\ List.filter (fun r0 => negb (has_id n r0)) (rows_of t db') = rows_of t db.
Proof.
  intros Hcreate Hid.
  destruct (db_create_inv t d c db db' r Hcreate) as (given & row & Hins & -> & _).
  rewrite shown_id in Hid.
  apply exec_insert_checked in Hins as (Hon & _ & _ & Hu & ->).
  pose proof (unique_violation_id t _ row n Hu Hid) as Hold.
  exists row. unfold rows_of. rewrite get_set_table, online_set_table. simpl rows.
  split; [reflexivity |]. split; [exact Hid |]. split; [exact Hon |].
  split; [exact Hon |]. split; [reflexivity |]. split; [exact Hold |].
  rewrite !List.filter_app. simpl. rewrite (has_id_prop n row Hid). simpl.
  rewrite (filter_all_false _ _ Hold), filter_all_true, app_nil_r; [now split |].
  intros r0 Hr0. now rewrite (Hold r0 Hr0).
Qed.

Lemma db_getAll_online (t : table_name) (c : Clock) (db : Db) :
  online db = true ->
  getAll (storage := dbs) t c db = (Ok (sort_desc (rows_of t db)), db).
Proof.
  intros H. destruct t; cbn; unfold DatabaseStorage.getAllCustomers,
    DatabaseStorage.getAllMaterials, DatabaseStorage.getAllWorkOrders,
    DatabaseStorage.getAllInvoices, DatabaseStorage.getAllProjects,
    DatabaseStorage.select_all, try_catch, select_all_desc; now rewrite H.
Qed.

(** A row whose key is above all the others comes first in the listing. *)
Lemma sort_desc_snoc (rs : list obj) (row : obj) :
  (forall r0, r0 ∈ rs -> (id_of r0 < id_of row)%Qc) ->
  sort_desc (rs ++ [row]) = row :: sort_desc rs.
Proof.
  induction rs as [|r0 rs IH]; intros H; [reflexivity |].
  change (insert_desc r0 (sort_desc (rs ++ [row])) = row :: insert_desc r0 (sort_desc rs)).
  rewrite IH by (intros r1 Hr1; apply H; now apply list_elem_of_further).
  simpl. rewrite bool_decide_eq_false_2; [reflexivity |].
  apply Qcle_not_lt, Qclt_le_weak, H, list_elem_of_here.
Qed.

(** What a delete of DatabaseStorage does within reach. *)
Lemma db_delete_online (t : table_name) (id : Z) (c : Clock) (db : Db) :
  online db = true ->
  delete (storage := dbs) t id c db
  = (Ok (0 <? Z.of_nat (length (List.filter (has_id id) (rows_of t db)))),
     set_table t (mkTable (List.filter (fun r => negb (has_id id r)) (rows_of t db))
                          (last_serial (get_table t db))) db).
Proof.
  intros H. rewrite db_delete_is.
  unfold DatabaseStorage.delete_one, try_catch, bind, exec_delete. now rewrite H.
Qed.


(** *** Codes of different years *)

Lemma prefix_cons (x y : ascii) (a b : string) :
  String.prefix (String x a) (String y b) = Ascii.eqb x y && String.prefix a b.
Proof.
  cbn [String.prefix]. destruct (ascii_dec x y) as [-> | Hne].
  - now rewrite Ascii.eqb_refl.
  - now rewrite (proj2 (Ascii.eqb_neq _ _) Hne).
Qed.

Lemma prefix_append (p a b : string) :
  String.prefix (p +:+ a) (p +:+ b) = String.prefix a b.
Proof.
  induction p as [|x p IH]; [reflexivity |]. sappend.
  now rewrite prefix_cons, Ascii.eqb_refl.
Qed.

Lemma digits_then_hyphen (a b r : string) :
  all_digits a = true -> all_digits b = true ->
  String.prefix (a +:+ "-") (b +:+ String "-" r) = true -> a = b.
Proof.
  revert b. induction a as [|x a IH]; intros [|y b]; sappend;
    cbn [all_digits]; rewrite ?prefix_cons.
  - reflexivity.
  - intros _ [Hy _]%andb_prop [<-%Ascii.eqb_eq _]%andb_prop.
    now vm_compute in Hy.
  - intros [Hx _]%andb_prop _ [->%Ascii.eqb_eq _]%andb_prop.
    now vm_compute in Hx.
  - intros [_ Ha]%andb_prop [_ Hb]%andb_prop [->%Ascii.eqb_eq H]%andb_prop.
    f_equal. now apply IH.
Qed.

Lemma toString_inj (a b : Z) : 0 <= a -> 0 <= b -> toString a = toString b -> a = b.
Proof.
  intros Ha Hb E.
  pose proof (parseInt_padStart 0 a Ha) as Pa. pose proof (parseInt_padStart 0 b Hb) as Pb.
  rewrite E in Pa. congruence.
Qed.

Lemma yearly_prefix (t : table_name) :
  t = customers \/ t = workOrders \/ t = invoices ->
  exists p, (forall y, code_prefix t y = p +:+ toString y +:+ "-")
            /\ code_width t = 4%nat.
Proof. intros [-> | [-> | ->]]; eexists; split; reflexivity. Qed.

(** The number the generator reads off a code of its own making: the
    number of the code in the year of the code, none in any other. *)
Lemma parsed_code (t : table_name) (y y' k : Z) :
  t = customers \/ t = workOrders \/ t = invoices ->
  0 <= y -> 0 <= y' -> 0 <= k ->
  parsed (code_prefix t y') (VStr (code t y k)) = if y =? y' then Some k else None.
Proof.
  intros Ht Hy Hy' Hk. unfold parsed, code.
  destruct (Z.eqb_spec y y') as [<- | Hne].
  - now rewrite startsWith_append, substring_append, parseInt_padStart.
  - destruct (yearly_prefix t Ht) as (p & Hp & _).
    rewrite !Hp. unfold startsWith.
    rewrite !append_assoc, prefix_append.
    destruct (String.prefix _ _) eqn:E; [| reflexivity].
    destruct Hne. apply toString_inj; try assumption.
    apply digits_then_hyphen in E; [congruence | |];
      rewrite PatternFacts.toString_nonneg by assumption; now apply all_digits_decimal.
Qed.

End DbFacts.

Module DbRecords.
Import JS Pg Spec Calls Views JSFacts PgFacts MonadFacts CreateFacts GeneratorFacts
  CreatedFacts UpdateFacts C7 DbFacts Samples Cases.

Local Abbreviation dbs := DatabaseStorage.storage.

(** X5. DatabaseStorage, any class: a create that returned a record
    with key [n] has appended one row, which is what [get] under [n]
    returns afterwards (for a work order the create returned the driver's
    view of that row); every other id reads as it did before. *)
Theorem db_create_then_get (t : table_name) (d : obj) (c c' : Clock) (db db' : Db)
    (r : obj) (n : Z) :
  create (storage := dbs) t d c db = (Ok r, db') ->
  prop r "id" = VInt n ->
  exists row,
    r = shown t row
    /\ rows_of t db' = rows_of t db ++ [row]
    /\ get (storage := dbs) t n c' db' = (Ok (Some row), db')
    /\ (forall id, id <> n ->
          (get (storage := dbs) t id c' db').1 = (get (storage := dbs) t id c' db).1).
Proof.
  intros Hcreate Hid.
  destruct (db_created_row t d c db db' r n Hcreate Hid)
    as (row & Hr & Hrow & Hon & Hon' & Hrows & Hold & Hhit & _).
  exists row. split; [exact Hr |]. split; [exact Hrows |]. split.
  - rewrite db_get_spec, Hon'. fold (rows_of t db'). now rewrite Hhit.
  - intros id Hne. rewrite !db_get_spec, Hon, Hon'. simpl.
    fold (rows_of t db') (rows_of t db). rewrite Hrows, List.filter_app. simpl.
    destruct (has_id id row) eqn:E; [| now rewrite app_nil_r].
    destruct Hne. exact (has_id_unique id n row E (has_id_prop n row Hrow)).
Qed.

Lemma db_create_then_get_witness :
  exists row db',
    DatabaseStorage.createCustomer jansen at_2025 empty_db = (Ok row, db')
    /\ DatabaseStorage.getCustomer 1 at_2026 db' = (Ok (Some row), db').
Proof.
  assert (exists r db', create (storage := dbs) customers jansen at_2025 empty_db
                        = (Ok r, db') /\ prop r "id" = VInt 1)
    as (r & db' & E & Hid) by (do 2 eexists; split; reflexivity).
  destruct (db_create_then_get customers jansen at_2025 at_2026 empty_db db' r 1 E Hid)
    as (row & Hr & _ & Hget & _).
  exists row, db'. simpl in Hr. subst r. split; [exact E | exact Hget].
Defined.

(** X6. DatabaseStorage hands a code out again once its record is
    gone.  When the record a create returned is deleted and another is
    created in the same calendar year, the delete succeeds and the second
    record carries the code of the first; where the drafts carry no id of
    their own, the two records differ in their keys. *)
Theorem db_code_reused_after_delete (t : table_name) (d d2 : obj) (c c1 c2 : Clock)
    (db db1 db3 : Db) (r r2 : obj) (n : Z) :
  t <> projects ->
  create (storage := dbs) t d c db = (Ok r, db1) ->
  prop r "id" = VInt n ->
  getFullYear (jsNow c2) = getFullYear (jsNow c) ->
  create (storage := dbs) t d2 c2 (delete (storage := dbs) t n c1 db1).2 = (Ok r2, db3) ->
  (delete (storage := dbs) t n c1 db1).1 = Ok true
  /\ prop r2 (shown_key t) = prop r (shown_key t)
  /\ (prop d "id" = VUndefined -> prop d2 "id" = VUndefined ->
      prop r2 "id" = VInt (n + 1)).
Proof.
  intros Ht Hcreate Hid Hyear Hcreate2.
  destruct (db_created_row t d c db db1 r n Hcreate Hid)
    as (row & Hr & Hrow & Hon & Hon1 & Hrows & Hold & Hhit & Hrest).
  rewrite (db_delete_online t n c1 db1 Hon1) in Hcreate2 |- *.
  rewrite Hhit, Hrest in *. simpl fst. simpl snd in Hcreate2.
  split; [reflexivity |].
  set (db2 := set_table t _ db1) in Hcreate2.
  assert (rows_of t db2 = rows_of t db) as Hrows2
    by (unfold db2, rows_of; now rewrite get_set_table).
  destruct (db_create_inv t d c db db1 r Hcreate)
    as (given & row' & Hins & Hr' & Hgid & Hcode).
  destruct (db_create_inv t d2 c2 db2 db3 r2 Hcreate2)
    as (given2 & row2 & Hins2 & -> & Hgid2 & Hcode2).
  rewrite Hr'. split.
  - rewrite !shown_code, (Hcode Ht), (Hcode2 Ht), Hyear by exact Ht.
    unfold latest_code. fold (rows_of t db2) (rows_of t db). now rewrite Hrows2.
  - intros Hd Hd2.
    assert (given !! "id" = None) as Hg
      by (rewrite Hgid; destruct t; auto using no_given_id).
    assert (given2 !! "id" = None) as Hg2
      by (rewrite Hgid2; destruct t; auto using no_given_id).
    apply exec_insert_checked in Hins as (_ & Hfill & _ & _ & Hdb1).
    apply exec_insert_checked in Hins2 as (_ & Hfill2 & _).
    rewrite Hr', shown_id, Hfill, serial_id in Hid by exact Hg.
    apply VInt_inj in Hid.
    rewrite shown_id, Hfill2, serial_id by exact Hg2.
    assert (last_serial (get_table t db2) = last_serial (get_table t db) + 1) as ->.
    { unfold db2. rewrite get_set_table. simpl. rewrite Hdb1, get_set_table. simpl.
      now rewrite uses_serial_no_id. }
    f_equal. lia.
Qed.

Lemma db_code_reused_after_delete_witness :
  exists r r2 db3,
    DatabaseStorage.createCustomer jansen at_2025 empty_db = (Ok r, one_customer_db)
    /\ DatabaseStorage.createCustomer jansen at_2025
         (DatabaseStorage.deleteCustomer 1 at_2026 one_customer_db).2 = (Ok r2, db3)
    /\ prop r2 "customerNumber" = prop r "customerNumber"
    /\ prop r2 "id" = VInt 2.
Proof.
  assert (exists r, create (storage := dbs) customers jansen at_2025 empty_db
                    = (Ok r, one_customer_db) /\ prop r "id" = VInt 1)
    as (r & E & Hid) by (eexists; split; reflexivity).
  assert (exists r2 db3,
            create (storage := dbs) customers jansen at_2025
              (delete (storage := dbs) customers 1 at_2026 one_customer_db).2
            = (Ok r2, db3))
    as (r2 & db3 & E2) by (do 2 eexists; reflexivity).
  destruct (db_code_reused_after_delete customers jansen jansen at_2025 at_2026 at_2025
              empty_db one_customer_db db3 r r2 1 ltac:(discriminate) E Hid eq_refl E2)
    as (_ & Hcode & Hid2).
  exists r, r2, db3. split; [exact E |]. split; [exact E2 |]. split; [exact Hcode |].
  exact (Hid2 eq_refl eq_refl).
Defined.

(** X7. In DatabaseStorage the numbers of customers, work orders and
    invoices restart with the calendar year.  When the latest record of
    the class carries the code of number [k] of year [y], with [k] below
    the largest integer a number of JavaScript counts exactly, the record
    a create returns in that year carries number [k + 1], and in any
    other year number 1. *)
Theorem db_numbering_restarts_each_year (t : table_name) (d : obj) (c : Clock)
    (db db' : Db) (r : obj) (y k : Z) :
  let year := getFullYear (jsNow c) in
  t = customers \/ t = workOrders \/ t = invoices ->
  0 <= y -> 0 <= year -> 0 <= k -> k < MAX_SAFE_INTEGER ->
  latest_code t (code_key t) db = VStr (code t y k) ->
  create (storage := dbs) t d c db = (Ok r, db') ->
  prop r (shown_key t) = VStr (code t year (if y =? year then k + 1 else 1)).
Proof.
  intros year Ht Hy Hyear Hk _ Hlatest Hcreate.
  assert (t <> projects) as Hp by (destruct Ht as [-> | [-> | ->]]; discriminate).
  destruct (db_create_inv t d c db db' r Hcreate) as (given & row & _ & -> & _ & Hcode).
  rewrite shown_code, (Hcode Hp), Hlatest by exact Hp. fold year.
  unfold next_number. rewrite parsed_code by assumption.
  now destruct (y =? year).
Qed.

Lemma db_numbering_restarts_each_year_witness :
  exists r r' db db',
    DatabaseStorage.createCustomer jansen at_2025 one_customer_db = (Ok r, db)
    /\ prop r "customerNumber" = VStr "KL-2025-0002"
    /\ DatabaseStorage.createCustomer jansen at_2026 one_customer_db = (Ok r', db')
    /\ prop r' "customerNumber" = VStr "KL-2026-0001".
Proof.
  assert (exists r db, create (storage := dbs) customers jansen at_2025 one_customer_db
                       = (Ok r, db)) as (r & db & E) by (do 2 eexists; reflexivity).
  assert (exists r' db', create (storage := dbs) customers jansen at_2026 one_customer_db
                         = (Ok r', db')) as (r' & db' & E') by (do 2 eexists; reflexivity).
  exists r, r', db, db'. split; [exact E |]. split; [| split; [exact E' |]].
  - exact (db_numbering_restarts_each_year customers jansen at_2025 one_customer_db db r
             2025 1 (or_introl eq_refl) ltac:(lia) ltac:(simpl; lia) ltac:(lia) eq_refl eq_refl E).
  - exact (db_numbering_restarts_each_year customers jansen at_2026 one_customer_db db' r'
             2025 1 (or_introl eq_refl) ltac:(lia) ltac:(simpl; lia) ltac:(lia) eq_refl eq_refl E').
Defined.

(** X8. DatabaseStorage lists the newest record first.  On a table
    whose keys came from its sequence, the record a create returns, for a
    draft without an id of its own, heads the listing that follows, before
    the records listed until then.  (MemStorage lists it last, see
    [mem_ids_never_reused].) *)
Theorem db_lists_newest_first (t : table_name) (d : obj) (c c' : Clock) (db db' : Db)
    (r : obj) :
  create (storage := dbs) t d c db = (Ok r, db') ->
  prop d "id" = VUndefined ->
  Forall (fun r0 => (id_of r0 <= Qc_of_Z (last_serial (get_table t db)))%Qc)
         (rows_of t db) ->
  exists row all,
    r = shown t row
    /\ getAll (storage := dbs) t c' db = (Ok all, db)
    /\ getAll (storage := dbs) t c' db' = (Ok (row :: all), db').
Proof.
  intros Hcreate Hd Hkeys.
  destruct (db_create_inv t d c db db' r Hcreate) as (given & row & Hins & -> & Hgid & _).
  assert (given !! "id" = None) as Hg
    by (rewrite Hgid; destruct t; auto using no_given_id).
  apply exec_insert_checked in Hins as (Hon & Hfill & _ & _ & ->).
  exists row, (sort_desc (rows_of t db)). split; [reflexivity |].
  rewrite !db_getAll_online by (now rewrite ?online_set_table).
  split; [reflexivity |]. unfold rows_of at 1. rewrite get_set_table. simpl rows.
  fold (rows_of t db). rewrite sort_desc_snoc; [reflexivity |].
  intros r0 Hr0. rewrite Forall_forall in Hkeys.
  eapply Qcle_lt_trans; [exact (Hkeys r0 Hr0) |].
  rewrite Hfill, serial_id_of by exact Hg.
  apply (proj1 (Z2Qc_inj_lt _ _)). lia.
Qed.

Lemma db_lists_newest_first_witness :
  exists second all db',
    DatabaseStorage.createCustomer jansen at_2025 one_customer_db = (Ok second, db')
    /\ DatabaseStorage.getAllCustomers at_2026 one_customer_db = (Ok all, one_customer_db)
    /\ length all = 1%nat
    /\ DatabaseStorage.getAllCustomers at_2026 db' = (Ok (second :: all), db').
Proof.
  assert (exists r db', create (storage := dbs) customers jansen at_2025 one_customer_db
                        = (Ok r, db')) as (r & db' & E) by (do 2 eexists; reflexivity).
  assert (Forall (fun r0 => (id_of r0 <= Qc_of_Z (last_serial (get_table customers
                                                                one_customer_db)))%Qc)
                 (rows_of customers one_customer_db)) as Hkeys
    by (apply (bool_decide_unpack _); vm_compute; exact I).
  destruct (db_lists_newest_first customers jansen at_2025 at_2026 one_customer_db db' r
              E eq_refl Hkeys) as (row & all & Hr & Hbefore & Hafter).
  simpl in Hr. subst row.
  exists r, all, db'. split; [exact E |]. split; [exact Hbefore |]. split; [| exact Hafter].
  assert (length <$> resolved (getAll (storage := dbs) customers at_2026
                                  one_customer_db).1 = Some 1%nat) as Hlen
    by reflexivity.
  rewrite Hbefore in Hlen. simpl in Hlen. now injection Hlen.
Defined.

(** X9. DatabaseStorage within reach: a delete tells whether a row had
    the id, leaves no row with it (a [get] returns [undefined], a second
    delete [false]), and leaves every other id and the sequence of the
    table as they were, so that the key is not handed out again. *)
Theorem db_delete_then_get (t : table_name) (id : Z) (c c' : Clock) (db : Db) :
  online db = true ->
  exists db',
    delete (storage := dbs) t id c db
    = (Ok (existsb (has_id id) (rows_of t db)), db')
    /\ get (storage := dbs) t id c' db' = (Ok None, db')
    /\ delete (storage := dbs) t id c' db' = (Ok false, db')
    /\ (forall id', id' <> id ->
          (get (storage := dbs) t id' c' db').1 = (get (storage := dbs) t id' c' db).1)
    /\ last_serial (get_table t db') = last_serial (get_table t db).
Proof.
  intros Hon. rewrite (db_delete_online t id c db Hon).
  set (db' := set_table t _ db). exists db'.
  assert (online db' = true) as Hon' by (unfold db'; now rewrite online_set_table).
  assert (rows_of t db' = List.filter (fun r => negb (has_id id r)) (rows_of t db))
    as Hrows by (unfold db', rows_of; now rewrite get_set_table).
  assert (List.filter (has_id id) (rows_of t db') = []) as Hgone.
  { rewrite Hrows. apply filter_all_false.
    intros r [_ Hr]%list_elem_of_In%filter_In. now apply negb_true_iff. }
  split; [| split; [| split; [| split]]].
  - now rewrite filter_nonempty.
  - rewrite db_get_spec, Hon'. fold (rows_of t db'). now rewrite Hgone.
  - rewrite (db_delete_online t id c' db' Hon'), Hgone. simpl. f_equal.
    rewrite (filter_none_all _ _ Hgone). unfold rows_of. apply set_table_same.
  - intros id' Hne. rewrite !db_get_spec, Hon, Hon'. simpl.
    fold (rows_of t db') (rows_of t db). now rewrite Hrows, filter_other_id.
  - unfold db'. now rewrite get_set_table.
Qed.

Lemma db_delete_then_get_witness :
  exists db',
    DatabaseStorage.deleteCustomer 1 at_2025 one_customer_db = (Ok true, db')
    /\ DatabaseStorage.getCustomer 1 at_2026 db' = (Ok None, db')
    /\ DatabaseStorage.deleteCustomer 1 at_2026 db' = (Ok false, db')
    /\ last_serial (t_customers db') = 1.
Proof.
  destruct (db_delete_then_get customers 1 at_2025 at_2026 one_customer_db eq_refl)
    as (db' & Hdel & Hget & Hagain & _ & Hserial).
  exists db'. split; [exact Hdel |]. split; [exact Hget |]. split; [exact Hagain |].
  change (last_serial (get_table customers db') = 1). rewrite Hserial. reflexivity.
Defined.

End DbRecords.

(** * What the database refuses *)

Module RefusalFacts.
Import JS Pg Spec Calls Views JSFacts PgFacts MonadFacts CreateFacts GeneratorFacts
  CreatedFacts UpdateFacts C7 DbFacts.

Local Abbreviation dbs := DatabaseStorage.storage.

(** A create of DatabaseStorage, step by step: the code is generated,
    the builder maps the values (the hand-written statement of the work
    orders does not), and one INSERT is run. *)
Lemma db_create_run (t : table_name) (d : obj) (c : Clock) (db : Db) :
  exists code,
    create (storage := dbs) t d c db
    = if same_table t workOrders
         || forallb (fun col => encodes col (prop (coded t d code) (col_key col)))
                    (schema t)
      then match exec_insert t (given_of t d code c) c db with
           | (Ok row, db') => (Ok (shown t row), db')
           | (Throw e, db') => (Throw e, db')
           end
      else (Throw (TypeError "value.toISOString is not a function"), db).
Proof.
  destruct (generators_total c db) as ((k1 & Hk) & (k2 & Ha) & (k3 & Hw) & (k4 & Hi)).
  destruct t; cbn [create Storage.createCustomer Storage.createMaterial
                   Storage.createWorkOrder Storage.createInvoice Storage.createProject
                   DatabaseStorage.storage same_table orb].
  - exists k1. unfold DatabaseStorage.createCustomer, try_catch.
    rewrite (bind_ok _ _ _ _ _ _ Hk). unfold insert_values, bind, encode.
    cbn [coded given_of code_key shown].
    destruct (forallb _ _); [| reflexivity]. unfold ret.
    now destruct (exec_insert customers _ c db) as [[row|e] db'].
  - exists k2. unfold DatabaseStorage.createMaterial, try_catch.
    rewrite (bind_ok _ _ _ _ _ _ Ha). unfold insert_values, bind, encode.
    cbn [coded given_of code_key shown].
    destruct (forallb _ _); [| reflexivity]. unfold ret.
    now destruct (exec_insert materials _ c db) as [[row|e] db'].
  - exists k3. rewrite createWorkOrder_unfold. unfold try_catch.
    rewrite (bind_ok _ _ _ _ _ _ Hw). unfold bind, clock. cbn [given_of shown].
    now destruct (exec_insert workOrders _ c db) as [[row|e] db'].
  - exists k4. unfold DatabaseStorage.createInvoice, try_catch.
    rewrite (bind_ok _ _ _ _ _ _ Hi). unfold insert_values, bind, encode.
    cbn [coded given_of code_key shown].
    destruct (forallb _ _); [| reflexivity]. unfold ret.
    now destruct (exec_insert invoices _ c db) as [[row|e] db'].
  - exists EmptyString. unfold DatabaseStorage.createProject, try_catch.
    unfold insert_values, bind, encode. cbn [coded given_of shown].
    destruct (forallb _ _); [| reflexivity]. unfold ret.
    now destruct (exec_insert projects _ c db) as [[row|e] db'].
Qed.

(** An INSERT that fails adds no row. *)
Lemma exec_insert_throw (t : table_name) (given : obj) (c : Clock) (db db' : Db)
    (e : error) :
  exec_insert t given c db = (Throw e, db') ->
  online db' = online db /\ forall t', rows_of t' db' = rows_of t' db.
Proof.
  unfold exec_insert. destruct (online db) eqn:Hon; simpl negb; cbv iota.
  2:{ intros [= _ <-]. now split. }
  destruct (_ && _); [intros [= _ <-]; now split |].
  assert (forall x, online (set_table t (mkTable (rows (get_table t db)) x) db) = online db
                    /\ forall t', rows_of t' (set_table t (mkTable (rows (get_table t db)) x) db)
                                  = rows_of t' db) as Hsame.
  { intros x. split; [apply online_set_table |]. intros t'. now destruct t, t'. }
  destruct (null_violation _ _); [intros [= _ <-]; rewrite <- Hon; apply Hsame |].
  destruct (unique_violation _ _ _); [intros [= _ <-]; rewrite <- Hon; apply Hsame |].
  discriminate.
Qed.

Lemma null_violation_found (cols : list column) (r : obj) (col : column) :
  col ∈ cols -> col_notnull col = true -> is_null (prop r (col_key col)) = true ->
  null_violation cols r <> None.
Proof.
  induction cols as [|c0 cols IH]; intros Hin Hnn Hnull; [inversion Hin |].
  simpl. apply elem_of_cons in Hin as [<- | Hin].
  - now rewrite Hnn, Hnull.
  - destruct (_ && _); [discriminate | now apply IH].
Qed.

Lemma required_column (t : table_name) (k : string) :
  k ∈ required t ->
  exists col, col ∈ schema t /\ col_key col = k /\ col_notnull col = true
              /\ col_default col = NoDefault /\ k <> code_key t.
Proof.
  intros Hin. destruct (same_table t workOrders) eqn:Et.
  - apply MemStoreFacts.same_table_eq in Et as ->. cbn [required] in Hin.
    apply elem_of_cons in Hin as [-> | Hin];
      [| apply elem_of_cons in Hin as [-> | Hin]; [| inversion Hin]].
    + exists (notNull (text "title" "title")).
      split; [simpl; do 2 apply list_elem_of_further; apply list_elem_of_here |].
      repeat split; discriminate.
    + exists (notNull (integer "customerId" "customer_id")).
      split; [simpl; do 4 apply list_elem_of_further; apply list_elem_of_here |].
      repeat split; discriminate.
  - assert (required t
            = col_key <$>
                List.filter
                  (fun c => col_notnull c
                            && negb (String.eqb (col_key c) (code_key t))
                            && match col_default c with NoDefault => true | _ => false end)
                  (schema t)) as E
      by (destruct t; try reflexivity; discriminate Et).
    rewrite E in Hin. apply list_elem_of_fmap in Hin as (col & -> & Hcol).
    apply list_elem_of_In, filter_In in Hcol as [Hcol Hb].
    apply andb_prop in Hb as [[Hnn Hk]%andb_prop Hd].
    exists col. split; [now apply list_elem_of_In |]. split; [reflexivity |].
    split; [exact Hnn |]. split; [now destruct (col_default col) |].
    apply negb_true_iff in Hk. now apply String.eqb_neq.
Qed.

(** What the INSERT of a create stores in a required column that the
    draft leaves null. *)
Lemma given_required (t : table_name) (d : obj) (code : string) (c : Clock)
    (col : column) :
  col ∈ schema t -> col_key col ∈ required t ->
  col_default col = NoDefault -> col_key col <> code_key t ->
  is_null (prop d (col_key col)) = true ->
  forall next now, column_value col (given_of t d code c) next now = VNull.
Proof.
  intros Hcol Hreq Hdef Hk Hnull next now. unfold column_value. rewrite Hdef.
  assert (given_of t d code c !! col_key col = None
          \/ given_of t d code c !! col_key col = Some VNull) as [-> | ->];
    [| reflexivity | reflexivity].
  destruct (same_table t workOrders) eqn:Et.
  - apply MemStoreFacts.same_table_eq in Et as ->. cbn [required] in Hreq.
    cbn [given_of]. unfold listed. right.
    apply elem_of_cons in Hreq as [E | Hreq];
      [| apply elem_of_cons in Hreq as [E | Hreq]; [| inversion Hreq]];
      rewrite E in Hnull |- *; map_lookup; rewrite prop_insert_ne by discriminate;
      now destruct (prop d _).
  - assert (given_of t d code c !! col_key col = column_values t d !! col_key col) as ->.
    { destruct t; try discriminate Et; cbn [given_of coded]; try reflexivity;
        rewrite !column_values_lookup; now rewrite lookup_insert_ne by congruence. }
    rewrite column_values_lookup. unfold prop in Hnull.
    destruct (d !! col_key col) as [x|]; [| now left].
    rewrite (schema_is_column t col Hcol). simpl in Hnull.
    destruct x; try discriminate Hnull; simpl; auto.
Qed.

(** A draft that leaves a required property null is refused: the create
    throws and no row is added. *)
Lemma db_create_refused (t : table_name) (d : obj) (c : Clock) (db : Db) (k : string) :
  k ∈ required t -> is_null (prop d k) = true ->
  exists e db',
    create (storage := dbs) t d c db = (Throw e, db')
    /\ online db' = online db
    /\ forall t', rows_of t' db' = rows_of t' db.
Proof.
  intros Hreq Hnull.
  destruct (required_column t k Hreq) as (col & Hcol & <- & Hnn & Hdef & Hk).
  destruct (db_create_run t d c db) as (code & ->).
  destruct (_ || _); [| now eexists _, _].
  destruct (exec_insert t (given_of t d code c) c db) as [[row|e] db'] eqn:E.
  - apply exec_insert_checked in E as (_ & -> & Hnone & _).
    exfalso. revert Hnone. apply (null_violation_found _ _ col Hcol Hnn).
    rewrite fill_defaults_prop by (apply schema_keys_NoDup || exact Hcol).
    now rewrite (given_required t d code c col Hcol Hreq Hdef Hk Hnull).
  - exists e, db'. split; [reflexivity |]. exact (exec_insert_throw t _ c db db' e E).
Qed.

Lemma dated_column (t : table_name) (k : string) :
  k ∈ dated t ->
  same_table t workOrders = false
  /\ k ∈ required t
  /\ exists col, col ∈ schema t /\ col_key col = k /\ col_type col = Timestamp.
Proof.
  intros Hin.
  assert (same_table t workOrders = false) as Et
    by (destruct t; try reflexivity; inversion Hin).
  split; [exact Et |].
  assert (dated t
          = col_key <$>
              List.filter
                (fun c => col_notnull c
                          && match col_type c with Timestamp => true | _ => false end
                          && match col_default c with NoDefault => true | _ => false end)
                (schema t)) as E
    by (destruct t; try reflexivity; discriminate Et).
  rewrite E in Hin. apply list_elem_of_fmap in Hin as (col & -> & Hcol).
  apply list_elem_of_In, filter_In in Hcol as [Hcol Hb].
  apply andb_prop in Hb as [[Hnn Hty]%andb_prop Hd].
  assert (col_type col = Timestamp) as Hts by now destruct (col_type col).
  split.
  - assert (required t
            = col_key <$>
                List.filter
                  (fun c => col_notnull c
                            && negb (String.eqb (col_key c) (code_key t))
                            && match col_default c with NoDefault => true | _ => false end)
                  (schema t)) as ->
      by (destruct t; try reflexivity; discriminate Et).
    apply list_elem_of_fmap_2, list_elem_of_In, filter_In. split; [exact Hcol |].
    rewrite Hnn, Hd, andb_true_r. simpl. apply negb_true_iff, String.eqb_neq.
    intros Hk. apply list_elem_of_In in Hcol.
    pose proof (code_column_text t col Hcol Hk). congruence.
  - exists col. split; [now apply list_elem_of_In |]. now split.
Qed.

(** A draft whose required date is not a [Date] is refused, by the
    builder or by the constraint. *)
Lemma db_create_undated (t : table_name) (d : obj) (c : Clock) (db : Db) (k : string) :
  k ∈ dated t -> is_date (prop d k) = false ->
  exists e db',
    create (storage := dbs) t d c db = (Throw e, db')
    /\ online db' = online db
    /\ forall t', rows_of t' db' = rows_of t' db.
Proof.
  intros Hk Hdate. destruct (dated_column t k Hk) as (Et & Hreq & col & Hcol & <- & Hts).
  destruct (is_null (prop d (col_key col))) eqn:Hnull;
    [now apply (db_create_refused t d c db (col_key col)) |].
  destruct (db_create_run t d c db) as (code & ->). rewrite Et. simpl orb.
  destruct (forallb _ _) eqn:H; [exfalso | now eexists _, _].
  rewrite forallb_forall in H. specialize (H col (proj1 (list_elem_of_In _ _) Hcol)).
  destruct (required_column t _ Hreq) as (_ & _ & _ & _ & _ & Hne).
  assert (prop (coded t d code) (col_key col) = prop d (col_key col)) as E
    by (destruct t; try reflexivity; cbn [coded]; now rewrite prop_insert_ne by congruence).
  rewrite E in H. unfold encodes in H. rewrite Hts in H.
  now destruct (prop d (col_key col)).
Qed.

(** An update that carries a required date which is not a [Date]
    resolves to [undefined] and changes nothing. *)
Lemma db_update_undated (t : table_name) (id : Z) (d : obj) (c : Clock) (db : Db)
    (k : string) :
  k ∈ dated t -> defined (prop d k) = true -> is_date (prop d k) = false ->
  update (storage := dbs) t id d c db = (Ok None, db).
Proof.
  intros Hk Hdef Hdate. destruct (dated_column t k Hk) as (Et & Hreq & col & Hcol & <- & Hts).
  destruct (required_column t _ Hreq) as (col' & Hcol' & Hkey & Hnn & _).
  assert (col' = col) as ->
    by (apply (same_key_column (schema t)); auto using schema_keys_NoDup).
  assert (update (storage := dbs) t id d = DatabaseStorage.update_one t id d) as ->
    by (destruct t; try reflexivity; discriminate Et).
  unfold DatabaseStorage.update_one, update_set.
  destruct (bool_decide (column_values t d = ∅)); [reflexivity |].
  unfold try_catch, bind at 1, bind at 1, encode.
  destruct (forallb _ _) eqn:H; [| reflexivity].
  rewrite forallb_forall in H. specialize (H col (proj1 (list_elem_of_In _ _) Hcol)).
  unfold encodes in H. rewrite Hts in H.
  assert (prop d (col_key col) = VNull) as Hnull
    by (destruct (prop d (col_key col)); try discriminate; reflexivity).
  unfold ret at 1, exec_update.
  destruct (online db); [| reflexivity]. simpl negb. cbv iota.
  destruct (List.filter (has_id id) (rows (get_table t db))) as [|r hit]; [reflexivity |].
  assert (column_values t d !! col_key col = Some VNull) as Hset.
  { rewrite column_values_lookup. unfold prop in Hnull.
    destruct (d !! col_key col) as [x|]; [| discriminate Hnull].
    simpl in Hnull. subst x. now rewrite (schema_is_column t col Hcol). }
  destruct (null_violation _ _) eqn:En; [reflexivity |]. exfalso. revert En.
  apply (null_violation_found _ _ col); [| exact Hnn | unfold prop; now rewrite Hset].
  unfold assigned. apply list_elem_of_In, filter_In.
  split; [now apply list_elem_of_In |]. apply bool_decide_eq_true_2. rewrite Hset. eauto.
Qed.

Section RouteRuns.
Context {S : Type} {storage : Storage.IStorage S}.

(** The handler of a POST, on what the create did. *)
Lemma post_route_run (t : table_name) (d : obj) (c : Clock) (s : S) :
  exists failed,
    post_route t d c s
    = match create t d c s with
      | (Ok r, s') => (Ok (Routes.json 201 (VObject r)), s')
      | (Throw _, s') => (Ok (Routes.message 500 failed), s')
      end.
Proof.
  destruct t; eexists; cbn [post_route create];
    unfold Routes.post_customer, Routes.post_material, Routes.post_workorder,
      Routes.post_invoice, Routes.post_project, Routes.post_handler, try_catch, bind;
    match goal with |- context [?m d c s] => destruct (m d c s) as [[x|e] s'] end;
    reflexivity.
Qed.

(** The handler of a PUT, on what the update did. *)
Lemma put_route_run (t : table_name) (id : Z) (d : obj) (c : Clock) (s : S) :
  exists missing failed,
    put_route t id d c s
    = match update t id d c s with
      | (Ok (Some x), s') => (Ok (Routes.json 200 (VObject x)), s')
      | (Ok None, s') => (Ok (Routes.message 404 missing), s')
      | (Throw _, s') => (Ok (Routes.message 500 failed), s')
      end.
Proof.
  destruct t; eexists _, _; cbn [put_route update];
    unfold Routes.put_customer, Routes.put_material, Routes.put_workorder,
      Routes.put_invoice, Routes.put_project, Routes.put_handler, try_catch, bind;
    match goal with
    | |- context [?m id d c s] => destruct (m id d c s) as [[[x|]|e] s']
    end;
    reflexivity.
Qed.
End RouteRuns.

End RefusalFacts.

Module Refusals.
Import JS Pg Spec Calls Views JSFacts PgFacts MonadFacts CreateFacts GeneratorFacts
  CreatedFacts UpdateFacts C7 MapFacts MemStoreFacts DbFacts RefusalFacts Samples Cases.

Local Abbreviation dbs := DatabaseStorage.storage.
Local Abbreviation mem := MemStorage.storage.

(** X10. Required properties are enforced by the database alone.  For a
    body that leaves a required property of its class null or out, the
    POST under DatabaseStorage is answered 500 and adds no row to any
    table, while under MemStorage it is answered 201 and the record is
    stored without the property. *)
Theorem required_checked_by_database_only (t : table_name) (d : obj) (c : Clock)
    (k : string) :
  k ∈ required t -> is_null (prop d k) = true ->
  (forall db, exists resp db',
      post_route (storage := dbs) t d c db = (Ok resp, db')
      /\ Routes.status resp = 500
      /\ forall t', rows_of t' db' = rows_of t' db)
  /\ (forall s, exists r s',
      post_route (storage := mem) t d c s = (Ok (Routes.json 201 (VObject r)), s')
      /\ map_get (records t s') (counter t s) = Some r
      /\ prop r k = prop d k).
Proof.
  intros Hreq Hnull. split.
  - intros db. destruct (db_create_refused t d c db k Hreq Hnull) as (e & db' & E & _ & Hrows).
    destruct (post_route_run (storage := dbs) t d c db) as (failed & ->). rewrite E.
    eexists _, db'. split; [reflexivity |]. split; [reflexivity | exact Hrows].
  - intros s. destruct (mem_create_spec t d c s) as (r & s' & E & _ & Hrec & _).
    destruct (post_route_run (storage := mem) t d c s) as (failed & ->). rewrite E.
    exists r, s'. split; [reflexivity |]. split; [now rewrite Hrec, map_get_set_eq |].
    destruct (required_column t k Hreq) as (col & Hcol & <- & _).
    destruct t; injection E as <- _; simpl in Hreq;
      repeat (apply elem_of_cons in Hreq as [-> | Hreq];
              [now rewrite !prop_insert_ne by discriminate |]);
      inversion Hreq.
Qed.

Lemma required_checked_by_database_only_witness :
  (exists resp db',
     Routes.post_customer (storage := dbs) nothing at_2025 empty_db = (Ok resp, db')
     /\ Routes.status resp = 500
     /\ rows (t_customers db') = [])
  /\ (exists r s',
     Routes.post_customer (storage := mem) nothing at_2025 MemStorage.new
     = (Ok (Routes.json 201 (VObject r)), s')
     /\ MemStorage.getCustomer 1 at_2025 s' = (Ok (Some r), s')
     /\ prop r "name" = VUndefined).
Proof.
  destruct (required_checked_by_database_only customers nothing at_2025 "name")
    as [Hdb Hmem]; [apply list_elem_of_here | reflexivity |].
  destruct (Hdb empty_db) as (resp & db' & E & Hstatus & Hrows).
  destruct (Hmem MemStorage.new) as (r & s' & E' & Hget & Hname).
  split.
  - exists resp, db'. split; [exact E |]. split; [exact Hstatus |].
    exact (Hrows customers).
  - exists r, s'. split; [exact E' |]. split; [| exact Hname].
    unfold MemStorage.getCustomer. f_equal. f_equal. exact Hget.
Defined.

(** X11. Under DatabaseStorage an invoice or a project cannot be created
    with dates that are not [Date] objects, as the texts of a JSON body
    are: whatever else the body holds, the POST is answered 500 and adds
    no row, and a PUT that carries such a date is answered 404 and
    changes nothing, whether or not the record exists. *)
Theorem dates_of_json_refused (t : table_name) (d : obj) (c : Clock) (db : Db)
    (k : string) :
  k ∈ dated t -> is_date (prop d k) = false ->
  (exists resp db',
     post_route (storage := dbs) t d c db = (Ok resp, db')
     /\ Routes.status resp = 500
     /\ forall t', rows_of t' db' = rows_of t' db)
  /\ (defined (prop d k) = true ->
      forall id, exists resp,
        put_route (storage := dbs) t id d c db = (Ok resp, db)
        /\ Routes.status resp = 404).
Proof.
  intros Hk Hdate. split.
  - destruct (db_create_undated t d c db k Hk Hdate) as (e & db' & E & _ & Hrows).
    destruct (post_route_run (storage := dbs) t d c db) as (failed & ->). rewrite E.
    eexists _, db'. split; [reflexivity |]. split; [reflexivity | exact Hrows].
  - intros Hdef id.
    destruct (put_route_run (storage := dbs) t id d c db) as (missing & failed & ->).
    rewrite (db_update_undated t id d c db k Hk Hdef Hdate).
    eexists. split; reflexivity.
Qed.

Lemma dates_of_json_refused_witness :
  (exists resp db',
     Routes.post_invoice (storage := dbs) bill_json at_2025 empty_db = (Ok resp, db')
     /\ Routes.status resp = 500
     /\ rows (t_invoices db') = [])
  /\ (exists resp,
     Routes.put_invoice (storage := dbs) 1 bill_json at_2025 empty_db = (Ok resp, empty_db)
     /\ Routes.status resp = 404).
Proof.
  destruct (dates_of_json_refused invoices bill_json at_2025 empty_db "date")
    as [(resp & db' & E & Hstatus & Hrows) Hput]; [apply list_elem_of_here | reflexivity |].
  split.
  - exists resp, db'. split; [exact E |]. split; [exact Hstatus |]. exact (Hrows invoices).
  - exact (Hput eq_refl 1).
Defined.

End Refusals.

(** * The dashboard and the status of a work order *)

Module DashboardFacts.
Import JS Pg Spec Calls Views JSFacts PgFacts MonadFacts CreateFacts UpdateFacts
  CompleteFacts C7 MapFacts MemStoreFacts DbFacts.

Local Abbreviation dbs := DatabaseStorage.storage.
Local Abbreviation mem := MemStorage.storage.





(** *** The status of a work order *)





(** *** Buckets and low stock *)

Lemma count_status_cons (s : string) (x : obj) (xs : list obj) :
  Routes.count_status s (x :: xs)
  = (if is_string (prop x "status") s then 1 else 0) + Routes.count_status s xs.
Proof.
  unfold Routes.count_status. simpl.
  destruct (is_string (prop x "status") s); simpl length; lia.
Qed.

Lemma is_string_one (v : value) (s s' : string) :
  is_string v s = true -> s <> s' -> is_string v s' = false.
Proof.
  destruct v; try discriminate. simpl. intros ->%String.eqb_eq Hne.
  now apply String.eqb_neq.
Qed.

Lemma status_once (x : obj) :
  let hit s := if is_string (prop x "status") s then 1 else 0 in
  hit "Concept" + hit "Verzonden" + hit "Betaald" + hit "Te laat"
  = if in_states invoice_states x then 1 else 0.
Proof.
  unfold in_states, invoice_states. cbn [existsb].
  destruct (is_string (prop x "status") "Concept") eqn:E1.
  { now rewrite !(is_string_one _ _ _ E1) by discriminate. }
  destruct (is_string (prop x "status") "Verzonden") eqn:E2.
  { now rewrite !(is_string_one _ _ _ E2) by discriminate. }
  destruct (is_string (prop x "status") "Betaald") eqn:E3.
  { now rewrite !(is_string_one _ _ _ E3) by discriminate. }
  now destruct (is_string (prop x "status") "Te laat").
Qed.

Lemma buckets_sum (xs : list obj) :
  Routes.count_status "Concept" xs + Routes.count_status "Verzonden" xs
  + Routes.count_status "Betaald" xs + Routes.count_status "Te laat" xs
  = Z.of_nat (length (List.filter (in_states invoice_states) xs)).
Proof.
  induction xs as [|x xs IH]; [reflexivity |].
  rewrite !count_status_cons. cbn [List.filter].
  pose proof (status_once x) as Hx. cbv zeta in Hx.
  destruct (in_states invoice_states x); cbn [length]; lia.
Qed.

Lemma filter_split {A} (f : A -> bool) (l : list A) :
  Z.of_nat (length (List.filter f l))
  + Z.of_nat (length (List.filter (fun x => negb (f x)) l))
  = Z.of_nat (length l).
Proof.
  induction l as [|x l IH]; [reflexivity |]. simpl.
  destruct (f x); simpl length; lia.
Qed.

Lemma lowStockMaterials_low (ms : list obj) (m : obj) :
  m ∈ Routes.lowStockMaterials ms -> m ∈ ms /\ low_stock m = true.
Proof.
  intros Hin%subseteq_take. apply list_elem_of_In, filter_In in Hin as [Hin Hlow].
  split; [now apply list_elem_of_In | exact Hlow].
Qed.

Lemma lowStockMaterials_filter (ms : list obj) :
  Routes.lowStockMaterials ms = take 5 (List.filter low_stock ms).
Proof. reflexivity. Qed.

End DashboardFacts.

Module Dashboard.
Import JS Pg Spec Calls Views JSFacts PgFacts MonadFacts CreateFacts UpdateFacts
  CompleteFacts C7 MapFacts MemStoreFacts DbFacts DashboardFacts Samples Cases.

Local Abbreviation dbs := DatabaseStorage.storage.
Local Abbreviation mem := MemStorage.storage.





(** X14. The buckets of [invoicesByStatus] account for exactly the
    invoices in one of the four states Concept, Verzonden, Betaald and
    Te laat: the four counts and the number of invoices in any other state
    add up to the number of invoices, which is [totalInvoices]. *)
Theorem invoice_buckets_account (invoices : list obj) :
  let count s := Routes.count_status s invoices in
  let others :=
    Z.of_nat (length (List.filter (fun x => negb (in_states invoice_states x)) invoices)) in
  Routes.invoicesByStatus invoices
  = <["concept" := VInt (count "Concept")]>
    (<["verzonden" := VInt (count "Verzonden")]>
    (<["betaald" := VInt (count "Betaald")]>
    (<["teLaat" := VInt (count "Te laat")]> ∅)))
  /\ count "Concept" + count "Verzonden" + count "Betaald" + count "Te laat" + others
     = Z.of_nat (length invoices)
  /\ (others = 0 <-> Forall (fun x => in_states invoice_states x = true) invoices).
Proof.
  intros count others. split; [reflexivity |]. split.
  - unfold count, others. rewrite buckets_sum. apply filter_split.
  - unfold others. clear. induction invoices as [|x xs IH]; [now split |].
    cbn [List.filter]. rewrite Forall_cons.
    destruct (in_states invoice_states x); cbn [negb length].
    + rewrite IH. tauto.
    + split; [lia | intros [? _]; discriminate].
Qed.

Lemma invoice_buckets_account_witness :
  Routes.count_status "Concept" (credited :: books)
  + Routes.count_status "Verzonden" (credited :: books)
  + Routes.count_status "Betaald" (credited :: books)
  + Routes.count_status "Te laat" (credited :: books) = 4
  /\ Z.of_nat (length (credited :: books)) = 5.
Proof.
  destruct (invoice_buckets_account (credited :: books)) as (_ & H & _).
  split; [| reflexivity]. cbv zeta in H.
  change (Z.of_nat (length (List.filter (fun x => negb (in_states invoice_states x))
                                        (credited :: books)))) with 1 in H.
  change (Z.of_nat (length (credited :: books))) with 5 in H. lia.
Defined.

(** X15. A material without stock figures is low on stock in one store
    and never in the other.  DatabaseStorage stores the defaults of the
    columns, 0 and 0, for a draft that leaves [stock] and [minStock] out,
    so the material it returns passes the test of [lowStockMaterials] and
    heads that list in any listing it heads.  MemStorage stores [null]
    for a stock or a minimum that is left out, null or 0, so the material
    it returns is in no list of low stock, even when it is sold out. *)
Theorem material_without_stock (d : obj) (c : Clock) :
  (forall db db' r,
     create (storage := dbs) materials d c db = (Ok r, db') ->
     prop d "stock" = VUndefined -> prop d "minStock" = VUndefined ->
     prop r "stock" = VInt 0 /\ prop r "minStock" = VInt 0
     /\ forall ms, exists rest, Routes.lowStockMaterials (r :: ms) = r :: rest)
  /\ (forall s,
     truthy (prop d "stock") = false \/ truthy (prop d "minStock") = false ->
     exists r s',
       create (storage := mem) materials d c s = (Ok r, s')
       /\ (prop r "stock" = VNull \/ prop r "minStock" = VNull)
       /\ forall ms, r ∉ Routes.lowStockMaterials ms).
Proof.
  split.
  - intros db db' r Hcreate Hs Hm.
    destruct (RefusalFacts.db_create_run materials d c db) as (code & E).
    rewrite E in Hcreate. cbn [same_table orb] in Hcreate.
    destruct (forallb _ _); [| discriminate Hcreate].
    destruct (exec_insert materials (given_of materials d code c) c db)
      as [[row|e] db1] eqn:Ei; [| discriminate Hcreate].
    injection Hcreate as <- <-. cbn [shown].
    apply exec_insert_checked in Ei as (_ & -> & _).
    assert (forall k, k <> "articleNumber" -> prop d k = VUndefined ->
                      given_of materials d code c !! k = None) as Hnone.
    { intros k Hk Hd. cbn [given_of coded code_key].
      rewrite column_values_lookup, lookup_insert_ne by congruence.
      unfold prop in Hd. destruct (d !! k) as [x|]; [| reflexivity].
      simpl in Hd. subst x. now rewrite andb_false_r. }
    assert (prop (fill_defaults (schema materials) (given_of materials d code c)
                    (last_serial (get_table materials db) + 1) (pgNow c)) "stock" = VInt 0)
      as Hstock.
    { rewrite (fill_defaults_prop _ _ _ _ (withDefault (VInt 0) (integer "stock" "stock")))
        by (apply schema_keys_NoDup
            || (simpl; do 6 apply list_elem_of_further; apply list_elem_of_here)).
      unfold column_value. simpl col_key. now rewrite Hnone. }
    assert (prop (fill_defaults (schema materials) (given_of materials d code c)
                    (last_serial (get_table materials db) + 1) (pgNow c)) "minStock" = VInt 0)
      as Hmin.
    { rewrite (fill_defaults_prop _ _ _ _
                 (withDefault (VInt 0) (integer "minStock" "min_stock")))
        by (apply schema_keys_NoDup
            || (simpl; do 7 apply list_elem_of_further; apply list_elem_of_here)).
      unfold column_value. simpl col_key. now rewrite Hnone. }
    split; [exact Hstock |]. split; [exact Hmin |].
    intros ms. rewrite lowStockMaterials_filter. cbn [List.filter].
    unfold low_stock at 1. rewrite Hstock, Hmin.
    eexists. reflexivity.
  - intros s Hfalsy. eexists _, _. split; [reflexivity |].
    match goal with |- (prop ?x _ = _ \/ _) /\ _ => set (r := x) end.
    assert (prop r "stock" = or_else (prop d "stock") VNull) as Hstock
      by (unfold r; now rewrite !prop_insert_ne, prop_insert_eq by discriminate).
    assert (prop r "minStock" = or_else (prop d "minStock") VNull) as Hmin
      by (unfold r; now rewrite !prop_insert_ne, prop_insert_eq by discriminate).
    clearbody r.
    assert (prop r "stock" = VNull \/ prop r "minStock" = VNull) as Hnull.
    { unfold or_else in Hstock, Hmin.
      destruct Hfalsy as [H | H]; rewrite H in *; auto. }
    split; [exact Hnull |].
    intros ms [_ Hlow]%lowStockMaterials_low. unfold low_stock in Hlow.
    destruct Hnull as [H | H]; rewrite H in Hlow; simpl in Hlow;
      [discriminate Hlow | now rewrite andb_false_r in Hlow].
Qed.


Lemma material_without_stock_witness :
  (exists r db' rest,
     DatabaseStorage.createMaterial pipe at_2025 empty_db = (Ok r, db')
     /\ Routes.lowStockMaterials [r] = r :: rest)
  /\ (exists r s',
     MemStorage.createMaterial sold_out at_2025 MemStorage.new = (Ok r, s')
     /\ r ∉ Routes.lowStockMaterials [r]).
Proof.
  destruct (material_without_stock pipe at_2025) as [Hdb _].
  destruct (material_without_stock sold_out at_2025) as [_ Hmem].
  split.
  - assert (exists r db', create (storage := dbs) materials pipe at_2025 empty_db
                          = (Ok r, db')) as (r & db' & E) by (do 2 eexists; reflexivity).
    destruct (Hdb empty_db db' r E eq_refl eq_refl) as (_ & _ & Hlow).
    destruct (Hlow []) as [rest Hrest]. exists r, db', rest. split; [exact E | exact Hrest].
  - assert (truthy (prop sold_out "stock") = false) as Hs by (vm_compute; reflexivity).
    destruct (Hmem MemStorage.new (or_introl Hs)) as (r & s' & E & _ & Hnot).
    exists r, s'. split; [exact E | apply Hnot].
Defined.

End Dashboard.

(** * Users *)

Module MemUserFacts.
Import JS Pg Users MapFacts JSFacts CreateFacts UpdateFacts.

(** The keys of the users are distinct and below the counter. *)
Lemma users_keyed_after (history : list (Clock * obj)) (s : Mem.t) :
  NoDup (fst <$> Mem.users s) ->
  Forall (fun k => k < Mem.userIdCounter s) (fst <$> Mem.users s) ->
  let s' := Mem.after history s in
  NoDup (fst <$> Mem.users s')
  /\ Forall (fun k => k < Mem.userIdCounter s') (fst <$> Mem.users s')
  /\ Mem.userIdCounter s' = Mem.userIdCounter s + Z.of_nat (length history)
  /\ exists added, Mem.users s' = Mem.users s ++ added.
Proof.
  revert s. induction history as [|[c d] history IH]; intros s Hnd Hall.
  - simpl. repeat split; try assumption; [lia | exists []; now rewrite app_nil_r].
  - assert (map_get (Mem.users s) (Mem.userIdCounter s) = None) as Hfresh.
    { apply map_get_None. intros Hin. rewrite Forall_forall in Hall.
      specialize (Hall _ Hin). simpl in Hall. lia. }
    set (s1 := (Mem.createUser d c s).2).
    assert (exists user, Mem.users s1 = Mem.users s ++ [(Mem.userIdCounter s, user)]
                         /\ Mem.userIdCounter s1 = Mem.userIdCounter s + 1)
      as (user & Husers & Hcnt).
    { eexists. unfold s1. simpl. split; [| reflexivity]. now apply map_set_absent. }
    destruct (IH s1) as (Hnd' & Hall' & Hc' & added & Hadd).
    + rewrite Husers, fmap_app. apply NoDup_app. split; [exact Hnd |].
      split; [| apply NoDup_singleton].
      intros k Hk ->%list_elem_of_singleton. rewrite Forall_forall in Hall.
      specialize (Hall _ Hk). simpl in Hall. lia.
    + rewrite Husers, Hcnt, fmap_app. apply Forall_app. split.
      * eapply Forall_impl; [exact Hall |]. simpl. intros; lia.
      * apply Forall_singleton. simpl. lia.
    + change (Mem.after ((c, d) :: history) s) with (Mem.after history s1). cbv zeta.
      split; [exact Hnd' |]. split; [exact Hall' |]. split.
      * rewrite Hc', Hcnt. simpl length. lia.
      * exists ((Mem.userIdCounter s, user) :: added). rewrite Hadd, Husers.
        now rewrite <- app_assoc.
Qed.

Lemma map_get_app_l {V} (m added : list (Z * V)) (k : Z) (v : V) :
  map_get m k = Some v -> map_get (m ++ added) k = Some v.
Proof.
  induction m as [|[k0 v0] m IH]; [discriminate |]. simpl.
  destruct (Z.eqb k0 k); [auto | exact IH].
Qed.

Lemma find_app_l {A} (f : A -> bool) (l added : list A) (x : A) :
  List.find f l = Some x -> List.find f (l ++ added) = Some x.
Proof.
  induction l as [|y l IH]; [discriminate |]. simpl.
  destruct (f y); [auto | exact IH].
Qed.

Lemma find_app_r {A} (f : A -> bool) (l added : list A) :
  List.find f l = None -> List.find f (l ++ added) = List.find f added.
Proof.
  induction l as [|y l IH]; [reflexivity |]. simpl.
  destruct (f y); [discriminate | exact IH].
Qed.

End MemUserFacts.

Module MemUsers.
Import JS Pg Users MapFacts JSFacts CreateFacts UpdateFacts MemUserFacts Samples Cases.

(** X16. The admin of MemStorage is permanent.  After any history of
    [createUser] calls on the store of the constructor, [getUser] under
    id 1 and [getUserByUsername] under [admin] still return the admin the
    constructor stored, with its role and its hard-coded password, and the
    next user gets the id that follows the number of users: no call takes
    the id or the name of the admin over. *)
Theorem mem_admin_is_permanent (c0 c : Clock) (history : list (Clock * obj)) (d : obj) :
  let s := Mem.after history (Mem.constructor c0) in
  let admin := Mem.adminUser 1 (jsNow c0) in
  Mem.getUser 1 c s = (Ok (Some admin), s)
  /\ Mem.getUserByUsername "admin" c s = (Ok (Some admin), s)
  /\ prop admin "role" = VStr "beheerder"
  /\ exists user s',
       Mem.createUser d c s = (Ok user, s')
       /\ prop user "id" = VInt (2 + Z.of_nat (length history))
       /\ Mem.getUser 1 c s' = (Ok (Some admin), s')
       /\ Mem.getUserByUsername "admin" c s' = (Ok (Some admin), s').
Proof.
  intros s admin.
  assert (forall history,
            let s := Mem.after history (Mem.constructor c0) in
            Mem.userIdCounter s = 2 + Z.of_nat (length history)
            /\ Mem.getUser 1 c s = (Ok (Some admin), s)
            /\ Mem.getUserByUsername "admin" c s = (Ok (Some admin), s)) as Hreach.
  { intros h. cbv zeta.
    destruct (users_keyed_after h (Mem.constructor c0)) as (_ & _ & Hc & added & Hadd).
    { simpl. apply NoDup_singleton. }
    { simpl. apply Forall_singleton. lia. }
    split; [exact Hc |]. unfold Mem.getUser, Mem.getUserByUsername. rewrite Hadd. split.
    - now rewrite (map_get_app_l _ added 1 admin).
    - unfold map_values. rewrite map_app.
      now rewrite (find_app_l _ _ (List.map snd added) admin). }
  destruct (Hreach history) as (Hc & Hget & Hname). fold s in Hc, Hget, Hname.
  split; [exact Hget |]. split; [exact Hname |]. split; [reflexivity |].
  eexists _, _. split; [reflexivity |]. split.
  - rewrite !prop_insert_ne, prop_insert_eq by discriminate. now rewrite Hc.
  - destruct (Hreach (history ++ [(c, d)])) as (_ & Hget' & Hname').
    unfold Mem.after in Hget', Hname'. rewrite fold_left_app in Hget', Hname'.
    split; [exact Hget' | exact Hname'].
Qed.

(** X17. MemStorage does not keep user names apart.  After any history
    of [createUser] calls, a further [createUser] always returns and the
    user can be read under its id; but a name that resolved to a user
    before keeps resolving to that user, so that a user created under a
    taken name is never found by name, and a name that resolved to no
    user resolves to the new one exactly when it is its name. *)
Theorem mem_user_names_shadow (c0 c : Clock) (history : list (Clock * obj)) (d : obj)
    (name : string) :
  let s := Mem.after history (Mem.constructor c0) in
  exists user s',
    Mem.createUser d c s = (Ok user, s')
    /\ prop user "username" = prop d "username"
    /\ Mem.getUser (Mem.userIdCounter s) c s' = (Ok (Some user), s')
    /\ Mem.getUserByUsername name c s'
       = (Ok match (Mem.getUserByUsername name c s).1 with
             | Ok (Some earlier) => Some earlier
             | _ => if is_string (prop d "username") name then Some user else None
             end, s').
Proof.
  intros s.
  destruct (users_keyed_after history (Mem.constructor c0)) as (_ & Hall & _).
  { simpl. apply NoDup_singleton. }
  { simpl. apply Forall_singleton. lia. }
  fold s in Hall.
  assert (map_get (Mem.users s) (Mem.userIdCounter s) = None) as Hfresh.
  { apply map_get_None. intros Hin. rewrite Forall_forall in Hall.
    specialize (Hall _ Hin). simpl in Hall. lia. }
  eexists _, _. split; [reflexivity |].
  match goal with |- prop ?x _ = _ /\ _ => set (user := x) end.
  assert (prop user "username" = prop d "username") as Hname
    by (unfold user; now rewrite !prop_insert_ne by discriminate).
  split; [exact Hname |]. split.
  - unfold Mem.getUser. simpl Mem.users. now rewrite map_get_set_eq.
  - unfold Mem.getUserByUsername. simpl Mem.users. simpl fst.
    rewrite (map_set_absent _ _ _ Hfresh). unfold map_values. rewrite map_app.
    f_equal. f_equal.
    destruct (List.find _ (List.map snd (Mem.users s))) as [earlier|] eqn:E.
    + now apply find_app_l.
    + rewrite (find_app_r _ _ _ E). simpl. now rewrite Hname.
Qed.

End MemUsers.

Module DbUserFacts.
Import JS Pg Users PgFacts MonadFacts CreateFacts DbFacts MemUserFacts.


Lemma users_names_NoDup : NoDup (col_name <$> users).
Proof. apply (bool_decide_unpack _); vm_compute; exact I. Qed.

(** The driver's row of a user holds, under the name of a column, what
    the row holds under its property. *)
Lemma users_raw_row_prop (r : obj) (c : column) :
  c ∈ users -> prop (Db.raw_row r) (col_name c) = prop r (col_key c).
Proof.
  intros Hin. unfold prop, Db.raw_row.
  now rewrite (raw_fold_lookup users r c users_names_NoDup Hin).
Qed.

Lemma raw_row_fresh (r : obj) (n : string) :
  n ∉ col_name <$> users -> prop (Db.raw_row r) n = VUndefined.
Proof. intros H. unfold prop, Db.raw_row. now rewrite raw_fold_fresh. Qed.

Lemma createUser_run (d : obj) (c : Clock) (db : Db.t) :
  Db.createUser d c db
  = if forallb (fun col => encodes col (prop d (col_key col))) users
    then Db.exec_insert (Db.column_values d) c db
    else (Throw (TypeError "value.toISOString is not a function"), db).
Proof.
  unfold Db.createUser, try_catch, Db.insert_values, bind, Db.encode.
  destruct (forallb _ _); [| reflexivity]. unfold ret.
  now destruct (Db.exec_insert _ c db) as [[row|e] db'].
Qed.




Section Host.
Variable lower : string -> string.

Lemma getUserByUsername_run (name : string) (c : Clock) (db : Db.t) :
  Db.getUserByUsername lower name c db
  = (Ok (if Db.online db
         then head (Db.raw_row <$> List.filter (Db.matches lower name) (rows (Db.table db)))
         else None), db).
Proof.
  unfold Db.getUserByUsername, try_catch, bind, Db.select_by_username.
  destruct (Db.online db); [| reflexivity]. simpl negb. cbv iota.
  now destruct (List.filter _ _).
Qed.
End Host.




Lemma users_column_values_lookup (v : obj) (k : string) :
  Db.column_values v !! k
  = match v !! k with
    | Some x => if Db.is_column k && defined x then Some x else None
    | None => None
    end.
Proof.
  unfold Db.column_values. rewrite map_lookup_filter.
  destruct (v !! k) as [x|]; simpl; [| reflexivity].
  destruct (Db.is_column k && defined x) eqn:E.
  - rewrite option_guard_True by reflexivity. reflexivity.
  - rewrite option_guard_False by discriminate. reflexivity.
Qed.

Lemma head_app {A} (a b : list A) :
  head (a ++ b) = match head a with Some x => Some x | None => head b end.
Proof. now destruct a. Qed.



Section Admin.
Variables lower hashPassword : string -> string.

Local Abbreviation admin := (Db.admin hashPassword).

Lemma admin_given : Db.column_values admin = admin.
Proof.
  apply map_eq. intros k. rewrite users_column_values_lookup.
  destruct (admin !! k) as [x|] eqn:E; [| reflexivity].
  assert (Db.is_column k && defined x = true) as ->; [| reflexivity].
  unfold Db.admin in E.
  repeat (apply lookup_insert_Some in E as [[<- <-] | [_ E]]; [reflexivity |]).
  now rewrite lookup_empty in E.
Qed.

Lemma admin_encodes :
  forallb (fun col => encodes col (prop admin (col_key col))) users = true.
Proof. reflexivity. Qed.

(** The row the INSERT of the admin builds. *)
Lemma admin_row (next : Z) (now : Date) :
  let row := fill_defaults users admin next now in
  prop row "id" = VInt next
  /\ prop row "username" = VStr "admin"
  /\ prop row "fullName" = VStr "Admin User"
  /\ prop row "role" = VStr "beheerder"
  /\ prop row "password" = VStr (hashPassword "admin123")
  /\ prop row "createdAt" = VDate now
  /\ null_violation users row = None.
Proof. cbv zeta. repeat split; reflexivity. Qed.

Lemma admin_insert (c : Clock) (db : Db.t) :
  let next := last_serial (Db.table db) + 1 in
  let row := fill_defaults users admin next (pgNow c) in
  Db.online db = true ->
  existsb (Db.matches lower "admin") (rows (Db.table db)) = false ->
  next <= INT4_MAX ->
  (forall r, r ∈ rows (Db.table db) -> has_id next r = false) ->
  Db.createUser admin c db
  = (Ok row, Db.mk true (mkTable (rows (Db.table db) ++ [row]) next)).
Proof.
  intros next row Hon Hfound Hmax Hfree.
  destruct (admin_row next (pgNow c)) as (Hid & Hname & _ & _ & _ & _ & Hnull).
  fold row in Hid, Hname, Hnull.
  rewrite createUser_run, admin_encodes, admin_given. unfold Db.exec_insert.
  rewrite Hon. simpl negb. cbv iota.
  assert (uses_serial users admin = true) as -> by reflexivity. simpl andb.
  destruct (Z.leb_spec INT4_MAX (last_serial (Db.table db))) as [? | _];
    [unfold next in Hmax; lia |].
  fold next. fold row. rewrite Hnull.
  rewrite unique_violation_None; [reflexivity |].
  intros col r Hcol Hu Hr.
  assert (col_key col = "id" \/ col_key col = "username") as [-> | ->].
  { simpl in Hcol.
    repeat (apply elem_of_cons in Hcol as [-> | Hcol];
            [first [discriminate Hu | now left | now right] |]).
    inversion Hcol. }
  - rewrite Hid, <- is_int_same_key. exact (Hfree r Hr).
  - rewrite Hname. apply not_true_is_false. intros Hsame.
    assert (existsb (Db.matches lower "admin") (rows (Db.table db)) = true);
      [| congruence].
    apply existsb_exists. exists r. split; [now apply list_elem_of_In |].
    unfold Db.matches. destruct (prop r "username"); try discriminate Hsame.
    simpl in Hsame. apply String.eqb_eq in Hsame as ->. apply String.eqb_refl.
Qed.
End Admin.

End DbUserFacts.

Module DbUsers.
Import JS Pg Users PgFacts MonadFacts CreateFacts DbFacts MemUserFacts DbUserFacts
  Samples Cases.



(** X19. [initializeDatabase] never throws and creates the admin at most
    once.  With the database out of reach, or with a user whose name is
    [admin] under [LOWER], it changes nothing.  Otherwise, on a table whose
    sequence can hand out a free id, it adds one row: the user [admin] with
    role [beheerder], the hash of [admin123] as password and the time of
    the database as [createdAt]; afterwards the name [admin] resolves to
    the driver's row of that user, which holds the full name under
    [full_name] and nothing under [fullName], and a second run changes
    nothing. *)
Theorem db_initialize_once (lower hashPassword : string -> string) (c c' : Clock)
    (db : Db.t) :
  let found := existsb (Db.matches lower "admin") (rows (Db.table db)) in
  let next := last_serial (Db.table db) + 1 in
  exists db',
    Db.initializeDatabase lower hashPassword c db = (Ok tt, db')
    /\ (Db.online db = false \/ found = true -> db' = db)
    /\ (Db.online db = true -> found = false ->
        next <= INT4_MAX ->
        (forall r, r ∈ rows (Db.table db) -> has_id next r = false) ->
        exists row,
          db' = Db.mk true (mkTable (rows (Db.table db) ++ [row]) next)
          /\ prop row "id" = VInt next
          /\ prop row "username" = VStr "admin"
          /\ prop row "role" = VStr "beheerder"
          /\ prop row "password" = VStr (hashPassword "admin123")
          /\ prop row "createdAt" = VDate (pgNow c)
          /\ Db.getUserByUsername lower "admin" c' db' = (Ok (Some (Db.raw_row row)), db')
          /\ prop (Db.raw_row row) "full_name" = VStr "Admin User"
          /\ prop (Db.raw_row row) "fullName" = VUndefined
          /\ Db.initializeDatabase lower hashPassword c' db' = (Ok tt, db')).
Proof.
  intros found next.
  assert (forall c db,
            Db.initializeDatabase lower hashPassword c db
            = if Db.online db && negb (existsb (Db.matches lower "admin") (rows (Db.table db)))
              then match Db.createUser (Db.admin hashPassword) c db with
                   | (_, db') => (Ok tt, db')
                   end
              else (Ok tt, db)) as Hrun.
  { clear. intros c db. unfold Db.initializeDatabase, try_catch, bind at 1.
    rewrite getUserByUsername_run. destruct (Db.online db) eqn:Hon.
    - simpl andb. destruct (List.filter _ _) as [|r hit] eqn:E.
      + assert (existsb (Db.matches lower "admin") (rows (Db.table db)) = false) as ->.
        { apply not_true_is_false. intros [r [Hin Hr]]%existsb_exists.
          assert (In r (List.filter (Db.matches lower "admin") (rows (Db.table db))))
            by (apply filter_In; now split).
          now rewrite E in *. }
        simpl. unfold bind, ret.
        now destruct (Db.createUser _ c db) as [[user|e] db'].
      + assert (existsb (Db.matches lower "admin") (rows (Db.table db)) = true) as ->.
        { apply existsb_exists. exists r.
          apply filter_In. rewrite E. now left. }
        reflexivity.
    - simpl. unfold bind, ret. rewrite createUser_run.
      destruct (forallb _ _); [| reflexivity].
      unfold Db.exec_insert. now rewrite Hon. }
  rewrite Hrun. fold found.
  destruct (Db.online db) eqn:Hon; simpl andb.
  2:{ exists db. split; [reflexivity |]. split; [reflexivity | discriminate]. }
  destruct found eqn:Hfound; simpl negb; cbv iota.
  { exists db. split; [reflexivity |]. split; [reflexivity | discriminate]. }
  destruct (Db.createUser (Db.admin hashPassword) c db) as [res db'] eqn:E.
  exists db'. split; [reflexivity |]. split; [intros [? | ?]; discriminate |].
  intros _ _ Hmax Hfree.
  rewrite (admin_insert lower hashPassword c db Hon Hfound Hmax Hfree) in E.
  apply (f_equal snd) in E. cbn [snd] in E. subst db'. fold next.
  set (row := fill_defaults users (Db.admin hashPassword) next (pgNow c)).
  destruct (admin_row hashPassword next (pgNow c)) as (Hid & Hname & Hfull & Hrole & Hpw & Hat & _).
  fold row in Hid, Hname, Hfull, Hrole, Hpw, Hat. clearbody row.
  assert (Db.matches lower "admin" row = true) as Hmatch
    by (unfold Db.matches; rewrite Hname; apply String.eqb_refl).
  exists row. split; [reflexivity |]. split; [exact Hid |]. split; [exact Hname |].
  split; [exact Hrole |]. split; [exact Hpw |]. split; [exact Hat |].
  split; [| split; [| split]].
  - rewrite getUserByUsername_run. simpl Db.online. simpl Db.table. simpl rows.
    rewrite List.filter_app, fmap_app, head_app.
    rewrite filter_all_false; [cbn [List.filter]; now rewrite Hmatch |].
    intros r Hr. apply not_true_is_false. intros Hm.
    assert (found = true); [| congruence].
    apply existsb_exists. exists r. split; [now apply list_elem_of_In | exact Hm].
  - rewrite <- Hfull.
    apply (users_raw_row_prop row (notNull (text "fullName" "full_name"))).
    do 2 apply list_elem_of_further. apply list_elem_of_here.
  - apply raw_row_fresh. apply (bool_decide_unpack _). vm_compute. exact I.
  - rewrite Hrun. simpl Db.online. simpl Db.table. simpl rows.
    rewrite existsb_app. simpl existsb. rewrite Hmatch, orb_true_r. reflexivity.
Qed.

Lemma db_initialize_once_witness :
  exists row,
    Db.initializeDatabase ascii_lower hashed at_2025 no_users
    = (Ok tt, Db.mk true (mkTable [row] 1))
    /\ prop row "username" = VStr "admin"
    /\ Db.initializeDatabase ascii_lower hashed at_2026 (Db.mk true (mkTable [row] 1))
       = (Ok tt, Db.mk true (mkTable [row] 1)).
Proof.
  destruct (db_initialize_once ascii_lower hashed at_2025 at_2026 no_users)
    as (db' & Hrun & _ & Hnew).
  destruct (Hnew eq_refl eq_refl) as (row & -> & _ & Hname & _ & _ & _ & _ & _ & _ & Hagain).
  { vm_compute. discriminate. }
  { intros r Hr. inversion Hr. }
  exists row. split; [exact Hrun |]. split; [exact Hname | exact Hagain].
Defined.


End DbUsers.

(** * What the database is made to accept *)

Module TrustFacts.
Import JS Pg Spec Calls Views JSFacts PgFacts MonadFacts CreateFacts GeneratorFacts
  CreatedFacts UpdateFacts CompleteFacts C7 DbFacts RefusalFacts DashboardFacts.

Local Abbreviation dbs := DatabaseStorage.storage.

(** A create of DatabaseStorage that throws adds no row. *)
Lemma db_create_throw (t : table_name) (d : obj) (c : Clock) (db db' : Db) (e : error) :
  create (storage := dbs) t d c db = (Throw e, db') ->
  online db' = online db /\ forall t', rows_of t' db' = rows_of t' db.
Proof.
  destruct (db_create_run t d c db) as (code & ->).
  destruct (_ || _); [| intros [= _ <-]; now split].
  destruct (exec_insert t (given_of t d code c) c db) as [[row|e0] db1] eqn:E;
    [discriminate |].
  intros [= _ <-]. exact (exec_insert_throw t _ c db db1 e0 E).
Qed.

(** What the unique indexes have checked when a row passed. *)
Lemma unique_violation_inv (cols : list column) (rs : list obj) (row : obj) :
  unique_violation cols rs row = None ->
  forall col r, col ∈ cols -> col_unique col = true -> r ∈ rs ->
    same_key (prop r (col_key col)) (prop row (col_key col)) = false.
Proof.
  induction cols as [|c0 cols IH]; intros Hu col r Hcol Hcu Hr; [inversion Hcol |].
  simpl in Hu.
  destruct (col_unique c0
            && existsb (fun r' => same_key (prop r' (col_key c0)) (prop row (col_key c0))) rs)
    eqn:E; [discriminate Hu |].
  apply elem_of_cons in Hcol as [-> | Hcol]; [| now apply IH].
  rewrite Hcu in E. simpl in E. apply not_true_is_false. intros Hk.
  assert (existsb (fun r' => same_key (prop r' (col_key c0)) (prop row (col_key c0))) rs
          = true); [| congruence].
  apply existsb_exists. exists r. split; [now apply list_elem_of_In | exact Hk].
Qed.

Lemma unique_code_column (t : table_name) :
  unique_code t = true ->
  t <> projects
  /\ exists col, col ∈ schema t /\ col_key col = code_key t /\ col_unique col = true.
Proof.
  intros H. split; [now destruct t |].
  unfold unique_code in H. apply existsb_exists in H as (col & Hcol & Hb).
  apply andb_prop in Hb as [Hk Hu]. apply String.eqb_eq in Hk.
  exists col. split; [now apply list_elem_of_In | now split].
Qed.

(** *** The SET clause of a work order *)

Lemma updateParts_none (data : obj) (c : Clock) :
  Forall (fun k => prop data k = VUndefined) eight ->
  date_param c data = Some VUndefined
  /\ DatabaseStorage.updateParts data VUndefined = ∅.
Proof.
  intros H. unfold eight in H.
  apply Forall_cons in H as [Htitle H]. apply Forall_cons in H as [Hdesc H].
  apply Forall_cons in H as [Hcust H]. apply Forall_cons in H as [Hstatus H].
  apply Forall_cons in H as [Hhours H]. apply Forall_cons in H as [Hnotes H].
  apply Forall_cons in H as [Hmat H]. apply Forall_cons in H as [Hdate _].
  split; [unfold date_param; now rewrite Hdate |].
  unfold DatabaseStorage.updateParts, DatabaseStorage.push_if_defined.
  now rewrite Htitle, Hdesc, Hcust, Hstatus, Hhours, Hnotes, Hmat.
Qed.

(** *** Keys and codes that are taken *)

Lemma head_default_elem {A} (d : A) (l : list A) :
  (0 <? length l)%nat = true -> default d (head l) ∈ l.
Proof. destruct l; [discriminate | intros _; apply list_elem_of_here]. Qed.

Lemma taken_id (t : table_name) (rs : list obj) (row r : obj) (n : Z) :
  r ∈ rs -> has_id n r = true -> prop row "id" = VInt n ->
  unique_violation (schema t) rs row <> None.
Proof.
  intros Hr Hn Hid Hu.
  pose proof (unique_violation_id t rs row n Hu Hid r Hr). congruence.
Qed.

End TrustFacts.

Module Trust.
Import JS Pg Spec Calls Views JSFacts PgFacts MonadFacts CreateFacts GeneratorFacts
  CreatedFacts UpdateFacts CompleteFacts C7 DbFacts RefusalFacts DashboardFacts TrustFacts
  Samples Cases.

Local Abbreviation dbs := DatabaseStorage.storage.

(** X20. An update of a work order in DatabaseStorage that carries none
    of the eight properties the method looks at, whatever else it carries
    (photos, an id, an order number), changes nothing and still succeeds:
    the method returns the existing row as the builder names it, and the
    PUT is answered 200 with it. *)
Theorem db_workorder_update_ignores_unknown (id : Z) (data : obj) (c : Clock) (db : Db)
    (row : obj) (hit : list obj) :
  online db = true ->
  List.filter (has_id id) (rows_of workOrders db) = row :: hit ->
  Forall (fun k => prop data k = VUndefined) eight ->
  DatabaseStorage.updateWorkOrder id data c db = (Ok (Some row), db)
  /\ Routes.put_workorder (storage := dbs) id data c db
     = (Ok (Routes.json 200 (VObject row)), db).
Proof.
  intros Hon Hhit Hnone.
  destruct (updateParts_none data c Hnone) as [Hdate Hparts].
  assert (DatabaseStorage.updateWorkOrder id data c db = (Ok (Some row), db)) as Hup.
  { rewrite updateWorkOrder_eval, Hon. unfold rows_of in Hhit. rewrite Hhit, Hdate, Hparts.
    now rewrite bool_decide_eq_true_2. }
  split; [exact Hup |].
  unfold Routes.put_workorder, Routes.put_handler, try_catch, bind.
  cbn [Storage.updateWorkOrder DatabaseStorage.storage]. now rewrite Hup.
Qed.

Lemma db_workorder_update_ignores_unknown_witness :
  exists row,
    rows_of workOrders one_workorder_db = [row]
    /\ Routes.put_workorder (storage := dbs) 1 only_photos at_2026 one_workorder_db
       = (Ok (Routes.json 200 (VObject row)), one_workorder_db)
    /\ prop row "photos" = VNull.
Proof.
  assert (exists row, rows_of workOrders one_workorder_db = [row]
                      /\ List.filter (has_id 1) (rows_of workOrders one_workorder_db)
                         = [row]
                      /\ prop row "photos" = VNull)
    as (row & Hrows & Hhit & Hphotos) by (eexists; repeat split; reflexivity).
  destruct (db_workorder_update_ignores_unknown 1 only_photos at_2026 one_workorder_db
              row [] eq_refl Hhit) as [_ Hput].
  { repeat constructor. }
  exists row. split; [exact Hrows |]. split; [exact Hput | exact Hphotos].
Defined.

(** X21. DatabaseStorage trusts an id that a draft brings.  A create of
    a customer, material, invoice or project whose draft, its properties
    of the types of their columns, carries a number as [id] stores the row
    under that id and draws nothing from the sequence of the table (a work
    order gets its id from the sequence in any case).  When the id is the
    one the sequence hands out next, the create that follows, of whatever
    draft without an id, is refused: it throws and adds no row, its key
    being taken. *)
Theorem db_create_trusts_id (t : table_name) (d : obj) (c : Clock) (db db' : Db)
    (r : obj) (n : Z) :
  typed t d = true ->
  create (storage := dbs) t d c db = (Ok r, db') ->
  prop d "id" = VInt n ->
  let tb := get_table t db in
  (t = workOrders -> prop r "id" = VInt (last_serial tb + 1))
  /\ (t <> workOrders ->
      prop r "id" = VInt n
      /\ last_serial (get_table t db') = last_serial tb
      /\ (n = last_serial tb + 1 ->
          forall d2 c2,
            prop d2 "id" = VUndefined ->
            exists e db2,
              create (storage := dbs) t d2 c2 db' = (Throw e, db2)
              /\ rows_of t db2 = rows_of t db')).
Proof.
  intros _ Hcreate Hd tb.
  destruct (db_create_inv t d c db db' r Hcreate) as (given & row & Hins & -> & Hgid & _).
  pose proof Hins as (Hon & -> & _ & _ & Hdb')%exec_insert_checked. fold tb in Hdb'.
  rewrite shown_id. split.
  - intros ->. now apply serial_id.
  - intros Ht.
    assert (given !! "id" = Some (VInt n)) as Hgiven.
    { assert (given !! "id" = column_values t d !! "id") as -> by now destruct t.
      rewrite column_values_lookup. unfold prop in Hd.
      destruct (d !! "id") as [x|]; [| discriminate Hd]. simpl in Hd. subst x.
      pose proof (schema_is_column t _ (schema_has_id t)) as Hcol. simpl col_key in Hcol.
      now rewrite Hcol. }
    set (row := fill_defaults (schema t) given (last_serial tb + 1) (pgNow c)) in *.
    assert (prop row "id" = VInt n) as Hid.
    { unfold row.
      rewrite (fill_defaults_prop _ _ _ _ (primaryKey (serial "id" "id")))
        by (apply schema_keys_NoDup || apply schema_has_id).
      unfold column_value. simpl col_key. now rewrite Hgiven. }
    assert (uses_serial (schema t) given = false) as Hdraw
      by (destruct t; simpl; now rewrite Hgiven).
    rewrite Hdraw in Hdb'.
    split; [exact Hid |]. split; [rewrite Hdb', get_set_table; reflexivity |].
    intros Hnext d2 c2 Hd2.
    destruct (create (storage := dbs) t d2 c2 db') as [[r2|e] db2] eqn:E2.
    2:{ exists e, db2. split; [reflexivity |].
        apply (db_create_throw t d2 c2 db' db2 e E2). }
    exfalso.
    destruct (db_create_inv t d2 c2 db' db2 r2 E2) as (given2 & row2 & Hins2 & _ & Hgid2 & _).
    assert (given2 !! "id" = None) as Hg2
      by (rewrite Hgid2; destruct t; auto using no_given_id).
    apply exec_insert_checked in Hins2 as (_ & Hrow2 & _ & Hu2 & _).
    revert Hu2. apply (taken_id t _ row2 row n).
    + rewrite Hdb', get_set_table. simpl rows. apply elem_of_app. right.
      apply list_elem_of_here.
    + now apply has_id_prop.
    + rewrite Hrow2, serial_id by exact Hg2. f_equal.
      rewrite Hdb', get_set_table. simpl last_serial. fold tb. lia.
Qed.

Lemma db_create_trusts_id_witness :
  exists r db',
    DatabaseStorage.createCustomer numbered_1 at_2025 empty_db = (Ok r, db')
    /\ prop r "id" = VInt 1
    /\ last_serial (t_customers db') = 0
    /\ exists e db2,
         DatabaseStorage.createCustomer jansen at_2026 db' = (Throw e, db2)
         /\ rows_of customers db2 = rows_of customers db'.
Proof.
  assert (exists r db', create (storage := dbs) customers numbered_1 at_2025 empty_db
                        = (Ok r, db')) as (r & db' & E) by (do 2 eexists; reflexivity).
  assert (prop numbered_1 "id" = VInt 1) as Hd by (vm_compute; reflexivity).
  assert (typed customers numbered_1 = true) as Hty by (vm_compute; reflexivity).
  destruct (db_create_trusts_id customers numbered_1 at_2025 empty_db db' r 1 Hty E Hd)
    as [_ H].
  destruct (H ltac:(discriminate)) as (Hid & Hserial & Hnext).
  exists r, db'. split; [exact E |]. split; [exact Hid |]. split; [exact Hserial |].
  assert (prop jansen "id" = VUndefined) as Hj by (vm_compute; reflexivity).
  exact (Hnext eq_refl jansen at_2026 Hj).
Defined.

(** X22. The numbering of DatabaseStorage looks at the latest record
    only.  For materials, work orders and invoices, whose codes are
    unique, when the code that follows the code of the latest record is
    held by some row, its number being one that a number of JavaScript
    counts exactly, every create is refused: it throws, adds no row and
    leaves the latest code as it is, so that the next create is refused
    as well. *)
Theorem db_taken_code_blocks_creates (t : table_name) (d : obj) (c : Clock) (db : Db)
    (r : obj) :
  let y := getFullYear (jsNow c) in
  let number := next_number (code_prefix t y) (latest_code t (code_key t) db) in
  let next := code t y number in
  unique_code t = true ->
  Z.abs number <= MAX_SAFE_INTEGER ->
  r ∈ rows_of t db -> prop r (code_key t) = VStr next ->
  exists e db',
    create (storage := dbs) t d c db = (Throw e, db')
    /\ rows_of t db' = rows_of t db
    /\ latest_code t (code_key t) db' = latest_code t (code_key t) db.
Proof.
  intros y number next Hunique _ Hr Hcode.
  destruct (unique_code_column t Hunique) as (Hp & col & Hcol & Hkey & Hu).
  destruct (create (storage := dbs) t d c db) as [[r2|e] db'] eqn:E.
  2:{ exists e, db'. split; [reflexivity |].
      destruct (db_create_throw t d c db db' e E) as [_ Hrows].
      split; [apply Hrows |]. unfold latest_code. fold (rows_of t db') (rows_of t db).
      now rewrite Hrows. }
  exfalso.
  destruct (db_create_inv t d c db db' r2 E) as (given & row & Hins & _ & _ & Hrow).
  apply exec_insert_checked in Hins as (_ & _ & _ & Huniq & _).
  pose proof (unique_violation_inv _ _ _ Huniq col r Hcol Hu Hr) as Hsame.
  rewrite Hkey, Hcode, (Hrow Hp) in Hsame. fold y number next in Hsame.
  simpl in Hsame. now rewrite String.eqb_refl in Hsame.
Qed.

Lemma db_taken_code_blocks_creates_witness :
  (fun r => prop r "invoiceNumber") <$> rows_of invoices renumbered
  = [VStr "F-2025-0001"; VStr "F-2025-0000"]
  /\ exists e db',
       DatabaseStorage.createInvoice bill at_2025 renumbered = (Throw e, db')
       /\ rows_of invoices db' = rows_of invoices renumbered.
Proof.
  split; [vm_compute; reflexivity |].
  assert (unique_code invoices = true) as Hu by (vm_compute; reflexivity).
  destruct (db_taken_code_blocks_creates invoices bill at_2025 renumbered first_invoice Hu)
    as (e & db' & E & Hsame & _).
  - vm_compute. discriminate.
  - apply head_default_elem. vm_compute. reflexivity.
  - vm_compute. reflexivity.
  - exists e, db'. split; [exact E | exact Hsame].
Defined.

End Trust.

(** * Updates through the query builder *)

Module RenumberFacts.
Import JS Pg Spec Calls Views JSFacts PgFacts MonadFacts CreateFacts GeneratorFacts
  CreatedFacts UpdateFacts CompleteFacts C7 DbFacts RefusalFacts DashboardFacts TrustFacts.

Local Abbreviation dbs := DatabaseStorage.storage.

(** Everything an update of the query builder that returned a row has
    checked and done. *)
Lemma update_one_inv (t : table_name) (id : Z) (data : obj) (c : Clock) (db db' : Db)
    (r : obj) :
  DatabaseStorage.update_one t id data c db = (Ok (Some r), db') ->
  exists r0 hit,
    List.filter (has_id id) (rows (get_table t db)) = r0 :: hit
    /\ online db = true
    /\ r = spread r0 (column_values t data)
    /\ db' = set_table t (mkTable (apply_update id (column_values t data)
                                                (rows (get_table t db)))
                                  (last_serial (get_table t db))) db
    /\ unique_violation (assigned (schema t) (column_values t data))
         (List.filter (fun r => negb (has_id id r)) (rows (get_table t db)))
         (column_values t data) = None.
Proof.
  unfold DatabaseStorage.update_one, update_set.
  destruct (bool_decide (column_values t data = ∅)); [discriminate |].
  unfold encode. destruct (forallb _ _); [| discriminate].
  unfold try_catch, bind, ret, exec_update.
  destruct (online db); simpl negb; cbv iota; [| discriminate].
  destruct (List.filter (has_id id) (rows (get_table t db))) as [|r0 hit] eqn:E;
    [discriminate |].
  destruct (null_violation _ _); [discriminate |].
  destruct (unique_violation _ _ _) eqn:Eu; [discriminate |].
  cbn [List.map head]. intros [= <- <-]. exists r0, hit. repeat split; reflexivity.
Qed.

Lemma db_update_builder (t : table_name) (id : Z) (data : obj) :
  t <> workOrders ->
  update (storage := dbs) t id data = DatabaseStorage.update_one t id data.
Proof. now destruct t. Qed.

(** A column the payload gives a value is one the statement assigns. *)
Lemma assigned_given (t : table_name) (data : obj) (col : column) :
  col ∈ schema t -> defined (prop data (col_key col)) = true ->
  col ∈ assigned (schema t) (column_values t data)
  /\ prop (column_values t data) (col_key col) = prop data (col_key col).
Proof.
  intros Hcol Hdef.
  assert (column_values t data !! col_key col = data !! col_key col
          /\ is_Some (data !! col_key col)) as [Hl Hs].
  { rewrite column_values_lookup. unfold prop in Hdef.
    destruct (data !! col_key col) as [x|] eqn:E; [| discriminate Hdef].
    simpl in Hdef. rewrite (schema_is_column t col Hcol), Hdef. split; [reflexivity | eauto]. }
  split.
  - unfold assigned. apply list_elem_of_In, filter_In. split; [now apply list_elem_of_In |].
    apply bool_decide_eq_true_2. now rewrite Hl.
  - unfold prop. now rewrite Hl.
Qed.

Lemma id_column (t : table_name) :
  exists col, col ∈ schema t /\ col_key col = "id" /\ col_unique col = true.
Proof. destruct t; eexists; (split; [apply list_elem_of_here | split; reflexivity]). Qed.

Lemma has_id_spread_absent (id : Z) (r assign : obj) :
  assign !! "id" = None -> has_id id (spread r assign) = has_id id r.
Proof. intros H. unfold has_id. now rewrite (prop_spread_absent r assign "id" H). Qed.

Lemma has_id_spread_present (id n : Z) (r assign : obj) :
  assign !! "id" = Some (VInt n) -> has_id id (spread r assign) = bool_decide (n = id).
Proof.
  intros H. unfold has_id. rewrite (prop_spread_present r assign "id" _ H).
  unfold VInt, is_int. apply bool_decide_ext. split; [apply Z2Qc_inj | congruence].
Qed.

(** The rows a key selects after an UPDATE that leaves the keys alone. *)
Lemma filter_updated_same (id id' : Z) (assign : obj) (rs : list obj) :
  assign !! "id" = None ->
  List.filter (has_id id') (apply_update id assign rs)
  = if bool_decide (id' = id)
    then List.map (fun r => spread r assign) (List.filter (has_id id) rs)
    else List.filter (has_id id') rs.
Proof.
  intros Hno. unfold apply_update.
  induction rs as [|r rs IH]; [now destruct (bool_decide _) |].
  cbn [List.map List.filter]. rewrite IH. clear IH.
  destruct (has_id id r) eqn:E.
  - rewrite (has_id_spread_absent id' r assign Hno).
    destruct (bool_decide (id' = id)) eqn:Ed.
    + apply bool_decide_eq_true in Ed. subst id'. now rewrite E.
    + apply bool_decide_eq_false in Ed.
      destruct (has_id id' r) eqn:E'; [| reflexivity].
      destruct Ed. exact (has_id_unique id' id r E' E).
  - destruct (bool_decide (id' = id)) eqn:Ed; [| reflexivity].
    apply bool_decide_eq_true in Ed. subst id'. now rewrite E.
Qed.

(** The rows a key selects after an UPDATE that moved rows to key [n],
    which no other row holds. *)
Lemma filter_updated_moved (id n id' : Z) (assign : obj) (rs : list obj) :
  assign !! "id" = Some (VInt n) ->
  (forall r, r ∈ rs -> has_id id r = false -> has_id n r = false) ->
  List.filter (has_id id') (apply_update id assign rs)
  = if bool_decide (id' = n)
    then List.map (fun r => spread r assign) (List.filter (has_id id) rs)
    else List.filter (has_id id') (List.filter (fun r => negb (has_id id r)) rs).
Proof.
  intros Hn Hfree. unfold apply_update.
  induction rs as [|r rs IH]; [now destruct (bool_decide _) |].
  cbn [List.map List.filter].
  rewrite IH by (intros r' Hr'; apply Hfree; now apply list_elem_of_further). clear IH.
  destruct (has_id id r) eqn:E; cbn [negb].
  - rewrite (has_id_spread_present id' n r assign Hn).
    destruct (bool_decide (id' = n)) eqn:Ed.
    + apply bool_decide_eq_true in Ed. subst id'. now rewrite bool_decide_eq_true_2.
    + apply bool_decide_eq_false in Ed. rewrite bool_decide_eq_false_2 by congruence.
      reflexivity.
  - cbn [List.filter].
    destruct (bool_decide (id' = n)) eqn:Ed; [| reflexivity].
    apply bool_decide_eq_true in Ed. subst id'.
    now rewrite (Hfree r (list_elem_of_here _ _) E).
Qed.

Lemma filter_both_ids (id : Z) (rs : list obj) :
  List.filter (has_id id) (List.filter (fun r => negb (has_id id r)) rs) = [].
Proof.
  apply filter_all_false. intros r Hr.
  apply list_elem_of_In, filter_In in Hr as [_ Hr]. now apply negb_true_iff in Hr.
Qed.

End RenumberFacts.

Module Renumber.
Import JS Pg Spec Calls Views JSFacts PgFacts MonadFacts CreateFacts GeneratorFacts
  CreatedFacts UpdateFacts CompleteFacts C7 DbFacts RefusalFacts DashboardFacts TrustFacts
  RenumberFacts Samples Cases.

Local Abbreviation dbs := DatabaseStorage.storage.

(** X23. In DatabaseStorage, when the update of a customer, material,
    invoice or project returned a record, for a payload whose properties
    are of the types of their columns and whose numbers for [real] columns
    are numbers such a column keeps (at most six significant digits), the
    record is the first row of that id with the columns of the payload
    laid over it, and the sequence of the table keeps its value.  Without
    an id in the payload get under the id returns the record and every
    other id reads as before.  With an id n in the payload the row is
    renumbered: get under n returns the record, which no row answered to
    before unless n is the id itself, get under the old id returns
    undefined, and every further id reads as before. *)
Theorem db_update_then_get (t : table_name) (id : Z) (data : obj) (c c' : Clock)
    (db db' : Db) (r : obj) :
  t <> workOrders ->
  typed t data = true -> exact_reals t data = true ->
  update (storage := dbs) t id data c db = (Ok (Some r), db') ->
  (exists r0, get (storage := dbs) t id c' db = (Ok (Some r0), db)
              /\ r = spread r0 (column_values t data))
  /\ last_serial (get_table t db') = last_serial (get_table t db)
  /\ (defined (prop data "id") = false ->
      get (storage := dbs) t id c' db' = (Ok (Some r), db')
      /\ forall id', id' <> id ->
           (get (storage := dbs) t id' c' db').1 = (get (storage := dbs) t id' c' db).1)
  /\ (forall n, prop data "id" = VInt n ->
      prop r "id" = VInt n
      /\ get (storage := dbs) t n c' db' = (Ok (Some r), db')
      /\ (n <> id ->
          get (storage := dbs) t n c' db = (Ok None, db)
          /\ get (storage := dbs) t id c' db' = (Ok None, db'))
      /\ forall id', id' <> id -> id' <> n ->
           (get (storage := dbs) t id' c' db').1 = (get (storage := dbs) t id' c' db).1).
Proof.
  intros Ht _ _ E. rewrite (db_update_builder t id data Ht) in E.
  destruct (update_one_inv t id data c db db' r E)
    as (r0 & hit & Hhit & Hon & Hr & Hdb' & Hu).
  set (assign := column_values t data) in *.
  assert (online db' = true) as Hon' by (now rewrite Hdb', online_set_table).
  assert (rows (get_table t db') = apply_update id assign (rows (get_table t db))) as Hrows
    by (now rewrite Hdb', get_set_table).
  split; [| split; [| split]].
  - exists r0. split; [| exact Hr]. now rewrite db_get_spec, Hon, Hhit.
  - now rewrite Hdb', get_set_table.
  - intros Hdef.
    assert (assign !! "id" = None) as Hno by now apply C3.column_values_undefined.
    split.
    + rewrite db_get_spec, Hon', Hrows, (filter_updated_same id id assign _ Hno).
      rewrite bool_decide_eq_true_2 by reflexivity. now rewrite Hhit, Hr.
    + intros id' Hne. rewrite !db_get_spec, Hon, Hon', Hrows.
      rewrite (filter_updated_same id id' assign _ Hno).
      now rewrite bool_decide_eq_false_2.
  - intros n Hn.
    destruct (id_column t) as (col & Hcol & Hkey & Hcu).
    assert (defined (prop data (col_key col)) = true) as Hdef
      by (rewrite Hkey, Hn; reflexivity).
    destruct (assigned_given t data col Hcol Hdef) as [Hset Hval].
    fold assign in Hset, Hval. rewrite Hkey, Hn in Hval.
    assert (assign !! "id" = Some (VInt n)) as Hsome.
    { unfold prop in Hval. destruct (assign !! "id") as [x|] eqn:Ex;
        simpl in Hval; [now rewrite Hval | discriminate Hval]. }
    assert (forall r', r' ∈ rows (get_table t db) -> has_id id r' = false ->
                       has_id n r' = false) as Hfree.
    { intros r' Hr' Hnot.
      pose proof (unique_violation_inv _ _ _ Hu col r' Hset Hcu) as Hk.
      rewrite Hkey in Hk. unfold has_id. rewrite is_int_same_key.
      fold (prop assign "id") in Hk. rewrite Hval in Hk. apply Hk.
      apply list_elem_of_In, filter_In. split; [now apply list_elem_of_In |].
      now rewrite Hnot. }
    split; [| split; [| split]].
    + rewrite Hr. now apply prop_spread_present.
    + rewrite db_get_spec, Hon', Hrows, (filter_updated_moved id n n assign _ Hsome Hfree).
      rewrite bool_decide_eq_true_2 by reflexivity. now rewrite Hhit, Hr.
    + intros Hne. split.
      * rewrite db_get_spec, Hon.
        rewrite (filter_all_false (has_id n) (rows (get_table t db))); [reflexivity |].
        intros r' Hr'. destruct (has_id id r') eqn:Ei; [| now apply Hfree].
        apply not_true_is_false. intros Hn'. apply Hne.
        exact (has_id_unique n id r' Hn' Ei).
      * rewrite db_get_spec, Hon', Hrows.
        rewrite (filter_updated_moved id n id assign _ Hsome Hfree).
        rewrite bool_decide_eq_false_2 by congruence. now rewrite filter_both_ids.
    + intros id' Hne Hne'. rewrite !db_get_spec, Hon, Hon', Hrows.
      rewrite (filter_updated_moved id n id' assign _ Hsome Hfree).
      rewrite bool_decide_eq_false_2 by exact Hne'.
      now rewrite (filter_other_id id id' _ Hne).
Qed.

Lemma db_update_then_get_witness :
  exists r db',
    DatabaseStorage.updateMaterial 1 repriced at_2026 one_material_db = (Ok (Some r), db')
    /\ prop r "id" = VInt 7
    /\ prop r "price" = VNum (Q2Qc (1395 # 100))
    /\ DatabaseStorage.getMaterial 7 at_2026 db' = (Ok (Some r), db')
    /\ DatabaseStorage.getMaterial 1 at_2026 db' = (Ok None, db')
    /\ last_serial (t_materials db') = 1.
Proof.
  assert (exists r db', update (storage := dbs) materials 1 repriced at_2026 one_material_db
                        = (Ok (Some r), db')
                        /\ prop r "price" = VNum (Q2Qc (1395 # 100)))
    as (r & db' & E & Hprice) by (do 2 eexists; split; reflexivity).
  assert (typed materials repriced = true) as Hty by (vm_compute; reflexivity).
  assert (exact_reals materials repriced = true) as Hex by (vm_compute; reflexivity).
  assert (prop repriced "id" = VInt 7) as Hid by (vm_compute; reflexivity).
  destruct (db_update_then_get materials 1 repriced at_2026 at_2026 one_material_db db' r
              ltac:(discriminate) Hty Hex E) as (_ & Hserial & _ & Hmoved).
  destruct (Hmoved 7 Hid) as (Hr & Hget & Hold & _).
  destruct (Hold ltac:(discriminate)) as [_ Hgone].
  exists r, db'. split; [exact E |]. split; [exact Hr |]. split; [exact Hprice |].
  split; [exact Hget |]. split; [exact Hgone |].
  change (last_serial (get_table materials db') = 1). rewrite Hserial. reflexivity.
Defined.

(** X24. In DatabaseStorage the update of a customer, material, invoice
    or project whose payload gives a unique column (the id, the article
    number of a material, the number of an invoice) the value another
    row of the table holds is reported as nothing found: the method
    returns undefined, the PUT is answered 404 and the database is left
    as it is, whether or not a record has the id. *)
Theorem db_update_taken_is_not_found (t : table_name) (id : Z) (data : obj) (c : Clock)
    (db : Db) (col : column) (other : obj) :
  t <> workOrders ->
  col ∈ schema t -> col_unique col = true ->
  other ∈ rows_of t db -> has_id id other = false ->
  same_key (prop other (col_key col)) (prop data (col_key col)) = true ->
  update (storage := dbs) t id data c db = (Ok None, db)
  /\ exists resp, put_route (storage := dbs) t id data c db = (Ok resp, db)
                  /\ Routes.status resp = 404.
Proof.
  intros Ht Hcol Hcu Hother Hnot Hsame.
  assert (update (storage := dbs) t id data c db = (Ok None, db)) as Hup.
  { rewrite (db_update_builder t id data Ht).
    destruct (update_one_cases t id data c db) as [H | (r & hit & _ & _ & H)];
      [exact H | exfalso].
    destruct (update_one_inv t id data c db _ _ H) as (_ & _ & _ & _ & _ & _ & Hu).
    assert (defined (prop data (col_key col)) = true) as Hdef.
    { destruct (prop data (col_key col)), (prop other (col_key col)); try reflexivity;
        discriminate Hsame. }
    destruct (assigned_given t data col Hcol Hdef) as [Hset Hval].
    pose proof (unique_violation_inv _ _ _ Hu col other Hset Hcu) as Hk.
    rewrite Hval, Hsame in Hk. discriminate Hk.
    apply list_elem_of_In, filter_In. split; [now apply list_elem_of_In |].
    now rewrite Hnot. }
  split; [exact Hup |].
  destruct (put_route_run (storage := dbs) t id data c db) as (missing & failed & ->).
  rewrite Hup. eexists. split; reflexivity.
Qed.

Lemma db_update_taken_is_not_found_witness :
  (fun r => prop r "invoiceNumber") <$> rows_of invoices renumbered
  = [VStr "F-2025-0001"; VStr "F-2025-0000"]
  /\ DatabaseStorage.updateInvoice 2 taken_number at_2026 renumbered = (Ok None, renumbered)
  /\ exists resp,
       Routes.put_invoice (storage := dbs) 2 taken_number at_2026 renumbered
       = (Ok resp, renumbered)
       /\ Routes.status resp = 404.
Proof.
  split; [vm_compute; reflexivity |].
  assert (has_id 2 first_invoice = false) as Hnot by (vm_compute; reflexivity).
  assert (same_key (prop first_invoice "invoiceNumber") (prop taken_number "invoiceNumber")
          = true) as Hsame by (vm_compute; reflexivity).
  assert (first_invoice ∈ rows_of invoices renumbered) as Hin
    by (apply head_default_elem; vm_compute; reflexivity).
  exact (db_update_taken_is_not_found invoices 2 taken_number at_2026 renumbered
           (unique (notNull (text "invoiceNumber" "invoice_number"))) first_invoice
           ltac:(discriminate)
           ltac:(apply list_elem_of_further, list_elem_of_here)
           eq_refl Hin Hnot Hsame).
Defined.

End Renumber.

(** * The recent invoices of the dashboard *)

Module RecentFacts.
Import JS Pg Spec Views.

Lemma insert_recent_perm (c : Clock) (x : obj) (l : list obj) :
  Routes.insert_recent c x l ≡ₚ x :: l.
Proof.
  induction l as [|y l IH]; [reflexivity |]. cbn [Routes.insert_recent].
  destruct (Routes.time_of c x), (Routes.time_of c y);
    try (rewrite IH; apply Permutation_swap).
  destruct (_ <? _); [reflexivity | rewrite IH; apply Permutation_swap].
Qed.

Lemma insert_recent_sorted (c : Clock) (x : obj) (l : list obj) :
  is_Some (Routes.time_of c x) ->
  Forall (fun y => is_Some (Routes.time_of c y)) l ->
  StronglySorted (not_older c) l ->
  StronglySorted (not_older c) (Routes.insert_recent c x l).
Proof.
  intros [tx Hx] Hdated Hs. induction Hs as [|y l Hs IH Hall].
  - repeat constructor.
  - apply Forall_cons in Hdated as [[ty Hy] Hdated]. specialize (IH Hdated).
    cbn [Routes.insert_recent]. rewrite Hx, Hy.
    destruct (ty <? tx) eqn:E.
    + apply Z.ltb_lt in E. constructor; [now constructor |].
      constructor.
      * unfold not_older. rewrite Hx, Hy. lia.
      * eapply Forall_impl; [exact Hall |]. intros z. unfold not_older.
        rewrite Hx, Hy. destruct (Routes.time_of c z); [lia | tauto].
    + apply Z.ltb_ge in E. constructor; [exact IH |].
      rewrite (insert_recent_perm c x l). constructor; [| exact Hall].
      unfold not_older. now rewrite Hx, Hy.
Qed.

(** The whole sort: a rearrangement of the invoices, newest first. *)
Lemma sorted_recent (c : Clock) (invoices acc : list obj) :
  Forall (fun y => is_Some (Routes.time_of c y)) invoices ->
  Forall (fun y => is_Some (Routes.time_of c y)) acc ->
  StronglySorted (not_older c) acc ->
  let sorted := fold_left (fun sorted x => Routes.insert_recent c x sorted) invoices acc in
  sorted ≡ₚ acc ++ invoices /\ StronglySorted (not_older c) sorted.
Proof.
  revert acc. induction invoices as [|x l IH]; intros acc Hl Hacc Hs; cbn [fold_left].
  - now rewrite app_nil_r.
  - apply Forall_cons in Hl as [Hx Hl].
    destruct (IH (Routes.insert_recent c x acc) Hl) as [Hp Hsorted].
    + rewrite (insert_recent_perm c x acc). now constructor.
    + now apply insert_recent_sorted.
    + split; [| exact Hsorted].
      rewrite Hp, (insert_recent_perm c x acc). cbn [app].
      now rewrite Permutation_middle.
Qed.

Lemma sorted_take {A} (R : A -> A -> Prop) (n : nat) (l : list A) :
  StronglySorted R l -> StronglySorted R (take n l).
Proof.
  intros Hs. revert n. induction Hs as [|x l Hs IH Hall]; intros [|n]; cbn [take];
    try constructor; [apply IH |].
  apply Forall_forall. intros y Hy. rewrite Forall_forall in Hall. apply Hall.
  now apply (subseteq_take n l).
Qed.

(** In a sorted list every element stands in the relation to the ones
    behind it. *)
Lemma sorted_app {A} (R : A -> A -> Prop) (l1 l2 : list A) :
  StronglySorted R (l1 ++ l2) -> forall x y, x ∈ l1 -> y ∈ l2 -> R x y.
Proof.
  induction l1 as [|a l1 IH]; intros Hs x y Hx Hy; [inversion Hx |].
  cbn [app] in Hs. apply StronglySorted_inv in Hs as [Hs Hall].
  apply elem_of_cons in Hx as [-> | Hx]; [| now apply IH].
  rewrite Forall_forall in Hall. apply Hall, elem_of_app. now right.
Qed.

End RecentFacts.

Module Recent.
Import JS Pg Spec Views RecentFacts Samples Cases.

(** X25. When every invoice has a valid date, the recent invoices of the
    dashboard are the five latest, newest first: as many as there are
    invoices up to five, each one of the invoices (none more often than
    it is listed), every one dated no earlier than the ones after it,
    and every one dated no earlier than any invoice left out. *)
Theorem recent_invoices_are_latest (c : Clock) (invoices : list obj) :
  Forall (fun x => is_Some (Routes.time_of c x)) invoices ->
  let recent := Routes.recentInvoices c invoices in
  length recent = (5 `min` length invoices)%nat
  /\ recent ⊆+ invoices
  /\ StronglySorted (not_older c) recent
  /\ forall x y, x ∈ recent -> y ∈ invoices -> y ∉ recent -> not_older c x y.
Proof.
  intros Hdated recent.
  destruct (sorted_recent c invoices [] Hdated) as [Hp Hs]; [constructor.. |].
  cbn [app] in Hp. unfold recent, Routes.recentInvoices.
  set (sorted := fold_left _ invoices []) in *.
  split; [| split; [| split]].
  - now rewrite length_take, Hp.
  - rewrite <- Hp. apply sublist_submseteq, sublist_take.
  - now apply sorted_take.
  - intros x y Hx Hy Hout. apply (sorted_app _ (take 5 sorted) (drop 5 sorted)).
    + now rewrite take_drop.
    + exact Hx.
    + rewrite <- Hp, <- (take_drop 5 sorted) in Hy.
      apply elem_of_app in Hy as [Hy | Hy]; [now destruct Hout | exact Hy].
Qed.

Lemma recent_invoices_are_latest_witness :
  Routes.recentInvoices at_2025 unordered = [dated_at 30; dated_at 20; dated_at 10]
  /\ StronglySorted (not_older at_2025) (Routes.recentInvoices at_2025 unordered).
Proof.
  split; [reflexivity |].
  destruct (recent_invoices_are_latest at_2025 unordered) as (_ & _ & Hs & _);
    [| exact Hs].
  repeat constructor; eexists; reflexivity.
Defined.

End Recent.
